(** * DGT3000 BLE gateway: link layer and clock task

    A shallow embedding of the DGT3000 link driver ([DGT3000.cpp]) and of
    the I2C task manager ([I2CTaskManager.cpp]) of the gateway firmware,
    followed by the properties of the specification that are checked
    against them.

    Conventions.
    - [uint8_t], [uint32_t] and [int] values are integers of [Z]; every
      narrowing the C++ code performs is written out with [uint8] and
      [uint32].  The C++ operator [%] on [int] is [Z.rem].
    - A C++ member function becomes a function that takes the object
      before the call and returns the result together with the object
      after the call.
    - The two I2C peripherals are an environment [Bus]: it fixes the
      result code of every master transmission, whether every re-binding
      of the slave peripheral succeeds, and the frames that the slave
      peripheral receives during every [delay] of the object.  The
      slave-receive callback runs at that delay for each of these
      frames, whatever its kind.
    - A pointer argument that the code tests against [nullptr] is an
      [option]. *)

From Stdlib Require Import ZArith List Bool Lia String Ascii.
Import ListNotations.
Open Scope Z_scope.

(** ** Machine integers and arrays *)

Definition uint8 (z : Z) : Z := z mod 256.
Definition uint32 (z : Z) : Z := z mod 4294967296.

Definition is_byte (z : Z) : Prop := 0 <= z < 256.

(** [a[i]] for an array held as a list; an index outside the list reads 0. *)
Definition at_ (a : list Z) (i : Z) : Z := nth (Z.to_nat i) a 0.

Fixpoint put_nat (n : nat) (v : Z) (a : list Z) : list Z :=
  match a, n with
  | [], _ => []
  | _ :: t, O => v :: t
  | h :: t, S n' => h :: put_nat n' v t
  end.

(** [a[i] = v]; an index outside the list leaves it as it is. *)
Definition put (a : list Z) (i : Z) (v : Z) : list Z :=
  if i <? 0 then a else put_nat (Z.to_nat i) v a.

Module DGT3000.

(** ** Constants of [DGT3000.h] *)

Definition DGT3000_I2C_ADDRESS : Z := 0x08.
Definition DGT3000_I2C_WAKEUP_ADDR : Z := 0x28.
Definition DGT3000_ESP_ADDR_10 : Z := 0x10.
Definition DGT3000_ESP_ADDR_00 : Z := 0x00.

Definition DGT3000_RECEIVE_BUFFER_LENGTH : Z := 256.
Definition DGT3000_BUTTON_BUFFER_SIZE : Z := 16.
Definition DGT3000_DISPLAY_TEXT_MAX : Z := 11.

Definition DGT_SUCCESS : Z := 0.
Definition DGT_ERROR_I2C_INIT : Z := -1.
Definition DGT_ERROR_I2C_COMM : Z := -2.
Definition DGT_ERROR_TIMEOUT : Z := -3.
Definition DGT_ERROR_NO_ACK : Z := -4.
Definition DGT_ERROR_BUFFER_OVERRUN : Z := -5.
Definition DGT_ERROR_CRC : Z := -6.
Definition DGT_ERROR_CLOCK_OFF : Z := -7.
Definition DGT_ERROR_NOT_CONFIGURED : Z := -8.
Definition DGT_ERROR_INIT_FAILED : Z := -10.

Definition DGT_MODE_STOP : Z := 0.
Definition DGT_MODE_COUNT_DOWN : Z := 1.
Definition DGT_MODE_COUNT_UP : Z := 2.

Definition DGT_BUTTON_BACK : Z := 0x01.
Definition DGT_BUTTON_MINUS : Z := 0x02.
Definition DGT_BUTTON_PLAY_PAUSE : Z := 0x04.
Definition DGT_BUTTON_PLUS : Z := 0x08.
Definition DGT_BUTTON_FORWARD : Z := 0x10.
Definition DGT_ON_OFF_STATE_MASK : Z := 0x20.
Definition DGT_LEVER_STATE_MASK : Z := 0x40.

Definition DGT_EVENT_LEVER_RIGHT : Z := 0x40.
Definition DGT_EVENT_LEVER_LEFT : Z := 0xC0.
Definition DGT_EVENT_ON_OFF_PRESS : Z := 0x20.
Definition DGT_EVENT_ON_OFF_RELEASE : Z := 0xA0.

Definition DGT_DOT_FLAG : Z := 0x01.
Definition DGT_DOT_WHITE_KING : Z := 0x02.
Definition DGT_DOT_BLACK_KING : Z := 0x04.
Definition DGT_DOT_COLON : Z := 0x08.
Definition DGT_DOT_DOT : Z := 0x10.
Definition DGT_DOT_EXTRA : Z := 0x20.

Definition DGT_CMD_CHANGE_STATE : Z := 0x0b.
Definition DGT_CMD_SET_CC : Z := 0x0f.
Definition DGT_CMD_SET_AND_RUN : Z := 0x0a.
Definition DGT_CMD_END_DISPLAY : Z := 0x07.
Definition DGT_CMD_DISPLAY : Z := 0x06.
Definition DGT_CMD_PING : Z := 0x0d.
Definition DGT_MSG_WAKEUP_RESP : Z := 0x02.

(** Pre-calculated CRC-8-ATM table. *)
Definition crc_table : list Z :=
  [ 0x00; 0x07; 0x0E; 0x09; 0x1C; 0x1B; 0x12; 0x15;
    0x38; 0x3F; 0x36; 0x31; 0x24; 0x23; 0x2A; 0x2D;
    0x70; 0x77; 0x7E; 0x79; 0x6C; 0x6B; 0x62; 0x65;
    0x48; 0x4F; 0x46; 0x41; 0x54; 0x53; 0x5A; 0x5D;
    0xE0; 0xE7; 0xEE; 0xE9; 0xFC; 0xFB; 0xF2; 0xF5;
    0xD8; 0xDF; 0xD6; 0xD1; 0xC4; 0xC3; 0xCA; 0xCD;
    0x90; 0x97; 0x9E; 0x99; 0x8C; 0x8B; 0x82; 0x85;
    0xA8; 0xAF; 0xA6; 0xA1; 0xB4; 0xB3; 0xBA; 0xBD;
    0xC7; 0xC0; 0xC9; 0xCE; 0xDB; 0xDC; 0xD5; 0xD2;
    0xFF; 0xF8; 0xF1; 0xF6; 0xE3; 0xE4; 0xED; 0xEA;
    0xB7; 0xB0; 0xB9; 0xBE; 0xAB; 0xAC; 0xA5; 0xA2;
    0x8F; 0x88; 0x81; 0x86; 0x93; 0x94; 0x9D; 0x9A;
    0x27; 0x20; 0x29; 0x2E; 0x3B; 0x3C; 0x35; 0x32;
    0x1F; 0x18; 0x11; 0x16; 0x03; 0x04; 0x0D; 0x0A;
    0x57; 0x50; 0x59; 0x5E; 0x4B; 0x4C; 0x45; 0x42;
    0x6F; 0x68; 0x61; 0x66; 0x73; 0x74; 0x7D; 0x7A;
    0x89; 0x8E; 0x87; 0x80; 0x95; 0x92; 0x9B; 0x9C;
    0xB1; 0xB6; 0xBF; 0xB8; 0xAD; 0xAA; 0xA3; 0xA4;
    0xF9; 0xFE; 0xF7; 0xF0; 0xE5; 0xE2; 0xEB; 0xEC;
    0xC1; 0xC6; 0xCF; 0xC8; 0xDD; 0xDA; 0xD3; 0xD4;
    0x69; 0x6E; 0x67; 0x60; 0x75; 0x72; 0x7B; 0x7C;
    0x51; 0x56; 0x5F; 0x58; 0x4D; 0x4A; 0x43; 0x44;
    0x19; 0x1E; 0x17; 0x10; 0x05; 0x02; 0x0B; 0x0C;
    0x21; 0x26; 0x2F; 0x28; 0x3D; 0x3A; 0x33; 0x34;
    0x4E; 0x49; 0x40; 0x47; 0x52; 0x55; 0x5C; 0x5B;
    0x76; 0x71; 0x78; 0x7F; 0x6A; 0x6D; 0x64; 0x63;
    0x3E; 0x39; 0x30; 0x37; 0x22; 0x25; 0x2C; 0x2B;
    0x06; 0x01; 0x08; 0x0F; 0x1A; 0x1D; 0x14; 0x13;
    0xAE; 0xA9; 0xA0; 0xA7; 0xB2; 0xB5; 0xBC; 0xBB;
    0x96; 0x91; 0x98; 0x9F; 0x8A; 0x8D; 0x84; 0x83;
    0xDE; 0xD9; 0xD0; 0xD7; 0xC2; 0xC5; 0xCC; 0xCB;
    0xE6; 0xE1; 0xE8; 0xEF; 0xFA; 0xFD; 0xF4; 0xF3 ].

(** ** The object *)

(** The anonymous struct [_rxData]. *)
Record RxData := mkRxData {
  time : list Z;
  buttonState : Z;
  lastButtonState : Z;
  buttonBuffer : list Z;
  buttonStart : Z;
  buttonEnd : Z
}.

(** What the object has asked of the two peripherals so far: how many
    master transmissions, slave re-bindings, master initialisations,
    polling waits and other delays it has made (the index of the next
    answer of the environment), and the frames it has put on the master
    bus. *)
Record Wire := mkWire {
  txCount : nat;
  bindCount : nat;
  masterBeginCount : nat;
  ackWaitCount : nat;
  pingWaitCount : nat;
  delayCount : nat;
  txLog : list (Z * list Z)
}.

Record Link := mkLink {
  _initialized : bool;
  _connected : bool;
  _configured : bool;
  _lastError : Z;
  _currentListenAddress : Z;
  _recoveryInProgress : bool;
  _masterSDA : Z;
  _masterSCL : Z;
  _slaveSDA : Z;
  _slaveSCL : Z;
  _i2cMaster : bool;   (* the pointer is not null *)
  _i2cSlave : bool;    (* the pointer is not null *)
  _receivedAckCmd : Z;
  _newAckReceived : bool;
  _newPingResponseReceived : bool;
  _newTimeAvailable : bool;
  _rxData : RxData;
  wire : Wire
}.

(** Assignments to one member; every other member keeps its value. *)

Definition set_initialized (v : bool) (s : Link) : Link :=
  mkLink v (_connected s) (_configured s) (_lastError s)
    (_currentListenAddress s) (_recoveryInProgress s) (_masterSDA s)
    (_masterSCL s) (_slaveSDA s) (_slaveSCL s) (_i2cMaster s) (_i2cSlave s)
    (_receivedAckCmd s) (_newAckReceived s) (_newPingResponseReceived s)
    (_newTimeAvailable s) (_rxData s) (wire s).

Definition set_connected (v : bool) (s : Link) : Link :=
  mkLink (_initialized s) v (_configured s) (_lastError s)
    (_currentListenAddress s) (_recoveryInProgress s) (_masterSDA s)
    (_masterSCL s) (_slaveSDA s) (_slaveSCL s) (_i2cMaster s) (_i2cSlave s)
    (_receivedAckCmd s) (_newAckReceived s) (_newPingResponseReceived s)
    (_newTimeAvailable s) (_rxData s) (wire s).

Definition set_configured (v : bool) (s : Link) : Link :=
  mkLink (_initialized s) (_connected s) v (_lastError s)
    (_currentListenAddress s) (_recoveryInProgress s) (_masterSDA s)
    (_masterSCL s) (_slaveSDA s) (_slaveSCL s) (_i2cMaster s) (_i2cSlave s)
    (_receivedAckCmd s) (_newAckReceived s) (_newPingResponseReceived s)
    (_newTimeAvailable s) (_rxData s) (wire s).

Definition set_lastError (v : Z) (s : Link) : Link :=
  mkLink (_initialized s) (_connected s) (_configured s) v
    (_currentListenAddress s) (_recoveryInProgress s) (_masterSDA s)
    (_masterSCL s) (_slaveSDA s) (_slaveSCL s) (_i2cMaster s) (_i2cSlave s)
    (_receivedAckCmd s) (_newAckReceived s) (_newPingResponseReceived s)
    (_newTimeAvailable s) (_rxData s) (wire s).

Definition set_currentListenAddress (v : Z) (s : Link) : Link :=
  mkLink (_initialized s) (_connected s) (_configured s) (_lastError s) v
    (_recoveryInProgress s) (_masterSDA s) (_masterSCL s) (_slaveSDA s)
    (_slaveSCL s) (_i2cMaster s) (_i2cSlave s) (_receivedAckCmd s)
    (_newAckReceived s) (_newPingResponseReceived s) (_newTimeAvailable s)
    (_rxData s) (wire s).

Definition set_recoveryInProgress (v : bool) (s : Link) : Link :=
  mkLink (_initialized s) (_connected s) (_configured s) (_lastError s)
    (_currentListenAddress s) v (_masterSDA s) (_masterSCL s) (_slaveSDA s)
    (_slaveSCL s) (_i2cMaster s) (_i2cSlave s) (_receivedAckCmd s)
    (_newAckReceived s) (_newPingResponseReceived s) (_newTimeAvailable s)
    (_rxData s) (wire s).

Definition set_i2cMaster (v : bool) (s : Link) : Link :=
  mkLink (_initialized s) (_connected s) (_configured s) (_lastError s)
    (_currentListenAddress s) (_recoveryInProgress s) (_masterSDA s)
    (_masterSCL s) (_slaveSDA s) (_slaveSCL s) v (_i2cSlave s)
    (_receivedAckCmd s) (_newAckReceived s) (_newPingResponseReceived s)
    (_newTimeAvailable s) (_rxData s) (wire s).

Definition set_i2cSlave (v : bool) (s : Link) : Link :=
  mkLink (_initialized s) (_connected s) (_configured s) (_lastError s)
    (_currentListenAddress s) (_recoveryInProgress s) (_masterSDA s)
    (_masterSCL s) (_slaveSDA s) (_slaveSCL s) (_i2cMaster s) v
    (_receivedAckCmd s) (_newAckReceived s) (_newPingResponseReceived s)
    (_newTimeAvailable s) (_rxData s) (wire s).

Definition set_receivedAckCmd (v : Z) (s : Link) : Link :=
  mkLink (_initialized s) (_connected s) (_configured s) (_lastError s)
    (_currentListenAddress s) (_recoveryInProgress s) (_masterSDA s)
    (_masterSCL s) (_slaveSDA s) (_slaveSCL s) (_i2cMaster s) (_i2cSlave s)
    v (_newAckReceived s) (_newPingResponseReceived s) (_newTimeAvailable s)
    (_rxData s) (wire s).

Definition set_newAckReceived (v : bool) (s : Link) : Link :=
  mkLink (_initialized s) (_connected s) (_configured s) (_lastError s)
    (_currentListenAddress s) (_recoveryInProgress s) (_masterSDA s)
    (_masterSCL s) (_slaveSDA s) (_slaveSCL s) (_i2cMaster s) (_i2cSlave s)
    (_receivedAckCmd s) v (_newPingResponseReceived s) (_newTimeAvailable s)
    (_rxData s) (wire s).

Definition set_newPingResponseReceived (v : bool) (s : Link) : Link :=
  mkLink (_initialized s) (_connected s) (_configured s) (_lastError s)
    (_currentListenAddress s) (_recoveryInProgress s) (_masterSDA s)
    (_masterSCL s) (_slaveSDA s) (_slaveSCL s) (_i2cMaster s) (_i2cSlave s)
    (_receivedAckCmd s) (_newAckReceived s) v (_newTimeAvailable s) (_rxData
    s) (wire s).

Definition set_newTimeAvailable (v : bool) (s : Link) : Link :=
  mkLink (_initialized s) (_connected s) (_configured s) (_lastError s)
    (_currentListenAddress s) (_recoveryInProgress s) (_masterSDA s)
    (_masterSCL s) (_slaveSDA s) (_slaveSCL s) (_i2cMaster s) (_i2cSlave s)
    (_receivedAckCmd s) (_newAckReceived s) (_newPingResponseReceived s) v
    (_rxData s) (wire s).

Definition set_rxData (v : RxData) (s : Link) : Link :=
  mkLink (_initialized s) (_connected s) (_configured s) (_lastError s)
    (_currentListenAddress s) (_recoveryInProgress s) (_masterSDA s)
    (_masterSCL s) (_slaveSDA s) (_slaveSCL s) (_i2cMaster s) (_i2cSlave s)
    (_receivedAckCmd s) (_newAckReceived s) (_newPingResponseReceived s)
    (_newTimeAvailable s) v (wire s).

Definition set_wire (v : Wire) (s : Link) : Link :=
  mkLink (_initialized s) (_connected s) (_configured s) (_lastError s)
    (_currentListenAddress s) (_recoveryInProgress s) (_masterSDA s)
    (_masterSCL s) (_slaveSDA s) (_slaveSCL s) (_i2cMaster s) (_i2cSlave s)
    (_receivedAckCmd s) (_newAckReceived s) (_newPingResponseReceived s)
    (_newTimeAvailable s) (_rxData s) v.

Definition rx_set_time (v : list Z) (s : RxData) : RxData :=
  mkRxData v (buttonState s) (lastButtonState s) (buttonBuffer s)
    (buttonStart s) (buttonEnd s).

Definition rx_set_lastButtonState (v : Z) (s : RxData) : RxData :=
  mkRxData (time s) (buttonState s) v (buttonBuffer s) (buttonStart s)
    (buttonEnd s).

Definition rx_set_buttonBuffer (v : list Z) (s : RxData) : RxData :=
  mkRxData (time s) (buttonState s) (lastButtonState s) v (buttonStart s)
    (buttonEnd s).

Definition rx_set_buttonStart (v : Z) (s : RxData) : RxData :=
  mkRxData (time s) (buttonState s) (lastButtonState s) (buttonBuffer s) v
    (buttonEnd s).

Definition rx_set_buttonEnd (v : Z) (s : RxData) : RxData :=
  mkRxData (time s) (buttonState s) (lastButtonState s) (buttonBuffer s)
    (buttonStart s) v.

Definition wire_set_txCount (v : nat) (s : Wire) : Wire :=
  mkWire v (bindCount s) (masterBeginCount s) (ackWaitCount s)
    (pingWaitCount s) (delayCount s) (txLog s).

Definition wire_set_bindCount (v : nat) (s : Wire) : Wire :=
  mkWire (txCount s) v (masterBeginCount s) (ackWaitCount s) (pingWaitCount
    s) (delayCount s) (txLog s).

Definition wire_set_masterBeginCount (v : nat) (s : Wire) : Wire :=
  mkWire (txCount s) (bindCount s) v (ackWaitCount s) (pingWaitCount s)
    (delayCount s) (txLog s).

Definition wire_set_ackWaitCount (v : nat) (s : Wire) : Wire :=
  mkWire (txCount s) (bindCount s) (masterBeginCount s) v (pingWaitCount s)
    (delayCount s) (txLog s).

Definition wire_set_pingWaitCount (v : nat) (s : Wire) : Wire :=
  mkWire (txCount s) (bindCount s) (masterBeginCount s) (ackWaitCount s) v
    (delayCount s) (txLog s).

Definition wire_set_delayCount (v : nat) (s : Wire) : Wire :=
  mkWire (txCount s) (bindCount s) (masterBeginCount s) (ackWaitCount s)
    (pingWaitCount s) v (txLog s).

Definition wire_set_txLog (v : list (Z * list Z)) (s : Wire) : Wire :=
  mkWire (txCount s) (bindCount s) (masterBeginCount s) (ackWaitCount s)
    (pingWaitCount s) (delayCount s) v.

Definition set_pins (masterSDA masterSCL slaveSDA slaveSCL : Z) (s : Link) : Link :=
  mkLink (_initialized s) (_connected s) (_configured s) (_lastError s)
    (_currentListenAddress s) (_recoveryInProgress s) masterSDA masterSCL
    slaveSDA slaveSCL (_i2cMaster s) (_i2cSlave s) (_receivedAckCmd s)
    (_newAckReceived s) (_newPingResponseReceived s) (_newTimeAvailable s)
    (_rxData s) (wire s).

(** ** The environment of the object *)

(** The behaviour of the two I2C peripherals during a run.  The n-th
    request of each kind that the object makes gets the n-th answer.
    - [masterBegin n]: [TwoWire::begin] of the master succeeds;
    - [endTransmission n]: result code of [TwoWire::endTransmission]
      (0 is success);
    - [slaveBegin n]: [TwoWire::begin] of the slave at the new listen
      address succeeds;
    - [ackPolls n]: the n-th wait for an acknowledgement makes one turn
      of its loop per element before it times out; the element holds
      the frames that the slave peripheral receives during the
      [delay(5)] of that turn, and the slave-receive callback runs for
      each of them, whatever its kind;
    - [pingPolls n]: the same for the wait for the wake-up response;
    - [delays n]: the frames that the slave peripheral receives during
      the n-th delay outside these two loops. *)
Record Bus := mkBus {
  masterBegin : nat -> bool;
  endTransmission : nat -> Z;
  slaveBegin : nat -> bool;
  ackPolls : nat -> list (list (list Z));
  pingPolls : nat -> list (list (list Z));
  delays : nat -> list (list Z)
}.

(** ** Buffers with their accesses recorded *)

Inductive access :=
| Load (i : Z)
| Store (i : Z).

(** A byte buffer passed by pointer, with every index the callee has
    read or written, in order. *)
Record Buf := mkBuf {
  bytes : list Z;
  accessed : list access
}.

Definition fresh (l : list Z) : Buf := mkBuf l [].

Definition load (b : Buf) (i : Z) : Z * Buf :=
  (at_ (bytes b) i, mkBuf (bytes b) (accessed b ++ [Load i])).

Definition store (b : Buf) (i v : Z) : Buf :=
  mkBuf (put (bytes b) i v) (accessed b ++ [Store i]).

Definition index_of (a : access) : Z :=
  match a with Load i => i | Store i => i end.

(** ** Construction and reset *)

Definition resetRxData (s : Link) : Link :=
  set_rxData (mkRxData (repeat 0 6) 0 0 (repeat 0 16) 0 0) s.

Definition new_Wire : Wire := mkWire 0 0 0 0 0 0 [].

(** [DGT3000::DGT3000()]. *)
Definition new_DGT3000 : Link :=
  mkLink false false false DGT_SUCCESS 0xFF false 8 5 7 6 false false
    0x00 false false false
    (mkRxData (repeat 0 6) 0 0 (repeat 0 16) 0 0) new_Wire.

Definition isConnected (s : Link) : bool := _connected s.
Definition getLastError (s : Link) : Z := _lastError s.

Definition getErrorString (error : Z) : string :=
  if error =? DGT_SUCCESS then "Success"
  else if error =? DGT_ERROR_I2C_INIT then "I2C initialization failed"
  else if error =? DGT_ERROR_I2C_COMM then "I2C communication error"
  else if error =? DGT_ERROR_TIMEOUT then "Timeout"
  else if error =? DGT_ERROR_NO_ACK then "No acknowledgment"
  else if error =? DGT_ERROR_BUFFER_OVERRUN then "Buffer overrun"
  else if error =? DGT_ERROR_CRC then "CRC error"
  else if error =? DGT_ERROR_CLOCK_OFF then "Clock is off"
  else if error =? DGT_ERROR_NOT_CONFIGURED then "Not configured"
  else if error =? DGT_ERROR_INIT_FAILED
       then "Initialization failed after recovery"
  else "Unknown error".

(** ** The button ring buffer *)

Definition isButtonBufferFull (s : Link) : bool :=
  Z.rem (buttonEnd (_rxData s) + 1) DGT3000_BUTTON_BUFFER_SIZE
    =? buttonStart (_rxData s).

Definition addButtonEvent (button : Z) (s : Link) : Link :=
  let rx := _rxData s in
  if negb (isButtonBufferFull s) then
    let rx := rx_set_buttonBuffer (put (buttonBuffer rx) (buttonEnd rx) button) rx in
    let rx := rx_set_buttonEnd
                (Z.rem (buttonEnd rx + 1) DGT3000_BUTTON_BUFFER_SIZE) rx in
    set_rxData rx s
  else
    let rx := rx_set_buttonStart
                (Z.rem (buttonStart rx + 1) DGT3000_BUTTON_BUFFER_SIZE) rx in
    let rx := rx_set_buttonBuffer (put (buttonBuffer rx) (buttonEnd rx) button) rx in
    let rx := rx_set_buttonEnd
                (Z.rem (buttonEnd rx + 1) DGT3000_BUTTON_BUFFER_SIZE) rx in
    set_rxData rx s.

(** [getButtonEvent(uint8_t* button)]: the second component is the cell
    [*button] after the call. *)
Definition getButtonEvent (button : option Z) (s : Link)
  : bool * option Z * Link :=
  if negb (_initialized s) then
    (false, button, set_lastError DGT_ERROR_NOT_CONFIGURED s)
  else
    match button with
    | None => (false, None, set_lastError DGT_ERROR_I2C_COMM s)
    | Some _ =>
      let rx := _rxData s in
      if buttonStart rx =? buttonEnd rx then
        (false, Some 0, set_lastError DGT_SUCCESS s)
      else
        let b := at_ (buttonBuffer rx) (buttonStart rx) in
        let rx := rx_set_buttonStart
                    (Z.rem (buttonStart rx + 1) DGT3000_BUTTON_BUFFER_SIZE) rx in
        (true, Some b, set_lastError DGT_SUCCESS (set_rxData rx s))
    end.

Definition getButtonState (s : Link) : Z * Link :=
  if negb (_initialized s) then (0, s)
  else (lastButtonState (_rxData s), set_lastError DGT_SUCCESS s).

(** ** Parameter validation *)

Definition validateDisplayTextParameters
  (text : option (list Z)) (beep leftDots rightDots : Z) : bool :=
  match text with
  | None => false
  | Some t =>
    if Z.of_nat (List.length t) >? DGT3000_DISPLAY_TEXT_MAX then false
    else if beep >? 48 then false
    else
      let VALID_LEFT_DOTS_MASK :=
        Z.lor DGT_DOT_FLAG (Z.lor DGT_DOT_WHITE_KING (Z.lor DGT_DOT_BLACK_KING
          (Z.lor DGT_DOT_COLON (Z.lor DGT_DOT_DOT DGT_DOT_EXTRA)))) in
      if negb (Z.land leftDots (Z.lnot VALID_LEFT_DOTS_MASK) =? 0) then false
      else
        let VALID_RIGHT_DOTS_MASK :=
          Z.lor DGT_DOT_FLAG (Z.lor DGT_DOT_WHITE_KING (Z.lor DGT_DOT_BLACK_KING
            (Z.lor DGT_DOT_COLON DGT_DOT_DOT))) in
        if negb (Z.land rightDots (Z.lnot VALID_RIGHT_DOTS_MASK) =? 0)
        then false
        else true
  end.

Definition validateTimeParameters
  (leftMode leftHours leftMinutes leftSeconds
   rightMode rightHours rightMinutes rightSeconds : Z) : bool :=
  if (leftMode >? 2) || (rightMode >? 2) then false
  else if (leftHours >? 9) || (rightHours >? 9) then false
  else if (leftMinutes >? 59) || (rightMinutes >? 59)
          || (leftSeconds >? 59) || (rightSeconds >? 59) then false
  else true.

Definition validateRunParameters (leftMode rightMode : Z) : bool :=
  if (leftMode >? 2) || (rightMode >? 2) then false else true.

(** ** CRC *)

(** The loop [for (int i = 0; i < crc_length; i++)] with [n] iterations
    left. *)
Fixpoint crc_loop (n : nat) (i : Z) (crc : Z) (b : Buf) : Z * Buf :=
  match n with
  | O => (crc, b)
  | S n' =>
    let '(x, b) := load b i in
    crc_loop n' (i + 1) (at_ crc_table (Z.lxor crc x)) b
  end.

Definition calculateCRC (buffer : option Buf) (length : Z) (s : Link)
  : Z * option Buf * Link :=
  match buffer with
  | None => (0, None, set_lastError DGT_ERROR_CRC s)
  | Some b =>
    if length <? 3 then (0, Some b, set_lastError DGT_ERROR_CRC s)
    else
      let crc := 0 in
      let crc := at_ crc_table (Z.lxor crc 0x10) in
      let '(b1, b) := load b 1 in
      let crc_length := uint8 (b1 - 1) in
      let crc_length :=
        if crc_length >=? length then uint8 (length - 1) else crc_length in
      let '(crc, b) := crc_loop (Z.to_nat crc_length) 0 crc b in
      let b := store b crc_length crc in
      (crc, Some b, s)
  end.

Definition verifyCRC (buffer : option Buf) (length : Z) (s : Link)
  : bool * option Buf * Link :=
  match buffer with
  | None => (false, None, set_lastError DGT_ERROR_CRC s)
  | Some b =>
    if length <? 3 then (false, Some b, set_lastError DGT_ERROR_CRC s)
    else
      let crc := 0 in
      let crc := at_ crc_table (Z.lxor crc 0x10) in
      let '(b1, b) := load b 1 in
      let crc_length := uint8 (b1 - 1) in
      let crc_length :=
        if crc_length >=? length then uint8 (length - 1) else crc_length in
      let '(crc, b) := crc_loop (Z.to_nat crc_length) 0 crc b in
      let '(receivedCRC, b) := load b crc_length in
      let isValid := crc =? receivedCRC in
      if negb isValid then (isValid, Some b, set_lastError DGT_ERROR_CRC s)
      else (isValid, Some b, s)
  end.

(** ** Inbound frames (slave-receive callback) *)

Definition processAckMessage (buffer : list Z) (length : Z) (s : Link) : Link :=
  if (length <? 5) || negb (at_ buffer 2 =? 0x01) then s
  else
    let cmd_code := at_ buffer 3 in
    set_newAckReceived true (set_receivedAckCmd cmd_code s).

Definition expectedResponse : list Z := [0x10; 0x07; 0x02; 0x22; 0x01; 0x05].

(** [memcmp(a, b, n) == 0] *)
Fixpoint memcmp_eq (n : nat) (a b : list Z) (i : Z) : bool :=
  match n with
  | O => true
  | S n' => (at_ a i =? at_ b i) && memcmp_eq n' a b (i + 1)
  end.

Definition processPingResponseMessage (buffer : list Z) (length : Z) (s : Link)
  : Link :=
  if (length >=? 6) && memcmp_eq 6 buffer expectedResponse 0
  then set_newPingResponseReceived true s
  else s.

Definition bcdToDec (bcd : Z) : Z :=
  uint8 (Z.shiftr bcd 4 * 10 + Z.land bcd 0x0F).

Definition processTimeMessage (buffer : list Z) (length : Z) (s : Link) : Link :=
  if (length >? 19) && (at_ buffer 19 =? 1) then s
  else if (length <? 14) || negb (at_ buffer 1 =? 0x18) then s
  else
    let left_h := Z.land (at_ buffer 4) 0x0F in
    let left_m := bcdToDec (at_ buffer 5) in
    let left_s := bcdToDec (at_ buffer 6) in
    let right_h := Z.land (at_ buffer 10) 0x0F in
    let right_m := bcdToDec (at_ buffer 11) in
    let right_s := bcdToDec (at_ buffer 12) in
    if (right_h >? 9) || (right_m >? 59) || (right_s >? 59)
       || (left_h >? 9) || (left_m >? 59) || (left_s >? 59) then s
    else
      let t := time (_rxData s) in
      let t := put t 0 left_h in
      let t := put t 1 left_m in
      let t := put t 2 left_s in
      let t := put t 3 right_h in
      let t := put t 4 right_m in
      let t := put t 5 right_s in
      let s := set_rxData (rx_set_time t (_rxData s)) s in
      let s := set_newTimeAvailable true s in
      if negb (_connected s) then set_configured false (set_connected true s)
      else s.

Definition processButtonMessage (buffer : option (list Z)) (length : Z)
  (s : Link) : Link :=
  match buffer with
  | None => s
  | Some buffer =>
    if (length <? 5) || negb (at_ buffer 2 =? 5) then s
    else
      let currentButtons := at_ buffer 3 in
      let previousButtons := at_ buffer 4 in
      let s := set_rxData (rx_set_lastButtonState currentButtons (_rxData s)) s in
      let changedButtons := Z.lxor currentButtons previousButtons in
      if changedButtons =? 0 then s
      else if negb (Z.land changedButtons DGT_ON_OFF_STATE_MASK =? 0) then
        let event :=
          if negb (Z.land currentButtons DGT_ON_OFF_STATE_MASK =? 0)
          then DGT_EVENT_ON_OFF_PRESS else DGT_EVENT_ON_OFF_RELEASE in
        addButtonEvent event s
      else if negb (Z.land changedButtons DGT_LEVER_STATE_MASK =? 0) then
        let event :=
          if negb (Z.land currentButtons DGT_LEVER_STATE_MASK =? 0)
          then DGT_EVENT_LEVER_LEFT else DGT_EVENT_LEVER_RIGHT in
        addButtonEvent event s
      else
        let mainButtonPressed :=
          Z.land (Z.land changedButtons currentButtons) 0x1F in
        if negb (mainButtonPressed =? 0) then addButtonEvent mainButtonPressed s
        else s
  end.

(** [onSlaveReceive]: [available] are the bytes the slave peripheral
    holds; at most 256 of them are read into [rxBuffer], and the count
    is narrowed to [uint8_t] when it is passed on. *)
Definition onSlaveReceive (bytesReceived : Z) (available : list Z) (s : Link)
  : Link :=
  if negb (_initialized s) || negb (_i2cSlave s) || (bytesReceived =? 0) then s
  else
    let rxBuffer := firstn 256 available in
    let idx := Z.of_nat (List.length rxBuffer) in
    if (idx >=? 3) && (at_ rxBuffer 0 =? DGT3000_ESP_ADDR_10) then
      let message_type := at_ rxBuffer 2 in
      if message_type =? 1 then processAckMessage rxBuffer (uint8 idx) s
      else if message_type =? DGT_MSG_WAKEUP_RESP
           then processPingResponseMessage rxBuffer (uint8 idx) s
      else if message_type =? 4 then processTimeMessage rxBuffer (uint8 idx) s
      else if message_type =? 5
           then processButtonMessage (Some rxBuffer) (uint8 idx) s
      else s
    else s.

(** What a [delay] does to the object: [onSlaveReceiveStatic] runs for
    each of the frames [arrived] that the slave peripheral receives
    meanwhile, with the number of its bytes. *)
Definition arrive (arrived : list (list Z)) (s : Link) : Link :=
  fold_left (fun s frame =>
               onSlaveReceive (Z.of_nat (List.length frame)) frame s)
            arrived s.

(** ** Polled data *)

(** [getTime(uint8_t time[6])]: the second component is the caller's
    array after the call. *)
Definition getTime (out : option (list Z)) (s : Link)
  : bool * option (list Z) * Link :=
  if negb (_initialized s) then
    (false, out, set_lastError DGT_ERROR_NOT_CONFIGURED s)
  else
    match out with
    | None => (false, None, set_lastError DGT_ERROR_I2C_COMM s)
    | Some _ =>
      (true, Some (firstn 6 (time (_rxData s))), set_lastError DGT_SUCCESS s)
    end.

Definition isNewTimeAvailable (s : Link) : bool * Link :=
  if _newTimeAvailable s then (true, set_newTimeAvailable false s)
  else (false, s).

(** ** Outbound commands *)

Section WithBus.

Variable bus : Bus.

(** [delay(ms)] outside the two polling loops. *)
Definition delay (s : Link) : Link :=
  let n := delayCount (wire s) in
  let s := set_wire (wire_set_delayCount (S n) (wire s)) s in
  arrive (delays bus n) s.

(** The slave peripheral is stopped during the delay of the address
    switch ([_i2cSlave->end()] comes first): nothing is received. *)
Definition setSlaveListenAddress (address : Z) (s : Link) : Link :=
  if negb (_initialized s) || negb (_i2cSlave s) then
    set_lastError DGT_ERROR_NOT_CONFIGURED s
  else if _currentListenAddress s =? address then s
  else
    let n := bindCount (wire s) in
    let s := set_wire (wire_set_bindCount (S n) (wire s)) s in
    if negb (slaveBegin bus n) then
      set_currentListenAddress 0xFF (set_lastError DGT_ERROR_I2C_INIT s)
    else set_currentListenAddress address s.

Definition listenForTimeMessages (s : Link) : Link :=
  setSlaveListenAddress DGT3000_ESP_ADDR_00 s.

Definition listenForAckMessages (s : Link) : Link :=
  setSlaveListenAddress DGT3000_ESP_ADDR_10 s.

(** The loop [while (!isTimeout(startTime, timeout_ms))] of
    [waitForAck]; one element of [polls] per turn of the loop that comes
    before the timeout. *)
Fixpoint waitForAck_loop (expectedCmd : Z) (polls : list (list (list Z)))
  (s : Link) : bool * Link :=
  match polls with
  | [] => (false, set_lastError DGT_ERROR_TIMEOUT s)
  | arrived :: polls' =>
    if _newAckReceived s && (_receivedAckCmd s =? expectedCmd) then
      (true, set_lastError DGT_SUCCESS (set_newAckReceived false s))
    else waitForAck_loop expectedCmd polls' (arrive arrived s)
  end.

Definition waitForAck (expectedCmd : Z) (s : Link) : bool * Link :=
  if negb (_initialized s) then
    (false, set_lastError DGT_ERROR_NOT_CONFIGURED s)
  else
    let s := set_receivedAckCmd 0x00 (set_newAckReceived false s) in
    let n := ackWaitCount (wire s) in
    let s := set_wire (wire_set_ackWaitCount (S n) (wire s)) s in
    waitForAck_loop expectedCmd (ackPolls bus n) s.

(** [beginTransmission], [write] and [endTransmission] on the master. *)
Definition transmit (targetAddress : Z) (cmd : list Z) (length : Z) (s : Link)
  : Z * Link :=
  let n := txCount (wire s) in
  let w := wire_set_txCount (S n) (wire s) in
  let w := wire_set_txLog
             (txLog w ++ [(targetAddress, firstn (Z.to_nat length) cmd)]) w in
  (endTransmission bus n, set_wire w s).

(** The body of the loop [for (attempt = 1; attempt <= maxAttempts;
    attempt++)] of [sendDGTCommand], with [remaining] turns left.
    [Some r] is [return r] from inside the loop, [None] is leaving the
    loop at its end. *)
Fixpoint sendDGTCommand_loop (remaining : nat) (attempt maxAttempts : Z)
  (cmd : list Z) (length : Z) (ackListenAddress expectedAckCmd numAcks
   targetAddress : Z) (withRetry : bool) (s : Link) : option bool * Link :=
  match remaining with
  | O => (None, s)
  | S remaining' =>
    let s := setSlaveListenAddress ackListenAddress s in
    let s := set_newAckReceived false s in
    let s := set_receivedAckCmd 0x00 s in
    let '(result, s) := transmit targetAddress cmd length s in
    if negb (result =? 0) then
      let s := set_lastError DGT_ERROR_I2C_COMM s in
      if withRetry then
        let s := delay s in
        sendDGTCommand_loop remaining' (attempt + 1) maxAttempts cmd length
          ackListenAddress expectedAckCmd numAcks targetAddress withRetry s
      else (Some true, s)
    else if numAcks =? 0 then (Some true, set_lastError DGT_SUCCESS s)
    else
      let '(acked, s) := waitForAck expectedAckCmd s in
      if acked then
        let s := setSlaveListenAddress DGT3000_ESP_ADDR_00 s in
        (Some true, set_lastError DGT_SUCCESS s)
      else
        let s := if attempt <? maxAttempts
                 then set_lastError DGT_ERROR_NO_ACK s else s in
        sendDGTCommand_loop remaining' (attempt + 1) maxAttempts cmd length
          ackListenAddress expectedAckCmd numAcks targetAddress withRetry s
  end.

Definition sendDGTCommand (cmd : option (list Z)) (length : Z)
  (ackListenAddress expectedAckCmd numAcks targetAddress : Z)
  (withRetry : bool) (s : Link) : bool * Link :=
  if negb (_initialized s) || negb (_i2cMaster s) then
    (false, set_lastError DGT_ERROR_NOT_CONFIGURED s)
  else
    match cmd with
    | None => (false, set_lastError DGT_ERROR_I2C_COMM s)
    | Some cmd =>
      if length <=? 0 then (false, set_lastError DGT_ERROR_I2C_COMM s)
      else
        let maxAttempts := if withRetry then 3 else 1 in
        match sendDGTCommand_loop (Z.to_nat maxAttempts) 1 maxAttempts cmd
                length ackListenAddress expectedAckCmd numAcks targetAddress
                withRetry s with
        | (Some r, s) => (r, s)
        | (None, s) =>
          let s := setSlaveListenAddress DGT3000_ESP_ADDR_00 s in
          let s := set_connected false s in
          let s := set_configured false s in
          (false, s)
        end
    end.

Definition changeState_no_ack (s : Link) : bool * Link :=
  if negb (_initialized s) then
    (false, set_lastError DGT_ERROR_NOT_CONFIGURED s)
  else
    let cmd := [0x20; 0x06; 0x0b; 0x39; 0xb9] in
    sendDGTCommand (Some cmd) 5 DGT3000_ESP_ADDR_00 0 0 DGT3000_I2C_ADDRESS
      true s.

Definition changeState (s : Link) : bool * Link :=
  if negb (_initialized s) then
    (false, set_lastError DGT_ERROR_NOT_CONFIGURED s)
  else
    let cmd := [0x20; 0x06; 0x0b; 0x39; 0xb9] in
    sendDGTCommand (Some cmd) 5 DGT3000_ESP_ADDR_10 DGT_CMD_CHANGE_STATE 1
      DGT3000_I2C_ADDRESS true s.

(** The loop [while (!isTimeout(startTime, DGT3000_ACK_TIMEOUT_MS * 2))]
    of [sendPing]; one element of [polls] per turn of the loop that
    comes before the timeout. *)
Fixpoint sendPing_loop (polls : list (list (list Z))) (s : Link)
  : bool * Link :=
  match polls with
  | [] => (false, set_lastError DGT_ERROR_TIMEOUT s)
  | arrived :: polls' =>
    if _newPingResponseReceived s then
      (true, set_newPingResponseReceived false s)
    else sendPing_loop polls' (arrive arrived s)
  end.

Definition sendPing (s : Link) : bool * Link :=
  if negb (_initialized s) then
    (false, set_lastError DGT_ERROR_NOT_CONFIGURED s)
  else
    let pingCmd := [0x20; 0x05; DGT_CMD_PING; 0x46] in
    let '(_, s) := sendDGTCommand (Some pingCmd) 4 DGT3000_ESP_ADDR_00 0 0
                     DGT3000_I2C_WAKEUP_ADDR false s in
    let s := set_newPingResponseReceived false s in
    let n := pingWaitCount (wire s) in
    let s := set_wire (wire_set_pingWaitCount (S n) (wire s)) s in
    sendPing_loop (pingPolls bus n) s.

Definition setCentralControl (s : Link) : bool * Link :=
  if negb (_initialized s) then
    (false, set_lastError DGT_ERROR_NOT_CONFIGURED s)
  else
    let setCCCmd := [0x20; 0x05; 0x0f; 0x48] in
    sendDGTCommand (Some setCCCmd) 4 DGT3000_ESP_ADDR_10 DGT_CMD_SET_CC 1
      DGT3000_I2C_ADDRESS true s.

Definition endDisplay (s : Link) : bool * Link :=
  if negb (_initialized s) then
    (false, set_lastError DGT_ERROR_NOT_CONFIGURED s)
  else
    let endDisplayCmd := [0x20; 0x05; 0x07; 0x70] in
    sendDGTCommand (Some endDisplayCmd) 4 DGT3000_ESP_ADDR_00
      DGT_CMD_END_DISPLAY 0 DGT3000_I2C_ADDRESS true s.

Definition sendDisplayEmpty (s : Link) : bool * Link :=
  if negb (_initialized s) then
    (false, set_lastError DGT_ERROR_NOT_CONFIGURED s)
  else
    let displayEmptyCmd :=
      [0x20; 0x15; 0x06; 0x20; 0x20; 0x20; 0x20; 0x20; 0x20; 0x20; 0x20;
       0x20; 0x20; 0x20; 0xff; 0x00; 0x03; 0x01; 0x01; 0xfc] in
    sendDGTCommand (Some displayEmptyCmd) 20 DGT3000_ESP_ADDR_00
      DGT_CMD_DISPLAY 1 DGT3000_I2C_ADDRESS true s.

(** The 11 text cells of the display frame: the text, padded with
    spaces. *)
Fixpoint displayText_cells (n : nat) (i : Z) (text : list Z) : list Z :=
  match n with
  | O => []
  | S n' =>
    (if i <? Z.of_nat (List.length text) then uint8 (at_ text i) else 0x20)
      :: displayText_cells n' (i + 1) text
  end.

(** [text] holds the characters of the C string before its terminator.
    The last cell of [displayCmd] is not initialised before
    [calculateCRC] stores into it; it is written as 0 here. *)
Definition displayText (text : option (list Z)) (beep leftDots rightDots : Z)
  (s : Link) : bool * Link :=
  if negb (_initialized s) then
    (false, set_lastError DGT_ERROR_NOT_CONFIGURED s)
  else if negb (validateDisplayTextParameters text beep leftDots rightDots) then
    (false, set_lastError DGT_ERROR_I2C_COMM s)
  else
    let '(cleared, s) := endDisplay s in
    if negb cleared then (false, s)
    else
      let t := match text with Some t => t | None => [] end in
      let displayCmd :=
        [0x20; 0x15; DGT_CMD_DISPLAY]
          ++ displayText_cells 11 0 t
          ++ [0xFF; beep; 0x03; leftDots; rightDots; 0] in
      let '(_, displayCmd, s) := calculateCRC (Some (fresh displayCmd)) 20 s in
      sendDGTCommand (option_map bytes displayCmd) 20 DGT3000_ESP_ADDR_00
        DGT_CMD_DISPLAY 1 DGT3000_I2C_ADDRESS true s.

(** The last cell of [setAndRunCmd] is not initialised before
    [calculateCRC] stores into it; it is written as 0 here. *)
Definition setAndRun
  (leftMode leftHours leftMinutes leftSeconds
   rightMode rightHours rightMinutes rightSeconds : Z) (s : Link)
  : bool * Link :=
  if negb (_initialized s) then
    (false, set_lastError DGT_ERROR_NOT_CONFIGURED s)
  else if negb (validateTimeParameters leftMode leftHours leftMinutes
                  leftSeconds rightMode rightHours rightMinutes rightSeconds)
  then (false, set_lastError DGT_ERROR_I2C_COMM s)
  else
    let bcd v := uint8 (Z.lor (Z.shiftl (Z.quot v 10) 4) (Z.rem v 10)) in
    let setAndRunCmd :=
      [0x20; 0x0c; DGT_CMD_SET_AND_RUN;
       leftHours; bcd leftMinutes; bcd leftSeconds;
       rightHours; bcd rightMinutes; bcd rightSeconds;
       uint8 (Z.lor leftMode (Z.shiftl rightMode 2)); 0] in
    let '(_, setAndRunCmd, s) :=
      calculateCRC (Some (fresh setAndRunCmd)) 11 s in
    sendDGTCommand (option_map bytes setAndRunCmd) 11 DGT3000_ESP_ADDR_00
      DGT_CMD_SET_AND_RUN 0 DGT3000_I2C_ADDRESS true s.

Definition stop (s : Link) : bool * Link :=
  let t := time (_rxData s) in
  setAndRun DGT_MODE_STOP (at_ t 0) (at_ t 1) (at_ t 2)
            DGT_MODE_STOP (at_ t 3) (at_ t 4) (at_ t 5) s.

Definition run (leftMode rightMode : Z) (s : Link) : bool * Link :=
  if negb (_initialized s) then
    (false, set_lastError DGT_ERROR_NOT_CONFIGURED s)
  else if negb (validateRunParameters leftMode rightMode) then
    (false, set_lastError DGT_ERROR_I2C_COMM s)
  else
    let t := time (_rxData s) in
    setAndRun leftMode (at_ t 0) (at_ t 1) (at_ t 2)
              rightMode (at_ t 3) (at_ t 4) (at_ t 5) s.

(** The last cell of [powerOffCmd] is not initialised before
    [calculateCRC] stores into it; it is written as 0 here. *)
Definition powerOff (s : Link) : bool * Link :=
  if negb (_initialized s) then
    (false, set_lastError DGT_ERROR_NOT_CONFIGURED s)
  else
    let powerOffCmd := [0x20; 0x06; DGT_CMD_CHANGE_STATE; 0x00; 0] in
    let '(_, powerOffCmd, s) := calculateCRC (Some (fresh powerOffCmd)) 5 s in
    let '(result, s) :=
      sendDGTCommand (option_map bytes powerOffCmd) 5 DGT3000_ESP_ADDR_00 0 0
        DGT3000_I2C_ADDRESS false s in
    if result then (result, set_configured false (set_connected false s))
    else (result, s).

Definition configure (s : Link) : bool * Link :=
  if negb (_initialized s) then
    (false, set_lastError DGT_ERROR_NOT_CONFIGURED s)
  else if _recoveryInProgress s then (false, s)
  else
    let s := set_recoveryInProgress true s in
    let s := set_configured false s in
    let s := set_connected false s in
    let fail error s :=
      (false, set_recoveryInProgress false (set_lastError error s)) in
    (* Step 1 *)
    let '(woken, s) :=
      let '(sent, s) := changeState_no_ack s in
      if negb sent then
        let s := delay s in
        let '(pinged, s) := sendPing s in
        if negb pinged then (false, s)
        else
          let '(sent, s) := changeState_no_ack s in
          if negb sent then (false, s) else (true, s)
      else (true, s) in
    if negb woken then fail DGT_ERROR_CLOCK_OFF s
    else
      let s := delay s in
      (* Step 2 *)
      let '(ok, s) := setCentralControl s in
      if negb ok then fail DGT_ERROR_I2C_COMM s
      else
        let s := delay s in
        (* Step 3 *)
        let '(ok, s) := changeState s in
        if negb ok then fail DGT_ERROR_I2C_COMM s
        else
          let s := delay s in
          (* Step 4 *)
          let '(ok, s) :=
            setAndRun DGT_MODE_STOP 0 0 0 DGT_MODE_STOP 0 0 0 s in
          if negb ok then fail DGT_ERROR_I2C_COMM s
          else
            let s := set_configured true s in
            let s := set_connected true s in
            let s := set_lastError DGT_SUCCESS s in
            let s := set_recoveryInProgress false s in
            (true, s).

Definition begin (masterSDA masterSCL slaveSDA slaveSCL : Z) (s : Link)
  : bool * Link :=
  if (masterSDA <? 0) || (masterSDA >? 48) || (masterSCL <? 0)
     || (masterSCL >? 48) || (slaveSDA <? 0) || (slaveSDA >? 48)
     || (slaveSCL <? 0) || (slaveSCL >? 48) then
    (false, set_lastError DGT_ERROR_I2C_INIT s)
  else
    let s := set_pins masterSDA masterSCL slaveSDA slaveSCL s in
    let s := set_i2cMaster false s in
    let s := set_i2cSlave false s in
    let n := masterBeginCount (wire s) in
    let s := set_wire (wire_set_masterBeginCount (S n) (wire s)) s in
    if negb (masterBegin bus n) then
      (false, set_lastError DGT_ERROR_I2C_INIT s)
    else
      let s := set_i2cMaster true s in
      let s := set_i2cSlave true s in
      let s := set_initialized true s in
      let s := set_lastError DGT_SUCCESS s in
      let s := setSlaveListenAddress DGT3000_ESP_ADDR_00 s in
      (true, s).

(** [end()] *)
Definition end_ (s : Link) : Link :=
  let '(_, s) := powerOff s in
  let s := delay s in
  let s := set_i2cSlave false s in
  let s := set_i2cMaster false s in
  let s := set_initialized false s in
  let s := set_connected false s in
  set_configured false s.

End WithBus.

End DGT3000.

(** ** Shared types of the gateway *)

Module Gateway.

(** Modelled from the spec: the enumeration [SystemErrorCode] of
    [BLEGatewayTypes.h], which is not among the sources; its members are
    those listed in section 6 and named by [getErrorCodeString]. *)
Inductive SystemErrorCode :=
| SUCCESS
| I2C_COMMUNICATION_ERROR
| DGT_NOT_CONFIGURED
| I2C_CRC_ERROR
| DGT_NOT_CONNECTED
| JSON_PARSE_ERROR
| JSON_INVALID_COMMAND
| JSON_INVALID_PARAMETERS
| COMMAND_TIMEOUT
| UNKNOWN_ERROR.

Definition getErrorCodeString (error : SystemErrorCode) : string :=
  match error with
  | SUCCESS => "Success"
  | I2C_COMMUNICATION_ERROR => "I2C Communication Error"
  | DGT_NOT_CONFIGURED => "DGT3000 Not Configured"
  | I2C_CRC_ERROR => "I2C CRC Error"
  | DGT_NOT_CONNECTED => "DGT Not Connected"
  | JSON_PARSE_ERROR => "JSON Parse Error"
  | JSON_INVALID_COMMAND => "Invalid JSON Command"
  | JSON_INVALID_PARAMETERS => "Invalid JSON Parameters"
  | COMMAND_TIMEOUT => "Command Timeout"
  | UNKNOWN_ERROR => "Unknown Error"
  end.

(** Modelled from the spec: the enumeration [ConnectionState] of
    [BLEGatewayTypes.h] (section 3), with the members named by
    [getConnectionStateString]. *)
Inductive ConnectionState :=
| DISCONNECTED
| CONNECTED
| CONFIGURED
| ERROR.

Definition ConnectionState_eqb (a b : ConnectionState) : bool :=
  match a, b with
  | DISCONNECTED, DISCONNECTED | CONNECTED, CONNECTED
  | CONFIGURED, CONFIGURED | ERROR, ERROR => true
  | _, _ => false
  end.

(** Modelled from the spec: [DGTEvent::Type] of [BLEGatewayTypes.h]
    (the kinds of section 3), with the members named by
    [getEventTypeString]. *)
Inductive EventType :=
| TIME_UPDATE
| BUTTON_EVENT
| CONNECTION_STATUS
| ERROR_EVENT
| SYSTEM_STATUS.

(** A value stored in a [JsonDocument].  [JCode c] is the integer
    [static_cast<uint16_t>(c)]: the numbering of [SystemErrorCode] is in
    the header that is not among the sources, so the integer is kept as
    the enumerator it stands for. *)
Inductive JsonValue :=
| JBool (b : bool)
| JInt (z : Z)
| JStr (s : string)
| JCode (c : SystemErrorCode).

(** A [JsonDocument] holding an object: its members in insertion order. *)
Definition JsonDocument := list (string * JsonValue).

(** [doc[key] = v] *)
Fixpoint json_set (key : string) (v : JsonValue) (doc : JsonDocument)
  : JsonDocument :=
  match doc with
  | [] => [(key, v)]
  | (k, w) :: rest =>
    if String.eqb k key then (k, v) :: rest
    else (k, w) :: json_set key v rest
  end.

(** [doc[key]] *)
Fixpoint json_get (key : string) (doc : JsonDocument) : option JsonValue :=
  match doc with
  | [] => None
  | (k, w) :: rest => if String.eqb k key then Some w else json_get key rest
  end.

(** Modelled from the spec: the record [DGTEvent] of [BLEGatewayTypes.h]
    (ClockEvent of section 3: kind, timestamp, priority, data). *)
Record DGTEvent := mkDGTEvent {
  type : EventType;
  priority : Z;
  ev_timestamp : Z;
  data : JsonDocument
}.

(** Modelled from the spec: the constructor [DGTEvent(Type)] of
    [BLEGatewayTypes.h]; a new event is stamped with the current time
    and has normal priority (1) and no data. *)
Definition new_DGTEvent (t : EventType) (now : Z) : DGTEvent :=
  mkDGTEvent t 1 now [].

(** Modelled from the spec: the record [CommandResponse] of
    [BLEGatewayTypes.h] (section 3: id, success, timestamp, and a result
    or an error code with its message). *)
Record CommandResponse := mkCommandResponse {
  id : string;
  success : bool;
  timestamp : Z;
  result : JsonDocument;
  errorCode : SystemErrorCode;
  errorMessage : string
}.

(** Modelled from the spec: [CommandResponse()] of [BLEGatewayTypes.h]. *)
Definition new_CommandResponse : CommandResponse :=
  mkCommandResponse "" false 0 [] SUCCESS "".

(** Modelled from the spec: the record [RawBLECommand] of
    [BLEGatewayTypes.h] (RawCommand of section 3). *)
Record RawBLECommand := mkRawBLECommand {
  raw_timestamp : Z;
  raw_length : Z;
  jsonData : string
}.

(** Modelled from the spec: the members of [SystemStatus]
    ([BLEGatewayTypes.h]) that the clock task writes. *)
Record SystemStatus := mkSystemStatus {
  dgtConnectionState : ConnectionState;
  dgtConfigured : bool;
  commandsProcessed : Z;
  lastError : SystemErrorCode;
  lastErrorMessage : string
}.

(** Modelled from the spec: the record [QueueStats] of
    [BLEGatewayTypes.h] (the statistics of section 4.3). *)
Record QueueStats := mkQueueStats {
  eventsQueued : Z;
  eventsProcessed : Z;
  queueOverflows : Z;
  queueTimeouts : Z;
  maxEventQueueDepth : Z
}.

Definition QUEUE_COMMAND_SIZE : Z := 10.
Definition QUEUE_EVENT_SIZE : Z := 20.
Definition APP_MAX_COMMAND_ID_LENGTH : Z := 32.
Definition APP_MAX_ERROR_MESSAGE_LENGTH : Z := 128.
Definition I2C_TASK_RECOVERY_DELAY_MS : Z := 1000.
Definition I2C_TASK_MAX_RECOVERY_ATTEMPTS : Z := 0.

(** [strncpy(dst, src, n); dst[n] = 0] into a zeroed array of [n + 1]
    characters. *)
Definition strncpy0 (src : string) (n : Z) : string :=
  String.substring 0 (Z.to_nat n) src.

End Gateway.

(** ** The queue manager *)

Module QueueManager.

Import Gateway.

(** The three FreeRTOS queues hold their pending items in order, head
    first.  [ready] is [isInitialized()].  A send finds room or fails:
    nothing is taken from a queue while a call of the clock task waits
    on it. *)
Record Queues := mkQueues {
  ready : bool;
  rawCommandQueue : list RawBLECommand;
  eventQueue : list DGTEvent;
  responseQueue : list CommandResponse;
  _stats : QueueStats
}.

Definition set_stats (v : QueueStats) (q : Queues) : Queues :=
  mkQueues (ready q) (rawCommandQueue q) (eventQueue q) (responseQueue q) v.

Definition set_eventQueue (v : list DGTEvent) (q : Queues) : Queues :=
  mkQueues (ready q) (rawCommandQueue q) v (responseQueue q) (_stats q).

Definition set_responseQueue (v : list CommandResponse) (q : Queues) : Queues :=
  mkQueues (ready q) (rawCommandQueue q) (eventQueue q) v (_stats q).

Definition set_rawCommandQueue (v : list RawBLECommand) (q : Queues) : Queues :=
  mkQueues (ready q) v (eventQueue q) (responseQueue q) (_stats q).

Definition getEventQueueDepth (q : Queues) : Z :=
  if negb (ready q) then 0 else Z.of_nat (List.length (eventQueue q)).

Definition updateStatistics (q : Queues) : Queues :=
  if negb (ready q) then q
  else
    let evtDepth := getEventQueueDepth q in
    if evtDepth >? maxEventQueueDepth (_stats q) then
      let st := _stats q in
      set_stats (mkQueueStats (eventsQueued st) (eventsProcessed st)
                   (queueOverflows st) (queueTimeouts st) evtDepth) q
    else q.

Definition updateQueueStats (isSend success isCommand : bool) (q : Queues)
  : Queues :=
  let st := _stats q in
  let st :=
    if isSend then
      let st := if negb isCommand
                then mkQueueStats (uint32 (eventsQueued st + 1))
                       (eventsProcessed st) (queueOverflows st)
                       (queueTimeouts st) (maxEventQueueDepth st)
                else st in
      if negb success
      then mkQueueStats (eventsQueued st) (eventsProcessed st)
             (uint32 (queueOverflows st + 1)) (queueTimeouts st)
             (maxEventQueueDepth st)
      else st
    else
      let st := if negb isCommand && success
                then mkQueueStats (eventsQueued st)
                       (uint32 (eventsProcessed st + 1)) (queueOverflows st)
                       (queueTimeouts st) (maxEventQueueDepth st)
                else st in
      if negb success
      then mkQueueStats (eventsQueued st) (eventsProcessed st)
             (queueOverflows st) (uint32 (queueTimeouts st + 1))
             (maxEventQueueDepth st)
      else st in
  updateStatistics (set_stats st q).

Definition receiveRawCommand (q : Queues) : option RawBLECommand * Queues :=
  if negb (ready q) then (None, q)
  else
    match rawCommandQueue q with
    | [] => (None, q)
    | c :: rest => (Some c, set_rawCommandQueue rest q)
    end.

Definition sendEvent (event : option DGTEvent) (q : Queues) : bool * Queues :=
  match event with
  | None => (false, q)
  | Some e =>
    if negb (ready q) then (false, q)
    else if Z.of_nat (List.length (eventQueue q)) <? QUEUE_EVENT_SIZE then
      (true, updateQueueStats true true false
               (set_eventQueue (eventQueue q ++ [e]) q))
    else (false, updateQueueStats true false false q)
  end.

Definition sendPriorityEvent (event : option DGTEvent) (q : Queues)
  : bool * Queues :=
  match event with
  | None => (false, q)
  | Some e =>
    if negb (ready q) then (false, q)
    else if Z.of_nat (List.length (eventQueue q)) <? QUEUE_EVENT_SIZE then
      (true, updateQueueStats true true false
               (set_eventQueue (e :: eventQueue q) q))
    else (false, updateQueueStats true false false q)
  end.

Definition sendResponse (response : option CommandResponse) (q : Queues)
  : bool * Queues :=
  match response with
  | None => (false, q)
  | Some r =>
    if negb (ready q) then (false, q)
    else if Z.of_nat (List.length (responseQueue q)) <? QUEUE_COMMAND_SIZE then
      (true, set_responseQueue (responseQueue q ++ [r]) q)
    else (false, q)
  end.

(** The other operations of the queue manager. *)

Definition getRawCommandQueueDepth (q : Queues) : Z :=
  if negb (ready q) then 0 else Z.of_nat (List.length (rawCommandQueue q)).

Definition getRawCommandQueueFreeSpace (q : Queues) : Z :=
  if negb (ready q) then 0
  else QUEUE_COMMAND_SIZE - Z.of_nat (List.length (rawCommandQueue q)).

Definition isRawCommandQueueFull (q : Queues) : bool :=
  getRawCommandQueueFreeSpace q =? 0.

Definition isRawCommandQueueEmpty (q : Queues) : bool :=
  getRawCommandQueueDepth q =? 0.

Definition getEventQueueFreeSpace (q : Queues) : Z :=
  if negb (ready q) then 0
  else QUEUE_EVENT_SIZE - Z.of_nat (List.length (eventQueue q)).

Definition isEventQueueFull (q : Queues) : bool :=
  getEventQueueFreeSpace q =? 0.

Definition isEventQueueEmpty (q : Queues) : bool :=
  getEventQueueDepth q =? 0.

Definition getResponseQueueDepth (q : Queues) : Z :=
  if negb (ready q) then 0 else Z.of_nat (List.length (responseQueue q)).

Definition getResponseQueueFreeSpace (q : Queues) : Z :=
  if negb (ready q) then 0
  else QUEUE_COMMAND_SIZE - Z.of_nat (List.length (responseQueue q)).

Definition isResponseQueueFull (q : Queues) : bool :=
  getResponseQueueFreeSpace q =? 0.

Definition isResponseQueueEmpty (q : Queues) : bool :=
  getResponseQueueDepth q =? 0.

Definition sendRawCommand (rawData : option RawBLECommand) (q : Queues)
  : bool * Queues :=
  match rawData with
  | None => (false, q)
  | Some c =>
    if negb (ready q) then (false, q)
    else if Z.of_nat (List.length (rawCommandQueue q)) <? QUEUE_COMMAND_SIZE
    then (true, set_rawCommandQueue (rawCommandQueue q ++ [c]) q)
    else (false, q)
  end.

Definition receiveEvent (q : Queues) : option DGTEvent * Queues :=
  if negb (ready q) then (None, q)
  else
    match eventQueue q with
    | [] => (None, updateQueueStats false false false q)
    | e :: rest =>
      (Some e, updateQueueStats false true false (set_eventQueue rest q))
    end.

Definition receiveResponse (q : Queues) : option CommandResponse * Queues :=
  if negb (ready q) then (None, q)
  else
    match responseQueue q with
    | [] => (None, q)
    | r :: rest => (Some r, set_responseQueue rest q)
    end.

Definition resetStatistics (q : Queues) : Queues :=
  set_stats (mkQueueStats 0 0 0 0 0) q.

(** The loops [while ((x = receive...(0)) != nullptr)] of the three
    flush operations, with [turns] turns left; a queue of [n] items
    ends its loop in turn [n + 1]. *)
Fixpoint flushRawCommandQueue_loop (turns : nat) (q : Queues) : Queues :=
  match turns with
  | O => q
  | S turns' =>
    match receiveRawCommand q with
    | (Some _, q) => flushRawCommandQueue_loop turns' q
    | (None, q) => q
    end
  end.

Definition flushRawCommandQueue (q : Queues) : Queues :=
  if negb (ready q) then q
  else flushRawCommandQueue_loop (S (List.length (rawCommandQueue q))) q.

Fixpoint flushEventQueue_loop (turns : nat) (q : Queues) : Queues :=
  match turns with
  | O => q
  | S turns' =>
    match receiveEvent q with
    | (Some _, q) => flushEventQueue_loop turns' q
    | (None, q) => q
    end
  end.

Definition flushEventQueue (q : Queues) : Queues :=
  if negb (ready q) then q
  else flushEventQueue_loop (S (List.length (eventQueue q))) q.

Fixpoint flushResponseQueue_loop (turns : nat) (q : Queues) : Queues :=
  match turns with
  | O => q
  | S turns' =>
    match receiveResponse q with
    | (Some _, q) => flushResponseQueue_loop turns' q
    | (None, q) => q
    end
  end.

Definition flushResponseQueue (q : Queues) : Queues :=
  if negb (ready q) then q
  else flushResponseQueue_loop (S (List.length (responseQueue q))) q.

Definition flushAllQueues (q : Queues) : Queues :=
  flushResponseQueue (flushEventQueue (flushRawCommandQueue q)).

End QueueManager.

(** ** The clock task *)

Module I2CTaskManager.

Import Gateway.

(** Modelled from the spec: the counters of [I2CTaskStats]
    ([BLEGatewayTypes.h]) that the clock task keeps. *)
Record I2CTaskStats := mkI2CTaskStats {
  commandsReceived : Z;
  commandsExecuted : Z;
  commandsFailed : Z;
  eventsGenerated : Z
}.

(** The anonymous struct [_buttonMonitoring]. *)
Record ButtonMonitoring := mkButtonMonitoring {
  lastButtonState : Z;
  lastButtonTime : Z;
  buttonRepeatCount : Z;
  buttonRepeatActive : bool
}.

(** The members of the object that the modelled operations use.  The
    three pointers are [None] when null. *)
Record Task := mkTask {
  _queueManager : option QueueManager.Queues;
  _systemStatus : option SystemStatus;
  _dgt3000 : option DGT3000.Link;
  _dgtConnectionState : ConnectionState;
  _dgtConfigured : bool;
  _bleConnected : bool;
  _lastUpdateTime : Z;
  _lastRecoveryAttempt : Z;
  _recoveryAttempts : Z;
  _connectionStartTime : Z;
  _stats : I2CTaskStats;
  _buttonMonitoring : ButtonMonitoring;
  _initializingDGT : bool
}.

Definition set_queueManager (v : option QueueManager.Queues) (t : Task) : Task :=
  mkTask v (_systemStatus t) (_dgt3000 t) (_dgtConnectionState t)
    (_dgtConfigured t) (_bleConnected t) (_lastUpdateTime t)
    (_lastRecoveryAttempt t) (_recoveryAttempts t) (_connectionStartTime t)
    (_stats t) (_buttonMonitoring t) (_initializingDGT t).

Definition set_systemStatus (v : option SystemStatus) (t : Task) : Task :=
  mkTask (_queueManager t) v (_dgt3000 t) (_dgtConnectionState t)
    (_dgtConfigured t) (_bleConnected t) (_lastUpdateTime t)
    (_lastRecoveryAttempt t) (_recoveryAttempts t) (_connectionStartTime t)
    (_stats t) (_buttonMonitoring t) (_initializingDGT t).

Definition set_dgt3000 (v : option DGT3000.Link) (t : Task) : Task :=
  mkTask (_queueManager t) (_systemStatus t) v (_dgtConnectionState t)
    (_dgtConfigured t) (_bleConnected t) (_lastUpdateTime t)
    (_lastRecoveryAttempt t) (_recoveryAttempts t) (_connectionStartTime t)
    (_stats t) (_buttonMonitoring t) (_initializingDGT t).

Definition set_dgtConnectionState (v : ConnectionState) (t : Task) : Task :=
  mkTask (_queueManager t) (_systemStatus t) (_dgt3000 t) v
    (_dgtConfigured t) (_bleConnected t) (_lastUpdateTime t)
    (_lastRecoveryAttempt t) (_recoveryAttempts t) (_connectionStartTime t)
    (_stats t) (_buttonMonitoring t) (_initializingDGT t).

Definition set_dgtConfigured (v : bool) (t : Task) : Task :=
  mkTask (_queueManager t) (_systemStatus t) (_dgt3000 t)
    (_dgtConnectionState t) v (_bleConnected t) (_lastUpdateTime t)
    (_lastRecoveryAttempt t) (_recoveryAttempts t) (_connectionStartTime t)
    (_stats t) (_buttonMonitoring t) (_initializingDGT t).

Definition set_bleConnected (v : bool) (t : Task) : Task :=
  mkTask (_queueManager t) (_systemStatus t) (_dgt3000 t)
    (_dgtConnectionState t) (_dgtConfigured t) v (_lastUpdateTime t)
    (_lastRecoveryAttempt t) (_recoveryAttempts t) (_connectionStartTime t)
    (_stats t) (_buttonMonitoring t) (_initializingDGT t).

Definition set_lastRecoveryAttempt (v : Z) (t : Task) : Task :=
  mkTask (_queueManager t) (_systemStatus t) (_dgt3000 t)
    (_dgtConnectionState t) (_dgtConfigured t) (_bleConnected t)
    (_lastUpdateTime t) v (_recoveryAttempts t) (_connectionStartTime t)
    (_stats t) (_buttonMonitoring t) (_initializingDGT t).

Definition set_recoveryAttempts (v : Z) (t : Task) : Task :=
  mkTask (_queueManager t) (_systemStatus t) (_dgt3000 t)
    (_dgtConnectionState t) (_dgtConfigured t) (_bleConnected t)
    (_lastUpdateTime t) (_lastRecoveryAttempt t) v (_connectionStartTime t)
    (_stats t) (_buttonMonitoring t) (_initializingDGT t).

Definition set_connectionStartTime (v : Z) (t : Task) : Task :=
  mkTask (_queueManager t) (_systemStatus t) (_dgt3000 t)
    (_dgtConnectionState t) (_dgtConfigured t) (_bleConnected t)
    (_lastUpdateTime t) (_lastRecoveryAttempt t) (_recoveryAttempts t) v
    (_stats t) (_buttonMonitoring t) (_initializingDGT t).

Definition set_stats (v : I2CTaskStats) (t : Task) : Task :=
  mkTask (_queueManager t) (_systemStatus t) (_dgt3000 t)
    (_dgtConnectionState t) (_dgtConfigured t) (_bleConnected t)
    (_lastUpdateTime t) (_lastRecoveryAttempt t) (_recoveryAttempts t)
    (_connectionStartTime t) v (_buttonMonitoring t) (_initializingDGT t).

Definition set_buttonMonitoring (v : ButtonMonitoring) (t : Task) : Task :=
  mkTask (_queueManager t) (_systemStatus t) (_dgt3000 t)
    (_dgtConnectionState t) (_dgtConfigured t) (_bleConnected t)
    (_lastUpdateTime t) (_lastRecoveryAttempt t) (_recoveryAttempts t)
    (_connectionStartTime t) (_stats t) v (_initializingDGT t).

Definition set_initializingDGT (v : bool) (t : Task) : Task :=
  mkTask (_queueManager t) (_systemStatus t) (_dgt3000 t)
    (_dgtConnectionState t) (_dgtConfigured t) (_bleConnected t)
    (_lastUpdateTime t) (_lastRecoveryAttempt t) (_recoveryAttempts t)
    (_connectionStartTime t) (_stats t) (_buttonMonitoring t) v.

(** [_stats.eventsGenerated++] and its three siblings. *)
Definition count_eventGenerated (t : Task) : Task :=
  let st := _stats t in
  set_stats (mkI2CTaskStats (commandsReceived st) (commandsExecuted st)
               (commandsFailed st) (uint32 (eventsGenerated st + 1))) t.

Definition count_commandReceived (t : Task) : Task :=
  let st := _stats t in
  set_stats (mkI2CTaskStats (uint32 (commandsReceived st + 1))
               (commandsExecuted st) (commandsFailed st) (eventsGenerated st)) t.

Definition count_commandExecuted (t : Task) : Task :=
  let st := _stats t in
  set_stats (mkI2CTaskStats (commandsReceived st)
               (uint32 (commandsExecuted st + 1)) (commandsFailed st)
               (eventsGenerated st)) t.

Definition count_commandFailed (t : Task) : Task :=
  let st := _stats t in
  set_stats (mkI2CTaskStats (commandsReceived st) (commandsExecuted st)
               (uint32 (commandsFailed st + 1)) (eventsGenerated st)) t.

(** [I2CTaskManager(queueMgr, status)] followed by the creation of the
    driver object in [initialize()]. *)
Definition new_I2CTaskManager (queueMgr : option QueueManager.Queues)
  (status : option SystemStatus) : Task :=
  mkTask queueMgr status (Some DGT3000.new_DGT3000) DISCONNECTED false false
    0 0 0 0 (mkI2CTaskStats 0 0 0 0) (mkButtonMonitoring 0 0 0 false) false.

Definition isDGT3000Connected (t : Task) : bool :=
  ConnectionState_eqb (_dgtConnectionState t) CONNECTED.

Definition isDGT3000Configured (t : Task) : bool := _dgtConfigured t.

Definition getButtonName (buttonCode : Z) : string :=
  if buttonCode =? DGT3000.DGT_BUTTON_BACK then "back"
  else if buttonCode =? DGT3000.DGT_BUTTON_MINUS then "minus"
  else if buttonCode =? DGT3000.DGT_BUTTON_PLAY_PAUSE then "play_pause"
  else if buttonCode =? DGT3000.DGT_BUTTON_PLUS then "plus"
  else if buttonCode =? DGT3000.DGT_BUTTON_FORWARD then "forward"
  else if buttonCode =? DGT3000.DGT_EVENT_ON_OFF_PRESS then "on_off_press"
  else if buttonCode =? DGT3000.DGT_EVENT_ON_OFF_RELEASE then "on_off_release"
  else if buttonCode =? DGT3000.DGT_EVENT_LEVER_RIGHT then "lever_right"
  else if buttonCode =? DGT3000.DGT_EVENT_LEVER_LEFT then "lever_left"
  else "unknown".

Definition mapDGTErrorToSystemError (dgtError : Z) : SystemErrorCode :=
  if (dgtError =? DGT3000.DGT_ERROR_I2C_COMM)
     || (dgtError =? DGT3000.DGT_ERROR_I2C_INIT)
  then I2C_COMMUNICATION_ERROR
  else if (dgtError =? DGT3000.DGT_ERROR_TIMEOUT)
          || (dgtError =? DGT3000.DGT_ERROR_NO_ACK)
  then COMMAND_TIMEOUT
  else if dgtError =? DGT3000.DGT_ERROR_NOT_CONFIGURED then DGT_NOT_CONFIGURED
  else if dgtError =? DGT3000.DGT_ERROR_CRC then I2C_CRC_ERROR
  else if dgtError =? DGT3000.DGT_ERROR_CLOCK_OFF then DGT_NOT_CONNECTED
  else UNKNOWN_ERROR.

(** What the task reads from [_commandParamsDoc["params"]], after the
    conversions of the JSON library: the eight [uint8_t] members of
    [setTime] and [run], and the members of [displayText] ([beep] and
    the dot masks read 0 when absent). *)
Record Params := mkParams {
  leftMode : Z;
  leftHours : Z;
  leftMinutes : Z;
  leftSeconds : Z;
  rightMode : Z;
  rightHours : Z;
  rightMinutes : Z;
  rightSeconds : Z;
  text : option string;
  beep : Z;
  leftDots : Z;
  rightDots : Z
}.

(** What [deserializeJson] leaves in [_commandParamsDoc]: the error, if
    any, with its text, and the members the task reads ([doc_id] and
    [doc_command] are [None] when the member is absent or not a
    string). *)
Record CommandDoc := mkCommandDoc {
  error : option string;
  doc_id : option string;
  doc_command : option string;
  params : Params
}.

Definition bytes_of_string (s : string) : list Z :=
  map (fun c => Z.of_N (N_of_ascii c)) (list_ascii_of_string s).

Section WithEnvironment.

(** The I2C peripherals, the JSON parser and [SystemStatus::updateActivity]
    are outside the sources; [now] below is the reading of [millis()]
    during a call. *)
Variable bus : DGT3000.Bus.
Variable deserializeJson : string -> CommandDoc.
Variable updateActivity : SystemStatus -> SystemStatus.

Definition sendCommandResponse (now : Z) (id : string) (success : bool)
  (result : JsonDocument) (t : Task) : Task :=
  match _queueManager t with
  | None => t
  | Some q =>
    let response :=
      if success then
        mkCommandResponse (strncpy0 id (APP_MAX_COMMAND_ID_LENGTH - 1))
          success now result (Gateway.errorCode new_CommandResponse)
          (Gateway.errorMessage new_CommandResponse)
      else
        let code := match json_get "errorCode" result with
                    | Some (JCode c) => c
                    | _ => SUCCESS
                    end in
        let msg := match json_get "errorMessage" result with
                   | Some (JStr m) => m
                   | _ => ""%string
                   end in
        mkCommandResponse (strncpy0 id (APP_MAX_COMMAND_ID_LENGTH - 1))
          success now (Gateway.result new_CommandResponse) code
          (strncpy0 msg (APP_MAX_ERROR_MESSAGE_LENGTH - 1)) in
    let '(_, q) := QueueManager.sendResponse (Some response) q in
    let t := set_queueManager (Some q) t in
    match _systemStatus t with
    | Some st =>
      let st := mkSystemStatus (dgtConnectionState st) (dgtConfigured st)
                  (uint32 (commandsProcessed st + 1)) (lastError st)
                  (lastErrorMessage st) in
      set_systemStatus (Some (updateActivity st)) t
    | None => t
    end
  end.

Definition sendCommandError (now : Z) (id : string) (errorCode : SystemErrorCode)
  (message : option string) (t : Task) : Task :=
  let doc : JsonDocument := [] in
  let doc := json_set "errorCode" (JCode errorCode) doc in
  let doc := json_set "errorMessage"
               (JStr match message with
                     | Some m => m
                     | None => getErrorCodeString errorCode
                     end) doc in
  sendCommandResponse now id false doc t.

Definition generateTimeEvent (now : Z) (time : list Z) (t : Task) : Task :=
  match _queueManager t with
  | None => t
  | Some q =>
    let timeData : JsonDocument := [] in
    let timeData := json_set "leftHours" (JInt (at_ time 0)) timeData in
    let timeData := json_set "leftMinutes" (JInt (at_ time 1)) timeData in
    let timeData := json_set "leftSeconds" (JInt (at_ time 2)) timeData in
    let timeData := json_set "rightHours" (JInt (at_ time 3)) timeData in
    let timeData := json_set "rightMinutes" (JInt (at_ time 4)) timeData in
    let timeData := json_set "rightSeconds" (JInt (at_ time 5)) timeData in
    let event := mkDGTEvent TIME_UPDATE 1 now timeData in
    let '(sent, q) := QueueManager.sendEvent (Some event) q in
    let t := set_queueManager (Some q) t in
    if sent then count_eventGenerated t else t
  end.

Definition generateConnectionStatusEvent (now : Z) (connected configured : bool)
  (t : Task) : Task :=
  match _queueManager t with
  | None => t
  | Some q =>
    let event := new_DGTEvent CONNECTION_STATUS now in
    let d := json_set "connected" (JBool connected) (data event) in
    let d := json_set "configured" (JBool configured) d in
    let event := mkDGTEvent (type event) (priority event) (ev_timestamp event) d in
    let '(_, q) := QueueManager.sendEvent (Some event) q in
    set_queueManager (Some q) t
  end.

Definition generateErrorEvent (now : Z) (errorCode : SystemErrorCode)
  (message : option string) (t : Task) : Task :=
  match _queueManager t with
  | None => t
  | Some q =>
    let event := new_DGTEvent ERROR_EVENT now in
    let d := json_set "errorCode" (JCode errorCode) (data event) in
    let d := json_set "errorMessage"
               (JStr match message with
                     | Some m => m
                     | None => getErrorCodeString errorCode
                     end) d in
    let event := mkDGTEvent (type event) (priority event) (ev_timestamp event) d in
    let '(_, q) := QueueManager.sendPriorityEvent (Some event) q in
    set_queueManager (Some q) t
  end.

(** The loop [while (_dgt3000->getButtonEvent(&button))] with [fuel]
    turns left; the ring holds fewer than 16 events. *)
Fixpoint generateButtonEvent_loop (fuel : nat) (now : Z)
  (q : QueueManager.Queues) (link : DGT3000.Link) (t : Task)
  : QueueManager.Queues * DGT3000.Link * Task :=
  match fuel with
  | O => (q, link, t)
  | S fuel' =>
    let '(got, button, link) := DGT3000.getButtonEvent (Some 0) link in
    if negb got then (q, link, t)
    else
      let button := match button with Some b => b | None => 0 end in
      let buttonName := getButtonName button in
      let buttonData : JsonDocument := [] in
      let buttonData := json_set "button" (JStr buttonName) buttonData in
      let buttonData := json_set "buttonCode" (JInt button) buttonData in
      let buttonData := json_set "isRepeat" (JBool false) buttonData in
      let event := mkDGTEvent BUTTON_EVENT 0 now buttonData in
      let '(sent, q) := QueueManager.sendPriorityEvent (Some event) q in
      let t :=
        if sent then
          let t := count_eventGenerated t in
          let m := _buttonMonitoring t in
          set_buttonMonitoring
            (mkButtonMonitoring (lastButtonState m) (lastButtonTime m) 0 false) t
        else t in
      generateButtonEvent_loop fuel' now q link t
  end.

Definition generateButtonEvent (now : Z) (t : Task) : Task :=
  match _queueManager t, _dgt3000 t with
  | Some q, Some link =>
    let '(q, link, t) := generateButtonEvent_loop 16 now q link t in
    set_dgt3000 (Some link) (set_queueManager (Some q) t)
  | _, _ => t
  end.

Definition handleButtonRepeat (now : Z) (t : Task) : Task :=
  match _queueManager t, _dgt3000 t with
  | Some q, Some link =>
    let '(currentButtonState, link) := DGT3000.getButtonState link in
    let t := set_dgt3000 (Some link) t in
    let mainButtonsState := Z.land currentButtonState 0x1F in
    let m := _buttonMonitoring t in
    if negb (mainButtonsState =? 0) then
      let m :=
        if negb (buttonRepeatActive m)
        then mkButtonMonitoring mainButtonsState now 0 true
        else m in
      if lastButtonState m =? mainButtonsState then
        let holdDuration := uint32 (now - lastButtonTime m) in
        let repeatThreshold := if buttonRepeatCount m =? 0 then 800 else 400 in
        if holdDuration >? repeatThreshold then
          let m := mkButtonMonitoring (lastButtonState m) now
                     (uint32 (buttonRepeatCount m + 1)) (buttonRepeatActive m) in
          let t := set_buttonMonitoring m t in
          let buttonName := getButtonName mainButtonsState in
          let buttonData : JsonDocument := [] in
          let buttonData := json_set "button" (JStr buttonName) buttonData in
          let buttonData :=
            json_set "buttonCode" (JInt mainButtonsState) buttonData in
          let buttonData := json_set "isRepeat" (JBool true) buttonData in
          let buttonData :=
            json_set "repeatCount" (JInt (buttonRepeatCount m)) buttonData in
          let event := mkDGTEvent BUTTON_EVENT 0 now buttonData in
          let '(sent, q) := QueueManager.sendPriorityEvent (Some event) q in
          let t := set_queueManager (Some q) t in
          if sent then count_eventGenerated t else t
        else set_buttonMonitoring m t
      else
        set_buttonMonitoring
          (mkButtonMonitoring (lastButtonState m) (lastButtonTime m) 0 false) t
    else
      set_buttonMonitoring
        (mkButtonMonitoring (lastButtonState m) (lastButtonTime m) 0 false) t
  | _, _ => t
  end.

Definition updateConnectionState (t : Task) : Task :=
  match _systemStatus t with
  | Some st =>
    set_systemStatus
      (Some (mkSystemStatus (_dgtConnectionState t) (_dgtConfigured t)
               (commandsProcessed st) (lastError st) (lastErrorMessage st))) t
  | None => t
  end.

Definition handleDGT3000Error (now : Z) (error : Z) (t : Task) : Task :=
  let systemError := mapDGTErrorToSystemError error in
  let t := generateErrorEvent now systemError
             (Some (DGT3000.getErrorString error)) t in
  let t :=
    match _systemStatus t with
    | Some st =>
      set_systemStatus
        (Some (mkSystemStatus (dgtConnectionState st) (dgtConfigured st)
                 (commandsProcessed st) systemError
                 (strncpy0 (DGT3000.getErrorString error)
                    (APP_MAX_ERROR_MESSAGE_LENGTH - 1)))) t
    | None => t
    end in
  if (error =? DGT3000.DGT_ERROR_I2C_COMM) || (error =? DGT3000.DGT_ERROR_TIMEOUT)
     || (error =? DGT3000.DGT_ERROR_NO_ACK)
     || (error =? DGT3000.DGT_ERROR_CLOCK_OFF)
     || (error =? DGT3000.DGT_ERROR_CRC)
     || (error =? DGT3000.DGT_ERROR_NOT_CONFIGURED) then
    if ConnectionState_eqb (_dgtConnectionState t) CONNECTED then
      let t := set_dgtConnectionState DISCONNECTED t in
      let t := set_dgtConfigured false t in
      let t := generateConnectionStatusEvent now false false t in
      updateConnectionState t
    else t
  else t.

Definition configureDGT3000 (t : Task) : bool * Task :=
  match _dgt3000 t with
  | None => (false, t)
  | Some link =>
    let '(ok, link) := DGT3000.configure bus link in
    (ok, set_dgt3000 (Some link) t)
  end.

Definition performRecovery (now : Z) (t : Task) : bool * Task :=
  let '(ok, t) := configureDGT3000 t in
  if ok then
    let t := set_dgtConnectionState CONNECTED t in
    let t := set_dgtConfigured true t in
    let t := set_recoveryAttempts 0 t in
    let t := generateConnectionStatusEvent now true true t in
    (true, t)
  else (false, t).

Definition attemptRecovery (now : Z) (t : Task) : bool * Task :=
  if (I2C_TASK_MAX_RECOVERY_ATTEMPTS >? 0)
     && (_recoveryAttempts t >=? I2C_TASK_MAX_RECOVERY_ATTEMPTS) then (false, t)
  else if uint32 (now - _lastRecoveryAttempt t) <? I2C_TASK_RECOVERY_DELAY_MS
  then (false, t)
  else
    let t := set_recoveryAttempts (uint8 (_recoveryAttempts t + 1)) t in
    let t := set_lastRecoveryAttempt now t in
    performRecovery now t.

Definition shouldAttemptRecovery (t : Task) : bool :=
  negb (isDGT3000Connected t) && _bleConnected t && negb (_initializingDGT t)
  && ((I2C_TASK_MAX_RECOVERY_ATTEMPTS =? 0)
      || (_recoveryAttempts t <? I2C_TASK_MAX_RECOVERY_ATTEMPTS)).

Definition monitorConnection (now : Z) (t : Task) : Task :=
  let t := if shouldAttemptRecovery t then snd (attemptRecovery now t) else t in
  updateConnectionState t.

Definition DGT3000_MASTER_SDA_PIN : Z := 8.
Definition DGT3000_MASTER_SCL_PIN : Z := 5.
Definition DGT3000_SLAVE_SDA_PIN : Z := 7.
Definition DGT3000_SLAVE_SCL_PIN : Z := 6.

Definition initializeDGT3000 (now : Z) (t : Task) : bool * Task :=
  let t := set_initializingDGT true t in
  match _dgt3000 t with
  | None => (false, set_initializingDGT false t)
  | Some link =>
    let t := set_connectionStartTime now t in
    let '(ok, link) :=
      DGT3000.begin bus DGT3000_MASTER_SDA_PIN DGT3000_MASTER_SCL_PIN
        DGT3000_SLAVE_SDA_PIN DGT3000_SLAVE_SCL_PIN link in
    let t := set_dgt3000 (Some link) t in
    if negb ok then (false, set_initializingDGT false t)
    else
      let t := set_dgt3000 (Some (DGT3000.delay bus link)) t in
      let '(ok, t) := configureDGT3000 t in
      if negb ok then (false, set_initializingDGT false t)
      else
        let t := set_dgtConnectionState CONNECTED t in
        let t := set_dgtConfigured true t in
        let t :=
          match _systemStatus t with
          | Some st =>
            set_systemStatus
              (Some (updateActivity
                       (mkSystemStatus (_dgtConnectionState t)
                          (_dgtConfigured t) (commandsProcessed st)
                          (lastError st) (lastErrorMessage st)))) t
          | None => t
          end in
        let t := generateConnectionStatusEvent now true true t in
        (true, set_initializingDGT false t)
  end.

Definition cleanupDGT3000 (now : Z) (t : Task) : Task :=
  match _dgt3000 t with
  | None => t
  | Some link =>
    if negb (isDGT3000Connected t) then t
    else
      let t := set_dgt3000 (Some (DGT3000.end_ bus link)) t in
      let t := set_dgtConnectionState DISCONNECTED t in
      let t := set_dgtConfigured false t in
      let t :=
        match _systemStatus t with
        | Some st =>
          set_systemStatus
            (Some (updateActivity
                     (mkSystemStatus (_dgtConnectionState t) (_dgtConfigured t)
                        (commandsProcessed st) (lastError st)
                        (lastErrorMessage st)))) t
        | None => t
        end in
      generateConnectionStatusEvent now false false t
  end.

Definition onBLEConnected (now : Z) (t : Task) : Task :=
  let t := set_bleConnected true t in
  let '(ok, t) := initializeDGT3000 now t in
  if negb ok then
    generateErrorEvent now I2C_COMMUNICATION_ERROR
      (Some "Failed to initialize DGT3000"%string) t
  else t.

Definition onBLEDisconnected (now : Z) (t : Task) : Task :=
  let t := set_bleConnected false t in
  cleanupDGT3000 now t.

(** The ending shared by the five [execute...] functions that drive the
    clock: a success response with a status text, or the error handling
    and an error response. *)
Definition reportOutcome (now : Z) (id : string) (success : bool)
  (link : DGT3000.Link) (status failure : string) (t : Task) : bool * Task :=
  let t := set_dgt3000 (Some link) t in
  if success then
    let doc := json_set "status" (JStr status) [] in
    (success, sendCommandResponse now id true doc t)
  else
    let t := handleDGT3000Error now (DGT3000.getLastError link) t in
    (success, sendCommandError now id I2C_COMMUNICATION_ERROR (Some failure) t).

(** In the [execute...] functions [_dgt3000] is dereferenced without a
    test; with a null pointer the behaviour is undefined, and the model
    leaves the task as it is and reports failure. *)
Definition executeSetTime (now : Z) (id : string) (p : Params) (t : Task)
  : bool * Task :=
  if negb (DGT3000.validateTimeParameters (leftMode p) (leftHours p)
             (leftMinutes p) (leftSeconds p) (rightMode p) (rightHours p)
             (rightMinutes p) (rightSeconds p)) then
    (false, sendCommandError now id JSON_INVALID_PARAMETERS
              (Some "Invalid time parameters"%string) t)
  else
    match _dgt3000 t with
    | None => (false, t)
    | Some link =>
      let '(success, link) :=
        DGT3000.setAndRun bus (leftMode p) (leftHours p) (leftMinutes p)
          (leftSeconds p) (rightMode p) (rightHours p) (rightMinutes p)
          (rightSeconds p) link in
      reportOutcome now id success link "Time set successfully"
        "Failed to set time on DGT3000" t
    end.

Definition executeDisplayText (now : Z) (id : string) (p : Params) (t : Task)
  : bool * Task :=
  let text := option_map bytes_of_string (text p) in
  if negb (DGT3000.validateDisplayTextParameters text (beep p) (leftDots p)
             (rightDots p)) then
    (false, sendCommandError now id JSON_INVALID_PARAMETERS
              (Some "Invalid display text parameters"%string) t)
  else
    match _dgt3000 t with
    | None => (false, t)
    | Some link =>
      let '(success, link) :=
        DGT3000.displayText bus text (beep p) (leftDots p) (rightDots p) link in
      reportOutcome now id success link "Text displayed successfully"
        "Failed to display text on DGT3000" t
    end.

Definition executeEndDisplay (now : Z) (id : string) (t : Task) : bool * Task :=
  match _dgt3000 t with
  | None => (false, t)
  | Some link =>
    let '(success, link) := DGT3000.endDisplay bus link in
    reportOutcome now id success link "Display ended successfully"
      "Failed to end display" t
  end.

Definition executeStop (now : Z) (id : string) (t : Task) : bool * Task :=
  match _dgt3000 t with
  | None => (false, t)
  | Some link =>
    let '(success, link) := DGT3000.stop bus link in
    reportOutcome now id success link "Timers stopped successfully"
      "Failed to stop timers" t
  end.

Definition executeRun (now : Z) (id : string) (p : Params) (t : Task)
  : bool * Task :=
  if negb (DGT3000.validateRunParameters (leftMode p) (rightMode p)) then
    (false, sendCommandError now id JSON_INVALID_PARAMETERS
              (Some "Invalid run parameters"%string) t)
  else
    match _dgt3000 t with
    | None => (false, t)
    | Some link =>
      let '(success, link) :=
        DGT3000.run bus (leftMode p) (rightMode p) link in
      reportOutcome now id success link "Timers started successfully"
        "Failed to start timers" t
    end.

Definition executeGetTime (now : Z) (id : string) (t : Task) : bool * Task :=
  match _dgt3000 t with
  | None => (false, t)
  | Some link =>
    let '(got, time, link) := DGT3000.getTime (Some (repeat 0 6)) link in
    let t := set_dgt3000 (Some link) t in
    if got then
      let time := match time with Some a => a | None => [] end in
      let result : JsonDocument := [] in
      let result := json_set "leftHours" (JInt (at_ time 0)) result in
      let result := json_set "leftMinutes" (JInt (at_ time 1)) result in
      let result := json_set "leftSeconds" (JInt (at_ time 2)) result in
      let result := json_set "rightHours" (JInt (at_ time 3)) result in
      let result := json_set "rightMinutes" (JInt (at_ time 4)) result in
      let result := json_set "rightSeconds" (JInt (at_ time 5)) result in
      (true, sendCommandResponse now id true result t)
    else
      let t := handleDGT3000Error now (DGT3000.getLastError link) t in
      (false, sendCommandError now id I2C_COMMUNICATION_ERROR
                (Some "Failed to get time"%string) t)
  end.

Definition executeGetStatus (now : Z) (id : string) (t : Task) : bool * Task :=
  let result : JsonDocument := [] in
  let result := json_set "dgtConnected" (JBool (isDGT3000Connected t)) result in
  let result := json_set "dgtConfigured" (JBool (isDGT3000Configured t)) result in
  let result := json_set "bleConnected" (JBool (_bleConnected t)) result in
  let result := json_set "lastUpdateTime" (JInt (_lastUpdateTime t)) result in
  let result := json_set "recoveryAttempts" (JInt (_recoveryAttempts t)) result in
  let result :=
    match _dgt3000 t with
    | Some link =>
      let result :=
        json_set "lastDgtError" (JInt (DGT3000.getLastError link)) result in
      json_set "lastDgtErrorString"
        (JStr (DGT3000.getErrorString (DGT3000.getLastError link))) result
    | None => result
    end in
  (true, sendCommandResponse now id true result t).

Definition executeCommand (now : Z) (id commandName : string) (p : Params)
  (t : Task) : bool * Task :=
  if String.eqb commandName "setTime" then executeSetTime now id p t
  else if String.eqb commandName "displayText" then executeDisplayText now id p t
  else if String.eqb commandName "endDisplay" then executeEndDisplay now id t
  else if String.eqb commandName "stop" then executeStop now id t
  else if String.eqb commandName "run" then executeRun now id p t
  else if String.eqb commandName "getTime" then executeGetTime now id t
  else if String.eqb commandName "getStatus" then executeGetStatus now id t
  else (false, sendCommandError now id JSON_INVALID_COMMAND
                 (Some "Unknown command"%string) t).

Definition processCommand (now : Z) (t : Task) : Task :=
  match _queueManager t with
  | None => t
  | Some q =>
    let '(rawCmd, q) := QueueManager.receiveRawCommand q in
    let t := set_queueManager (Some q) t in
    match rawCmd with
    | None => t
    | Some rawCmd =>
      let t := count_commandReceived t in
      let doc := deserializeJson (jsonData rawCmd) in
      let id := doc_id doc in
      match error doc with
      | Some text =>
        match id with
        | Some id => sendCommandError now id JSON_PARSE_ERROR (Some text) t
        | None => t
        end
      | None =>
        let commandName := doc_command doc in
        match id, commandName with
        | Some id, Some commandName =>
          let needsDGT := negb (String.eqb commandName "getStatus") in
          if needsDGT && negb (isDGT3000Connected t) then
            sendCommandError now id DGT_NOT_CONFIGURED
              (Some "DGT3000 not connected"%string) t
          else
            let '(success, t) :=
              executeCommand now id commandName (params doc) t in
            if success then count_commandExecuted t else count_commandFailed t
        | Some id, None =>
          sendCommandError now id JSON_INVALID_COMMAND
            (Some "Missing 'id' or 'command' field"%string) t
        | None, _ => t
        end
      end
    end
  end.

Definition handleEvents (now : Z) (t : Task) : Task :=
  match _dgt3000 t with
  | None => t
  | Some _ =>
    if negb (isDGT3000Connected t) then t
    else
      let t := generateButtonEvent now t in
      let t := handleButtonRepeat now t in
      match _dgt3000 t with
      | None => t
      | Some link =>
        let '(fresh_time, link) := DGT3000.isNewTimeAvailable link in
        let t := set_dgt3000 (Some link) t in
        if fresh_time then
          let '(got, time, link) := DGT3000.getTime (Some (repeat 0 6)) link in
          let t := set_dgt3000 (Some link) t in
          match got, time with
          | true, Some time => generateTimeEvent now time t
          | _, _ => t
          end
        else t
      end
  end.

End WithEnvironment.

End I2CTaskManager.

(** ** Vocabulary of the properties *)

Module Spec.

(** CRC-8-ATM in the words of the specification: polynomial
    [x^8 + x^2 + x + 1], initial value 0, one byte at a time, most
    significant bit first. *)
Definition crc8_shift (crc : Z) : Z :=
  if Z.testbit crc 7
  then Z.land (Z.lxor (Z.shiftl crc 1) 0x07) 0xFF
  else Z.land (Z.shiftl crc 1) 0xFF.

Definition crc8_byte (crc x : Z) : Z := Nat.iter 8 crc8_shift (Z.lxor crc x).

Definition crc8_atm (message : list Z) : Z := fold_left crc8_byte message 0.

(** The frame with bit [k] of byte [i] flipped. *)
Definition flip_bit (F : list Z) (i k : Z) : list Z :=
  put F i (Z.lxor (at_ F i) (Z.shiftl 1 k)).

(** The event of a button frame, in the priority order the
    specification gives. *)
Definition button_event (current previous : Z) : option Z :=
  let changed := Z.lxor current previous in
  if negb (Z.land changed 0x20 =? 0) then
    Some (if negb (Z.land current 0x20 =? 0) then 0x20 else 0xA0)
  else if negb (Z.land changed 0x40 =? 0) then
    Some (if negb (Z.land current 0x40 =? 0) then 0xC0 else 0x40)
  else
    let main_pressed := Z.land (Z.land changed current) 0x1F in
    if negb (main_pressed =? 0) then Some main_pressed else None.

(** Two decimal digits, one per nibble. *)
Definition bcd (b : Z) : Z := (b / 16) * 10 + b mod 16.

(** The ClockTime invariants of the specification on the six parsed
    fields. *)
Definition clock_time_ok (left_h left_m left_s right_h right_m right_s : Z)
  : Prop :=
  left_h <= 9 /\ left_m <= 59 /\ left_s <= 59
  /\ right_h <= 9 /\ right_m <= 59 /\ right_s <= 59.

(** The translation of link errors in the words of the specification. *)
Definition system_error_of (dgtError : Z) : Gateway.SystemErrorCode :=
  if dgtError =? DGT3000.DGT_ERROR_I2C_COMM
  then Gateway.I2C_COMMUNICATION_ERROR
  else if (dgtError =? DGT3000.DGT_ERROR_TIMEOUT)
          || (dgtError =? DGT3000.DGT_ERROR_NO_ACK)
  then Gateway.COMMAND_TIMEOUT
  else if dgtError =? DGT3000.DGT_ERROR_NOT_CONFIGURED
  then Gateway.DGT_NOT_CONFIGURED
  else if dgtError =? DGT3000.DGT_ERROR_CRC then Gateway.I2C_CRC_ERROR
  else if dgtError =? DGT3000.DGT_ERROR_CLOCK_OFF
  then Gateway.DGT_NOT_CONNECTED
  else Gateway.UNKNOWN_ERROR.

End Spec.

(** The buffer [calculateCRC(F, n)] leaves behind. *)
Definition with_crc (F : list Z) (n : Z) (s : DGT3000.Link) : list Z :=
  match DGT3000.calculateCRC (Some (DGT3000.fresh F)) n s with
  | (_, Some b, _) => DGT3000.bytes b
  | (_, None, _) => F
  end.

(** The result of [verifyCRC(F, n)]. *)
Definition verified (F : list Z) (n : Z) (s : DGT3000.Link) : bool :=
  fst (fst (DGT3000.verifyCRC (Some (DGT3000.fresh F)) n s)).

(** One step of the table-driven loop, and the loop over a list. *)
Definition crc_step (crc x : Z) : Z := at_ DGT3000.crc_table (Z.lxor crc x).

Definition crc_fold (crc : Z) (l : list Z) : Z := fold_left crc_step l crc.

(** The indices [i, i + 1, ..., i + n - 1]. *)
Definition zrange (i : Z) (n : nat) : list Z :=
  map (fun k => i + Z.of_nat k) (seq 0 n).

Definition all_bytes : list Z := map Z.of_nat (seq 0 256).

(** The position of the CRC byte that [calculateCRC] and [verifyCRC]
    derive from the length field [b1] and the buffer length. *)
Definition crc_position (b1 length : Z) : Z :=
  let crc_length := uint8 (b1 - 1) in
  if crc_length >=? length then uint8 (length - 1) else crc_length.

(** The CRC after the destination address has been consumed. *)
Definition crc_seed : Z := at_ DGT3000.crc_table (Z.lxor 0 0x10).

(** An access that stays inside a buffer of [length] bytes. *)
Definition in_bounds (length : Z) (a : DGT3000.access) : Prop :=
  0 <= DGT3000.index_of a <= length - 1.

(** [addButtonEvent] for each element of [l], in order. *)
Definition pushes (l : list Z) (s : DGT3000.Link) : DGT3000.Link :=
  fold_left (fun s button => DGT3000.addButtonEvent button s) l s.

(** Successive calls of [getButtonEvent], at most [fuel] of them, up to
    the first that returns false; the events read, in order. *)
Fixpoint drain (fuel : nat) (s : DGT3000.Link) : list Z * DGT3000.Link :=
  match fuel with
  | O => ([], s)
  | S fuel' =>
    match DGT3000.getButtonEvent (Some 0) s with
    | (true, Some button, s') =>
      let '(rest, s'') := drain fuel' s' in (button :: rest, s'')
    | (_, _, s') => ([], s')
    end
  end.

(** The last [k] elements of [l]. *)
Definition lastn (k : nat) (l : list Z) : list Z :=
  skipn (List.length l - k) l.

(** The ring buffer is empty and well formed. *)
Definition ring_empty (s : DGT3000.Link) : Prop :=
  0 <= DGT3000.buttonStart (DGT3000._rxData s) < 16
  /\ DGT3000.buttonEnd (DGT3000._rxData s)
     = DGT3000.buttonStart (DGT3000._rxData s)
  /\ List.length (DGT3000.buttonBuffer (DGT3000._rxData s)) = 16%nat.

(** The ring buffer holds the events [q], oldest first. *)
Definition ring_holds (s : DGT3000.Link) (q : list Z) : Prop :=
  0 <= DGT3000.buttonStart (DGT3000._rxData s) < 16
  /\ List.length (DGT3000.buttonBuffer (DGT3000._rxData s)) = 16%nat
  /\ (List.length q <= 15)%nat
  /\ DGT3000.buttonEnd (DGT3000._rxData s)
     = (DGT3000.buttonStart (DGT3000._rxData s)
        + Z.of_nat (List.length q)) mod 16
  /\ forall j, (j < List.length q)%nat ->
       at_ (DGT3000.buttonBuffer (DGT3000._rxData s))
           ((DGT3000.buttonStart (DGT3000._rxData s) + Z.of_nat j) mod 16)
       = nth j q 0.

(** [s'] comes from [s] by steps that keep the initialisation, the two
    peripherals and the re-entry flag, and that raise neither the
    connected nor the configured flag. *)
Definition quiet (s s' : DGT3000.Link) : Prop :=
  DGT3000._initialized s' = DGT3000._initialized s
  /\ DGT3000._i2cMaster s' = DGT3000._i2cMaster s
  /\ DGT3000._i2cSlave s' = DGT3000._i2cSlave s
  /\ DGT3000._recoveryInProgress s' = DGT3000._recoveryInProgress s
  /\ (DGT3000._connected s' = true -> DGT3000._connected s = true)
  /\ (DGT3000._configured s' = true -> DGT3000._configured s = true).

(** [s'] comes from [s] by steps that keep the initialisation, the two
    peripherals and the re-entry flag, and that do not raise the
    configured flag. *)
Definition steady (s s' : DGT3000.Link) : Prop :=
  DGT3000._initialized s' = DGT3000._initialized s
  /\ DGT3000._i2cMaster s' = DGT3000._i2cMaster s
  /\ DGT3000._i2cSlave s' = DGT3000._i2cSlave s
  /\ DGT3000._recoveryInProgress s' = DGT3000._recoveryInProgress s
  /\ (DGT3000._configured s' = true -> DGT3000._configured s = true).

(** No frame among [arrived] has the message type of a time frame. *)
Definition time_free (arrived : list (list Z)) : bool :=
  forallb (fun frame => negb (at_ frame 2 =? 4)) arrived.

(** The environment delivers no time frame. *)
Definition no_time_frames (bus : DGT3000.Bus) : Prop :=
  forall n,
    time_free (DGT3000.delays bus n) = true
    /\ forallb time_free (DGT3000.ackPolls bus n) = true
    /\ forallb time_free (DGT3000.pingPolls bus n) = true.

(** [s'] comes from [s] by steps of the link on [bus]: they are steady,
    and quiet when the bus delivers no time frame. *)
Definition settled (bus : DGT3000.Bus) (s s' : DGT3000.Link) : Prop :=
  steady s s' /\ (no_time_frames bus -> quiet s s').

(** [s'] comes from [s] by runs of the slave-receive callback: they
    leave the fields that the outbound side owns, and do not raise the
    configured flag. *)
Definition received (s s' : DGT3000.Link) : Prop :=
  DGT3000._initialized s' = DGT3000._initialized s
  /\ DGT3000._i2cMaster s' = DGT3000._i2cMaster s
  /\ DGT3000._i2cSlave s' = DGT3000._i2cSlave s
  /\ DGT3000._recoveryInProgress s' = DGT3000._recoveryInProgress s
  /\ DGT3000._lastError s' = DGT3000._lastError s
  /\ DGT3000._currentListenAddress s' = DGT3000._currentListenAddress s
  /\ DGT3000.wire s' = DGT3000.wire s
  /\ (DGT3000._configured s' = true -> DGT3000._configured s = true).

(** The command that the frame [f] acknowledges, when the slave-receive
    callback takes [f] for an acknowledgement: 5 to 255 bytes, of which
    the first is 0x10 and the third the message type 1. *)
Definition ack_of (f : list Z) : option Z :=
  if (5 <=? Z.of_nat (List.length f)) && (Z.of_nat (List.length f) <=? 255)
     && (at_ f 0 =? 0x10) && (at_ f 2 =? 1)
  then Some (at_ f 3) else None.

(** The acknowledgement that is pending after the frames [arrived],
    when [pending] was before them: that of the last acknowledgement
    among them. *)
Definition latest_ack (pending : option Z) (arrived : list (list Z))
  : option Z :=
  fold_left (fun p f => match ack_of f with Some c => Some c | None => p end)
            arrived pending.

Definition is_ack_of (expected : Z) (pending : option Z) : bool :=
  match pending with
  | Some c => c =? expected
  | None => false
  end.

(** A wait for the acknowledgement of [expected] whose turns receive
    [polls] sees it: at the start of one of the turns, the latest
    acknowledgement received since the wait began is that of
    [expected]. *)
Definition acknowledged (expected : Z) (polls : list (list (list Z))) : bool :=
  existsb (fun k => is_ack_of expected
                      (latest_ack None (List.concat (firstn k polls))))
          (seq 0 (List.length polls)).


(** The repeat event that [handleButtonRepeat] builds. *)
Definition repeat_event (now mask count : Z) : Gateway.DGTEvent :=
  Gateway.mkDGTEvent Gateway.BUTTON_EVENT 0 now
    [("button"%string, Gateway.JStr (I2CTaskManager.getButtonName mask));
     ("buttonCode"%string, Gateway.JInt mask);
     ("isRepeat"%string, Gateway.JBool true);
     ("repeatCount"%string, Gateway.JInt count)].


(** The task's two records of the clock agree: it holds the clock for
    configured exactly when it holds it for connected. *)
Definition coherent (t : I2CTaskManager.Task) : Prop :=
  I2CTaskManager._dgtConfigured t = true
  <-> I2CTaskManager._dgtConnectionState t = Gateway.CONNECTED.

(** The events and the responses that wait in the queues of the task. *)
Definition events_of (t : I2CTaskManager.Task) : list Gateway.DGTEvent :=
  match I2CTaskManager._queueManager t with
  | Some q => QueueManager.eventQueue q
  | None => []
  end.

Definition responses_of (t : I2CTaskManager.Task)
  : list Gateway.CommandResponse :=
  match I2CTaskManager._queueManager t with
  | Some q => QueueManager.responseQueue q
  | None => []
  end.

(** [t'] has the same two records of the clock as [t]. *)
Definition keeps (t t' : I2CTaskManager.Task) : Prop :=
  I2CTaskManager._dgtConnectionState t' = I2CTaskManager._dgtConnectionState t
  /\ I2CTaskManager._dgtConfigured t' = I2CTaskManager._dgtConfigured t.

(** The states of the task that its operations reach from its
    construction. *)
Inductive reachable (bus : DGT3000.Bus) (deserializeJson : string -> I2CTaskManager.CommandDoc)
  (updateActivity : Gateway.SystemStatus -> Gateway.SystemStatus) : I2CTaskManager.Task -> Prop :=
| reach_new (queueMgr : option QueueManager.Queues)
    (status : option Gateway.SystemStatus) :
    reachable bus deserializeJson updateActivity
      (I2CTaskManager.new_I2CTaskManager queueMgr status)
| reach_processCommand (now : Z) (t : I2CTaskManager.Task) :
    reachable bus deserializeJson updateActivity t ->
    reachable bus deserializeJson updateActivity
      (I2CTaskManager.processCommand bus deserializeJson updateActivity now t)
| reach_handleEvents (now : Z) (t : I2CTaskManager.Task) :
    reachable bus deserializeJson updateActivity t ->
    reachable bus deserializeJson updateActivity (I2CTaskManager.handleEvents now t)
| reach_monitorConnection (now : Z) (t : I2CTaskManager.Task) :
    reachable bus deserializeJson updateActivity t ->
    reachable bus deserializeJson updateActivity (I2CTaskManager.monitorConnection bus now t)
| reach_onBLEConnected (now : Z) (t : I2CTaskManager.Task) :
    reachable bus deserializeJson updateActivity t ->
    reachable bus deserializeJson updateActivity
      (I2CTaskManager.onBLEConnected bus updateActivity now t)
| reach_onBLEDisconnected (now : Z) (t : I2CTaskManager.Task) :
    reachable bus deserializeJson updateActivity t ->
    reachable bus deserializeJson updateActivity
      (I2CTaskManager.onBLEDisconnected bus updateActivity now t)
| reach_enqueue (rawCmd : Gateway.RawBLECommand) (t : I2CTaskManager.Task) (q : QueueManager.Queues) :
    reachable bus deserializeJson updateActivity t ->
    I2CTaskManager._queueManager t = Some q ->
    reachable bus deserializeJson updateActivity
      (I2CTaskManager.set_queueManager
         (Some (QueueManager.set_rawCommandQueue
                  (QueueManager.rawCommandQueue q ++ [rawCmd]) q)) t)
| reach_inbound (bytesReceived : Z) (available : list Z) (t : I2CTaskManager.Task)
    (link : DGT3000.Link) :
    reachable bus deserializeJson updateActivity t ->
    I2CTaskManager._dgt3000 t = Some link ->
    reachable bus deserializeJson updateActivity
      (I2CTaskManager.set_dgt3000 (Some (DGT3000.onSlaveReceive bytesReceived available link)) t).

(** ** Vocabulary of the further properties *)

(** A use of the button ring: a push by the receive callback or a pop
    by [getButtonEvent]. *)
Inductive ring_op :=
| Push (b : Z)
| Pop.

(** A sequence of uses run on the link; the result lists what each pop
    returned. *)
Fixpoint ring_run (ops : list ring_op) (s : DGT3000.Link)
  : list (option Z) * DGT3000.Link :=
  match ops with
  | [] => ([], s)
  | Push b :: ops' => ring_run ops' (DGT3000.addButtonEvent b s)
  | Pop :: ops' =>
    let '(got, cell, s) := DGT3000.getButtonEvent (Some 0) s in
    let '(out, s) := ring_run ops' s in
    ((if got then cell else None) :: out, s)
  end.

(** The same sequence run on a queue that keeps its 15 newest
    elements. *)
Fixpoint queue_run (ops : list ring_op) (q : list Z)
  : list (option Z) * list Z :=
  match ops with
  | [] => ([], q)
  | Push b :: ops' => queue_run ops' (lastn 15 (q ++ [b]))
  | Pop :: ops' =>
    match q with
    | [] => let '(out, q) := queue_run ops' [] in (None :: out, q)
    | x :: q' => let '(out, q) := queue_run ops' q' in (Some x :: out, q)
    end
  end.

(** The stored time has its six fields, within the bounds of a clock
    time. *)
Definition time_ok (s : DGT3000.Link) : Prop :=
  let t := DGT3000.time (DGT3000._rxData s) in
  List.length t = 6%nat
  /\ 0 <= at_ t 0 <= 9 /\ 0 <= at_ t 1 <= 59 /\ 0 <= at_ t 2 <= 59
  /\ 0 <= at_ t 3 <= 9 /\ 0 <= at_ t 4 <= 59 /\ 0 <= at_ t 5 <= 59.

(** The slave-receive callback run once for each element of [frames]:
    the argument [bytesReceived] and the bytes the peripheral holds. *)
Definition receive_all (frames : list (Z * list Z)) (s : DGT3000.Link)
  : DGT3000.Link :=
  fold_left (fun s f => DGT3000.onSlaveReceive (fst f) (snd f) s) frames s.

(** A call of one of the commands of the driver. *)
Inductive api_call :=
| ChangeStateNoAck
| ChangeState
| SendPing
| SetCentralControl
| EndDisplay
| SendDisplayEmpty
| DisplayText (text : option (list Z)) (beep leftDots rightDots : Z)
| SetAndRun (leftMode leftHours leftMinutes leftSeconds
             rightMode rightHours rightMinutes rightSeconds : Z)
| Stop
| Run (leftMode rightMode : Z)
| PowerOff
| Configure.

Definition call (bus : DGT3000.Bus) (c : api_call) (s : DGT3000.Link)
  : bool * DGT3000.Link :=
  match c with
  | ChangeStateNoAck => DGT3000.changeState_no_ack bus s
  | ChangeState => DGT3000.changeState bus s
  | SendPing => DGT3000.sendPing bus s
  | SetCentralControl => DGT3000.setCentralControl bus s
  | EndDisplay => DGT3000.endDisplay bus s
  | SendDisplayEmpty => DGT3000.sendDisplayEmpty bus s
  | DisplayText text beep leftDots rightDots =>
    DGT3000.displayText bus text beep leftDots rightDots s
  | SetAndRun lm lh lmin ls rm rh rmin rs =>
    DGT3000.setAndRun bus lm lh lmin ls rm rh rmin rs s
  | Stop => DGT3000.stop bus s
  | Run leftMode rightMode => DGT3000.run bus leftMode rightMode s
  | PowerOff => DGT3000.powerOff bus s
  | Configure => DGT3000.configure bus s
  end.

(** [verifyCRC] accepts the frame at its own length. *)
Definition crc_valid (frame : list Z) : bool :=
  verified frame (Z.of_nat (List.length frame)) DGT3000.new_DGT3000.

(** Between [s] and [s'] the object has put on the master bus the
    frames [sent], each with its target address, in this order. *)
Definition sent_between (s s' : DGT3000.Link) (sent : list (Z * list Z))
  : Prop :=
  DGT3000.txLog (DGT3000.wire s') = DGT3000.txLog (DGT3000.wire s) ++ sent
  /\ DGT3000.txCount (DGT3000.wire s')
     = (DGT3000.txCount (DGT3000.wire s) + List.length sent)%nat.

(** A transmission that the clock can accept: a frame with a valid CRC
    for one of the two addresses of the clock. *)
Definition frame_ok (e : Z * list Z) : Prop :=
  crc_valid (snd e) = true
  /\ (fst e = DGT3000.DGT3000_I2C_ADDRESS
      \/ fst e = DGT3000.DGT3000_I2C_WAKEUP_ADDR).

(** Between [s] and [s'] the object has put at most [k] frames on the
    bus, all of them acceptable. *)
Definition emits (k : nat) (s s' : DGT3000.Link) : Prop :=
  exists sent, sent_between s s' sent /\ (List.length sent <= k)%nat
               /\ Forall frame_ok sent.

(** The link is initialised, has its slave peripheral, and listens on
    [a]. *)
Definition listens (a : Z) (s : DGT3000.Link) : Prop :=
  DGT3000._initialized s = true /\ DGT3000._i2cSlave s = true
  /\ DGT3000._currentListenAddress s = a.

(** The power-off frame. *)
Definition power_off_frame : list Z := [0x20; 0x06; 0x0b; 0x00; 0x16].

(** The pins are GPIO numbers of the ESP32. *)
Definition pins_ok (masterSDA masterSCL slaveSDA slaveSCL : Z) : Prop :=
  0 <= masterSDA <= 48 /\ 0 <= masterSCL <= 48
  /\ 0 <= slaveSDA <= 48 /\ 0 <= slaveSCL <= 48.

(** Two decimal digits packed one per nibble. *)
Definition to_bcd (v : Z) : Z := 16 * (v / 10) + v mod 10.

(** The values that [validateTimeParameters] accepts. *)
Definition time_parameters_ok
  (leftMode leftHours leftMinutes leftSeconds
   rightMode rightHours rightMinutes rightSeconds : Z) : Prop :=
  leftMode <= 2 /\ rightMode <= 2 /\ leftHours <= 9 /\ rightHours <= 9
  /\ leftMinutes <= 59 /\ rightMinutes <= 59
  /\ leftSeconds <= 59 /\ rightSeconds <= 59.

(** The Set And Run frame before its CRC byte. *)
Definition set_and_run_body
  (leftMode leftHours leftMinutes leftSeconds
   rightMode rightHours rightMinutes rightSeconds : Z) : list Z :=
  [0x20; 0x0c; 0x0a;
   leftHours; to_bcd leftMinutes; to_bcd leftSeconds;
   rightHours; to_bcd rightMinutes; to_bcd rightSeconds;
   leftMode + 4 * rightMode].

(** A frame body followed by its CRC-8-ATM, the address byte 0x10
    first. *)
Definition framed (body : list Z) : list Z :=
  body ++ [Spec.crc8_atm (0x10 :: body)].

(** The values that [validateDisplayTextParameters] accepts. *)
Definition display_parameters_ok (text : list Z) (beep leftDots rightDots : Z)
  : Prop :=
  (List.length text <= 11)%nat /\ beep <= 48 /\ leftDots < 64
  /\ rightDots < 32.

(** The Display frame before its CRC byte: the text padded with spaces
    to 11 cells. *)
Definition display_body (text : list Z) (beep leftDots rightDots : Z)
  : list Z :=
  [0x20; 0x15; 0x06] ++ map uint8 text
    ++ repeat 0x20 (11 - List.length text)
    ++ [0xFF; beep; 0x03; leftDots; rightDots].

(** The End Display frame. *)
Definition end_display_frame : list Z := [0x20; 0x05; 0x07; 0x70].

(** A use of the queue manager. *)
Inductive queue_op :=
| SendRaw (c : Gateway.RawBLECommand)
| ReceiveRaw
| SendEvt (e : Gateway.DGTEvent)
| SendPriority (e : Gateway.DGTEvent)
| ReceiveEvt
| SendResp (r : Gateway.CommandResponse)
| ReceiveResp
| FlushRaw
| FlushEvents
| FlushResponses.

Definition queue_step (q : QueueManager.Queues) (op : queue_op)
  : QueueManager.Queues :=
  match op with
  | SendRaw c => snd (QueueManager.sendRawCommand (Some c) q)
  | ReceiveRaw => snd (QueueManager.receiveRawCommand q)
  | SendEvt e => snd (QueueManager.sendEvent (Some e) q)
  | SendPriority e => snd (QueueManager.sendPriorityEvent (Some e) q)
  | ReceiveEvt => snd (QueueManager.receiveEvent q)
  | SendResp r => snd (QueueManager.sendResponse (Some r) q)
  | ReceiveResp => snd (QueueManager.receiveResponse q)
  | FlushRaw => QueueManager.flushRawCommandQueue q
  | FlushEvents => QueueManager.flushEventQueue q
  | FlushResponses => QueueManager.flushResponseQueue q
  end.

(** The same use on three lists bounded by the capacities: a send to a
    full list is dropped, a priority event goes to the head. *)
Definition lists_step
  (l : list Gateway.RawBLECommand * list Gateway.DGTEvent
       * list Gateway.CommandResponse) (op : queue_op)
  : list Gateway.RawBLECommand * list Gateway.DGTEvent
    * list Gateway.CommandResponse :=
  let '(raw, events, responses) := l in
  match op with
  | SendRaw c =>
    (if (List.length raw <? 10)%nat then raw ++ [c] else raw, events, responses)
  | ReceiveRaw => (tl raw, events, responses)
  | SendEvt e =>
    (raw, if (List.length events <? 20)%nat then events ++ [e] else events,
     responses)
  | SendPriority e =>
    (raw, if (List.length events <? 20)%nat then e :: events else events,
     responses)
  | ReceiveEvt => (raw, tl events, responses)
  | SendResp r =>
    (raw, events,
     if (List.length responses <? 10)%nat then responses ++ [r] else responses)
  | ReceiveResp => (raw, events, tl responses)
  | FlushRaw => ([], events, responses)
  | FlushEvents => (raw, [], responses)
  | FlushResponses => (raw, events, [])
  end.

(** The contents of the three queues. *)
Definition lists_of (q : QueueManager.Queues)
  : list Gateway.RawBLECommand * list Gateway.DGTEvent
    * list Gateway.CommandResponse :=
  (QueueManager.rawCommandQueue q, QueueManager.eventQueue q,
   QueueManager.responseQueue q).

(** The three queues hold no more than their capacities. *)
Definition within_capacity (q : QueueManager.Queues) : Prop :=
  (List.length (QueueManager.rawCommandQueue q) <= 10)%nat
  /\ (List.length (QueueManager.eventQueue q) <= 20)%nat
  /\ (List.length (QueueManager.responseQueue q) <= 10)%nat.

(** The event counters account for every event: those queued are
    those refused, those taken out and those still waiting (modulo
    2^32, the range of the counters), and the recorded maximum depth
    is not below the present depth. *)
Definition balanced (q : QueueManager.Queues) : Prop :=
  let st := QueueManager._stats q in
  (Gateway.eventsQueued st - Gateway.queueOverflows st
   - Gateway.eventsProcessed st
   - Z.of_nat (List.length (QueueManager.eventQueue q))) mod 4294967296 = 0
  /\ Z.of_nat (List.length (QueueManager.eventQueue q))
     <= Gateway.maxEventQueueDepth st.

(** The event that [generateButtonEvent] builds for a button code. *)
Definition press_event (now button : Z) : Gateway.DGTEvent :=
  Gateway.mkDGTEvent Gateway.BUTTON_EVENT 0 now
    [("button"%string, Gateway.JStr (I2CTaskManager.getButtonName button));
     ("buttonCode"%string, Gateway.JInt button);
     ("isRepeat"%string, Gateway.JBool false)].

(** The events that [generateErrorEvent] and
    [generateConnectionStatusEvent] build. *)
Definition error_event (now : Z) (code : Gateway.SystemErrorCode)
  (message : string) : Gateway.DGTEvent :=
  Gateway.mkDGTEvent Gateway.ERROR_EVENT 1 now
    [("errorCode"%string, Gateway.JCode code);
     ("errorMessage"%string, Gateway.JStr message)].

Definition status_event (now : Z) (connected configured : bool)
  : Gateway.DGTEvent :=
  Gateway.mkDGTEvent Gateway.CONNECTION_STATUS 1 now
    [("connected"%string, Gateway.JBool connected);
     ("configured"%string, Gateway.JBool configured)].

(** The raw commands that wait in the queues of the task, and whether
    its queues are ready. *)
Definition raws_of (t : I2CTaskManager.Task) : list Gateway.RawBLECommand :=
  match I2CTaskManager._queueManager t with
  | Some q => QueueManager.rawCommandQueue q
  | None => []
  end.

Definition queues_ready (t : I2CTaskManager.Task) : bool :=
  match I2CTaskManager._queueManager t with
  | Some q => QueueManager.ready q
  | None => false
  end.

(** [t'] has the command side of [t]: the same pending commands and
    responses and the same counters. *)
Definition same_commands (t t' : I2CTaskManager.Task) : Prop :=
  queues_ready t' = queues_ready t
  /\ raws_of t' = raws_of t
  /\ responses_of t' = responses_of t
  /\ I2CTaskManager._stats t' = I2CTaskManager._stats t.

(** [t'] is [t] with one more response, for the command [id]. *)
Definition answered (now : Z) (id : string) (ok : bool)
  (t t' : I2CTaskManager.Task) : Prop :=
  queues_ready t' = queues_ready t
  /\ raws_of t' = raws_of t
  /\ I2CTaskManager._stats t' = I2CTaskManager._stats t
  /\ exists r,
       responses_of t' = responses_of t ++ [r]
       /\ Gateway.id r
          = Gateway.strncpy0 id (Gateway.APP_MAX_COMMAND_ID_LENGTH - 1)
       /\ Gateway.success r = ok
       /\ Gateway.timestamp r = now.

(** The errors of the driver after which [handleDGT3000Error] holds the
    clock for disconnected. *)
Definition disconnecting (error : Z) : bool :=
  existsb (Z.eqb error)
    [DGT3000.DGT_ERROR_I2C_COMM; DGT3000.DGT_ERROR_TIMEOUT;
     DGT3000.DGT_ERROR_NO_ACK; DGT3000.DGT_ERROR_CLOCK_OFF;
     DGT3000.DGT_ERROR_CRC; DGT3000.DGT_ERROR_NOT_CONFIGURED].

(** The link of the task is connected and configured. *)
Definition link_configured (t : I2CTaskManager.Task) : bool :=
  match I2CTaskManager._dgt3000 t with
  | Some link => DGT3000._configured link && DGT3000._connected link
  | None => false
  end.

(** The link of the task is neither initialised nor configured nor
    connected. *)
Definition link_ended (t : I2CTaskManager.Task) : bool :=
  match I2CTaskManager._dgt3000 t with
  | Some link =>
    negb (DGT3000._initialized link) && negb (DGT3000._configured link)
    && negb (DGT3000._connected link)
  | None => false
  end.

(** ** Concrete inputs *)

Module Sample.

Import DGT3000.
Import Gateway.
Import I2CTaskManager.

(** A link after a successful [begin], before any traffic. *)
Definition started_link : Link := set_i2cSlave true (set_i2cMaster true
  (set_initialized true new_DGT3000)).

(** A bus on which no transmission is acknowledged and nothing ever
    arrives. *)
Definition dead_bus : Bus :=
  mkBus (fun _ => true) (fun _ => 2) (fun _ => true) (fun _ => [])
    (fun _ => []) (fun _ => []).

(** The acknowledgement frame of a command. *)
Definition ack_frame (cmd : Z) : list Z := [0x10; 0x08; 0x01; cmd; 0x00].

(** A bus on which every transmission succeeds and the clock answers:
    the first wait receives the ACK of SetCentralControl during its
    second turn, every later wait the ACK of ChangeState during its
    first, and the wake-up response arrives during the first turn of
    the wait for it. *)
Definition live_bus : Bus :=
  mkBus (fun _ => true) (fun _ => 0) (fun _ => true)
    (fun n => match n with
              | O => [[]; [ack_frame DGT_CMD_SET_CC]; []]
              | _ => [[ack_frame DGT_CMD_CHANGE_STATE]; []]
              end)
    (fun _ => [[expectedResponse]; []])
    (fun _ => []).

(** The events 1, 2, ..., 16 and 1, 2, ..., 17. *)
Definition sixteen : list Z := map Z.of_nat (seq 1 16).
Definition seventeen : list Z := map Z.of_nat (seq 1 17).

(** A time frame of 14 bytes with the given left-hours byte. *)
Definition time_frame (left_h : Z) : list Z :=
  [0x10; 0x18; 0x04; 0x00; left_h; 0x59; 0x30; 0x00; 0x00; 0x00; 0x01; 0x05;
   0x00; 0x00].



(** A bus on which no transmission is acknowledged, while a time frame
    arrives during the wait for the wake-up response. *)
Definition waking_bus : Bus :=
  mkBus (fun _ => true) (fun _ => 2) (fun _ => true) (fun _ => [])
    (fun _ => [[time_frame 0x01]; []]) (fun _ => []).

(** A link that is connected and configured. *)
Definition held_link : Link :=
  set_configured true (set_connected true started_link).



(** The link as [configure] has it when it starts its first step. *)
Definition entered_link : Link :=
  set_connected false (set_configured false
    (set_recoveryInProgress true started_link)).

(** The states between the steps of [configure] on the two buses. *)
Definition dead_1 : Link :=
  Eval vm_compute in snd (changeState_no_ack dead_bus entered_link).
Definition dead_2 : Link :=
  Eval vm_compute in snd (sendPing dead_bus (delay dead_bus dead_1)).
Definition live_1 : Link :=
  Eval vm_compute in snd (changeState_no_ack live_bus entered_link).
Definition live_2 : Link :=
  Eval vm_compute in
    snd (setCentralControl live_bus (delay live_bus live_1)).
Definition live_3 : Link :=
  Eval vm_compute in snd (changeState live_bus (delay live_bus live_2)).
Definition live_4 : Link :=
  Eval vm_compute in
    snd (setAndRun live_bus DGT_MODE_STOP 0 0 0 DGT_MODE_STOP 0 0 0
           (delay live_bus live_3)).

(** A stand-in for the JSON parser: three payloads, told apart by
    name. *)
Definition no_params : Params := mkParams 0 0 0 0 0 0 0 0 None 0 0 0.

Definition sample_parser (payload : string) : CommandDoc :=
  if String.eqb payload "without id" then
    mkCommandDoc None None (Some "stop"%string) no_params
  else if String.eqb payload "without command" then
    mkCommandDoc None (Some "c1"%string) None no_params
  else mkCommandDoc None (Some "c2"%string) (Some "stop"%string) no_params.

(** Initialised queues with nothing pending. *)
Definition empty_queues : QueueManager.Queues :=
  QueueManager.mkQueues true [] [] [] (mkQueueStats 0 0 0 0 0).

(** A fresh task whose raw-command queue holds one payload. *)
Definition task_with (payload : string) : Task :=
  new_I2CTaskManager
    (Some (QueueManager.set_rawCommandQueue [mkRawBLECommand 0 1 payload]
             empty_queues))
    None.

(** Play/pause is down. *)
Definition pressed_link : Link :=
  set_rxData (rx_set_lastButtonState 0x04 (_rxData started_link)) started_link.

(** A task whose monitor is active on play/pause with the given repeat
    count and time of the last repeat. *)
Definition holding_task (count lastTime : Z) : Task :=
  set_buttonMonitoring (mkButtonMonitoring 0x04 lastTime count true)
    (set_dgt3000 (Some pressed_link)
       (new_I2CTaskManager (Some empty_queues) None)).





(** The link after a successful [begin] on a bus that answers. *)
Definition begun_link : Link :=
  Eval vm_compute in snd (begin live_bus 8 5 7 6 new_DGT3000).

(** A bus on which every transmission succeeds and the acknowledgement
    of SetCentralControl arrives twice in every wait: followed at once
    by an acknowledgement of ChangeState, and during the last turn. *)
Definition late_bus : Bus :=
  mkBus (fun _ => true) (fun _ => 0) (fun _ => true)
    (fun _ => [[ack_frame DGT_CMD_SET_CC; ack_frame DGT_CMD_CHANGE_STATE];
               [ack_frame DGT_CMD_SET_CC]])
    (fun _ => []) (fun _ => []).

(** A link whose ring holds the events 1, 2 and 3. *)
Definition pressed_thrice : Link :=
  Eval vm_compute in pushes [1; 2; 3] started_link.

(** A fresh task with ready queues. *)
Definition fresh_task : Task :=
  new_I2CTaskManager (Some empty_queues) None.

End Sample.

(** * Properties *)

Import DGT3000.
Import Sample.

Ltac lia_mod := Z.to_euclidean_division_equations; lia.

(** ** Arrays *)

Lemma put_nat_length (n : nat) (v : Z) (a : list Z) :
  List.length (put_nat n v a) = List.length a.
Proof.
  revert n; induction a as [|h t IH]; intros [|n]; simpl; auto.
Qed.

Lemma put_length (a : list Z) (i v : Z) :
  List.length (put a i v) = List.length a.
Proof.
  unfold put. destruct (i <? 0); auto using put_nat_length.
Qed.

Lemma nth_put_nat_eq (n : nat) (v : Z) (a : list Z) :
  (n < List.length a)%nat -> nth n (put_nat n v a) 0 = v.
Proof.
  revert n; induction a as [|h t IH]; intros [|n] H; simpl in *;
    try lia; auto. apply IH; lia.
Qed.

Lemma nth_put_nat_ne (n m : nat) (v : Z) (a : list Z) :
  n <> m -> nth m (put_nat n v a) 0 = nth m a 0.
Proof.
  revert n m; induction a as [|h t IH]; intros [|n] [|m] H; simpl;
    auto; try congruence.
Qed.

Lemma at_put_eq (a : list Z) (i v : Z) :
  0 <= i < Z.of_nat (List.length a) -> at_ (put a i v) i = v.
Proof.
  intros H. unfold at_, put.
  destruct (i <? 0) eqn:E; [apply Z.ltb_lt in E; lia|].
  apply nth_put_nat_eq; lia.
Qed.

Lemma at_put_ne (a : list Z) (i j v : Z) :
  0 <= i -> 0 <= j -> i <> j -> at_ (put a i v) j = at_ a j.
Proof.
  intros Hi Hj H. unfold at_, put.
  destruct (i <? 0) eqn:E; [apply Z.ltb_lt in E; lia|].
  apply nth_put_nat_ne; lia.
Qed.

Lemma put_nat_split (n : nat) (v : Z) (a : list Z) :
  (n < List.length a)%nat ->
  put_nat n v a = firstn n a ++ v :: skipn (S n) a.
Proof.
  revert n; induction a as [|h t IH]; intros [|n] H; simpl in *;
    try lia; auto.
  f_equal. apply IH; lia.
Qed.

Lemma put_split (a : list Z) (i v : Z) :
  0 <= i < Z.of_nat (List.length a) ->
  put a i v = firstn (Z.to_nat i) a ++ v :: skipn (S (Z.to_nat i)) a.
Proof.
  intros H. unfold put.
  destruct (i <? 0) eqn:E; [apply Z.ltb_lt in E; lia|].
  apply put_nat_split; lia.
Qed.

Lemma at_app_l (a b : list Z) (i : Z) :
  0 <= i < Z.of_nat (List.length a) -> at_ (a ++ b) i = at_ a i.
Proof.
  intros H. unfold at_. apply app_nth1. lia.
Qed.

Lemma at_app_r (a b : list Z) (i : Z) :
  Z.of_nat (List.length a) <= i ->
  at_ (a ++ b) i = at_ b (i - Z.of_nat (List.length a)).
Proof.
  intros H. unfold at_. rewrite app_nth2 by lia. f_equal. lia.
Qed.

Lemma at_firstn (a : list Z) (n : nat) (i : Z) :
  0 <= i < Z.of_nat n -> at_ (firstn n a) i = at_ a i.
Proof.
  intros H. unfold at_. rewrite nth_firstn.
  destruct (Z.to_nat i <? n)%nat eqn:E; auto.
  apply Nat.ltb_ge in E. lia.
Qed.

(** ** The CRC table *)

Lemma forall_bytes (f : Z -> bool) :
  forallb f all_bytes = true -> forall z, 0 <= z < 256 -> f z = true.
Proof.
  intros H z Hz. rewrite forallb_forall in H. apply H.
  unfold all_bytes. apply in_map_iff. exists (Z.to_nat z). split; [lia|].
  apply in_seq. lia.
Qed.

Lemma crc_table_byte (z : Z) : 0 <= z < 256 -> 0 <= at_ crc_table z < 256.
Proof.
  intros Hz.
  pose proof (forall_bytes
    (fun z => (0 <=? at_ crc_table z) && (at_ crc_table z <? 256))) as H.
  cbv beta in H. specialize (H ltac:(vm_compute; reflexivity) z Hz).
  apply andb_true_iff in H. destruct H as [H1 H2].
  apply Z.leb_le in H1. apply Z.ltb_lt in H2. lia.
Qed.

Lemma crc_table_injective (i j : Z) :
  0 <= i < 256 -> 0 <= j < 256 ->
  at_ crc_table i = at_ crc_table j -> i = j.
Proof.
  intros Hi Hj E.
  pose proof (forall_bytes
    (fun i => forallb (fun j => implb (at_ crc_table i =? at_ crc_table j)
                                      (i =? j)) all_bytes)) as H.
  cbv beta in H. specialize (H ltac:(vm_compute; reflexivity) i Hi).
  pose proof (forall_bytes _ H j Hj) as H'. cbv beta in H'.
  rewrite E, Z.eqb_refl in H'. simpl in H'. apply Z.eqb_eq in H'. exact H'.
Qed.

Lemma crc_table_is_crc8 (z : Z) :
  0 <= z < 256 -> at_ crc_table z = Nat.iter 8 Spec.crc8_shift z.
Proof.
  intros Hz.
  pose proof (forall_bytes
    (fun z => at_ crc_table z =? Nat.iter 8 Spec.crc8_shift z)) as H.
  cbv beta in H. specialize (H ltac:(vm_compute; reflexivity) z Hz).
  apply Z.eqb_eq in H. exact H.
Qed.

Lemma lxor_byte (a b : Z) : 0 <= a < 256 -> 0 <= b < 256 -> 0 <= Z.lxor a b < 256.
Proof.
  intros Ha Hb.
  pose proof (forall_bytes
    (fun a => forallb (fun b => (0 <=? Z.lxor a b) && (Z.lxor a b <? 256))
                all_bytes)) as H.
  cbv beta in H. specialize (H ltac:(vm_compute; reflexivity) a Ha).
  pose proof (forall_bytes _ H b Hb) as H'. cbv beta in H'.
  apply andb_true_iff in H'. destruct H' as [H1 H2].
  apply Z.leb_le in H1. apply Z.ltb_lt in H2. lia.
Qed.

Lemma lxor_cancel_l (c x y : Z) : Z.lxor c x = Z.lxor c y -> x = y.
Proof.
  intros E. apply (f_equal (Z.lxor c)) in E.
  rewrite <- !Z.lxor_assoc, !Z.lxor_nilpotent, !Z.lxor_0_l in E. exact E.
Qed.

Lemma lxor_cancel_r (c d x : Z) : Z.lxor c x = Z.lxor d x -> c = d.
Proof.
  intros E. rewrite (Z.lxor_comm c), (Z.lxor_comm d) in E.
  eapply lxor_cancel_l; eauto.
Qed.

(** ** The CRC loop *)

Lemma crc_step_byte (c x : Z) :
  0 <= c < 256 -> 0 <= x < 256 -> 0 <= crc_step c x < 256.
Proof.
  intros Hc Hx. unfold crc_step. apply crc_table_byte, lxor_byte; auto.
Qed.

Lemma crc_fold_byte (l : list Z) :
  forall c, 0 <= c < 256 -> Forall is_byte l -> 0 <= crc_fold c l < 256.
Proof.
  unfold crc_fold.
  induction l as [|x l IH]; intros c Hc Hl; simpl; auto.
  inversion Hl; subst. apply IH; auto. apply crc_step_byte; auto.
Qed.

Lemma crc_step_inj_l (c d x : Z) :
  0 <= c < 256 -> 0 <= d < 256 -> 0 <= x < 256 ->
  crc_step c x = crc_step d x -> c = d.
Proof.
  intros Hc Hd Hx E. unfold crc_step in E.
  apply crc_table_injective in E; auto using lxor_byte.
  eapply lxor_cancel_r; eauto.
Qed.

Lemma crc_step_inj_r (c x y : Z) :
  0 <= c < 256 -> 0 <= x < 256 -> 0 <= y < 256 ->
  crc_step c x = crc_step c y -> x = y.
Proof.
  intros Hc Hx Hy E. unfold crc_step in E.
  apply crc_table_injective in E; auto using lxor_byte.
  eapply lxor_cancel_l; eauto.
Qed.

Lemma crc_fold_inj (l : list Z) :
  forall c d, 0 <= c < 256 -> 0 <= d < 256 -> Forall is_byte l ->
  crc_fold c l = crc_fold d l -> c = d.
Proof.
  unfold crc_fold.
  induction l as [|x l IH]; intros c d Hc Hd Hl E; simpl in *; auto.
  inversion Hl; subst.
  apply IH in E; auto using crc_step_byte.
  eapply crc_step_inj_l; eauto.
Qed.

Lemma crc_fold_app (c : Z) (p q : list Z) :
  crc_fold c (p ++ q) = crc_fold (crc_fold c p) q.
Proof. unfold crc_fold. apply fold_left_app. Qed.

(** Two messages that differ in exactly one byte have different CRCs. *)
Lemma crc_fold_one_byte (c x y : Z) (p q : list Z) :
  0 <= c < 256 -> Forall is_byte p -> Forall is_byte q ->
  0 <= x < 256 -> 0 <= y < 256 -> x <> y ->
  crc_fold c (p ++ x :: q) <> crc_fold c (p ++ y :: q).
Proof.
  intros Hc Hp Hq Hx Hy Hxy E. rewrite !crc_fold_app in E.
  change (crc_fold ?a (?b :: q)) with (crc_fold (crc_step a b) q) in E.
  pose proof (crc_fold_byte p c Hc Hp) as Hcp.
  apply crc_fold_inj in E; auto using crc_step_byte.
  apply crc_step_inj_r in E; auto.
Qed.

Lemma crc_fold_is_crc8 (l : list Z) :
  forall c, 0 <= c < 256 -> Forall is_byte l ->
  crc_fold c l = fold_left Spec.crc8_byte l c.
Proof.
  unfold crc_fold.
  induction l as [|x l IH]; intros c Hc Hl; simpl; auto.
  inversion Hl; subst.
  assert (E : crc_step c x = Spec.crc8_byte c x).
  { unfold crc_step, Spec.crc8_byte.
    apply crc_table_is_crc8, lxor_byte; auto. }
  rewrite <- E. apply IH; auto using crc_step_byte.
Qed.

Lemma crc_seed_is_crc8 (seed : Z) (l : list Z) :
  0 <= seed < 256 -> Forall is_byte l ->
  crc_fold (at_ crc_table (Z.lxor 0 seed)) l = Spec.crc8_atm (seed :: l).
Proof.
  intros Hs Hl. unfold Spec.crc8_atm. simpl fold_left.
  rewrite crc_fold_is_crc8; auto.
  - f_equal. unfold Spec.crc8_byte. apply crc_table_is_crc8.
    apply lxor_byte; lia.
  - apply crc_table_byte, lxor_byte; lia.
Qed.

Lemma zrange_S (i : Z) (n : nat) : zrange i (S n) = i :: zrange (i + 1) n.
Proof.
  unfold zrange. simpl. f_equal; [lia|].
  rewrite <- seq_shift, map_map. apply map_ext. intros; lia.
Qed.

(** The loop leaves the bytes alone and loads [i .. i + n - 1]. *)
Lemma crc_loop_buf (n : nat) :
  forall i crc b,
    snd (crc_loop n i crc b)
    = mkBuf (bytes b) (accessed b ++ map Load (zrange i n)).
Proof.
  induction n as [|n IH]; intros i crc b.
  - simpl. rewrite app_nil_r. destruct b; reflexivity.
  - rewrite zrange_S. simpl. rewrite IH. simpl.
    rewrite <- app_assoc. reflexivity.
Qed.

Lemma crc_loop_value (n : nat) :
  forall i crc b,
    fst (crc_loop n i crc b) = crc_fold crc (map (at_ (bytes b)) (zrange i n)).
Proof.
  induction n as [|n IH]; intros i crc b.
  - reflexivity.
  - rewrite zrange_S. simpl. rewrite IH. reflexivity.
Qed.

Lemma map_at_zrange (a : list Z) (n : nat) :
  (n <= List.length a)%nat -> map (at_ a) (zrange 0 n) = firstn n a.
Proof.
  revert a. induction n as [|n IH]; intros a H; [reflexivity|].
  destruct a as [|x a]; simpl in H; [lia|].
  rewrite zrange_S. simpl. f_equal.
  rewrite <- (IH a) by lia.
  unfold zrange. rewrite !map_map. apply map_ext_in. intros k Hk.
  apply in_seq in Hk. unfold at_.
  match goal with
  | |- nth (Z.to_nat ?e) _ _ = nth (Z.to_nat ?f) _ _ =>
    replace (Z.to_nat e) with (S k) by lia;
    replace (Z.to_nat f) with k by lia
  end. reflexivity.
Qed.

Lemma crc_loop_eq (n : nat) (i crc : Z) (b : Buf) :
  crc_loop n i crc b
  = (crc_fold crc (map (at_ (bytes b)) (zrange i n)),
     mkBuf (bytes b) (accessed b ++ map Load (zrange i n))).
Proof.
  rewrite (surjective_pairing (crc_loop n i crc b)).
  rewrite crc_loop_buf, crc_loop_value. reflexivity.
Qed.

Lemma calculateCRC_eq (b : Buf) (length : Z) (s : Link) :
  3 <= length ->
  let pos := crc_position (at_ (bytes b) 1) length in
  let crc := crc_fold crc_seed
               (map (at_ (bytes b)) (zrange 0 (Z.to_nat pos))) in
  calculateCRC (Some b) length s
  = (crc,
     Some (mkBuf (put (bytes b) pos crc)
             (accessed b ++ Load 1 :: map Load (zrange 0 (Z.to_nat pos))
                ++ [Store pos])),
     s).
Proof.
  intros H pos crc. unfold calculateCRC.
  destruct (length <? 3) eqn:E; [apply Z.ltb_lt in E; lia|].
  unfold load at 1. cbv zeta.
  fold (crc_position (at_ (bytes b) 1) length). fold pos.
  rewrite crc_loop_eq. cbn [bytes accessed]. fold crc_seed. fold crc.
  unfold store. cbn [bytes accessed].
  rewrite <- !app_assoc. reflexivity.
Qed.

Lemma verifyCRC_eq (b : Buf) (length : Z) (s : Link) :
  3 <= length ->
  let pos := crc_position (at_ (bytes b) 1) length in
  let crc := crc_fold crc_seed
               (map (at_ (bytes b)) (zrange 0 (Z.to_nat pos))) in
  let b' := mkBuf (bytes b)
              (accessed b ++ Load 1 :: map Load (zrange 0 (Z.to_nat pos))
                 ++ [Load pos]) in
  verifyCRC (Some b) length s
  = (crc =? at_ (bytes b) pos, Some b',
     if crc =? at_ (bytes b) pos then s else set_lastError DGT_ERROR_CRC s).
Proof.
  intros H pos crc b'. unfold verifyCRC.
  destruct (length <? 3) eqn:E; [apply Z.ltb_lt in E; lia|].
  unfold load at 1. cbv zeta.
  fold (crc_position (at_ (bytes b) 1) length). fold pos.
  rewrite crc_loop_eq. cbn [bytes accessed]. fold crc_seed. fold crc.
  unfold load. cbn [bytes accessed].
  unfold b'. rewrite <- !app_assoc. cbn [app].
  destruct (crc =? at_ (bytes b) pos); reflexivity.
Qed.

Lemma crc_position_range (b1 length : Z) :
  3 <= length <= 255 -> 0 <= crc_position b1 length <= length - 1.
Proof.
  intros H. unfold crc_position, uint8. cbv zeta.
  destruct (_ >=? _) eqn:E.
  - rewrite Z.mod_small; lia.
  - rewrite Z.geb_leb in E. apply Z.leb_gt in E.
    pose proof (Z.mod_pos_bound (b1 - 1) 256). lia.
Qed.

Lemma crc_position_exact (n : Z) :
  3 <= n <= 255 -> crc_position n n = n - 1.
Proof.
  intros H. unfold crc_position, uint8. cbv zeta.
  rewrite (Z.mod_small (n - 1)) by lia.
  destruct (_ >=? _); reflexivity.
Qed.

Lemma crc_position_clamped (v n : Z) :
  3 <= n <= 255 -> 0 <= v < 256 -> v = 0 \/ n < v ->
  crc_position v n = n - 1.
Proof.
  intros H Hv Hc. unfold crc_position, uint8. cbv zeta.
  assert (E : ((v - 1) mod 256 >=? n) = true).
  { apply Z.geb_le. destruct Hc as [->|Hc].
    - change ((0 - 1) mod 256) with 255. lia.
    - rewrite Z.mod_small; lia. }
  rewrite E. apply Z.mod_small. lia.
Qed.


Lemma Forall_firstn_byte (n : nat) (l : list Z) :
  Forall is_byte l -> Forall is_byte (firstn n l).
Proof.
  intros H. rewrite <- (firstn_skipn n l) in H.
  apply Forall_app in H. tauto.
Qed.

Lemma Forall_skipn_byte (n : nat) (l : list Z) :
  Forall is_byte l -> Forall is_byte (skipn n l).
Proof.
  intros H. rewrite <- (firstn_skipn n l) in H.
  apply Forall_app in H. tauto.
Qed.

Lemma at_byte (l : list Z) (i : Z) : Forall is_byte l -> 0 <= at_ l i < 256.
Proof.
  intros H. unfold at_.
  destruct (Nat.lt_ge_cases (Z.to_nat i) (List.length l)) as [Hi|Hi].
  - rewrite Forall_forall in H. apply H, nth_In, Hi.
  - rewrite nth_overflow by exact Hi. lia.
Qed.

Lemma split_at (l : list Z) (i : Z) :
  0 <= i < Z.of_nat (List.length l) ->
  l = firstn (Z.to_nat i) l ++ at_ l i :: skipn (S (Z.to_nat i)) l.
Proof.
  intros H. rewrite <- (firstn_skipn (Z.to_nat i) l) at 1. f_equal.
  unfold at_. assert (Hk : (Z.to_nat i < List.length l)%nat) by lia.
  clear H. revert Hk. generalize (Z.to_nat i) as k.
  intros k. revert l. induction k as [|k IH]; intros [|x l] H;
    simpl in *; try lia; auto.
  apply IH. lia.
Qed.

Lemma put_app_l (a b : list Z) (i v : Z) :
  0 <= i < Z.of_nat (List.length a) -> put (a ++ b) i v = put a i v ++ b.
Proof.
  intros H. rewrite !put_split by (rewrite ?length_app; lia).
  rewrite firstn_app, skipn_app.
  replace (Z.to_nat i - List.length a)%nat with 0%nat by lia.
  replace (S (Z.to_nat i) - List.length a)%nat with 0%nat by lia.
  simpl. rewrite app_nil_r, <- app_assoc. reflexivity.
Qed.

Lemma verified_at_end (P : list Z) (c n : Z) (s : Link) :
  3 <= n <= 255 -> Z.of_nat (List.length P) = n - 1 ->
  crc_position (at_ P 1) n = n - 1 ->
  verified (P ++ [c]) n s = (crc_fold crc_seed P =? c).
Proof.
  intros Hn HP Hpos. unfold verified.
  rewrite verifyCRC_eq by lia. cbn [fst bytes fresh].
  rewrite (at_app_l P [c] 1) by lia. rewrite Hpos.
  rewrite map_at_zrange by (rewrite length_app; simpl; lia).
  rewrite firstn_app.
  replace (Z.to_nat (n - 1) - List.length P)%nat with 0%nat by lia.
  rewrite firstn_all2 by lia. simpl firstn. rewrite app_nil_r.
  rewrite at_app_r by lia.
  replace (n - 1 - Z.of_nat (List.length P)) with 0 by lia.
  reflexivity.
Qed.

Lemma with_crc_eq (F : list Z) (n : Z) (s : Link) :
  3 <= n <= 255 -> Z.of_nat (List.length F) = n -> at_ F 1 = n ->
  with_crc F n s
  = firstn (Z.to_nat (n - 1)) F
      ++ [crc_fold crc_seed (firstn (Z.to_nat (n - 1)) F)].
Proof.
  intros Hn HF H1. unfold with_crc.
  rewrite calculateCRC_eq by lia. cbn [bytes fresh].
  rewrite H1, crc_position_exact by lia.
  rewrite map_at_zrange by lia.
  rewrite put_split by lia. f_equal. f_equal.
  apply skipn_all2. lia.
Qed.

Lemma bit_byte (k : Z) : 0 <= k <= 7 -> 0 < Z.shiftl 1 k < 256.
Proof.
  intros H. rewrite Z.shiftl_1_l.
  assert (2 ^ k <= 2 ^ 7) by (apply Z.pow_le_mono_r; lia).
  assert (0 < 2 ^ k) by (apply Z.pow_pos_nonneg; lia).
  change (2 ^ 7) with 128 in *. lia.
Qed.

Lemma flip_changes (x k : Z) : 0 <= k <= 7 -> Z.lxor x (Z.shiftl 1 k) <> x.
Proof.
  intros H E. pose proof (bit_byte k H).
  rewrite <- (Z.lxor_0_r x) in E at 2. apply lxor_cancel_l in E. lia.
Qed.

(** Claim C1 (amended).  For every frame [F] of [n] bytes, [3 <= n <= 255],
    whose length field [F[1]] is [n]: [calculateCRC] stores in the last
    byte the CRC-8-ATM (polynomial x^8 + x^2 + x + 1, initial value 0,
    the 256-entry table being the table of that polynomial) of the
    address byte 0x10 followed by the bytes [F[0 .. n-2]], and
    [verifyCRC] accepts the result.  Flipping one bit of a byte
    [F[i]], [i <= n-2], makes [verifyCRC] reject the frame when
    [i <> 1], and also when [i = 1] and the flipped length field is 0 or
    greater than [n] (the CRC position is then still [n-1]).  A frame
    whose CRC was seeded with a byte other than 0x10 is rejected. *)
Theorem C1_crc_round_trip (F : list Z) (n : Z) (s : Link) :
  3 <= n <= 255 -> Z.of_nat (List.length F) = n -> Forall is_byte F ->
  at_ F 1 = n ->
  let P := firstn (Z.to_nat (n - 1)) F in
  let G := with_crc F n s in
  (List.length crc_table = 256%nat
   /\ forall z, 0 <= z < 256 -> at_ crc_table z = Spec.crc8_byte 0 z)
  /\ G = P ++ [Spec.crc8_atm (0x10 :: P)]
  /\ verified G n s = true
  /\ (forall i k, 0 <= i <= n - 2 -> 0 <= k <= 7 ->
        i <> 1 \/ Z.lxor n (Z.shiftl 1 k) = 0 \/ n < Z.lxor n (Z.shiftl 1 k) ->
        verified (Spec.flip_bit G i k) n s = false)
  /\ (forall seed, 0 <= seed < 256 -> seed <> 0x10 ->
        verified (P ++ [Spec.crc8_atm (seed :: P)]) n s = false).
Proof.
  intros Hn HF HB H1 P G.
  assert (HP : Forall is_byte P) by (apply Forall_firstn_byte; exact HB).
  assert (HlP : Z.of_nat (List.length P) = n - 1).
  { unfold P. rewrite length_firstn. lia. }
  assert (HP1 : at_ P 1 = n).
  { unfold P. rewrite at_firstn by lia. exact H1. }
  assert (HG : G = P ++ [crc_fold crc_seed P]).
  { unfold G, P. apply with_crc_eq; assumption. }
  assert (Hcrc : crc_fold crc_seed P = Spec.crc8_atm (0x10 :: P)).
  { apply crc_seed_is_crc8; [lia | exact HP]. }
  split; [split; [reflexivity|]|].
  { intros z Hz. unfold Spec.crc8_byte. rewrite Z.lxor_0_l.
    apply crc_table_is_crc8; exact Hz. }
  split; [rewrite HG, Hcrc; reflexivity|].
  split.
  { rewrite HG, verified_at_end; auto.
    - apply Z.eqb_refl.
    - rewrite HP1. apply crc_position_exact; lia. }
  split.
  - intros i k Hi Hk Hcase. unfold Spec.flip_bit. rewrite HG.
    rewrite (at_app_l P) by lia. rewrite put_app_l by lia.
    set (x := at_ P i). set (x' := Z.lxor x (Z.shiftl 1 k)).
    assert (Hx : 0 <= x < 256) by (apply at_byte; exact HP).
    assert (Hx' : 0 <= x' < 256).
    { apply lxor_byte; auto. pose proof (bit_byte k Hk). lia. }
    assert (Hne : x <> x').
    { intros E. symmetry in E. revert E. apply flip_changes; exact Hk. }
    rewrite verified_at_end; auto.
    + rewrite put_split by lia. rewrite (split_at P i) at 3 by lia. fold x.
      apply Z.eqb_neq. apply not_eq_sym. apply crc_fold_one_byte; auto.
      * unfold crc_seed. apply crc_table_byte. vm_compute. split; congruence.
      * apply Forall_firstn_byte; exact HP.
      * apply Forall_skipn_byte; exact HP.
    + rewrite put_length. exact HlP.
    + destruct (Z.eq_dec i 1) as [->|Hi1].
      * rewrite at_put_eq by lia. unfold x', x. rewrite HP1.
        apply crc_position_clamped; auto.
        { rewrite <- HP1. exact Hx'. }
        { destruct Hcase as [Hc|Hc]; [congruence|exact Hc]. }
      * rewrite at_put_ne by lia. rewrite HP1.
        apply crc_position_exact; lia.
  - intros seed Hseed Hs. rewrite verified_at_end; auto.
    + rewrite <- crc_seed_is_crc8 by auto.
      apply Z.eqb_neq. intros E.
      apply crc_fold_inj in E; auto.
      * unfold crc_seed in E. apply crc_table_injective in E.
        { rewrite !Z.lxor_0_l in E. congruence. }
        { vm_compute. split; congruence. }
        { rewrite Z.lxor_0_l. exact Hseed. }
      * unfold crc_seed. apply crc_table_byte. vm_compute. split; congruence.
      * apply crc_table_byte. rewrite Z.lxor_0_l. exact Hseed.
    + rewrite HP1. apply crc_position_exact; lia.
Qed.

(** The amended statement at a four-byte frame: the CRC byte is 0x53, the
    frame verifies, a flipped data bit, a flipped length bit that raises
    the length field, and a CRC seeded with 0x11 are all rejected. *)
Lemma C1_witness :
  let F := [0x20; 0x04; 0x0d; 0x00] in
  let G := with_crc F 4 new_DGT3000 in
  G = [0x20; 0x04; 0x0d; 0x53]
  /\ verified G 4 new_DGT3000 = true
  /\ verified (Spec.flip_bit G 2 3) 4 new_DGT3000 = false
  /\ verified (Spec.flip_bit G 1 0) 4 new_DGT3000 = false
  /\ verified [0x20; 0x04; 0x0d; Spec.crc8_atm [0x11; 0x20; 0x04; 0x0d]] 4
       new_DGT3000 = false.
Proof.
  intros F G.
  pose proof (C1_crc_round_trip F 4 new_DGT3000
                ltac:(lia) eq_refl
                ltac:(repeat constructor; unfold is_byte; lia) eq_refl) as H.
  cbv zeta in H. destruct H as (_ & HG & Hv & Hf & Hs).
  split; [unfold G; rewrite HG; vm_compute; reflexivity|].
  split; [exact Hv|]. split; [|split].
  - apply Hf; [lia|lia|]. left. lia.
  - apply Hf; [lia|lia|]. right. right. vm_compute. reflexivity.
  - apply (Hs 0x11); lia.
Defined.

(** Claim C1 as stated fails at the frame [C5 03 ..] of length 3: after
    bit 0 of the length byte is flipped (3 becomes 2) the CRC position
    moves to byte 1, and the CRC of byte 0 alone is 2, so the mutated
    frame is accepted. *)
Lemma C1_length_byte_flip_accepted :
  let F := [0xC5; 0x03; 0x00] in
  let G := with_crc F 3 new_DGT3000 in
  (3 <= 3 <= 255 /\ Z.of_nat (List.length F) = 3 /\ Forall is_byte F
   /\ at_ F 1 = 3)
  /\ (0 <= 1 <= 3 - 2 /\ 0 <= 0 <= 7)
  /\ verified G 3 new_DGT3000 = true
  /\ verified (Spec.flip_bit G 1 0) 3 new_DGT3000 = true.
Proof.
  cbv zeta. split; [|split; [lia|split; vm_compute; reflexivity]].
  split; [lia|]. split; [reflexivity|]. split; [|reflexivity].
  repeat constructor; unfold is_byte; lia.
Qed.

(** ** The button ring buffer *)

Lemma rem16 (a : Z) : 0 <= a -> Z.rem a 16 = a mod 16.
Proof. intros H. apply Z.rem_mod_nonneg; lia. Qed.

Lemma ring_full_iff (s : Link) (q : list Z) :
  ring_holds s q -> isButtonBufferFull s = (List.length q =? 15)%nat.
Proof.
  intros (Hs & Hb & Hq & He & _). unfold isButtonBufferFull.
  unfold DGT3000_BUTTON_BUFFER_SIZE. rewrite rem16 by lia_mod.
  rewrite He.
  destruct (Nat.eqb_spec (List.length q) 15) as [E|E].
  - apply Z.eqb_eq. rewrite E. lia_mod.
  - apply Z.eqb_neq. lia_mod.
Qed.

Lemma ring_push (s : Link) (q : list Z) (x : Z) :
  ring_holds s q ->
  ring_holds (addButtonEvent x s)
    (if (List.length q =? 15)%nat then tl q ++ [x] else q ++ [x]).
Proof.
  intros H. pose proof (ring_full_iff s q H) as Hfull.
  destruct H as (Hs & Hb & Hq & He & Hat).
  unfold addButtonEvent. rewrite Hfull.
  destruct (Nat.eqb_spec (List.length q) 15) as [E|E]; cbn [negb].
  - (* full: the oldest event is dropped *)
    destruct q as [|h q]; [discriminate|].
    cbn [List.length] in *. rewrite Nat2Z.inj_succ in He.
    unfold ring_holds.
    cbn -[at_ put Z.rem Z.modulo Z.add Z.of_nat Nat.sub].
    unfold DGT3000_BUTTON_BUFFER_SIZE.
    rewrite !rem16 by lia_mod. rewrite put_length, length_app.
    cbn [List.length].
    split; [lia_mod|]. split; [lia|]. split; [lia|].
    split; [rewrite He; lia_mod|].
    intros j Hj.
    destruct (Nat.eq_dec j (List.length q)) as [->|Hne].
    + rewrite app_nth2 by lia. rewrite Nat.sub_diag. cbn [nth].
      replace ((_ + _) mod 16) with (buttonEnd (_rxData s))
        by (rewrite He; lia_mod).
      apply at_put_eq. rewrite He. lia_mod.
    + rewrite app_nth1 by lia.
      rewrite at_put_ne; try (rewrite ?He; lia_mod).
      specialize (Hat (S j) ltac:(lia)). cbn [nth] in Hat.
      rewrite <- Hat. f_equal. lia_mod.
  - unfold ring_holds.
    cbn -[at_ put Z.rem Z.modulo Z.add Z.of_nat Nat.sub].
    unfold DGT3000_BUTTON_BUFFER_SIZE.
    rewrite !rem16 by (rewrite He; lia_mod).
    rewrite put_length, length_app. cbn [List.length].
    split; [lia|]. split; [lia|]. split; [lia|].
    split; [rewrite He; lia_mod|].
    intros j Hj.
    destruct (Nat.eq_dec j (List.length q)) as [->|Hne].
    + rewrite app_nth2 by lia. rewrite Nat.sub_diag. cbn [nth].
      rewrite <- He. apply at_put_eq. rewrite He. lia_mod.
    + rewrite app_nth1 by lia.
      rewrite at_put_ne; try (rewrite ?He; lia_mod).
      apply Hat. lia.
Qed.

Lemma ring_pop (s : Link) (x : Z) (q : list Z) (cell : Z) :
  _initialized s = true -> ring_holds s (x :: q) ->
  exists s', getButtonEvent (Some cell) s = (true, Some x, s')
             /\ _initialized s' = true /\ ring_holds s' q.
Proof.
  intros Hi (Hs & Hb & Hq & He & Hat).
  cbn [List.length] in *. rewrite Nat2Z.inj_succ in He.
  unfold getButtonEvent. rewrite Hi. cbn [negb].
  destruct (Z.eqb_spec (buttonStart (_rxData s)) (buttonEnd (_rxData s)))
    as [E|E]; [rewrite He in E; lia_mod|].
  eexists. split; [|split].
  - pose proof (Hat 0%nat ltac:(lia)) as H0. cbn [nth] in H0.
    replace ((buttonStart (_rxData s) + Z.of_nat 0) mod 16)
      with (buttonStart (_rxData s)) in H0 by lia_mod.
    rewrite H0. reflexivity.
  - exact Hi.
  - unfold ring_holds.
    cbn -[at_ put Z.rem Z.modulo Z.add Z.of_nat Nat.sub].
    unfold DGT3000_BUTTON_BUFFER_SIZE. rewrite !rem16 by lia.
    split; [lia_mod|]. split; [lia|]. split; [lia|].
    split; [rewrite He; lia_mod|].
    intros j Hj. specialize (Hat (S j) ltac:(lia)). cbn [nth] in Hat.
    rewrite <- Hat. f_equal. lia_mod.
Qed.

Lemma ring_pop_empty (s : Link) (cell : Z) :
  _initialized s = true -> ring_holds s [] ->
  getButtonEvent (Some cell) s = (false, Some 0, set_lastError DGT_SUCCESS s).
Proof.
  intros Hi (Hs & Hb & Hq & He & Hat). cbn [List.length] in He.
  unfold getButtonEvent. rewrite Hi. cbn [negb].
  destruct (Z.eqb_spec (buttonStart (_rxData s)) (buttonEnd (_rxData s)))
    as [E|E]; [reflexivity|].
  exfalso. apply E. rewrite He. lia_mod.
Qed.

Lemma drain_ring (q : list Z) :
  forall fuel s,
    _initialized s = true -> ring_holds s q ->
    (List.length q < fuel)%nat ->
    exists s', drain fuel s = (q, s') /\ _initialized s' = true
               /\ ring_holds s' [].
Proof.
  induction q as [|x q IH]; intros fuel s Hi H Hf;
    (destruct fuel as [|fuel]; [cbn [List.length] in Hf; lia|]).
  - cbn [drain]. rewrite ring_pop_empty by assumption.
    eexists. split; [reflexivity|]. split; [exact Hi|].
    exact H.
  - destruct (ring_pop s x q 0 Hi H) as (s1 & E1 & Hi1 & H1).
    cbn [drain]. rewrite E1.
    destruct (IH fuel s1 Hi1 H1 ltac:(cbn [List.length] in Hf; lia))
      as (s2 & E2 & Hi2 & H2).
    rewrite E2. eexists. split; [reflexivity|]. split; assumption.
Qed.

Lemma lastn_short (k : nat) (l : list Z) :
  (List.length l <= k)%nat -> lastn k l = l.
Proof.
  intros H. unfold lastn.
  replace (List.length l - k)%nat with 0%nat by lia. reflexivity.
Qed.

Lemma lastn_length (k : nat) (l : list Z) :
  List.length (lastn k l) = Nat.min k (List.length l).
Proof. unfold lastn. rewrite length_skipn. lia. Qed.

Lemma tl_skipn (k : nat) (l : list Z) : tl (skipn k l) = skipn (S k) l.
Proof.
  revert l. induction k as [|k IH]; intros [|x l]; simpl; auto.
Qed.

Lemma lastn_snoc (a : list Z) (x : Z) :
  lastn 15 (a ++ [x])
  = if (List.length (lastn 15 a) =? 15)%nat
    then tl (lastn 15 a) ++ [x] else lastn 15 a ++ [x].
Proof.
  rewrite lastn_length. unfold lastn. rewrite length_app. cbn [List.length].
  destruct (Nat.eqb_spec (Nat.min 15 (List.length a)) 15) as [E|E].
  - rewrite tl_skipn, skipn_app.
    replace (List.length a + 1 - 15)%nat with (S (List.length a - 15)) by lia.
    replace (S (List.length a - 15) - List.length a)%nat with 0%nat by lia.
    reflexivity.
  - replace (List.length a + 1 - 15)%nat with 0%nat by lia.
    replace (List.length a - 15)%nat with 0%nat by lia. reflexivity.
Qed.

Lemma pushes_ring (l : list Z) :
  forall a s,
    ring_holds s (lastn 15 a) ->
    ring_holds (pushes l s) (lastn 15 (a ++ l)).
Proof.
  induction l as [|x l IH]; intros a s H.
  - rewrite app_nil_r. exact H.
  - cbn [pushes fold_left]. fold (pushes l (addButtonEvent x s)).
    replace (a ++ x :: l) with ((a ++ [x]) ++ l)
      by (rewrite <- app_assoc; reflexivity).
    apply IH. rewrite lastn_snoc. apply ring_push. exact H.
Qed.

Lemma pushes_initialized (l : list Z) :
  forall s, _initialized (pushes l s) = _initialized s.
Proof.
  induction l as [|x l IH]; intros s; [reflexivity|].
  cbn [pushes fold_left]. fold (pushes l (addButtonEvent x s)).
  rewrite IH. unfold addButtonEvent.
  destruct (negb (isButtonBufferFull s)); reflexivity.
Qed.

Lemma ring_empty_holds (s : Link) : ring_empty s -> ring_holds s [].
Proof.
  intros (Hs & He & Hb). unfold ring_holds. cbn [List.length].
  split; [lia|]. split; [lia|]. split; [lia|].
  split; [rewrite He; lia_mod|]. intros j Hj. lia.
Qed.

(** Claim C2 (amended).  The ring of 16 slots holds at most 15 events.
    Starting from an empty ring of an initialised link, after any
    sequence [l] of [addButtonEvent] pushes with no pop in between,
    successive [getButtonEvent] calls return the last 15 elements of
    [l] in insertion order and then leave the ring empty: all of [l]
    when it has at most 15 elements, and otherwise [l] without its
    oldest elements, each push beyond the fifteenth having dropped the
    oldest event. *)
Theorem C2_ring_keeps_last_15 (l : list Z) (s : Link) :
  _initialized s = true -> ring_empty s ->
  exists s',
    drain 16 (pushes l s) = (lastn 15 l, s')
    /\ ring_empty s'
    /\ ((List.length l <= 15)%nat -> lastn 15 l = l)
    /\ ((15 < List.length l)%nat ->
          lastn 15 l = skipn (List.length l - 15) l
          /\ List.length (lastn 15 l) = 15%nat).
Proof.
  intros Hi He.
  pose proof (pushes_ring l [] s
                ltac:(apply ring_empty_holds; exact He)) as H.
  cbn [app] in H.
  destruct (drain_ring (lastn 15 l) 16 (pushes l s)) as (s' & E & Hi' & H').
  - rewrite pushes_initialized. exact Hi.
  - exact H.
  - rewrite lastn_length. lia.
  - exists s'. split; [exact E|]. split.
    + destruct H' as (Hs & Hb & _ & Hend & _). cbn [List.length] in Hend.
      unfold ring_empty. split; [lia|]. split; [rewrite Hend; lia_mod|lia].
    + split; [apply lastn_short|].
      intros Hl. split; [reflexivity|]. rewrite lastn_length. lia.
Qed.

(** Seventeen pushes into the empty ring leave the events 3 .. 17. *)
Lemma C2_witness :
  fst (drain 16 (pushes seventeen started_link)) = map Z.of_nat (seq 3 15).
Proof.
  destruct (C2_ring_keeps_last_15 seventeen started_link eq_refl)
    as (s' & E & _).
  - unfold ring_empty. cbn. split; [lia|]. split; reflexivity.
  - rewrite E. reflexivity.
Defined.

(** Claim C2 as stated fails at sixteen pushes: the sixteenth push
    already drops the oldest event, so the events read are 2 .. 16 and
    not the sixteen pushed; after seventeen pushes they are 3 .. 17 and
    not the last sixteen. *)
Lemma C2_sixteenth_push_drops_oldest :
  ring_empty started_link /\ _initialized started_link = true
  /\ fst (drain 16 (pushes sixteen started_link)) = map Z.of_nat (seq 2 15)
  /\ fst (drain 16 (pushes sixteen started_link)) <> sixteen
  /\ fst (drain 16 (pushes seventeen started_link)) = map Z.of_nat (seq 3 15)
  /\ fst (drain 16 (pushes seventeen started_link)) <> lastn 16 seventeen.
Proof.
  split; [unfold ring_empty; cbn; split; [lia|split; reflexivity]|].
  split; [reflexivity|].
  split; [vm_compute; reflexivity|].
  split; [vm_compute; discriminate|].
  split; [vm_compute; reflexivity|].
  vm_compute; discriminate.
Qed.

(** ** Inbound frames *)

Lemma ring_holds_push15 (s : Link) (q : list Z) (x : Z) :
  ring_holds s q -> ring_holds (addButtonEvent x s) (lastn 15 (q ++ [x])).
Proof.
  intros H. pose proof H as (_ & _ & Hq & _).
  rewrite lastn_snoc, (lastn_short 15 q Hq). apply ring_push. exact H.
Qed.

(** Claim C3.  For every button frame (at least 5 bytes, type byte 5)
    with state pair (current, previous), [processButtonMessage] records
    [current] as the raw button state and puts into the ring at most one
    event, the one of the priority rule: ON_OFF_PRESS (0x20) or
    ON_OFF_RELEASE (0xA0) if bit 0x20 changed, depending on whether it is
    now set; otherwise LEVER_LEFT (0xC0) or LEVER_RIGHT (0x40) if bit 0x40
    changed, depending on whether it is now set; otherwise
    [changed & current & 0x1F], and only if that mask is not zero.  The
    events readable from the ring afterwards are those readable before
    followed by that event (the oldest giving way when 15 are held), or
    the same events when the rule gives none. *)
Theorem C3_button_frame_event (buffer : list Z) (length : Z) (s : Link) :
  5 <= length -> at_ buffer 2 = 5 ->
  let current := at_ buffer 3 in
  let previous := at_ buffer 4 in
  let s1 := set_rxData (rx_set_lastButtonState current (_rxData s)) s in
  processButtonMessage (Some buffer) length s
  = match Spec.button_event current previous with
    | Some event => addButtonEvent event s1
    | None => s1
    end
  /\ (forall q,
        ring_holds s q ->
        ring_holds (processButtonMessage (Some buffer) length s)
          match Spec.button_event current previous with
          | Some event => lastn 15 (q ++ [event])
          | None => q
          end).
Proof.
  intros Hl H2 current previous s1.
  assert (E : processButtonMessage (Some buffer) length s
              = match Spec.button_event current previous with
                | Some event => addButtonEvent event s1
                | None => s1
                end).
  { unfold processButtonMessage, Spec.button_event.
    destruct (length <? 5) eqn:El; [apply Z.ltb_lt in El; lia|].
    rewrite H2. cbn [orb negb Z.eqb Pos.eqb].
    fold current previous s1. cbv zeta.
    unfold DGT_ON_OFF_STATE_MASK, DGT_LEVER_STATE_MASK,
      DGT_EVENT_ON_OFF_PRESS, DGT_EVENT_ON_OFF_RELEASE, DGT_EVENT_LEVER_LEFT,
      DGT_EVENT_LEVER_RIGHT.
    destruct (Z.eqb_spec (Z.lxor current previous) 0) as [E|E].
    - rewrite E. reflexivity.
    - destruct (negb (Z.land (Z.lxor current previous) 32 =? 0));
        [reflexivity|].
      destruct (negb (Z.land (Z.lxor current previous) 64 =? 0));
        [reflexivity|].
      destruct (negb (_ =? 0)); reflexivity. }
  split; [exact E|].
  intros q Hq. rewrite E.
  assert (H1 : ring_holds s1 q) by exact Hq.
  destruct (Spec.button_event current previous);
    [apply ring_holds_push15|]; exact H1.
Qed.

(** Play/pause pressed: the frame [10 07 05 04 00] queues the event 0x04. *)
Lemma C3_witness :
  processButtonMessage (Some [0x10; 0x07; 0x05; 0x04; 0x00]) 5 started_link
  = addButtonEvent 0x04
      (set_rxData (rx_set_lastButtonState 0x04 (_rxData started_link))
         started_link).
Proof.
  exact (proj1 (C3_button_frame_event [0x10; 0x07; 0x05; 0x04; 0x00] 5
                  started_link ltac:(lia) eq_refl)).
Defined.

Lemma bcdToDec_bcd (b : Z) : 0 <= b < 256 -> bcdToDec b = Spec.bcd b.
Proof.
  intros H. unfold bcdToDec, Spec.bcd, uint8.
  rewrite Z.shiftr_div_pow2 by lia.
  change 15 with (Z.ones 4). rewrite Z.land_ones by lia.
  change (2 ^ 4) with 16.
  apply Z.mod_small. Z.to_euclidean_division_equations; lia.
Qed.

(** Claim C7.  [processTimeMessage] leaves the link exactly as it was, so
    the stored time, the new-time flag and the connected and configured
    flags are unchanged, for an echo frame (more than 19 bytes with byte
    19 equal to 1), for a frame shorter than 14 bytes, for a frame whose
    length byte is not 0x18, and for a frame whose parsed fields break the
    ClockTime invariants (hours above 9, minutes or seconds above 59). *)
Theorem C7_invalid_time_frame_dropped (buffer : list Z) (length : Z) (s : Link) :
  Forall is_byte buffer ->
  (19 < length /\ at_ buffer 19 = 1)
  \/ length < 14
  \/ at_ buffer 1 <> 0x18
  \/ ~ Spec.clock_time_ok
         (Z.land (at_ buffer 4) 0x0F) (Spec.bcd (at_ buffer 5))
         (Spec.bcd (at_ buffer 6))
         (Z.land (at_ buffer 10) 0x0F) (Spec.bcd (at_ buffer 11))
         (Spec.bcd (at_ buffer 12)) ->
  processTimeMessage buffer length s = s.
Proof.
  intros HB H. unfold processTimeMessage.
  destruct ((length >? 19) && (at_ buffer 19 =? 1)) eqn:E1; [reflexivity|].
  destruct ((length <? 14) || negb (at_ buffer 1 =? 24)) eqn:E2; [reflexivity|].
  apply andb_false_iff in E1. apply orb_false_iff in E2.
  destruct E2 as [E2 E3]. apply Z.ltb_ge in E2.
  apply negb_false_iff, Z.eqb_eq in E3.
  destruct H as [[Ha Hb]|[H|[H|H]]]; try lia.
  rewrite !bcdToDec_bcd by (apply at_byte; assumption).
  match goal with
  | |- (if ?c then _ else _) = _ => destruct c eqn:E4; [reflexivity|]
  end.
  exfalso. apply H. unfold Spec.clock_time_ok. lia.
Qed.

(** A frame with left hours 0x0A is dropped. *)
Lemma C7_witness :
  processTimeMessage (time_frame 0x0A) 14 started_link = started_link.
Proof.
  apply C7_invalid_time_frame_dropped.
  - repeat constructor; unfold is_byte; lia.
  - right. right. right. unfold Spec.clock_time_ok. vm_compute.
    intros (H & _). apply H. reflexivity.
Defined.

(** ** Outbound commands *)

Lemma quiet_refl (s : Link) : quiet s s.
Proof. unfold quiet; tauto. Qed.

Lemma quiet_trans (a b c : Link) : quiet a b -> quiet b c -> quiet a c.
Proof.
  unfold quiet. intros (A1 & A2 & A3 & A4 & A5 & A6) (B1 & B2 & B3 & B4 & B5 & B6).
  repeat split; try congruence; auto.
Qed.

Lemma steady_trans (a b c : Link) : steady a b -> steady b c -> steady a c.
Proof.
  unfold steady. intros (A1 & A2 & A3 & A4 & A5) (B1 & B2 & B3 & B4 & B5).
  repeat split; try congruence; auto.
Qed.

Lemma quiet_steady (a b : Link) : quiet a b -> steady a b.
Proof. unfold quiet, steady. tauto. Qed.

Ltac quiet_step := unfold quiet; cbn; repeat split; auto; congruence.

Lemma settled_quiet (bus : Bus) (a b : Link) : quiet a b -> settled bus a b.
Proof. intros Q. split; [apply quiet_steady; exact Q|intros _; exact Q]. Qed.

Lemma settled_refl (bus : Bus) (s : Link) : settled bus s s.
Proof. apply settled_quiet, quiet_refl. Qed.

Lemma settled_trans (bus : Bus) (a b c : Link) :
  settled bus a b -> settled bus b c -> settled bus a c.
Proof.
  intros (S1 & Q1) (S2 & Q2). split.
  - eapply steady_trans; eassumption.
  - intros H. eapply quiet_trans; [apply Q1|apply Q2]; exact H.
Qed.

Ltac settled_step := apply settled_quiet; quiet_step.

(** *** What the slave-receive callback changes *)

Ltac received_step :=
  unfold received; cbn; repeat split; auto; intros; try discriminate; auto.

Lemma received_refl (s : Link) : received s s.
Proof. received_step. Qed.

Lemma received_trans (a b c : Link) :
  received a b -> received b c -> received a c.
Proof.
  unfold received.
  intros (A1 & A2 & A3 & A4 & A5 & A6 & A7 & A8)
         (B1 & B2 & B3 & B4 & B5 & B6 & B7 & B8).
  repeat split; try congruence; auto.
Qed.

Lemma received_processAckMessage (b : list Z) (n : Z) (s : Link) :
  received s (processAckMessage b n s).
Proof. unfold processAckMessage. destruct (_ || _); received_step. Qed.

Lemma received_processPingResponseMessage (b : list Z) (n : Z) (s : Link) :
  received s (processPingResponseMessage b n s).
Proof.
  unfold processPingResponseMessage. destruct (_ && _); received_step.
Qed.

Lemma received_processTimeMessage (b : list Z) (n : Z) (s : Link) :
  received s (processTimeMessage b n s).
Proof.
  unfold processTimeMessage.
  destruct (_ && _); [received_step|].
  destruct (_ || _); [received_step|].
  cbv zeta. destruct (_ || _); [received_step|].
  destruct (negb _); received_step.
Qed.

Lemma received_addButtonEvent (e : Z) (s : Link) :
  received s (addButtonEvent e s).
Proof. unfold addButtonEvent. destruct (negb _); received_step. Qed.

Lemma received_processButtonMessage (b : option (list Z)) (n : Z) (s : Link) :
  received s (processButtonMessage b n s).
Proof.
  unfold processButtonMessage. destruct b as [b|]; [|received_step].
  destruct (_ || _); [received_step|]. cbv zeta.
  set (s1 := set_rxData _ s).
  assert (R1 : received s s1) by received_step.
  destruct (_ =? 0); [exact R1|].
  repeat match goal with
         | |- context [if ?c then _ else _] => destruct c
         end;
    try exact R1;
    (eapply received_trans; [exact R1|apply received_addButtonEvent]).
Qed.

(** The callback leaves the fields that the outbound side owns. *)
Lemma received_onSlaveReceive (n : Z) (f : list Z) (s : Link) :
  received s (onSlaveReceive n f s).
Proof.
  unfold onSlaveReceive.
  destruct (_ || _); [apply received_refl|].
  destruct (_ && _); [|apply received_refl].
  cbv zeta.
  destruct (_ =? 1); [apply received_processAckMessage|].
  destruct (_ =? DGT_MSG_WAKEUP_RESP);
    [apply received_processPingResponseMessage|].
  destruct (_ =? 4); [apply received_processTimeMessage|].
  destruct (_ =? 5); [apply received_processButtonMessage|].
  apply received_refl.
Qed.

Lemma received_arrive (arrived : list (list Z)) :
  forall s, received s (arrive arrived s).
Proof.
  induction arrived as [|f fs IH]; intros s; [apply received_refl|].
  cbn [arrive fold_left]. eapply received_trans; [|apply IH].
  apply received_onSlaveReceive.
Qed.

Lemma received_steady (s s' : Link) : received s s' -> steady s s'.
Proof. unfold received, steady. tauto. Qed.

Lemma onSlaveReceive_no_time (n : Z) (f : list Z) (s : Link) :
  at_ f 2 <> 4 ->
  _connected (onSlaveReceive n f s) = _connected s.
Proof.
  intros H. unfold onSlaveReceive.
  destruct (_ || _); [reflexivity|].
  destruct (Z.geb_spec (Z.of_nat (List.length (firstn 256 f))) 3) as [L|L];
    [|reflexivity].
  cbn [andb].
  assert (E : at_ (firstn 256 f) 2 = at_ f 2).
  { unfold at_. rewrite length_firstn in L.
    change (Z.to_nat 2) with 2%nat.
    rewrite <- (firstn_skipn 256 f) at 2.
    rewrite app_nth1; [reflexivity|]. rewrite length_firstn. lia. }
  rewrite E.
  destruct (_ =? DGT3000_ESP_ADDR_10); [|reflexivity].
  destruct (at_ f 2 =? 1).
  { unfold processAckMessage. destruct (_ || _); reflexivity. }
  destruct (at_ f 2 =? DGT_MSG_WAKEUP_RESP).
  { unfold processPingResponseMessage. destruct (_ && _); reflexivity. }
  destruct (Z.eqb_spec (at_ f 2) 4) as [E4|E4]; [contradiction|].
  destruct (at_ f 2 =? 5); [|reflexivity].
  unfold processButtonMessage, addButtonEvent.
  repeat match goal with
         | |- context [if ?c then _ else _] => destruct c
         end; reflexivity.
Qed.

Lemma arrive_no_time (arrived : list (list Z)) :
  forall s, time_free arrived = true ->
            _connected (arrive arrived s) = _connected s.
Proof.
  induction arrived as [|f fs IH]; intros s H; [reflexivity|].
  cbn [arrive fold_left]. cbn [time_free forallb] in H.
  apply andb_true_iff in H. destruct H as (H1 & H2).
  change (_connected (arrive fs (onSlaveReceive (Z.of_nat (List.length f)) f s))
          = _connected s).
  rewrite IH by exact H2. apply onSlaveReceive_no_time.
  apply negb_true_iff, Z.eqb_neq in H1. exact H1.
Qed.

Lemma settled_arrive (bus : Bus) (arrived : list (list Z)) (s : Link) :
  (no_time_frames bus -> time_free arrived = true) ->
  settled bus s (arrive arrived s).
Proof.
  intros H. pose proof (received_arrive arrived s) as R.
  split; [apply received_steady; exact R|].
  intros N. pose proof (arrive_no_time arrived s (H N)) as C.
  destruct R as (R1 & R2 & R3 & R4 & _ & _ & _ & R8).
  unfold quiet. repeat split; auto. congruence.
Qed.

Lemma settled_delay (bus : Bus) (s : Link) : settled bus s (delay bus s).
Proof.
  unfold delay. cbv zeta.
  eapply settled_trans; [|apply settled_arrive].
  - settled_step.
  - intros N. apply N.
Qed.

(** *** The steps of a transmission *)

Lemma settled_setSlaveListenAddress (bus : Bus) (a : Z) (s : Link) :
  settled bus s (setSlaveListenAddress bus a s).
Proof.
  unfold setSlaveListenAddress.
  repeat match goal with
  | |- context [if ?c then _ else _] => destruct c
  end; settled_step.
Qed.

Lemma settled_waitForAck_loop (bus : Bus) (e : Z)
  (polls : list (list (list Z))) :
  (no_time_frames bus -> forallb time_free polls = true) ->
  forall s, settled bus s (snd (waitForAck_loop e polls s)).
Proof.
  induction polls as [|p polls IH]; intros H s; cbn [waitForAck_loop].
  - settled_step.
  - destruct (_ && _); [settled_step|].
    eapply settled_trans; [apply (settled_arrive bus p)|apply IH].
    + intros N. specialize (H N). cbn [forallb] in H.
      apply andb_true_iff in H. apply H.
    + intros N. specialize (H N). cbn [forallb] in H.
      apply andb_true_iff in H. apply H.
Qed.

Lemma settled_waitForAck (bus : Bus) (e : Z) (s : Link) :
  settled bus s (snd (waitForAck bus e s)).
Proof.
  unfold waitForAck. destruct (negb _); [settled_step|]. cbv zeta.
  eapply settled_trans; [|apply settled_waitForAck_loop].
  - settled_step.
  - intros N. apply N.
Qed.

Lemma settled_transmit (bus : Bus) (t : Z) (c : list Z) (n : Z) (s : Link) :
  settled bus s (snd (transmit bus t c n s)).
Proof. settled_step. Qed.

(** The counters of transmissions and of waits. *)
Lemma counts_setSlaveListenAddress (bus : Bus) (a : Z) (s : Link) :
  let s' := setSlaveListenAddress bus a s in
  txCount (wire s') = txCount (wire s)
  /\ ackWaitCount (wire s') = ackWaitCount (wire s)
  /\ pingWaitCount (wire s') = pingWaitCount (wire s).
Proof.
  cbv zeta. unfold setSlaveListenAddress.
  repeat match goal with
  | |- context [if ?c then _ else _] => destruct c
  end; cbn; auto.
Qed.

Lemma txCount_setSlaveListenAddress (bus : Bus) (a : Z) (s : Link) :
  txCount (wire (setSlaveListenAddress bus a s)) = txCount (wire s).
Proof. apply counts_setSlaveListenAddress. Qed.

Lemma wire_arrive (arrived : list (list Z)) (s : Link) :
  wire (arrive arrived s) = wire s.
Proof. apply (received_arrive arrived s). Qed.

Lemma counts_delay (bus : Bus) (s : Link) :
  txCount (wire (delay bus s)) = txCount (wire s)
  /\ ackWaitCount (wire (delay bus s)) = ackWaitCount (wire s)
  /\ pingWaitCount (wire (delay bus s)) = pingWaitCount (wire s).
Proof. unfold delay. cbv zeta. rewrite wire_arrive. cbn. auto. Qed.

Lemma wire_waitForAck_loop (e : Z) (polls : list (list (list Z))) :
  forall s, wire (snd (waitForAck_loop e polls s)) = wire s.
Proof.
  induction polls as [|p polls IH]; intros s; cbn [waitForAck_loop].
  - reflexivity.
  - destruct (_ && _); [reflexivity|]. rewrite IH. apply wire_arrive.
Qed.

Lemma counts_waitForAck (bus : Bus) (e : Z) (s : Link) :
  let s' := snd (waitForAck bus e s) in
  txCount (wire s') = txCount (wire s)
  /\ pingWaitCount (wire s') = pingWaitCount (wire s)
  /\ (_initialized s = true ->
      ackWaitCount (wire s') = S (ackWaitCount (wire s))).
Proof.
  cbv zeta. unfold waitForAck.
  destruct (_initialized s); cbn [negb]; [|cbn; repeat split; discriminate].
  cbv zeta. rewrite wire_waitForAck_loop. cbn. auto.
Qed.

(** The loop of [sendDGTCommand]: it returns only [true] from inside,
    and leaves at its end after one transmission per turn. *)
Lemma sendDGTCommand_loop_spec (bus : Bus) (cmd : list Z)
  (length ackAddr expected numAcks target maxAttempts : Z) (withRetry : bool)
  (remaining : nat) :
  forall attempt s,
    let r := sendDGTCommand_loop bus remaining attempt maxAttempts cmd length
               ackAddr expected numAcks target withRetry s in
    settled bus s (snd r)
    /\ (fst r = None ->
        txCount (wire (snd r)) = (txCount (wire s) + remaining)%nat)
    /\ (forall b, fst r = Some b -> b = true).
Proof.
  induction remaining as [|remaining IH]; intros attempt s; cbn zeta.
  - cbn. split; [apply settled_refl|]. split; [intros; lia|discriminate].
  - cbn [sendDGTCommand_loop].
    set (s1 := set_receivedAckCmd 0 (set_newAckReceived false
                 (setSlaveListenAddress bus ackAddr s))).
    assert (Q1 : settled bus s s1).
    { eapply settled_trans; [apply (settled_setSlaveListenAddress bus ackAddr)|].
      settled_step. }
    assert (T1 : txCount (wire s1) = txCount (wire s)).
    { unfold s1. cbn -[setSlaveListenAddress].
      apply txCount_setSlaveListenAddress. }
    unfold transmit.
    set (s2 := set_wire _ s1).
    assert (Q2 : settled bus s s2)
      by (eapply settled_trans; [exact Q1|settled_step]).
    assert (T2 : txCount (wire s2) = S (txCount (wire s))).
    { unfold s2, s1. cbn -[setSlaveListenAddress].
      rewrite txCount_setSlaveListenAddress. reflexivity. }
    destruct (negb (_ =? 0)).
    + destruct withRetry.
      * cbv zeta.
        specialize (IH (attempt + 1)
                      (delay bus (set_lastError DGT_ERROR_I2C_COMM s2))).
        cbn zeta in IH. destruct IH as (Q & T & B).
        split; [|split].
        -- eapply settled_trans; [exact Q2|].
           eapply settled_trans; [|exact Q].
           eapply settled_trans; [|apply settled_delay]. settled_step.
        -- intros E. rewrite (T E).
           destruct (counts_delay bus (set_lastError DGT_ERROR_I2C_COMM s2))
             as (D & _).
           rewrite D. cbn [wire set_lastError]. rewrite T2. lia.
        -- exact B.
      * cbn. split; [|split].
        -- eapply settled_trans; [exact Q2|settled_step].
        -- discriminate.
        -- congruence.
    + destruct (numAcks =? 0).
      * cbn. split; [|split].
        -- eapply settled_trans; [exact Q2|settled_step].
        -- discriminate.
        -- congruence.
      * pose proof (settled_waitForAck bus expected s2) as Q3.
        destruct (counts_waitForAck bus expected s2) as (T3 & _).
        destruct (waitForAck bus expected s2) as [acked s3].
        cbn [snd] in Q3, T3. destruct acked.
        -- cbn. split; [|split].
           ++ eapply settled_trans; [exact Q2|].
              eapply settled_trans; [exact Q3|].
              eapply settled_trans;
                [apply (settled_setSlaveListenAddress bus DGT3000_ESP_ADDR_00)|].
              settled_step.
           ++ discriminate.
           ++ congruence.
        -- set (s4 := if attempt <? maxAttempts then _ else s3).
           assert (Q4 : settled bus s3 s4)
             by (unfold s4; destruct (_ <? _); settled_step).
           assert (T4 : txCount (wire s4) = txCount (wire s3))
             by (unfold s4; destruct (_ <? _); reflexivity).
           specialize (IH (attempt + 1) s4).
           cbn zeta in IH. destruct IH as (Q & T & B).
           split; [|split].
           ++ eapply settled_trans; [exact Q2|].
              eapply settled_trans; [exact Q3|].
              eapply settled_trans; [exact Q4|exact Q].
           ++ intros E. rewrite (T E), T4, T3, T2. lia.
           ++ exact B.
Qed.

Lemma settled_sendDGTCommand (bus : Bus) (cmd : option (list Z))
  (length ackAddr expected numAcks target : Z) (withRetry : bool) (s : Link) :
  settled bus s (snd (sendDGTCommand bus cmd length ackAddr expected numAcks
                        target withRetry s)).
Proof.
  unfold sendDGTCommand.
  destruct (_ || _); [settled_step|].
  destruct cmd as [cmd|]; [|settled_step].
  destruct (length <=? 0); [settled_step|].
  match goal with
  | |- context [sendDGTCommand_loop bus ?n ?a ?m cmd length ackAddr expected
                  numAcks target withRetry s] =>
    pose proof (sendDGTCommand_loop_spec bus cmd length ackAddr expected
                  numAcks target m withRetry n a s) as H;
    cbn zeta in H;
    destruct (sendDGTCommand_loop bus n a m cmd length ackAddr expected
                numAcks target withRetry s) as [[r|] s']
  end; cbn [fst snd] in *; destruct H as (Q & _ & _).
  - exact Q.
  - eapply settled_trans; [exact Q|].
    eapply settled_trans;
      [apply (settled_setSlaveListenAddress bus DGT3000_ESP_ADDR_00)|].
    settled_step.
Qed.


(** *** Acknowledgements *)

Lemma ack_flags_processPingResponseMessage (b : list Z) (n : Z) (s : Link) :
  _newAckReceived (processPingResponseMessage b n s) = _newAckReceived s
  /\ _receivedAckCmd (processPingResponseMessage b n s) = _receivedAckCmd s.
Proof.
  unfold processPingResponseMessage. destruct (_ && _); cbn; auto.
Qed.

Lemma ack_flags_processTimeMessage (b : list Z) (n : Z) (s : Link) :
  _newAckReceived (processTimeMessage b n s) = _newAckReceived s
  /\ _receivedAckCmd (processTimeMessage b n s) = _receivedAckCmd s.
Proof.
  unfold processTimeMessage.
  destruct (_ && _); [auto|]. destruct (_ || _); [auto|].
  cbv zeta. destruct (_ || _); [auto|]. destruct (negb _); cbn; auto.
Qed.

Lemma ack_flags_processButtonMessage (b : option (list Z)) (n : Z) (s : Link) :
  _newAckReceived (processButtonMessage b n s) = _newAckReceived s
  /\ _receivedAckCmd (processButtonMessage b n s) = _receivedAckCmd s.
Proof.
  unfold processButtonMessage, addButtonEvent. destruct b as [b|]; [|auto].
  repeat match goal with
         | |- context [if ?c then _ else _] => destruct c
         end; cbn; auto.
Qed.

(** What the callback does to the acknowledgement flags of a link that
    has its slave peripheral. *)
Lemma onSlaveReceive_ack (f : list Z) (s : Link) :
  _initialized s = true -> _i2cSlave s = true ->
  let s' := onSlaveReceive (Z.of_nat (List.length f)) f s in
  match ack_of f with
  | Some c => _newAckReceived s' = true /\ _receivedAckCmd s' = c
  | None => _newAckReceived s' = _newAckReceived s
            /\ _receivedAckCmd s' = _receivedAckCmd s
  end.
Proof.
  intros Hi Hs. cbv zeta. unfold onSlaveReceive, ack_of.
  rewrite Hi, Hs. cbn [negb orb].
  destruct (Z.eqb_spec (Z.of_nat (List.length f)) 0) as [E0|E0].
  { destruct (Z.leb_spec 5 (Z.of_nat (List.length f))); [lia|]. cbn. auto. }
  cbv zeta. rewrite length_firstn.
  destruct (Z.geb_spec (Z.of_nat (Nat.min 256 (List.length f))) 3) as [L3|L3].
  2:{ destruct (Z.leb_spec 5 (Z.of_nat (List.length f))); [lia|]. cbn. auto. }
  cbn [andb].
  rewrite !at_firstn by lia.
  destruct (Z.eqb_spec (at_ f 0) DGT3000_ESP_ADDR_10) as [A|A].
  2:{ change 0x10 with DGT3000_ESP_ADDR_10.
      destruct (Z.eqb_spec (at_ f 0) DGT3000_ESP_ADDR_10); [contradiction|].
      rewrite !andb_false_r. cbn. auto. }
  change 0x10 with DGT3000_ESP_ADDR_10.
  destruct (Z.eqb_spec (at_ f 0) DGT3000_ESP_ADDR_10); [|contradiction].
  rewrite andb_true_r.
  destruct (Z.eqb_spec (at_ f 2) 1) as [T|T].
  - rewrite andb_true_r. unfold processAckMessage.
    rewrite at_firstn by lia. rewrite T. cbn [Z.eqb Pos.eqb negb orb].
    rewrite orb_false_r.
    destruct (Z.leb_spec 5 (Z.of_nat (List.length f))) as [L5|L5].
    + destruct (Z.leb_spec (Z.of_nat (List.length f)) 255) as [U|U]; cbn [andb].
      * replace (uint8 (Z.of_nat (Nat.min 256 (List.length f))))
          with (Z.of_nat (List.length f))
          by (unfold uint8; rewrite Nat.min_r by lia;
              rewrite Z.mod_small; lia).
        destruct (Z.ltb_spec (Z.of_nat (List.length f)) 5); [lia|].
        rewrite at_firstn by lia. cbn. auto.
      * replace (uint8 (Z.of_nat (Nat.min 256 (List.length f)))) with 0
          by (rewrite Nat.min_l by lia; reflexivity).
        cbn. auto.
    + cbn [andb].
      replace (uint8 (Z.of_nat (Nat.min 256 (List.length f))))
        with (Z.of_nat (List.length f))
        by (unfold uint8; rewrite Nat.min_r by lia;
            rewrite Z.mod_small; lia).
      destruct (Z.ltb_spec (Z.of_nat (List.length f)) 5); [|lia].
      auto.
  - rewrite andb_false_r.
    destruct (_ =? DGT_MSG_WAKEUP_RESP);
      [apply ack_flags_processPingResponseMessage|].
    destruct (_ =? 4); [apply ack_flags_processTimeMessage|].
    destruct (_ =? 5); [apply ack_flags_processButtonMessage|].
    auto.
Qed.

Lemma arrive_ack (arrived : list (list Z)) :
  forall s pending,
    _initialized s = true -> _i2cSlave s = true ->
    (forall e, _newAckReceived s && (_receivedAckCmd s =? e)
               = is_ack_of e pending) ->
    forall e,
      _newAckReceived (arrive arrived s)
        && (_receivedAckCmd (arrive arrived s) =? e)
      = is_ack_of e (latest_ack pending arrived).
Proof.
  induction arrived as [|f fs IH]; intros s pending Hi Hs H e; [apply H|].
  cbn [arrive fold_left latest_ack].
  set (s1 := onSlaveReceive (Z.of_nat (List.length f)) f s).
  destruct (received_onSlaveReceive (Z.of_nat (List.length f)) f s)
    as (R1 & _ & R3 & _).
  fold s1 in R1, R3.
  apply (IH s1); [congruence|congruence|].
  intros e'. pose proof (onSlaveReceive_ack f s Hi Hs) as A.
  cbv zeta in A. fold s1 in A.
  destruct (ack_of f) as [c|].
  - destruct A as (A1 & A2). rewrite A1, A2. reflexivity.
  - destruct A as (A1 & A2). rewrite A1, A2. apply H.
Qed.

Lemma existsb_seq_shift (f : nat -> bool) (n : nat) :
  existsb f (seq 1 n) = existsb (fun k => f (S k)) (seq 0 n).
Proof.
  rewrite <- seq_shift. induction (seq 0 n) as [|x l IH]; [reflexivity|].
  cbn. rewrite IH. reflexivity.
Qed.

Lemma existsb_same (f g : nat -> bool) (l : list nat) :
  (forall k, f k = g k) -> existsb f l = existsb g l.
Proof.
  intros H. induction l as [|x l IH]; [reflexivity|].
  cbn. rewrite H, IH. reflexivity.
Qed.

Lemma latest_ack_app (p : option Z) (a b : list (list Z)) :
  latest_ack p (a ++ b) = latest_ack (latest_ack p a) b.
Proof. unfold latest_ack. apply fold_left_app. Qed.

Lemma waitForAck_loop_fst (e : Z) (polls : list (list (list Z))) :
  forall s pending,
    _initialized s = true -> _i2cSlave s = true ->
    (forall e', _newAckReceived s && (_receivedAckCmd s =? e')
                = is_ack_of e' pending) ->
    fst (waitForAck_loop e polls s)
    = existsb (fun k => is_ack_of e
                          (latest_ack pending (List.concat (firstn k polls))))
              (seq 0 (List.length polls)).
Proof.
  induction polls as [|p polls IH]; intros s pending Hi Hs H; [reflexivity|].
  cbn [waitForAck_loop List.length seq existsb firstn List.concat latest_ack
       fold_left].
  rewrite (H e).
  destruct (is_ack_of e pending); [reflexivity|]. cbn [orb].
  rewrite existsb_seq_shift.
  destruct (received_arrive p s) as (R1 & _ & R3 & _).
  rewrite (IH (arrive p s) (latest_ack pending p));
    [|congruence|congruence|apply arrive_ack; assumption].
  apply existsb_same. intros k.
  cbn [firstn List.concat]. rewrite latest_ack_app. reflexivity.
Qed.



(** The result of a wait on a link that has its slave peripheral. *)
Lemma waitForAck_fst (bus : Bus) (e : Z) (s : Link) :
  _initialized s = true -> _i2cSlave s = true ->
  fst (waitForAck bus e s)
  = acknowledged e (ackPolls bus (ackWaitCount (wire s))).
Proof.
  intros Hi Hs. unfold waitForAck. rewrite Hi. cbn [negb]. cbv zeta.
  unfold acknowledged.
  apply waitForAck_loop_fst; [exact Hi|exact Hs|reflexivity].
Qed.



Lemma address_arrive (arrived : list (list Z)) (s : Link) :
  _currentListenAddress (arrive arrived s) = _currentListenAddress s.
Proof. apply (received_arrive arrived s). Qed.


Lemma address_waitForAck_loop (e : Z) (polls : list (list (list Z))) :
  forall s, _currentListenAddress (snd (waitForAck_loop e polls s))
            = _currentListenAddress s.
Proof.
  induction polls as [|p polls IH]; intros s; cbn [waitForAck_loop].
  - reflexivity.
  - destruct (_ && _); [reflexivity|]. rewrite IH. apply address_arrive.
Qed.

Lemma address_waitForAck (bus : Bus) (e : Z) (s : Link) :
  _currentListenAddress (snd (waitForAck bus e s)) = _currentListenAddress s.
Proof.
  unfold waitForAck. destruct (negb _); [reflexivity|]. cbv zeta.
  rewrite address_waitForAck_loop. reflexivity.
Qed.






Lemma settled_changeState_no_ack (bus : Bus) (s : Link) :
  settled bus s (snd (changeState_no_ack bus s)).
Proof.
  unfold changeState_no_ack. destruct (negb _); [settled_step|].
  apply settled_sendDGTCommand.
Qed.

Lemma settled_sendPing_loop (bus : Bus) (polls : list (list (list Z))) :
  (no_time_frames bus -> forallb time_free polls = true) ->
  forall s, settled bus s (snd (sendPing_loop polls s)).
Proof.
  induction polls as [|p polls IH]; intros H s; cbn [sendPing_loop].
  - settled_step.
  - destruct (_newPingResponseReceived s); [settled_step|].
    eapply settled_trans; [apply (settled_arrive bus p)|apply IH].
    + intros N. specialize (H N). cbn [forallb] in H.
      apply andb_true_iff in H. apply H.
    + intros N. specialize (H N). cbn [forallb] in H.
      apply andb_true_iff in H. apply H.
Qed.

Lemma settled_sendPing (bus : Bus) (s : Link) :
  settled bus s (snd (sendPing bus s)).
Proof.
  unfold sendPing. destruct (negb _); [settled_step|].
  match goal with
  | |- context [sendDGTCommand bus ?c ?l ?a ?e ?n ?t ?w s] =>
    pose proof (settled_sendDGTCommand bus c l a e n t w s) as Q;
    destruct (sendDGTCommand bus c l a e n t w s) as [r s1]
  end.
  cbn [snd] in Q. cbv zeta.
  eapply settled_trans; [exact Q|].
  eapply settled_trans; [|apply settled_sendPing_loop].
  - settled_step.
  - intros N. apply N.
Qed.

(** Claim C4 (amended).  For every call of [configure] on an initialised link.
    If the re-entry flag is set, the call returns false and leaves the
    link as it is.  Otherwise: if the first ChangeState (no ACK) fails
    and then either [sendPing] fails or the one further ChangeState
    (no ACK) fails, the call returns false with last error CLOCK_OFF and
    the link not configured, and not connected either when no time
    frame arrives during the call; if the first step succeeds (at once,
    or after a successful ping and retry) and SetCentralControl,
    ChangeState and SetAndRun(stop, all zeros) succeed, the call returns
    true with the link configured and connected and last error SUCCESS.
    The re-entry flag is cleared whenever the sequence was entered. *)
Theorem C4_configure_outcomes (bus : Bus) (s : Link) :
  _initialized s = true ->
  (_recoveryInProgress s = true -> configure bus s = (false, s))
  /\ (_recoveryInProgress s = false ->
      let s0 := set_connected false (set_configured false
                  (set_recoveryInProgress true s)) in
      (forall s1 s2,
         changeState_no_ack bus s0 = (false, s1) ->
         sendPing bus (delay bus s1) = (false, s2)
         \/ (exists sp, sendPing bus (delay bus s1) = (true, sp)
                        /\ changeState_no_ack bus sp = (false, s2)) ->
         exists s',
           configure bus s = (false, s')
           /\ _lastError s' = DGT_ERROR_CLOCK_OFF
           /\ _configured s' = false
           /\ _recoveryInProgress s' = false
           /\ (no_time_frames bus -> _connected s' = false))
      /\ (forall s1 s2 s3 s4,
            changeState_no_ack bus s0 = (true, s1)
            \/ (exists sa sb,
                  changeState_no_ack bus s0 = (false, sa)
                  /\ sendPing bus (delay bus sa) = (true, sb)
                  /\ changeState_no_ack bus sb = (true, s1)) ->
            setCentralControl bus (delay bus s1) = (true, s2) ->
            changeState bus (delay bus s2) = (true, s3) ->
            setAndRun bus DGT_MODE_STOP 0 0 0 DGT_MODE_STOP 0 0 0
              (delay bus s3) = (true, s4) ->
            exists s',
              configure bus s = (true, s')
              /\ _configured s' = true /\ _connected s' = true
              /\ _lastError s' = DGT_SUCCESS
              /\ _recoveryInProgress s' = false)).
Proof.
  intros Hi. split.
  - intros Hr. unfold configure. rewrite Hi, Hr. reflexivity.
  - intros Hr s0. split.
    + intros s1 s2 E1 E2.
      assert (Hq : settled bus s0 s2).
      { pose proof (settled_changeState_no_ack bus s0) as Q1.
        rewrite E1 in Q1. cbn [snd] in Q1.
        pose proof (settled_delay bus s1) as Qd.
        pose proof (settled_sendPing bus (delay bus s1)) as Q2.
        destruct E2 as [E2|(sp & E2 & E3)]; rewrite E2 in Q2; cbn [snd] in Q2.
        - eapply settled_trans; [exact Q1|].
          eapply settled_trans; eassumption.
        - pose proof (settled_changeState_no_ack bus sp) as Q3.
          rewrite E3 in Q3. cbn [snd] in Q3.
          eapply settled_trans; [exact Q1|].
          eapply settled_trans; [exact Qd|].
          eapply settled_trans; eassumption. }
      destruct Hq as ((_ & _ & _ & Hrec & Hf) & Hquiet).
      exists (set_recoveryInProgress false
                (set_lastError DGT_ERROR_CLOCK_OFF s2)).
      split.
      * unfold configure. rewrite Hi, Hr. cbn [negb]. cbv zeta. fold s0.
        rewrite E1. cbn [negb].
        destruct E2 as [E2|(sp & E2 & E3)]; rewrite E2; cbn [negb];
          [reflexivity|]. rewrite E3. reflexivity.
      * cbn. repeat split.
        -- destruct (_configured s2); auto. discriminate (Hf eq_refl).
        -- intros N. destruct (Hquiet N) as (_ & _ & _ & _ & Hc & _).
           destruct (_connected s2); auto. discriminate (Hc eq_refl).
    + intros s1 s2 s3 s4 E1 E2 E3 E4.
      exists (set_recoveryInProgress false (set_lastError DGT_SUCCESS
                (set_connected true (set_configured true s4)))).
      split; [|cbn; repeat split].
      unfold configure. rewrite Hi, Hr. cbn [negb]. cbv zeta. fold s0.
      destruct E1 as [E1|(sa & sb & E1 & Ep & Er)].
      * rewrite E1. cbn [negb]. rewrite E2. cbn [negb]. rewrite E3.
        cbn [negb]. rewrite E4. reflexivity.
      * rewrite E1. cbn [negb]. rewrite Ep. cbn [negb]. rewrite Er.
        cbn [negb]. rewrite E2. cbn [negb]. rewrite E3.
        cbn [negb]. rewrite E4. reflexivity.
Qed.

(** [configure] on a bus where nothing is acknowledged, on a bus where
    the clock answers, and re-entered. *)
Lemma C4_witness :
  (exists s',
     configure dead_bus started_link = (false, s')
     /\ _lastError s' = DGT_ERROR_CLOCK_OFF
     /\ _connected s' = false /\ _configured s' = false)
  /\ (exists s',
        configure live_bus started_link = (true, s')
        /\ _configured s' = true /\ _connected s' = true
        /\ _lastError s' = DGT_SUCCESS)
  /\ configure live_bus (set_recoveryInProgress true started_link)
     = (false, set_recoveryInProgress true started_link).
Proof.
  split; [|split].
  - destruct (C4_configure_outcomes dead_bus started_link eq_refl) as (_ & H).
    destruct (H eq_refl) as (Hfail & _).
    destruct (Hfail dead_1 dead_2) as (s' & E & He & Hf & _ & Hc).
    + vm_compute. reflexivity.
    + left. vm_compute. reflexivity.
    + exists s'. repeat split; try assumption.
      apply Hc. intros n. repeat split.
  - destruct (C4_configure_outcomes live_bus started_link eq_refl) as (_ & H).
    destruct (H eq_refl) as (_ & Hok).
    destruct (Hok live_1 live_2 live_3 live_4) as (s' & E & Hf & Hc & He & _).
    + left. vm_compute. reflexivity.
    + vm_compute. reflexivity.
    + vm_compute. reflexivity.
    + vm_compute. reflexivity.
    + exists s'. repeat split; assumption.
  - destruct (C4_configure_outcomes live_bus
                (set_recoveryInProgress true started_link) eq_refl) as (H & _).
    exact (H eq_refl).
Defined.

(** The claim as worded fails where a time frame arrives while
    [configure] waits for the wake-up response: the call returns false
    with CLOCK_OFF and the link not configured, but marked connected by
    the time frame. *)
Lemma C4_time_frame_marks_connected :
  exists s',
    configure waking_bus started_link = (false, s')
    /\ _lastError s' = DGT_ERROR_CLOCK_OFF
    /\ _configured s' = false
    /\ _connected s' = true.
Proof.
  eexists. split; [vm_compute; reflexivity|].
  repeat split.
Qed.

(** ** Buffer accesses of the CRC functions *)

Lemma zrange_bounds (i : Z) (n : nat) (k : Z) :
  In k (zrange i n) -> i <= k < i + Z.of_nat n.
Proof.
  unfold zrange. intros H. apply in_map_iff in H.
  destruct H as (j & <- & Hj). apply in_seq in Hj. lia.
Qed.

Lemma crc_trace_in_bounds (length pos : Z) (last : access) :
  3 <= length -> 0 <= pos <= length - 1 -> index_of last = pos ->
  Forall (in_bounds length)
    (Load 1 :: map Load (zrange 0 (Z.to_nat pos)) ++ [last]).
Proof.
  intros Hlen Hp Hl. constructor.
  - unfold in_bounds. cbn. lia.
  - apply Forall_app. split.
    + apply Forall_forall. intros a Ha. apply in_map_iff in Ha.
      destruct Ha as (k & <- & Hk). apply zrange_bounds in Hk.
      unfold in_bounds. cbn. lia.
    + constructor; [|constructor]. unfold in_bounds. lia.
Qed.

(** Claim C10.  For every buffer and every length from 3 to 255 (the
    parameter is a [uint8_t]), whatever the length field [buffer[1]]
    holds: the CRC position is [buffer[1] - 1] (as a [uint8_t]) clamped
    to [length - 1]; [calculateCRC] reads index 1, the indices below the
    CRC position, and writes the CRC position; [verifyCRC] reads the
    same indices and the CRC position; all of them lie in
    [0 .. length - 1].  For a length below 3, and for a null buffer,
    [calculateCRC] returns 0 and [verifyCRC] returns false, with the
    error CRC recorded and no access to the buffer. *)
Theorem C10_crc_indices_within_buffer (data : list Z) (length : Z) (s : Link) :
  (3 <= length <= 255 ->
   let pos := Z.min (uint8 (at_ data 1 - 1)) (length - 1) in
   0 <= pos <= length - 1
   /\ (exists crc b',
         calculateCRC (Some (fresh data)) length s = (crc, Some b', s)
         /\ accessed b'
            = Load 1 :: map Load (zrange 0 (Z.to_nat pos)) ++ [Store pos]
         /\ Forall (in_bounds length) (accessed b'))
   /\ (exists ok b' s',
         verifyCRC (Some (fresh data)) length s = (ok, Some b', s')
         /\ accessed b'
            = Load 1 :: map Load (zrange 0 (Z.to_nat pos)) ++ [Load pos]
         /\ Forall (in_bounds length) (accessed b')))
  /\ (length < 3 ->
      calculateCRC (Some (fresh data)) length s
      = (0, Some (fresh data), set_lastError DGT_ERROR_CRC s)
      /\ verifyCRC (Some (fresh data)) length s
         = (false, Some (fresh data), set_lastError DGT_ERROR_CRC s))
  /\ calculateCRC None length s = (0, None, set_lastError DGT_ERROR_CRC s)
  /\ verifyCRC None length s = (false, None, set_lastError DGT_ERROR_CRC s).
Proof.
  split; [|split; [|split; reflexivity]].
  - intros Hl pos.
    assert (Hpos : crc_position (at_ data 1) length = pos).
    { unfold crc_position, pos, uint8. cbv zeta.
      pose proof (Z.mod_pos_bound (at_ data 1 - 1) 256 ltac:(lia)).
      destruct (_ >=? _) eqn:E.
      - rewrite Z.geb_leb in E. apply Z.leb_le in E.
        rewrite Z.mod_small by lia. lia.
      - rewrite Z.geb_leb in E. apply Z.leb_gt in E. lia. }
    assert (Hr : 0 <= pos <= length - 1).
    { rewrite <- Hpos. apply crc_position_range. exact Hl. }
    split; [exact Hr|]. split.
    + rewrite calculateCRC_eq by lia. cbn [bytes accessed fresh app].
      rewrite Hpos. eexists. eexists. split; [reflexivity|].
      cbn [accessed]. split; [reflexivity|].
      apply crc_trace_in_bounds; auto; lia.
    + rewrite verifyCRC_eq by lia. cbn [bytes accessed fresh app].
      rewrite Hpos. eexists. eexists. eexists. split; [reflexivity|].
      cbn [accessed]. split; [reflexivity|].
      apply crc_trace_in_bounds; auto; lia.
  - intros Hl. unfold calculateCRC, verifyCRC.
    apply Z.ltb_lt in Hl. rewrite Hl. split; reflexivity.
Qed.

(** A length field of 0xFF in a buffer of 4 bytes. *)
Lemma C10_witness :
  exists crc b',
    calculateCRC (Some (fresh [0x20; 0xFF; 0x0d; 0x00])) 4 new_DGT3000
    = (crc, Some b', new_DGT3000)
    /\ Forall (in_bounds 4) (accessed b').
Proof.
  destruct (C10_crc_indices_within_buffer [0x20; 0xFF; 0x0d; 0x00] 4 new_DGT3000)
    as (H & _).
  destruct (H ltac:(lia)) as (_ & (crc & b' & E & _ & HB) & _).
  exists crc, b'. split; [exact E|exact HB].
Defined.

(** ** The clock task *)

Import Gateway.
Import I2CTaskManager.

(** Claim C6 (amended).  [mapDGTErrorToSystemError] sends I2C_COMM and
    I2C_INIT to I2C_COMMUNICATION_ERROR, TIMEOUT and NO_ACK to
    COMMAND_TIMEOUT, NOT_CONFIGURED to DGT_NOT_CONFIGURED, CRC to
    I2C_CRC_ERROR, CLOCK_OFF to DGT_NOT_CONNECTED, and every other
    value to UNKNOWN_ERROR. *)
Theorem C6_error_translation (dgtError : Z) :
  (dgtError = DGT_ERROR_I2C_COMM \/ dgtError = DGT_ERROR_I2C_INIT ->
   mapDGTErrorToSystemError dgtError = I2C_COMMUNICATION_ERROR)
  /\ (dgtError = DGT_ERROR_TIMEOUT \/ dgtError = DGT_ERROR_NO_ACK ->
      mapDGTErrorToSystemError dgtError = COMMAND_TIMEOUT)
  /\ (dgtError = DGT_ERROR_NOT_CONFIGURED ->
      mapDGTErrorToSystemError dgtError = DGT_NOT_CONFIGURED)
  /\ (dgtError = DGT_ERROR_CRC ->
      mapDGTErrorToSystemError dgtError = I2C_CRC_ERROR)
  /\ (dgtError = DGT_ERROR_CLOCK_OFF ->
      mapDGTErrorToSystemError dgtError = DGT_NOT_CONNECTED)
  /\ (dgtError <> DGT_ERROR_I2C_COMM -> dgtError <> DGT_ERROR_I2C_INIT ->
      dgtError <> DGT_ERROR_TIMEOUT -> dgtError <> DGT_ERROR_NO_ACK ->
      dgtError <> DGT_ERROR_NOT_CONFIGURED -> dgtError <> DGT_ERROR_CRC ->
      dgtError <> DGT_ERROR_CLOCK_OFF ->
      mapDGTErrorToSystemError dgtError = UNKNOWN_ERROR).
Proof.
  unfold mapDGTErrorToSystemError.
  repeat split.
  - intros [->| ->]; reflexivity.
  - intros [->| ->]; reflexivity.
  - intros ->; reflexivity.
  - intros ->; reflexivity.
  - intros ->; reflexivity.
  - intros H1 H2 H3 H4 H5 H6 H7.
    repeat match goal with
    | H : _ <> _ |- _ => apply Z.eqb_neq in H; rewrite H; clear H
    end.
    reflexivity.
Qed.

(** A value outside the seven cases, and I2C_INIT. *)
Lemma C6_witness :
  mapDGTErrorToSystemError DGT_ERROR_BUFFER_OVERRUN = UNKNOWN_ERROR
  /\ mapDGTErrorToSystemError DGT_ERROR_I2C_INIT = I2C_COMMUNICATION_ERROR.
Proof.
  split.
  - apply (C6_error_translation DGT_ERROR_BUFFER_OVERRUN); discriminate.
  - apply (C6_error_translation DGT_ERROR_I2C_INIT). right. reflexivity.
Defined.

(** Claim C6 as stated fails at I2C_INIT: it is none of the six listed
    errors, yet it is translated to I2C_COMMUNICATION_ERROR and not to
    UNKNOWN_ERROR. *)
Lemma C6_i2c_init_is_not_unknown :
  mapDGTErrorToSystemError DGT_ERROR_I2C_INIT = I2C_COMMUNICATION_ERROR
  /\ Spec.system_error_of DGT_ERROR_I2C_INIT = UNKNOWN_ERROR
  /\ mapDGTErrorToSystemError DGT_ERROR_I2C_INIT
     <> Spec.system_error_of DGT_ERROR_I2C_INIT.
Proof.
  split; [reflexivity|]. split; [reflexivity|]. vm_compute. discriminate.
Qed.

Lemma updateQueueStats_queues (a b c : bool) (q : QueueManager.Queues) :
  QueueManager.eventQueue (QueueManager.updateQueueStats a b c q)
  = QueueManager.eventQueue q
  /\ QueueManager.responseQueue (QueueManager.updateQueueStats a b c q)
     = QueueManager.responseQueue q
  /\ QueueManager.rawCommandQueue (QueueManager.updateQueueStats a b c q)
     = QueueManager.rawCommandQueue q
  /\ QueueManager.ready (QueueManager.updateQueueStats a b c q)
     = QueueManager.ready q.
Proof.
  unfold QueueManager.updateQueueStats, QueueManager.updateStatistics.
  cbv zeta. cbn [QueueManager.ready QueueManager.set_stats].
  destruct (negb (QueueManager.ready q)); [cbn; tauto|].
  match goal with
  | |- context [if ?c then _ else _] => destruct c
  end; cbn; tauto.
Qed.

(** Claim C9.  One poll of [handleButtonRepeat], with [mask] the raw
    button state restricted to the five main buttons (and 0x1F).
    A zero mask, and a mask other than the one the active monitor
    holds, reset the monitor (inactive, repeat count 0) and issue
    nothing.  A non-zero mask seen by an inactive monitor starts it:
    the mask and the time are recorded, the count is 0, nothing is
    issued.  While the active monitor sees its own mask, with [held]
    the time since the start or the last repeat: nothing changes until
    [held] exceeds 800 ms for the first repeat (count 0) or 400 ms for
    a later one; then the count goes up by one, the time is recorded,
    and a button event of priority 0 with [isRepeat] true and the new
    count as [repeatCount] is put at the head of the event queue. *)
Theorem C9_button_repeat_step (now : Z) (t : Task) (q : QueueManager.Queues)
  (link : Link) :
  _queueManager t = Some q -> _dgt3000 t = Some link ->
  _initialized link = true ->
  let mask := Z.land (DGT3000.lastButtonState (_rxData link)) 0x1F in
  let m := _buttonMonitoring t in
  let held := uint32 (now - lastButtonTime m) in
  let threshold := if buttonRepeatCount m =? 0 then 800 else 400 in
  let reset := mkButtonMonitoring (lastButtonState m) (lastButtonTime m) 0
                 false in
  let t' := handleButtonRepeat now t in
  (mask = 0 ->
   _buttonMonitoring t' = reset /\ events_of t' = events_of t)
  /\ (mask <> 0 -> buttonRepeatActive m = true -> lastButtonState m <> mask ->
      _buttonMonitoring t' = reset /\ events_of t' = events_of t)
  /\ (mask <> 0 -> buttonRepeatActive m = false ->
      _buttonMonitoring t' = mkButtonMonitoring mask now 0 true
      /\ events_of t' = events_of t)
  /\ (mask <> 0 -> buttonRepeatActive m = true -> lastButtonState m = mask ->
      held <= threshold ->
      _buttonMonitoring t' = m /\ events_of t' = events_of t)
  /\ (mask <> 0 -> buttonRepeatActive m = true -> lastButtonState m = mask ->
      threshold < held ->
      0 <= buttonRepeatCount m < 4294967295 ->
      QueueManager.ready q = true ->
      Z.of_nat (List.length (QueueManager.eventQueue q)) < QUEUE_EVENT_SIZE ->
      _buttonMonitoring t'
      = mkButtonMonitoring mask now (buttonRepeatCount m + 1) true
      /\ events_of t'
         = repeat_event now mask (buttonRepeatCount m + 1) :: events_of t).
Proof.
  intros Hq Hlink Hinit mask m held threshold reset t'.
  assert (Ht : t' = handleButtonRepeat now t) by reflexivity.
  unfold handleButtonRepeat in Ht. rewrite Hq, Hlink in Ht.
  unfold getButtonState in Ht. rewrite Hinit in Ht. cbn [negb] in Ht.
  cbv zeta in Ht.
  cbn [DGT3000._rxData DGT3000.set_lastError _buttonMonitoring set_dgt3000]
    in Ht.
  fold mask in Ht. fold m in Ht.
  assert (Ev : forall mm, events_of (set_buttonMonitoring mm
                             (set_dgt3000 (Some (set_lastError DGT_SUCCESS link)) t))
                          = events_of t).
  { intros mm. unfold events_of. cbn. reflexivity. }
  repeat split.
  - rewrite Ht. apply Z.eqb_eq in H. rewrite H. reflexivity.
  - rewrite Ht. apply Z.eqb_eq in H. rewrite H. apply Ev.
  - rewrite Ht. apply Z.eqb_neq in H. rewrite H, H0. cbn [negb].
    apply Z.eqb_neq in H1. rewrite H1. reflexivity.
  - rewrite Ht. apply Z.eqb_neq in H. rewrite H, H0. cbn [negb].
    apply Z.eqb_neq in H1. rewrite H1. apply Ev.
  - rewrite Ht. apply Z.eqb_neq in H. rewrite H, H0. cbn [negb].
    cbn [lastButtonState lastButtonTime buttonRepeatCount].
    rewrite Z.eqb_refl, Z.sub_diag. reflexivity.
  - rewrite Ht. apply Z.eqb_neq in H. rewrite H, H0. cbn [negb].
    cbn [lastButtonState lastButtonTime buttonRepeatCount].
    rewrite Z.eqb_refl, Z.sub_diag. apply Ev.
  - rewrite Ht. apply Z.eqb_neq in H. rewrite H, H0. cbn [negb].
    apply Z.eqb_eq in H1. rewrite H1.
    fold held threshold.
    assert (E : (held >? threshold) = false).
    { rewrite Z.gtb_ltb. apply Z.ltb_ge. exact H2. }
    rewrite E. cbn. destruct (_buttonMonitoring t); reflexivity.
  - rewrite Ht. apply Z.eqb_neq in H. rewrite H, H0. cbn [negb].
    apply Z.eqb_eq in H1. rewrite H1.
    fold held threshold.
    assert (E : (held >? threshold) = false).
    { rewrite Z.gtb_ltb. apply Z.ltb_ge. exact H2. }
    rewrite E. apply Ev.
  - rewrite Ht. apply Z.eqb_neq in H. rewrite H, H0. cbn [negb].
    pose proof H1 as H1'. apply Z.eqb_eq in H1'. rewrite H1'.
    fold held threshold.
    assert (E : (held >? threshold) = true).
    { rewrite Z.gtb_ltb. apply Z.ltb_lt. exact H2. }
    rewrite E. unfold QueueManager.sendPriorityEvent. rewrite H4.
    cbn [negb]. apply Z.ltb_lt in H5. rewrite H5.
    unfold uint32. rewrite Z.mod_small by lia.
    fold m. rewrite H1.
    cbn. f_equal. exact H0.
  - rewrite Ht. apply Z.eqb_neq in H. rewrite H, H0. cbn [negb].
    pose proof H1 as H1'. apply Z.eqb_eq in H1'. rewrite H1'.
    fold held threshold.
    assert (E : (held >? threshold) = true).
    { rewrite Z.gtb_ltb. apply Z.ltb_lt. exact H2. }
    rewrite E. unfold QueueManager.sendPriorityEvent. rewrite H4.
    cbn [negb]. apply Z.ltb_lt in H5. rewrite H5.
    unfold uint32. rewrite Z.mod_small by lia.
    unfold events_of. rewrite Hq.
    cbn -[QueueManager.updateQueueStats repeat_event].
    apply updateQueueStats_queues.
Qed.

(** Play/pause held since 1000 ms: nothing at 1800, the first repeat at
    1801, the second at 2202, and a reset once the button is up. *)
Lemma C9_witness :
  events_of (handleButtonRepeat 1800 (holding_task 0 1000)) = []
  /\ events_of (handleButtonRepeat 1801 (holding_task 0 1000))
     = [repeat_event 1801 0x04 1]
  /\ events_of (handleButtonRepeat 2202 (holding_task 1 1801))
     = [repeat_event 2202 0x04 2]
  /\ _buttonMonitoring
       (handleButtonRepeat 2300
          (set_dgt3000 (Some started_link) (holding_task 2 2202)))
     = mkButtonMonitoring 0x04 2202 0 false.
Proof.
  split; [|split; [|split]].
  - destruct (C9_button_repeat_step 1800 (holding_task 0 1000) empty_queues
                pressed_link eq_refl eq_refl eq_refl)
      as (_ & _ & _ & H & _).
    destruct H as (_ & E);
      [discriminate | reflexivity | reflexivity | vm_compute; discriminate |].
    exact E.
  - destruct (C9_button_repeat_step 1801 (holding_task 0 1000) empty_queues
                pressed_link eq_refl eq_refl eq_refl)
      as (_ & _ & _ & _ & H).
    destruct H as (_ & E);
      [discriminate | reflexivity | reflexivity | reflexivity
      | vm_compute; split; [discriminate | reflexivity]
      | reflexivity | reflexivity |].
    exact E.
  - destruct (C9_button_repeat_step 2202 (holding_task 1 1801) empty_queues
                pressed_link eq_refl eq_refl eq_refl)
      as (_ & _ & _ & _ & H).
    destruct H as (_ & E);
      [discriminate | reflexivity | reflexivity | reflexivity
      | vm_compute; split; [discriminate | reflexivity]
      | reflexivity | reflexivity |].
    exact E.
  - destruct (C9_button_repeat_step 2300
                (set_dgt3000 (Some started_link) (holding_task 2 2202))
                empty_queues started_link eq_refl eq_refl eq_refl)
      as (H & _).
    destruct (H eq_refl) as (E & _). exact E.
Defined.

Section Commands.

Variable bus : Bus.
Variable deserializeJson : string -> CommandDoc.
Variable updateActivity : SystemStatus -> SystemStatus.




End Commands.



(** ** The task's two records of the clock *)

Lemma keeps_refl (t : Task) : keeps t t.
Proof. split; reflexivity. Qed.

Lemma keeps_trans (a b c : Task) : keeps a b -> keeps b c -> keeps a c.
Proof. unfold keeps. intros [A1 A2] [B1 B2]. split; congruence. Qed.

Lemma keeps_coherent (t t' : Task) : keeps t t' -> coherent t -> coherent t'.
Proof. unfold keeps, coherent. intros [A1 A2]. rewrite A1, A2. tauto. Qed.

Ltac keeps_step := unfold keeps; cbn; split; reflexivity.

Section Invariant.

Variable bus : Bus.
Variable deserializeJson : string -> CommandDoc.
Variable updateActivity : SystemStatus -> SystemStatus.

Lemma keeps_sendCommandResponse (now : Z) (id : string) (ok : bool)
  (result : JsonDocument) (t : Task) :
  keeps t (sendCommandResponse updateActivity now id ok result t).
Proof.
  unfold sendCommandResponse.
  destruct (_queueManager t); [|keeps_step].
  destruct (QueueManager.sendResponse _ _).
  cbn [_systemStatus set_queueManager].
  destruct (_systemStatus t); keeps_step.
Qed.

Lemma keeps_sendCommandError (now : Z) (id : string) (c : SystemErrorCode)
  (msg : option string) (t : Task) :
  keeps t (sendCommandError updateActivity now id c msg t).
Proof. unfold sendCommandError. apply keeps_sendCommandResponse. Qed.

Lemma keeps_generateErrorEvent (now : Z) (c : SystemErrorCode)
  (msg : option string) (t : Task) :
  keeps t (generateErrorEvent now c msg t).
Proof.
  unfold generateErrorEvent. destruct (_queueManager t); [|keeps_step].
  destruct (QueueManager.sendPriorityEvent _ _). keeps_step.
Qed.

Lemma keeps_generateConnectionStatusEvent (now : Z) (a b : bool) (t : Task) :
  keeps t (generateConnectionStatusEvent now a b t).
Proof.
  unfold generateConnectionStatusEvent.
  destruct (_queueManager t); [|keeps_step].
  destruct (QueueManager.sendEvent _ _). keeps_step.
Qed.

Lemma keeps_generateTimeEvent (now : Z) (time : list Z) (t : Task) :
  keeps t (generateTimeEvent now time t).
Proof.
  unfold generateTimeEvent. destruct (_queueManager t); [|keeps_step].
  destruct (QueueManager.sendEvent _ _) as [[|] q']; keeps_step.
Qed.

Lemma keeps_updateConnectionState (t : Task) :
  keeps t (updateConnectionState t).
Proof.
  unfold updateConnectionState. destruct (_systemStatus t); keeps_step.
Qed.

Lemma coherent_handleDGT3000Error (now error : Z) (t : Task) :
  coherent t -> coherent (handleDGT3000Error now error t).
Proof.
  intros H. unfold handleDGT3000Error. cbv zeta.
  set (t1 := generateErrorEvent _ _ _ t).
  assert (K1 : keeps t t1) by apply keeps_generateErrorEvent.
  set (t2 := match _systemStatus t1 with Some _ => _ | None => t1 end).
  assert (K2 : keeps t t2).
  { eapply keeps_trans; [exact K1|]. unfold t2.
    destruct (_systemStatus t1); keeps_step. }
  assert (H2 : coherent t2) by (eapply keeps_coherent; eassumption).
  destruct (_ || _); [|exact H2].
  destruct (ConnectionState_eqb _ _); [|exact H2].
  eapply keeps_coherent; [apply keeps_updateConnectionState|].
  eapply keeps_coherent; [apply keeps_generateConnectionStatusEvent|].
  unfold coherent. cbn. split; discriminate.
Qed.

Lemma coherent_set_dgt3000 (l : option Link) (t : Task) :
  coherent t -> coherent (set_dgt3000 l t).
Proof. apply keeps_coherent. keeps_step. Qed.

Lemma coherent_reportOutcome (now : Z) (id : string) (ok : bool) (link : Link)
  (a b : string) (t : Task) :
  coherent t -> coherent (snd (reportOutcome updateActivity now id ok link a b t)).
Proof.
  intros H. unfold reportOutcome. cbv zeta.
  pose proof (coherent_set_dgt3000 (Some link) t H) as H1.
  destruct ok; cbn [snd].
  - eapply keeps_coherent; [apply keeps_sendCommandResponse|exact H1].
  - eapply keeps_coherent; [apply keeps_sendCommandError|].
    apply coherent_handleDGT3000Error. exact H1.
Qed.

Lemma coherent_executeCommand (now : Z) (id name : string) (p : Params)
  (t : Task) :
  coherent t ->
  coherent (snd (executeCommand bus updateActivity now id name p t)).
Proof.
  intros H. unfold executeCommand.
  repeat match goal with
  | |- context [if String.eqb name ?s then _ else _] =>
    destruct (String.eqb name s)
  end.
  - unfold executeSetTime. destruct (negb _); cbn [snd].
    + eapply keeps_coherent; [apply keeps_sendCommandError|exact H].
    + destruct (_dgt3000 t); [|exact H].
      destruct (setAndRun _ _ _ _ _ _ _ _ _ _).
      apply coherent_reportOutcome; exact H.
  - unfold executeDisplayText. cbv zeta. destruct (negb _); cbn [snd].
    + eapply keeps_coherent; [apply keeps_sendCommandError|exact H].
    + destruct (_dgt3000 t); [|exact H].
      destruct (displayText _ _ _ _ _ _).
      apply coherent_reportOutcome; exact H.
  - unfold executeEndDisplay. destruct (_dgt3000 t); [|exact H].
    destruct (endDisplay _ _). apply coherent_reportOutcome; exact H.
  - unfold executeStop. destruct (_dgt3000 t); [|exact H].
    destruct (stop _ _). apply coherent_reportOutcome; exact H.
  - unfold executeRun. destruct (negb _); cbn [snd].
    + eapply keeps_coherent; [apply keeps_sendCommandError|exact H].
    + destruct (_dgt3000 t); [|exact H].
      destruct (run _ _ _ _). apply coherent_reportOutcome; exact H.
  - unfold executeGetTime. destruct (_dgt3000 t); [|exact H].
    destruct (getTime _ _) as [[got time] link].
    pose proof (coherent_set_dgt3000 (Some link) t H) as H1.
    destruct got; cbn [snd].
    + eapply keeps_coherent; [apply keeps_sendCommandResponse|exact H1].
    + eapply keeps_coherent; [apply keeps_sendCommandError|].
      apply coherent_handleDGT3000Error. exact H1.
  - unfold executeGetStatus. cbn [snd].
    eapply keeps_coherent; [apply keeps_sendCommandResponse|exact H].
  - cbn [snd]. eapply keeps_coherent; [apply keeps_sendCommandError|exact H].
Qed.

Lemma coherent_processCommand (now : Z) (t : Task) :
  coherent t ->
  coherent (processCommand bus deserializeJson updateActivity now t).
Proof.
  intros H. unfold processCommand.
  destruct (_queueManager t) as [q|]; [|exact H].
  destruct (QueueManager.receiveRawCommand q) as [[rawCmd|] q'];
    [|eapply keeps_coherent; [|exact H]; keeps_step].
  cbv zeta.
  set (t1 := count_commandReceived _).
  assert (H1 : coherent t1)
    by (eapply keeps_coherent; [|exact H]; keeps_step).
  destruct (error _).
  - destruct (doc_id _); [|exact H1].
    eapply keeps_coherent; [apply keeps_sendCommandError|exact H1].
  - destruct (doc_id _); [|exact H1].
    destruct (doc_command _).
    + destruct (_ && _).
      * eapply keeps_coherent; [apply keeps_sendCommandError|exact H1].
      * pose proof (coherent_executeCommand now s s0
                      (params (deserializeJson (jsonData rawCmd))) t1 H1) as H2.
        destruct (executeCommand _ _ _ _ _ _ _) as [[|] t2]; cbn [snd] in H2;
          (eapply keeps_coherent; [|exact H2]; keeps_step).
    + eapply keeps_coherent; [apply keeps_sendCommandError|exact H1].
Qed.

Lemma keeps_generateButtonEvent_loop (fuel : nat) (now : Z) :
  forall q link t,
    keeps t (snd (generateButtonEvent_loop fuel now q link t)).
Proof.
  induction fuel as [|fuel IH]; intros q link t; cbn [generateButtonEvent_loop].
  - apply keeps_refl.
  - destruct (getButtonEvent (Some 0) link) as [[got button] link'].
    destruct got; cbn [negb]; [|apply keeps_refl].
    cbv zeta. destruct (QueueManager.sendPriorityEvent _ q) as [sent q'].
    eapply keeps_trans; [|apply IH]. destruct sent; keeps_step.
Qed.

Lemma keeps_generateButtonEvent (now : Z) (t : Task) :
  keeps t (generateButtonEvent now t).
Proof.
  unfold generateButtonEvent.
  destruct (_queueManager t) as [q|]; [|apply keeps_refl].
  destruct (_dgt3000 t) as [link|]; [|apply keeps_refl].
  pose proof (keeps_generateButtonEvent_loop 16 now q link t) as K.
  destruct (generateButtonEvent_loop 16 now q link t) as [[q' link'] t1].
  cbn [snd] in K. eapply keeps_trans; [exact K|keeps_step].
Qed.

Lemma keeps_handleButtonRepeat (now : Z) (t : Task) :
  keeps t (handleButtonRepeat now t).
Proof.
  unfold handleButtonRepeat.
  destruct (_queueManager t) as [q|]; [|apply keeps_refl].
  destruct (_dgt3000 t) as [link|]; [|apply keeps_refl].
  destruct (getButtonState link) as [st link']. cbv zeta.
  destruct (negb (_ =? 0)); [|keeps_step].
  destruct (_ =? _); [|keeps_step].
  destruct (_ >? _); [|keeps_step].
  destruct (QueueManager.sendPriorityEvent _ _) as [[|] q']; keeps_step.
Qed.

Lemma coherent_handleEvents (now : Z) (t : Task) :
  coherent t -> coherent (handleEvents now t).
Proof.
  intros H. unfold handleEvents.
  destruct (_dgt3000 t); [|exact H].
  destruct (negb _); [exact H|]. cbv zeta.
  set (t2 := handleButtonRepeat now (generateButtonEvent now t)).
  assert (H2 : coherent t2).
  { eapply keeps_coherent; [apply keeps_handleButtonRepeat|].
    eapply keeps_coherent; [apply keeps_generateButtonEvent|exact H]. }
  destruct (_dgt3000 t2) as [link|]; [|exact H2].
  destruct (isNewTimeAvailable link) as [[|] link1];
    [|apply coherent_set_dgt3000; exact H2].
  destruct (getTime _ link1) as [[got time] link2].
  pose proof (coherent_set_dgt3000 (Some link2) _
                (coherent_set_dgt3000 (Some link1) _ H2)) as H3.
  destruct got; [|exact H3]. destruct time; [|exact H3].
  eapply keeps_coherent; [apply keeps_generateTimeEvent|exact H3].
Qed.

Lemma keeps_configureDGT3000 (t : Task) :
  keeps t (snd (configureDGT3000 bus t)).
Proof.
  unfold configureDGT3000. destruct (_dgt3000 t); [|apply keeps_refl].
  destruct (configure bus _). keeps_step.
Qed.

Lemma coherent_performRecovery (now : Z) (t : Task) :
  coherent t -> coherent (snd (performRecovery bus now t)).
Proof.
  intros H. unfold performRecovery.
  pose proof (keeps_configureDGT3000 t) as K.
  destruct (configureDGT3000 bus t) as [[|] t1]; cbn [snd] in *.
  - eapply keeps_coherent; [apply keeps_generateConnectionStatusEvent|].
    unfold coherent. cbn. tauto.
  - eapply keeps_coherent; eassumption.
Qed.

Lemma coherent_monitorConnection (now : Z) (t : Task) :
  coherent t -> coherent (monitorConnection bus now t).
Proof.
  intros H. unfold monitorConnection. cbv zeta.
  eapply keeps_coherent; [apply keeps_updateConnectionState|].
  destruct (shouldAttemptRecovery t); [|exact H].
  unfold attemptRecovery.
  destruct (_ && _); [exact H|]. destruct (_ <? _); [exact H|].
  apply coherent_performRecovery.
  eapply keeps_coherent; [|exact H]. keeps_step.
Qed.

Lemma coherent_initializeDGT3000 (now : Z) (t : Task) :
  coherent t -> coherent (snd (initializeDGT3000 bus updateActivity now t)).
Proof.
  intros H. unfold initializeDGT3000. cbv zeta.
  cbn [_dgt3000 set_initializingDGT].
  destruct (_dgt3000 t) as [link|];
    [|eapply keeps_coherent; [|exact H]; keeps_step].
  destruct (begin bus _ _ _ _ link) as [ok link1].
  destruct ok; cbn [negb];
    [|eapply keeps_coherent; [|exact H]; keeps_step].
  set (t1 := set_dgt3000 _ _).
  pose proof (keeps_configureDGT3000 t1) as K.
  destruct (configureDGT3000 bus t1) as [[|] t2]; cbn [snd negb] in *.
  - match goal with
    | |- coherent (set_initializingDGT false ?x) =>
      apply (keeps_coherent x); [keeps_step|]
    end.
    eapply keeps_coherent; [apply keeps_generateConnectionStatusEvent|].
    match goal with
    | |- coherent (match ?x with Some _ => _ | None => _ end) => destruct x
    end; unfold coherent; cbn; tauto.
  - eapply keeps_coherent; [|eapply keeps_coherent; [exact K|]].
    + keeps_step.
    + eapply keeps_coherent; [|exact H]. keeps_step.
Qed.

Lemma coherent_onBLEConnected (now : Z) (t : Task) :
  coherent t -> coherent (onBLEConnected bus updateActivity now t).
Proof.
  intros H. unfold onBLEConnected. cbv zeta.
  assert (H1 : coherent (set_bleConnected true t))
    by (eapply keeps_coherent; [|exact H]; keeps_step).
  pose proof (coherent_initializeDGT3000 now _ H1) as H2.
  destruct (initializeDGT3000 _ _ _ _) as [[|] t1]; cbn [snd negb] in *.
  - exact H2.
  - eapply keeps_coherent; [apply keeps_generateErrorEvent|exact H2].
Qed.

Lemma coherent_onBLEDisconnected (now : Z) (t : Task) :
  coherent t -> coherent (onBLEDisconnected bus updateActivity now t).
Proof.
  intros H. unfold onBLEDisconnected, cleanupDGT3000. cbv zeta.
  assert (H1 : coherent (set_bleConnected false t))
    by (eapply keeps_coherent; [|exact H]; keeps_step).
  cbn [_dgt3000 set_bleConnected].
  destruct (_dgt3000 t); [|exact H1].
  destruct (negb _); [exact H1|].
  eapply keeps_coherent; [apply keeps_generateConnectionStatusEvent|].
  match goal with
  | |- coherent (match ?x with Some _ => _ | None => _ end) => destruct x
  end; unfold coherent; cbn; split; discriminate.
Qed.

(** Property X25.  In every state that the task reaches from its
    construction by its operations (commands, events, monitoring, BLE
    connection and disconnection), by a command entering its queue or
    by a frame arriving at the link, the task holds the clock for
    configured exactly when it holds it for connected. *)
Theorem X25_task_records_agree (t : Task) :
  reachable bus deserializeJson updateActivity t -> coherent t.
Proof.
  induction 1.
  - unfold coherent. cbn. split; discriminate.
  - apply coherent_processCommand; assumption.
  - apply coherent_handleEvents; assumption.
  - apply coherent_monitorConnection; assumption.
  - apply coherent_onBLEConnected; assumption.
  - apply coherent_onBLEDisconnected; assumption.
  - eapply keeps_coherent; [|eassumption]. keeps_step.
  - apply coherent_set_dgt3000; assumption.
Qed.

End Invariant.

Lemma X25_witness :
  coherent (processCommand dead_bus sample_parser (fun st => st) 5
              (task_with "stop")).
Proof.
  apply (X25_task_records_agree dead_bus sample_parser (fun st => st)).
  apply reach_processCommand. apply reach_new.
Defined.

(** ** Further properties of the button ring *)

Lemma addButtonEvent_initialized (b : Z) (s : Link) :
  _initialized (addButtonEvent b s) = _initialized s.
Proof. unfold addButtonEvent. destruct (negb _); reflexivity. Qed.

(** Property X1.  The button ring is a first-in first-out queue of
    capacity 15 under every interleaving of [addButtonEvent] and
    [getButtonEvent]: from a ring that holds the events [q], each
    [getButtonEvent] returns the oldest event held, or false when none
    is held, each [addButtonEvent] puts its event last and drops the
    oldest one when 15 are held, and the indices stay inside the 16
    slots. *)
Theorem X1_ring_is_bounded_fifo (ops : list ring_op) :
  forall (s : Link) (q : list Z),
    _initialized s = true -> ring_holds s q ->
    fst (ring_run ops s) = fst (queue_run ops q)
    /\ ring_holds (snd (ring_run ops s)) (snd (queue_run ops q))
    /\ _initialized (snd (ring_run ops s)) = true.
Proof.
  induction ops as [|[b|] ops IH]; intros s q Hi H.
  - cbn. auto.
  - cbn [ring_run queue_run]. apply IH.
    + rewrite addButtonEvent_initialized. exact Hi.
    + apply ring_holds_push15. exact H.
  - cbn [ring_run queue_run]. destruct q as [|x q].
    + rewrite (ring_pop_empty s 0 Hi H).
      specialize (IH (set_lastError DGT_SUCCESS s) [] Hi H).
      destruct (ring_run ops (set_lastError DGT_SUCCESS s)) as [out s'].
      destruct (queue_run ops []) as [out' q']. cbn [fst snd] in *.
      destruct IH as (E & H' & Hi'). rewrite E. auto.
    + destruct (ring_pop s x q 0 Hi H) as (s1 & E1 & Hi1 & H1).
      rewrite E1. specialize (IH s1 q Hi1 H1).
      destruct (ring_run ops s1) as [out s'].
      destruct (queue_run ops q) as [out' q']. cbn [fst snd] in *.
      destruct IH as (E & H' & Hi'). rewrite E. auto.
Qed.

Lemma X1_witness :
  fst (ring_run [Push 1; Push 2; Pop; Push 3; Pop; Pop; Pop] started_link)
  = [Some 1; Some 2; Some 3; None].
Proof.
  destruct (X1_ring_is_bounded_fifo [Push 1; Push 2; Pop; Push 3; Pop; Pop; Pop]
              started_link [] eq_refl) as (E & _).
  - apply ring_empty_holds. unfold ring_empty. cbn.
    split; [lia|]. split; reflexivity.
  - rewrite E. reflexivity.
Defined.

(** ** Further properties of the receive callback *)

Lemma bcdToDec_nonneg (b : Z) : 0 <= bcdToDec b.
Proof. unfold bcdToDec, uint8. lia_mod. Qed.

Lemma at_put_6 (t : list Z) (a b c d e f : Z) :
  List.length t = 6%nat ->
  put (put (put (put (put (put t 0 a) 1 b) 2 c) 3 d) 4 e) 5 f
  = [a; b; c; d; e; f].
Proof.
  intros H. do 7 (destruct t as [|? t]; try discriminate). reflexivity.
Qed.

Lemma time_ok_six (s : Link) (a b c d e f : Z) :
  time (_rxData s) = [a; b; c; d; e; f] ->
  0 <= a <= 9 -> 0 <= b <= 59 -> 0 <= c <= 59 ->
  0 <= d <= 9 -> 0 <= e <= 59 -> 0 <= f <= 59 -> time_ok s.
Proof.
  intros H Ha Hb Hc Hd He Hf. unfold time_ok. rewrite H.
  change (at_ [a; b; c; d; e; f] 0) with a.
  change (at_ [a; b; c; d; e; f] 1) with b.
  change (at_ [a; b; c; d; e; f] 2) with c.
  change (at_ [a; b; c; d; e; f] 3) with d.
  change (at_ [a; b; c; d; e; f] 4) with e.
  change (at_ [a; b; c; d; e; f] 5) with f.
  cbn [List.length]. tauto.
Qed.

Lemma time_ok_processTimeMessage (buffer : list Z) (length : Z) (s : Link) :
  time_ok s -> time_ok (processTimeMessage buffer length s).
Proof.
  intros H. unfold processTimeMessage.
  destruct (_ && _); [exact H|]. destruct (_ || _); [exact H|].
  match goal with |- context [if ?c then s else _] => destruct c eqn:E end;
    [exact H|].
  rewrite !orb_false_iff in E. destruct E as (((((E1 & E2) & E3) & E4) & E5) & E6).
  assert (Ht : time_ok
                 (set_newTimeAvailable true
                    (set_rxData (rx_set_time
                       [Z.land (at_ buffer 4) 15; bcdToDec (at_ buffer 5);
                        bcdToDec (at_ buffer 6); Z.land (at_ buffer 10) 15;
                        bcdToDec (at_ buffer 11); bcdToDec (at_ buffer 12)]
                       (_rxData s)) s))).
  { rewrite Z.gtb_ltb in E1, E2, E3, E4, E5, E6.
    apply Z.ltb_ge in E1, E2, E3, E4, E5, E6.
    eapply time_ok_six; [reflexivity|..].
    - split; [apply Z.land_nonneg; right; lia|exact E4].
    - split; [apply bcdToDec_nonneg|exact E5].
    - split; [apply bcdToDec_nonneg|exact E6].
    - split; [apply Z.land_nonneg; right; lia|exact E1].
    - split; [apply bcdToDec_nonneg|exact E2].
    - split; [apply bcdToDec_nonneg|exact E3]. }
  destruct H as (Hl & _).
  rewrite (at_put_6 _ _ _ _ _ _ _ Hl).
  destruct (negb _); exact Ht.
Qed.

Lemma time_addButtonEvent (b : Z) (s : Link) :
  time (_rxData (addButtonEvent b s)) = time (_rxData s).
Proof. unfold addButtonEvent. destruct (negb _); reflexivity. Qed.

Lemma time_ok_processButtonMessage (buffer : option (list Z)) (length : Z)
  (s : Link) :
  time_ok s -> time_ok (processButtonMessage buffer length s).
Proof.
  intros H. unfold processButtonMessage.
  destruct buffer as [buffer|]; [|exact H].
  destruct (_ || _); [exact H|]. cbv zeta.
  repeat match goal with
         | |- context [if ?c then _ else _] => destruct c
         end;
    unfold time_ok; rewrite ?time_addButtonEvent; exact H.
Qed.

Lemma time_ok_onSlaveReceive (n : Z) (available : list Z) (s : Link) :
  time_ok s -> time_ok (onSlaveReceive n available s).
Proof.
  intros H. unfold onSlaveReceive.
  destruct (_ || _); [exact H|]. cbv zeta.
  destruct (_ && _); [|exact H].
  destruct (_ =? 1).
  { unfold processAckMessage. destruct (_ || _); exact H. }
  destruct (_ =? DGT_MSG_WAKEUP_RESP).
  { unfold processPingResponseMessage. destruct (_ && _); exact H. }
  destruct (_ =? 4); [apply time_ok_processTimeMessage; exact H|].
  destruct (_ =? 5); [apply time_ok_processButtonMessage; exact H|exact H].
Qed.

(** Property X2.  Whatever frames the slave-receive callback is given, the
    stored time keeps its six fields within the bounds of a clock time
    (hours at most 9, minutes and seconds at most 59), so that the
    validation of [setAndRun], which [stop] and [run] go through with
    the stored time, accepts it. *)
Theorem X2_stored_time_stays_valid (frames : list (Z * list Z)) (s : Link) :
  time_ok s ->
  let s' := receive_all frames s in
  let t := time (_rxData s') in
  time_ok s'
  /\ forall leftMode rightMode,
       0 <= leftMode <= 2 -> 0 <= rightMode <= 2 ->
       validateTimeParameters leftMode (at_ t 0) (at_ t 1) (at_ t 2)
         rightMode (at_ t 3) (at_ t 4) (at_ t 5) = true.
Proof.
  intros H s' t.
  assert (H' : time_ok s').
  { unfold s', receive_all. clear s' t. revert s H.
    induction frames as [|f frames IH]; intros s H; [exact H|].
    cbn [fold_left]. apply IH. apply time_ok_onSlaveReceive. exact H. }
  split; [exact H'|].
  intros lm rm Hl Hr. destruct H' as (_ & H0 & H1 & H2 & H3 & H4 & H5).
  fold t in H0, H1, H2, H3, H4, H5.
  unfold validateTimeParameters.
  repeat match goal with
         | |- context [?a >? ?b] =>
           let E := fresh in
           destruct (Z.gtb_spec a b) as [E|E]; [lia|clear E]
         end.
  reflexivity.
Qed.

Lemma X2_witness :
  time_ok (receive_all [(14, time_frame 0x03); (14, time_frame 0x0A)]
             started_link).
Proof.
  refine (proj1 (X2_stored_time_stays_valid
                   [(14, time_frame 0x03); (14, time_frame 0x0A)]
                   started_link _)).
  eapply time_ok_six; [reflexivity|lia..].
Defined.

Lemma ring_holds_same_rx (s s' : Link) (q : list Z) :
  buttonBuffer (_rxData s') = buttonBuffer (_rxData s) ->
  buttonStart (_rxData s') = buttonStart (_rxData s) ->
  buttonEnd (_rxData s') = buttonEnd (_rxData s) ->
  ring_holds s q -> ring_holds s' q.
Proof. unfold ring_holds. intros -> -> ->. tauto. Qed.

Lemma ring_onSlaveReceive (n : Z) (available : list Z) (s : Link) (q : list Z) :
  ring_holds s q -> exists q', ring_holds (onSlaveReceive n available s) q'.
Proof.
  intros H. unfold onSlaveReceive.
  destruct (_ || _); [exists q; exact H|]. cbv zeta.
  destruct (_ && _); [|exists q; exact H].
  destruct (_ =? 1).
  { exists q. unfold processAckMessage. destruct (_ || _); exact H. }
  destruct (_ =? DGT_MSG_WAKEUP_RESP).
  { exists q. unfold processPingResponseMessage. destruct (_ && _); exact H. }
  destruct (_ =? 4).
  { exists q. unfold processTimeMessage.
    destruct (_ && _); [exact H|]. destruct (_ || _); [exact H|].
    match goal with |- context [if ?c then s else _] => destruct c end;
      [exact H|].
    destruct (negb _); exact H. }
  destruct (_ =? 5); [|exists q; exact H].
  unfold processButtonMessage. destruct (_ || _); [exists q; exact H|].
  cbv zeta.
  match goal with
  | |- context [addButtonEvent _ ?s1] =>
    assert (H1 : ring_holds s1 q) by exact H
  end.
  repeat match goal with
         | |- context [if ?c then _ else _] => destruct c
         end;
    first [ exists q; exact H1
          | eexists; apply ring_holds_push15; exact H1 ].
Qed.

Lemma ring_receive_all (frames : list (Z * list Z)) :
  forall s q, ring_holds s q -> exists q', ring_holds (receive_all frames s) q'.
Proof.
  induction frames as [|f frames IH]; intros s q H; [exists q; exact H|].
  unfold receive_all. cbn [fold_left].
  destruct (ring_onSlaveReceive (fst f) (snd f) s q H) as (q1 & H1).
  exact (IH _ q1 H1).
Qed.

Lemma firstn_256_short (F : list Z) :
  Z.of_nat (List.length F) <= 255 -> firstn 256 F = F.
Proof. intros H. apply firstn_all2. lia. Qed.

(** Property X3.  A time frame that passes the checks of
    [processTimeMessage] can be read back: the new-time flag is raised
    once, [isNewTimeAvailable] consumes it, and [getTime] copies out the
    six decoded fields.  The frame marks the link connected; a link that
    was not connected is marked not configured. *)
Theorem X3_time_frame_is_read_back (n : Z) (F out : list Z) (s : Link) :
  _initialized s = true -> _i2cSlave s = true -> n <> 0 ->
  Forall is_byte F -> 14 <= Z.of_nat (List.length F) <= 255 ->
  at_ F 0 = 0x10 -> at_ F 1 = 0x18 -> at_ F 2 = 4 ->
  (19 < Z.of_nat (List.length F) -> at_ F 19 <> 1) ->
  List.length (time (_rxData s)) = 6%nat ->
  let left_h := Z.land (at_ F 4) 0x0F in
  let left_m := Spec.bcd (at_ F 5) in
  let left_s := Spec.bcd (at_ F 6) in
  let right_h := Z.land (at_ F 10) 0x0F in
  let right_m := Spec.bcd (at_ F 11) in
  let right_s := Spec.bcd (at_ F 12) in
  Spec.clock_time_ok left_h left_m left_s right_h right_m right_s ->
  let s1 := onSlaveReceive n F s in
  isNewTimeAvailable s1 = (true, set_newTimeAvailable false s1)
  /\ fst (isNewTimeAvailable (set_newTimeAvailable false s1)) = false
  /\ getTime (Some out) s1
     = (true, Some [left_h; left_m; left_s; right_h; right_m; right_s],
        set_lastError DGT_SUCCESS s1)
  /\ _connected s1 = true
  /\ _configured s1 = _connected s && _configured s.
Proof.
  intros Hi Hs Hn HB Hlen H0 H1 H2 H19 Ht lh lm ls rh rm rs Hok s1.
  assert (E : s1 = let s0 := set_newTimeAvailable true
                              (set_rxData (rx_set_time [lh; lm; ls; rh; rm; rs]
                                             (_rxData s)) s) in
                  if negb (_connected s)
                  then set_configured false (set_connected true s0) else s0).
  { unfold s1, onSlaveReceive. rewrite Hi, Hs. cbn [negb orb].
    destruct (Z.eqb_spec n 0) as [|_]; [contradiction|].
    rewrite firstn_256_short by lia. cbv zeta.
    destruct (Z.geb_spec (Z.of_nat (List.length F)) 3) as [_|]; [|lia].
    rewrite H0, H2. cbn [andb Z.eqb Pos.eqb DGT3000_ESP_ADDR_10
                         DGT_MSG_WAKEUP_RESP].
    unfold uint8. rewrite Z.mod_small by lia.
    unfold processTimeMessage.
    assert (E1 : (Z.of_nat (List.length F) >? 19) && (at_ F 19 =? 1) = false).
    { destruct (Z.gtb_spec (Z.of_nat (List.length F)) 19) as [G|G];
        [|reflexivity].
      cbn [andb]. apply Z.eqb_neq. apply H19. exact G. }
    rewrite E1, H1.
    destruct (Z.ltb_spec (Z.of_nat (List.length F)) 14) as [|_]; [lia|].
    cbn [orb negb Z.eqb Pos.eqb].
    rewrite !bcdToDec_bcd by (apply at_byte; exact HB).
    fold lh lm ls rh rm rs.
    destruct Hok as (A1 & A2 & A3 & A4 & A5 & A6).
    repeat match goal with
           | |- context [?a >? ?b] =>
             let E := fresh in
             destruct (Z.gtb_spec a b) as [E|E]; [lia|clear E]
           end.
    cbn [orb]. rewrite (at_put_6 _ _ _ _ _ _ _ Ht). reflexivity. }
  rewrite E. cbv zeta.
  destruct (_connected s) eqn:Ec; cbn [negb];
    (split; [reflexivity|]); (split; [reflexivity|]);
    (split; [unfold getTime; cbn; rewrite Hi; reflexivity|]);
    (split; [cbn; auto|cbn; reflexivity]).
Qed.

Lemma X3_witness :
  fst (fst (getTime (Some [])
              (onSlaveReceive 14 (time_frame 0x03) started_link)))
  = true
  /\ snd (fst (getTime (Some [])
                 (onSlaveReceive 14 (time_frame 0x03) started_link)))
     = Some [3; 59; 30; 1; 5; 0].
Proof.
  destruct (X3_time_frame_is_read_back 14 (time_frame 0x03) [] started_link
              eq_refl eq_refl ltac:(discriminate)
              ltac:(repeat constructor; unfold is_byte; lia)
              ltac:(vm_compute; split; discriminate)
              eq_refl eq_refl eq_refl
              ltac:(vm_compute; discriminate) eq_refl
              ltac:(vm_compute; repeat split; discriminate))
    as (_ & _ & E & _).
  rewrite E. split; reflexivity.
Defined.

(** Property X4.  The slave-receive callback leaves the object as it is
    when the link is not initialised or has no slave peripheral, when
    it is told of no byte, when fewer than 3 bytes are held, when the
    first byte is not the address 0x10, when the type byte is none of
    1, 2, 4 and 5, and when 256 bytes or more are held: the count of
    256 is narrowed to the [uint8_t] length 0, which every handler
    refuses. *)
Theorem X4_onSlaveReceive_ignores (n : Z) (available : list Z) (s : Link) :
  _initialized s = false \/ _i2cSlave s = false \/ n = 0
  \/ (List.length available < 3)%nat
  \/ at_ available 0 <> 0x10
  \/ ~ In (at_ available 2) [1; 2; 4; 5]
  \/ (256 <= List.length available)%nat ->
  onSlaveReceive n available s = s.
Proof.
  intros H. unfold onSlaveReceive.
  destruct (_initialized s) eqn:Hi; [|reflexivity].
  destruct (_i2cSlave s) eqn:Hs; [|reflexivity].
  destruct (Z.eqb_spec n 0) as [|Hn]; [reflexivity|].
  cbn [negb orb]. cbv zeta.
  destruct H as [H|[H|[H|H]]]; try discriminate; try contradiction.
  set (rx := firstn 256 available).
  destruct (Z.geb_spec (Z.of_nat (List.length rx)) 3) as [G|G];
    [|reflexivity].
  assert (Hl : (3 <= List.length available)%nat).
  { unfold rx in G. rewrite length_firstn in G. lia. }
  assert (A0 : at_ rx 0 = at_ available 0) by (apply at_firstn; lia).
  assert (A2 : at_ rx 2 = at_ available 2) by (apply at_firstn; lia).
  rewrite A0, A2.
  destruct (Z.eqb_spec (at_ available 0) DGT3000_ESP_ADDR_10) as [E0|E0];
    [|reflexivity].
  cbn [andb].
  destruct H as [H|[H|[H|H]]]; [lia|contradiction| |].
  - destruct (Z.eqb_spec (at_ available 2) 1) as [E|_];
      [exfalso; apply H; rewrite E; cbn; auto|].
    destruct (Z.eqb_spec (at_ available 2) DGT_MSG_WAKEUP_RESP) as [E|_];
      [exfalso; apply H; rewrite E; cbn; auto|].
    destruct (Z.eqb_spec (at_ available 2) 4) as [E|_];
      [exfalso; apply H; rewrite E; cbn; auto|].
    destruct (Z.eqb_spec (at_ available 2) 5) as [E|_];
      [exfalso; apply H; rewrite E; cbn; auto 6|].
    reflexivity.
  - assert (E : uint8 (Z.of_nat (List.length rx)) = 0).
    { unfold rx. rewrite length_firstn.
      replace (Nat.min 256 (List.length available)) with 256%nat by lia.
      reflexivity. }
    rewrite E.
    unfold processAckMessage, processPingResponseMessage,
      processTimeMessage, processButtonMessage.
    cbn [Z.ltb Z.geb Z.gtb Z.compare andb orb].
    repeat match goal with
           | |- context [if ?c then _ else _] => destruct c
           end; reflexivity.
Qed.

Lemma X4_witness :
  onSlaveReceive 256 (repeat 0x10 256) started_link = started_link
  /\ onSlaveReceive 3 [0x08; 0x07; 0x05] started_link = started_link.
Proof.
  split; apply X4_onSlaveReceive_ignores.
  - do 6 right. rewrite repeat_length. lia.
  - do 4 right. left. discriminate.
Defined.

(** Property X5.  The callback does not check the CRC of what it receives:
    for a frame of 7 to 255 bytes, other than 20, the effect of
    [onSlaveReceive] is the same whatever the last byte is.  (In a frame
    of 20 bytes the last byte is the echo marker of a time frame.) *)
Theorem X5_inbound_last_byte_is_not_checked (n : Z) (F : list Z) (v : Z)
  (s : Link) :
  7 <= Z.of_nat (List.length F) <= 255 -> Z.of_nat (List.length F) <> 20 ->
  onSlaveReceive n (put F (Z.of_nat (List.length F) - 1) v) s
  = onSlaveReceive n F s.
Proof.
  intros Hl H20.
  set (G := put F (Z.of_nat (List.length F) - 1) v).
  assert (HG : List.length G = List.length F) by apply put_length.
  unfold onSlaveReceive.
  rewrite (firstn_256_short F) by lia.
  rewrite (firstn_256_short G) by (rewrite HG; lia).
  rewrite HG. cbv zeta.
  assert (A0 : at_ G 0 = at_ F 0) by (apply at_put_ne; lia).
  assert (A1 : at_ G 1 = at_ F 1) by (apply at_put_ne; lia).
  assert (A2 : at_ G 2 = at_ F 2) by (apply at_put_ne; lia).
  assert (A3 : at_ G 3 = at_ F 3) by (apply at_put_ne; lia).
  assert (A4 : at_ G 4 = at_ F 4) by (apply at_put_ne; lia).
  assert (A5 : at_ G 5 = at_ F 5) by (apply at_put_ne; lia).
  rewrite A0, A2.
  assert (Hu : uint8 (Z.of_nat (List.length F)) = Z.of_nat (List.length F))
    by (unfold uint8; apply Z.mod_small; lia).
  rewrite Hu.
  assert (Ht : processTimeMessage G (Z.of_nat (List.length F)) s
               = processTimeMessage F (Z.of_nat (List.length F)) s).
  { unfold processTimeMessage.
    destruct (Z.ltb_spec (Z.of_nat (List.length F)) 14) as [Hs|Hs].
    - destruct (Z.gtb_spec (Z.of_nat (List.length F)) 19) as [|_]; [lia|].
      reflexivity.
    - assert (A6 : at_ G 6 = at_ F 6) by (apply at_put_ne; lia).
      assert (A10 : at_ G 10 = at_ F 10) by (apply at_put_ne; lia).
      assert (A11 : at_ G 11 = at_ F 11) by (apply at_put_ne; lia).
      assert (A12 : at_ G 12 = at_ F 12) by (apply at_put_ne; lia).
      assert (A19 : at_ G 19 = at_ F 19) by (apply at_put_ne; lia).
      rewrite A1, A4, A5, A6, A10, A11, A12, A19. reflexivity. }
  rewrite Ht.
  unfold processAckMessage, processPingResponseMessage, processButtonMessage.
  cbn [memcmp_eq Z.add Pos.add Pos.succ].
  rewrite ?A0, ?A1, ?A2, ?A3, ?A4, ?A5.
  reflexivity.
Qed.

Lemma X5_witness :
  onSlaveReceive 5 [0x10; 0x07; 0x05; 0x04; 0x00; 0x00; 0xAA] started_link
  = onSlaveReceive 5 [0x10; 0x07; 0x05; 0x04; 0x00; 0x00; 0x55] started_link.
Proof.
  exact (X5_inbound_last_byte_is_not_checked 5
           [0x10; 0x07; 0x05; 0x04; 0x00; 0x00; 0x55] 0xAA started_link
           ltac:(vm_compute; split; discriminate) ltac:(discriminate)).
Defined.

(** ** What the driver puts on the bus *)

Lemma sent_between_refl (s : Link) : sent_between s s [].
Proof. unfold sent_between. rewrite app_nil_r. cbn. split; [reflexivity|lia]. Qed.

Lemma sent_between_trans (a b c : Link) (l m : list (Z * list Z)) :
  sent_between a b l -> sent_between b c m -> sent_between a c (l ++ m).
Proof.
  unfold sent_between. intros [A1 A2] [B1 B2].
  rewrite B1, A1, B2, A2, app_assoc, length_app. split; [reflexivity|lia].
Qed.

Lemma sent_between_same_wire (a b : Link) :
  wire b = wire a -> sent_between a b [].
Proof.
  unfold sent_between. intros ->. rewrite app_nil_r. cbn.
  split; [reflexivity|lia].
Qed.

Lemma wire_setSlaveListenAddress (bus : Bus) (a : Z) (s : Link) :
  txLog (wire (setSlaveListenAddress bus a s)) = txLog (wire s)
  /\ txCount (wire (setSlaveListenAddress bus a s)) = txCount (wire s)
  /\ ackWaitCount (wire (setSlaveListenAddress bus a s))
     = ackWaitCount (wire s)
  /\ pingWaitCount (wire (setSlaveListenAddress bus a s))
     = pingWaitCount (wire s).
Proof.
  unfold setSlaveListenAddress.
  destruct (_ || _); [cbn; auto|].
  destruct (_ =? _); [auto|]. cbv zeta.
  destruct (negb _); cbn; auto.
Qed.

Lemma sent_setSlaveListenAddress (bus : Bus) (a : Z) (s : Link) :
  sent_between s (setSlaveListenAddress bus a s) [].
Proof.
  destruct (wire_setSlaveListenAddress bus a s) as (A & B & _).
  unfold sent_between. rewrite A, B, app_nil_r. cbn. split; [reflexivity|lia].
Qed.

Lemma sent_delay (bus : Bus) (s : Link) : sent_between s (delay bus s) [].
Proof.
  unfold sent_between, delay. cbv zeta. rewrite wire_arrive. cbn.
  rewrite app_nil_r. split; [reflexivity|lia].
Qed.

Lemma sent_waitForAck (bus : Bus) (e : Z) (s : Link) :
  sent_between s (snd (waitForAck bus e s)) [].
Proof.
  unfold waitForAck. destruct (negb _); [apply sent_between_same_wire; reflexivity|].
  unfold sent_between. rewrite wire_waitForAck_loop. cbn.
  rewrite app_nil_r. split; [reflexivity|lia].
Qed.

Lemma sent_transmit (bus : Bus) (t : Z) (cmd : list Z) (n : Z) (s : Link) :
  sent_between s (snd (transmit bus t cmd n s))
    [(t, firstn (Z.to_nat n) cmd)].
Proof. unfold sent_between, transmit. cbn. split; [reflexivity|lia]. Qed.

(** The loop of [sendDGTCommand] sends the same frame once per turn. *)
Lemma sendDGTCommand_loop_sent (bus : Bus) (cmd : list Z)
  (length ackAddr expected numAcks target maxAttempts : Z) (withRetry : bool)
  (remaining : nat) :
  forall attempt s,
    let r := sendDGTCommand_loop bus remaining attempt maxAttempts cmd length
               ackAddr expected numAcks target withRetry s in
    exists k,
      sent_between s (snd r)
        (repeat (target, firstn (Z.to_nat length) cmd) k)
      /\ (k <= remaining)%nat
      /\ (remaining <> 0%nat -> k <> 0%nat)
      /\ (fst r = None -> k = remaining).
Proof.
  induction remaining as [|remaining IH]; intros attempt s; cbn zeta.
  - exists 0%nat. cbn [sendDGTCommand_loop fst snd repeat].
    split; [apply sent_between_refl|]. repeat split; auto; lia.
  - cbn [sendDGTCommand_loop].
    set (s1 := set_receivedAckCmd 0 (set_newAckReceived false
                 (setSlaveListenAddress bus ackAddr s))).
    assert (S1 : sent_between s s1 [])
      by (exact (sent_setSlaveListenAddress bus ackAddr s)).
    pose proof (sent_transmit bus target cmd length s1) as S2.
    destruct (transmit bus target cmd length s1) as [result s2] eqn:Et.
    cbn [snd] in S2.
    pose proof (sent_between_trans _ _ _ _ _ S1 S2) as S12.
    cbn [app] in S12.
    set (e := (target, firstn (Z.to_nat length) cmd)) in *.
    assert (One : forall s', sent_between s s' [e] ->
              exists k, sent_between s s' (repeat e k)
                        /\ (k <= S remaining)%nat
                        /\ (S remaining <> 0%nat -> k <> 0%nat)
                        /\ (Some true = None -> k = S remaining)).
    { intros s' H. exists 1%nat. cbn [repeat]. split; [exact H|].
      split; [lia|]. split; [lia|discriminate]. }
    assert (More : forall s' s'' k,
              sent_between s s' [e] -> sent_between s' s'' (repeat e k) ->
              sent_between s s'' (repeat e (S k))).
    { intros s' s'' k H1 H2.
      change (repeat e (S k)) with ([e] ++ repeat e k).
      eapply sent_between_trans; eassumption. }
    destruct (negb (result =? 0)).
    + destruct withRetry.
      * cbv zeta.
        destruct (IH (attempt + 1)
                    (delay bus (set_lastError DGT_ERROR_I2C_COMM s2)))
          as (k & Sk & K1 & K2 & K3).
        exists (S k). split.
        { eapply More; [|exact Sk]. rewrite <- (app_nil_r [e]).
          eapply sent_between_trans; [exact S12|].
          exact (sent_delay bus (set_lastError DGT_ERROR_I2C_COMM s2)). }
        split; [lia|]. split; [lia|]. intros E. rewrite (K3 E). reflexivity.
      * cbn [fst snd]. apply One. exact S12.
    + destruct (numAcks =? 0).
      * cbn [fst snd]. apply One. exact S12.
      * pose proof (sent_waitForAck bus expected s2) as S3.
        destruct (waitForAck bus expected s2) as [acked s3].
        cbn [snd] in S3.
        pose proof (sent_between_trans _ _ _ _ _ S12 S3) as S123.
        cbn [app] in S123.
        destruct acked.
        -- cbn [fst snd]. apply One.
           rewrite <- (app_nil_r [e]).
           eapply sent_between_trans; [exact S123|].
           exact (sent_setSlaveListenAddress bus _ s3).
        -- set (s4 := if attempt <? maxAttempts then _ else s3).
           assert (S4 : sent_between s3 s4 [])
             by (unfold s4; destruct (_ <? _);
                 apply sent_between_same_wire; reflexivity).
           destruct (IH (attempt + 1) s4) as (k & Sk & K1 & K2 & K3).
           exists (S k). split.
           { eapply More; [|exact Sk].
             rewrite <- (app_nil_r [e]).
             eapply sent_between_trans; [exact S123|exact S4]. }
           split; [lia|]. split; [lia|].
           intros E. rewrite (K3 E). reflexivity.
Qed.

(** What [sendDGTCommand] puts on the bus. *)
Lemma sendDGTCommand_sent (bus : Bus) (cmd : option (list Z))
  (length ackListenAddress expectedAckCmd numAcks targetAddress : Z)
  (withRetry : bool) (s : Link) :
  let r := sendDGTCommand bus cmd length ackListenAddress expectedAckCmd
             numAcks targetAddress withRetry s in
  let attempts := if withRetry then 3%nat else 1%nat in
  (_initialized s = false \/ _i2cMaster s = false \/ cmd = None
   \/ length <= 0 ->
   fst r = false /\ wire (snd r) = wire s
   /\ _currentListenAddress (snd r) = _currentListenAddress s)
  /\ (forall frame,
        _initialized s = true -> _i2cMaster s = true -> cmd = Some frame ->
        0 < length ->
        exists k,
          sent_between s (snd r)
            (repeat (targetAddress, firstn (Z.to_nat length) frame) k)
          /\ (1 <= k <= attempts)%nat
          /\ (fst r = false -> k = attempts)).
Proof.
  cbv zeta. split.
  - intros H. unfold sendDGTCommand.
    destruct (_initialized s); [|cbn; auto].
    destruct (_i2cMaster s); [|cbn; auto].
    cbn [negb orb].
    destruct cmd as [frame|]; [|cbn; auto].
    destruct (Z.leb_spec length 0) as [|G]; [cbn; auto|].
    destruct H as [H|[H|[H|H]]]; try discriminate. lia.
  - intros frame Hi Hm -> Hl. unfold sendDGTCommand.
    rewrite Hi, Hm. cbn [negb orb].
    destruct (Z.leb_spec length 0) as [|_]; [lia|].
    set (maxAttempts := if withRetry then 3 else 1).
    assert (Hmax : Z.to_nat maxAttempts = if withRetry then 3%nat else 1%nat)
      by (unfold maxAttempts; destruct withRetry; reflexivity).
    destruct (sendDGTCommand_loop_sent bus frame length ackListenAddress
                expectedAckCmd numAcks targetAddress maxAttempts withRetry
                (Z.to_nat maxAttempts) 1 s) as (k & Sk & K1 & K2 & K3).
    pose proof (sendDGTCommand_loop_spec bus frame length ackListenAddress
                  expectedAckCmd numAcks targetAddress maxAttempts withRetry
                  (Z.to_nat maxAttempts) 1 s) as (_ & _ & B).
    destruct (sendDGTCommand_loop bus (Z.to_nat maxAttempts) 1 maxAttempts
                frame length ackListenAddress expectedAckCmd numAcks
                targetAddress withRetry s) as [[b|] s1];
      cbn [fst snd] in *; rewrite Hmax in *.
    + exists k. split; [exact Sk|]. split.
      * destruct withRetry; lia.
      * intros E. rewrite (B b eq_refl) in E. discriminate.
    + exists k. split.
      * destruct Sk as [L C]. destruct (wire_setSlaveListenAddress bus
                                          DGT3000_ESP_ADDR_00 s1)
          as (L1 & C1 & _).
        unfold sent_between. cbn [wire set_configured set_connected].
        rewrite L1, C1. split; assumption.
      * rewrite (K3 eq_refl). destruct withRetry; split; auto; lia.
Qed.

(** Property X6.  [sendDGTCommand] puts nothing on the bus when a guard
    refuses the call (link not initialised, no master peripheral, null
    frame, length not positive); otherwise it sends the first [length]
    bytes of the frame to the target address, the same bytes each time,
    once without retry and one to three times with retry, and it has
    made every attempt when it returns false. *)
Theorem X6_sendDGTCommand_transmissions (bus : Bus) (cmd : option (list Z))
  (length ackListenAddress expectedAckCmd numAcks targetAddress : Z)
  (withRetry : bool) (s : Link) :
  let r := sendDGTCommand bus cmd length ackListenAddress expectedAckCmd
             numAcks targetAddress withRetry s in
  let attempts := if withRetry then 3%nat else 1%nat in
  (_initialized s = false \/ _i2cMaster s = false \/ cmd = None
   \/ length <= 0 ->
   fst r = false /\ wire (snd r) = wire s
   /\ _currentListenAddress (snd r) = _currentListenAddress s)
  /\ (forall frame,
        _initialized s = true -> _i2cMaster s = true -> cmd = Some frame ->
        0 < length ->
        exists k,
          sent_between s (snd r)
            (repeat (targetAddress, firstn (Z.to_nat length) frame) k)
          /\ (1 <= k <= attempts)%nat
          /\ (fst r = false -> k = attempts)).
Proof.
  exact (sendDGTCommand_sent bus cmd length ackListenAddress expectedAckCmd
           numAcks targetAddress withRetry s).
Qed.

Lemma X6_witness :
  sent_between held_link
    (snd (sendDGTCommand dead_bus (Some [0x20; 0x05; 0x0f; 0x48]) 4
            DGT3000_ESP_ADDR_10 DGT_CMD_SET_CC 1 DGT3000_I2C_ADDRESS true
            held_link))
    (repeat (DGT3000_I2C_ADDRESS, [0x20; 0x05; 0x0f; 0x48]) 3).
Proof.
  destruct (X6_sendDGTCommand_transmissions dead_bus
              (Some [0x20; 0x05; 0x0f; 0x48]) 4 DGT3000_ESP_ADDR_10
              DGT_CMD_SET_CC 1 DGT3000_I2C_ADDRESS true held_link)
    as (_ & H).
  destruct (H [0x20; 0x05; 0x0f; 0x48] eq_refl eq_refl eq_refl ltac:(lia))
    as (k & Sk & _ & K).
  rewrite (K ltac:(vm_compute; reflexivity)) in Sk. exact Sk.
Defined.

(** *** What the commands put on the bus *)

Lemma emits_refl (s : Link) : emits 0 s s.
Proof.
  exists []. split; [apply sent_between_refl|]. split; [cbn; lia|constructor].
Qed.

Lemma emits_same_wire (k : nat) (s s' : Link) : wire s' = wire s -> emits k s s'.
Proof.
  intros H. exists []. split; [apply sent_between_same_wire; exact H|].
  split; [cbn; lia|constructor].
Qed.

Lemma emits_trans (a b : nat) (s s' s'' : Link) :
  emits a s s' -> emits b s' s'' -> emits (a + b) s s''.
Proof.
  intros (l & L1 & L2 & L3) (m & M1 & M2 & M3). exists (l ++ m).
  split; [eapply sent_between_trans; eassumption|].
  split; [rewrite length_app; lia|apply Forall_app; auto].
Qed.

Lemma emits_weaken (a b : nat) (s s' : Link) :
  (a <= b)%nat -> emits a s s' -> emits b s s'.
Proof.
  intros H (l & L1 & L2 & L3). exists l.
  split; [exact L1|]. split; [lia|exact L3].
Qed.

Lemma emits_sendDGTCommand (bus : Bus) (frame : list Z)
  (ackAddr expected numAcks target : Z) (withRetry : bool) (s : Link) :
  crc_valid frame = true ->
  target = DGT3000_I2C_ADDRESS \/ target = DGT3000_I2C_WAKEUP_ADDR ->
  (0 < List.length frame)%nat ->
  emits (if withRetry then 3 else 1) s
    (snd (sendDGTCommand bus (Some frame) (Z.of_nat (List.length frame))
            ackAddr expected numAcks target withRetry s)).
Proof.
  intros Hc Ht Hl.
  assert (Hl' : 0 < Z.of_nat (List.length frame)) by lia.
  pose proof (sendDGTCommand_sent bus (Some frame)
                (Z.of_nat (List.length frame)) ackAddr expected numAcks
                target withRetry s) as (Hg & Hs).
  cbv zeta in Hg, Hs.
  destruct (_initialized s) eqn:Hi;
    [|apply emits_same_wire; apply Hg; auto].
  destruct (_i2cMaster s) eqn:Hm;
    [|apply emits_same_wire; apply Hg; auto].
  destruct (Hs frame eq_refl eq_refl eq_refl Hl') as (k & Sk & K & _).
  rewrite Nat2Z.id, firstn_all in Sk.
  exists (repeat (target, frame) k). split; [exact Sk|].
  split; [rewrite repeat_length; lia|].
  apply Forall_forall. intros e He. apply repeat_spec in He. subst e.
  split; assumption.
Qed.

Lemma crc_valid_with_crc (F : list Z) (n : Z) (s : Link) :
  3 <= n <= 255 -> Z.of_nat (List.length F) = n ->
  crc_position (at_ F 1) n = n - 1 ->
  crc_valid (with_crc F n s) = true
  /\ List.length (with_crc F n s) = List.length F.
Proof.
  intros Hn Hl Hp. unfold with_crc.
  rewrite calculateCRC_eq by lia. cbn [bytes fresh]. rewrite Hp.
  rewrite map_at_zrange by lia.
  set (P := firstn (Z.to_nat (n - 1)) F).
  rewrite put_split by lia. fold P.
  rewrite skipn_all2 by lia.
  assert (HP : Z.of_nat (List.length P) = n - 1)
    by (unfold P; rewrite length_firstn; lia).
  split.
  - unfold crc_valid. rewrite length_app. cbn [List.length].
    replace (Z.of_nat (List.length P + 1)) with n by lia.
    rewrite verified_at_end; auto.
    + apply Z.eqb_refl.
    + unfold P. rewrite at_firstn by lia. exact Hp.
  - rewrite length_app. cbn [List.length]. lia.
Qed.

Lemma calculateCRC_bytes (F : list Z) (n : Z) (s : Link) :
  3 <= n ->
  calculateCRC (Some (fresh F)) n s
  = (fst (fst (calculateCRC (Some (fresh F)) n s)),
     Some (mkBuf (with_crc F n s)
             (accessed (match snd (fst (calculateCRC (Some (fresh F)) n s)) with
                        | Some b => b | None => fresh F end))), s).
Proof.
  intros H. unfold with_crc. rewrite calculateCRC_eq by lia.
  cbn [fst snd bytes accessed]. reflexivity.
Qed.

Lemma emits_same_log (k : nat) (s s' : Link) :
  txLog (wire s') = txLog (wire s) -> txCount (wire s') = txCount (wire s) ->
  emits k s s'.
Proof.
  intros H1 H2. exists []. unfold sent_between.
  rewrite H1, H2, app_nil_r. cbn.
  split; [split; [reflexivity|lia]|]. split; [lia|constructor].
Qed.

Lemma calculateCRC_cmd (F : list Z) (n : Z) (s : Link) :
  3 <= n ->
  option_map bytes (snd (fst (calculateCRC (Some (fresh F)) n s)))
  = Some (with_crc F n s)
  /\ snd (calculateCRC (Some (fresh F)) n s) = s.
Proof.
  intros H. unfold with_crc. rewrite calculateCRC_eq by lia.
  cbn [fst snd bytes option_map]. auto.
Qed.

Lemma emits_sendDGTCommand_crc (bus : Bus) (F : list Z) (n : Z)
  (ackAddr expected numAcks target : Z) (withRetry : bool) (s0 s : Link) :
  3 <= n <= 255 -> Z.of_nat (List.length F) = n ->
  crc_position (at_ F 1) n = n - 1 ->
  target = DGT3000_I2C_ADDRESS \/ target = DGT3000_I2C_WAKEUP_ADDR ->
  emits (if withRetry then 3 else 1) s
    (snd (sendDGTCommand bus (Some (with_crc F n s0)) n ackAddr expected
            numAcks target withRetry s)).
Proof.
  intros Hn Hl Hp Ht.
  destruct (crc_valid_with_crc F n s0 Hn Hl Hp) as (Hv & Hlen).
  assert (E : n = Z.of_nat (List.length (with_crc F n s0)))
    by (rewrite Hlen; lia).
  rewrite E at 2. apply emits_sendDGTCommand; [exact Hv|exact Ht|lia].
Qed.

Ltac emits_literal :=
  match goal with
  | |- emits _ ?s (snd (if negb (_initialized ?s) then _ else _)) =>
    destruct (_initialized s); cbn [negb];
    [|apply emits_same_wire; reflexivity];
    match goal with
    | |- emits _ _ (snd (sendDGTCommand ?bus (Some ?f) ?n _ _ _ _ _ _)) =>
      change n with (Z.of_nat (List.length f));
      apply emits_sendDGTCommand;
      [vm_compute; reflexivity | auto | cbn; lia]
    end
  end.

Lemma emits_changeState_no_ack (bus : Bus) (s : Link) :
  emits 3 s (snd (changeState_no_ack bus s)).
Proof. unfold changeState_no_ack. cbv zeta. emits_literal. Qed.

Lemma emits_changeState (bus : Bus) (s : Link) :
  emits 3 s (snd (changeState bus s)).
Proof. unfold changeState. cbv zeta. emits_literal. Qed.

Lemma emits_setCentralControl (bus : Bus) (s : Link) :
  emits 3 s (snd (setCentralControl bus s)).
Proof. unfold setCentralControl. cbv zeta. emits_literal. Qed.

Lemma emits_endDisplay (bus : Bus) (s : Link) :
  emits 3 s (snd (endDisplay bus s)).
Proof. unfold endDisplay. cbv zeta. emits_literal. Qed.

Lemma emits_sendDisplayEmpty (bus : Bus) (s : Link) :
  emits 3 s (snd (sendDisplayEmpty bus s)).
Proof. unfold sendDisplayEmpty. cbv zeta. emits_literal. Qed.

Lemma wire_sendPing_loop (polls : list (list (list Z))) :
  forall s, wire (snd (sendPing_loop polls s)) = wire s.
Proof.
  induction polls as [|p polls IH]; intros s; cbn [sendPing_loop];
    [reflexivity|].
  destruct (_newPingResponseReceived s); [reflexivity|].
  rewrite IH. apply wire_arrive.
Qed.

Lemma emits_delay (bus : Bus) (s : Link) : emits 0 s (delay bus s).
Proof.
  exists []. split; [apply sent_delay|]. split; [cbn; lia|constructor].
Qed.

Lemma emits_sendPing (bus : Bus) (s : Link) :
  emits 1 s (snd (sendPing bus s)).
Proof.
  unfold sendPing. destruct (_initialized s) eqn:Hi; cbn [negb];
    [|apply emits_same_wire; reflexivity].
  cbv zeta.
  match goal with
  | |- context [sendDGTCommand bus (Some ?f) ?n ?a ?e ?k ?t ?w s] =>
    assert (E : emits 1 s (snd (sendDGTCommand bus (Some f) n a e k t w s)))
      by (change n with (Z.of_nat (List.length f));
          apply (emits_sendDGTCommand bus f a e k t false);
          [vm_compute; reflexivity | auto | cbn; lia]);
    destruct (sendDGTCommand bus (Some f) n a e k t w s) as [r s1]
  end.
  cbn [snd] in E.
  apply (emits_weaken (1 + 0)); [lia|].
  eapply emits_trans; [exact E|].
  apply emits_same_log; rewrite wire_sendPing_loop; reflexivity.
Qed.

Lemma emits_setAndRun (bus : Bus) (lm lh lmin ls rm rh rmin rs : Z) (s : Link) :
  emits 3 s (snd (setAndRun bus lm lh lmin ls rm rh rmin rs s)).
Proof.
  unfold setAndRun. destruct (_initialized s); cbn [negb];
    [|apply emits_same_wire; reflexivity].
  destruct (negb (validateTimeParameters _ _ _ _ _ _ _ _));
    [apply emits_same_wire; reflexivity|].
  cbv zeta.
  match goal with
  | |- context [calculateCRC (Some (fresh ?F)) 11 s] =>
    destruct (calculateCRC_cmd F 11 s ltac:(lia)) as (Eb & Es);
    destruct (calculateCRC (Some (fresh F)) 11 s) as [[c b] s1];
    cbn [fst snd] in Eb, Es; subst s1; rewrite Eb;
    apply (emits_sendDGTCommand_crc bus F 11 _ _ _ _ true s s);
      [lia|reflexivity|reflexivity|auto]
  end.
Qed.

Lemma emits_stop (bus : Bus) (s : Link) : emits 3 s (snd (stop bus s)).
Proof. unfold stop. cbv zeta. apply emits_setAndRun. Qed.

Lemma emits_run (bus : Bus) (lm rm : Z) (s : Link) :
  emits 3 s (snd (run bus lm rm s)).
Proof.
  unfold run. destruct (negb (_initialized s));
    [apply emits_same_wire; reflexivity|].
  destruct (negb (validateRunParameters lm rm));
    [apply emits_same_wire; reflexivity|].
  cbv zeta. apply emits_setAndRun.
Qed.

Lemma emits_powerOff (bus : Bus) (s : Link) :
  emits 1 s (snd (powerOff bus s)).
Proof.
  unfold powerOff. destruct (_initialized s); cbn [negb];
    [|apply emits_same_wire; reflexivity].
  cbv zeta.
  match goal with
  | |- context [calculateCRC (Some (fresh ?F)) 5 s] =>
    destruct (calculateCRC_cmd F 5 s ltac:(lia)) as (Eb & Es);
    destruct (calculateCRC (Some (fresh F)) 5 s) as [[c b] s1];
    cbn [fst snd] in Eb, Es; subst s1; rewrite Eb;
    pose proof (emits_sendDGTCommand_crc bus F 5 DGT3000_ESP_ADDR_00 0 0
                  DGT3000_I2C_ADDRESS false s s ltac:(lia) eq_refl eq_refl
                  ltac:(auto)) as E
  end.
  destruct (sendDGTCommand _ _ _ _ _ _ _ _ _) as [r s1]. cbn [snd] in E.
  destruct r; cbn [snd]; [|exact E].
  apply (emits_weaken (1 + 0)); [lia|].
  eapply emits_trans; [exact E|].
  apply emits_same_wire. reflexivity.
Qed.

Lemma emits_displayText (bus : Bus) (text : option (list Z))
  (beep leftDots rightDots : Z) (s : Link) :
  emits 6 s (snd (displayText bus text beep leftDots rightDots s)).
Proof.
  unfold displayText. destruct (negb (_initialized s));
    [apply emits_same_wire; reflexivity|].
  destruct (negb (validateDisplayTextParameters _ _ _ _));
    [apply emits_same_wire; reflexivity|].
  pose proof (emits_endDisplay bus s) as E1.
  destruct (endDisplay bus s) as [cleared s1]. cbn [snd] in E1.
  destruct cleared; cbn [negb snd];
    [|apply (emits_weaken 3); [lia|exact E1]].
  cbv zeta.
  apply (emits_trans 3 3 s s1); [exact E1|].
  match goal with
  | |- context [calculateCRC (Some (fresh ?F)) 20 s1] =>
    destruct (calculateCRC_cmd F 20 s1 ltac:(lia)) as (Eb & Es);
    destruct (calculateCRC (Some (fresh F)) 20 s1) as [[c b] s2];
    cbn [fst snd] in Eb, Es; subst s2; rewrite Eb;
    apply (emits_sendDGTCommand_crc bus F 20 _ _ _ _ true s1 s1);
      [lia|reflexivity|reflexivity|auto]
  end.
Qed.

Lemma emits_configure (bus : Bus) (s : Link) :
  emits 16 s (snd (configure bus s)).
Proof.
  unfold configure. destruct (negb (_initialized s));
    [apply emits_same_wire; reflexivity|].
  destruct (_recoveryInProgress s); [apply emits_same_wire; reflexivity|].
  cbv zeta.
  set (s0 := set_connected false (set_configured false
               (set_recoveryInProgress true s))).
  assert (E0 : emits 0 s s0) by (apply emits_same_wire; reflexivity).
  assert (Fail_ : forall k e x, emits k s x ->
            emits k s (set_recoveryInProgress false (set_lastError e x))).
  { intros k e x H. replace k with (k + 0)%nat by lia.
    eapply emits_trans; [exact H|]. apply emits_same_wire. reflexivity. }
  assert (Delay_ : forall k x, emits k s x -> emits k s (delay bus x)).
  { intros k x H. replace k with (k + 0)%nat by lia.
    eapply emits_trans; [exact H|]. apply emits_delay. }
  pose proof (emits_changeState_no_ack bus s0) as E1.
  destruct (changeState_no_ack bus s0) as [sent s1]. cbn [snd] in E1.
  assert (W : exists woken sw,
            (let '(w, x) :=
               if negb sent
               then let '(pinged, x) := sendPing bus (delay bus s1) in
                    if negb pinged then (false, x)
                    else let '(sent', x) := changeState_no_ack bus x in
                         if negb sent' then (false, x) else (true, x)
               else (true, s1) in (w, x)) = (woken, sw)
            /\ emits 7 s sw).
  { destruct sent; cbn [negb].
    - exists true, s1. split; [reflexivity|].
      apply (emits_weaken 3); [lia|].
      apply (emits_trans 0 3 s s0 s1); assumption.
    - pose proof (emits_sendPing bus (delay bus s1)) as E2.
      destruct (sendPing bus (delay bus s1)) as [pinged s2]. cbn [snd] in E2.
      assert (E02 : emits 4 s s2).
      { apply (emits_trans 3 1 s (delay bus s1) s2); [|exact E2].
        apply Delay_. apply (emits_trans 0 3 s s0 s1); assumption. }
      destruct pinged; cbn [negb].
      + pose proof (emits_changeState_no_ack bus s2) as E3.
        destruct (changeState_no_ack bus s2) as [sent' s3]. cbn [snd] in E3.
        exists (if negb sent' then false else true), s3.
        split; [destruct sent'; reflexivity|].
        apply (emits_trans 4 3 s s2 s3); assumption.
      + exists false, s2. split; [reflexivity|].
        apply (emits_weaken 4); [lia|exact E02]. }
  destruct W as (woken & sw & EW & Ew).
  match goal with
  | |- context [let '(w, x) := ?e in _] =>
    replace e with (woken, sw)
      by (symmetry; etransitivity; [|exact EW];
          destruct e; reflexivity)
  end.
  destruct woken; cbn [negb snd];
    [|apply (emits_weaken 7); [lia|apply Fail_; exact Ew]].
  pose proof (emits_setCentralControl bus (delay bus sw)) as E4.
  destruct (setCentralControl bus (delay bus sw)) as [ok s4]. cbn [snd] in E4.
  assert (E04 : emits 10 s s4)
    by (apply (emits_trans 7 3 s (delay bus sw) s4);
        [apply Delay_; exact Ew|exact E4]).
  destruct ok; cbn [negb snd];
    [|apply (emits_weaken 10); [lia|apply Fail_; exact E04]].
  pose proof (emits_changeState bus (delay bus s4)) as E5.
  destruct (changeState bus (delay bus s4)) as [ok s5]. cbn [snd] in E5.
  assert (E05 : emits 13 s s5)
    by (apply (emits_trans 10 3 s (delay bus s4) s5);
        [apply Delay_; exact E04|exact E5]).
  destruct ok; cbn [negb snd];
    [|apply (emits_weaken 13); [lia|apply Fail_; exact E05]].
  pose proof (emits_setAndRun bus DGT_MODE_STOP 0 0 0 DGT_MODE_STOP 0 0 0
                (delay bus s5)) as E6.
  destruct (setAndRun bus DGT_MODE_STOP 0 0 0 DGT_MODE_STOP 0 0 0
              (delay bus s5)) as [ok s6]. cbn [snd] in E6.
  assert (E06 : emits 16 s s6)
    by (apply (emits_trans 13 3 s (delay bus s5) s6);
        [apply Delay_; exact E05|exact E6]).
  destruct ok; cbn [negb snd]; [|apply Fail_; exact E06].
  replace 16%nat with (16 + 0)%nat by lia.
  eapply emits_trans; [exact E06|]. apply emits_same_wire. reflexivity.
Qed.

(** Property X7.  Every frame that a command of the driver puts on the
    master bus passes [verifyCRC] at its own length and goes to the clock
    (address 0x08) or to its wake-up address (0x28); one call sends at
    most 16 frames, whatever its arguments, the state of the link and
    the behaviour of the bus. *)
Theorem X7_commands_send_valid_frames (bus : Bus) (c : api_call) (s : Link) :
  exists sent,
    sent_between s (snd (call bus c s)) sent
    /\ (List.length sent <= 16)%nat
    /\ Forall (fun e => crc_valid (snd e) = true
                        /\ (fst e = DGT3000_I2C_ADDRESS
                            \/ fst e = DGT3000_I2C_WAKEUP_ADDR)) sent.
Proof.
  change (emits 16 s (snd (call bus c s))).
  destruct c; cbn [call].
  - apply (emits_weaken 3); [lia|apply emits_changeState_no_ack].
  - apply (emits_weaken 3); [lia|apply emits_changeState].
  - apply (emits_weaken 1); [lia|apply emits_sendPing].
  - apply (emits_weaken 3); [lia|apply emits_setCentralControl].
  - apply (emits_weaken 3); [lia|apply emits_endDisplay].
  - apply (emits_weaken 3); [lia|apply emits_sendDisplayEmpty].
  - apply (emits_weaken 6); [lia|apply emits_displayText].
  - apply (emits_weaken 3); [lia|apply emits_setAndRun].
  - apply (emits_weaken 3); [lia|apply emits_stop].
  - apply (emits_weaken 3); [lia|apply emits_run].
  - apply (emits_weaken 1); [lia|apply emits_powerOff].
  - apply emits_configure.
Qed.

(** ** Flags of the link *)

Lemma call_refused (bus : Bus) (c : api_call) (s : Link) :
  _initialized s = false ->
  call bus c s = (false, set_lastError DGT_ERROR_NOT_CONFIGURED s).
Proof.
  intros H. destruct c; cbn [call];
    unfold changeState_no_ack, changeState, sendPing, setCentralControl,
      endDisplay, sendDisplayEmpty, displayText, stop, run, setAndRun,
      powerOff, configure;
    rewrite H; reflexivity.
Qed.

(** Property X8.  A link that is not initialised refuses every command:
    the call returns false with last error NOT_CONFIGURED and changes
    nothing else, in particular it puts nothing on the bus; [getTime]
    and [getButtonEvent] do the same and leave the caller's cell as it
    is, [getButtonState] returns 0, and the slave-receive callback
    ignores what arrives. *)
Theorem X8_uninitialised_link_refuses (bus : Bus) (s : Link) :
  _initialized s = false ->
  (forall c, call bus c s = (false, set_lastError DGT_ERROR_NOT_CONFIGURED s))
  /\ (forall out,
        getTime out s = (false, out, set_lastError DGT_ERROR_NOT_CONFIGURED s))
  /\ (forall cell,
        getButtonEvent cell s
        = (false, cell, set_lastError DGT_ERROR_NOT_CONFIGURED s))
  /\ getButtonState s = (0, s)
  /\ (forall n available, onSlaveReceive n available s = s).
Proof.
  intros H. split; [|split; [|split; [|split]]].
  - intros c. apply call_refused. exact H.
  - intros out. unfold getTime. rewrite H. reflexivity.
  - intros cell. unfold getButtonEvent. rewrite H. reflexivity.
  - unfold getButtonState. rewrite H. reflexivity.
  - intros n a. unfold onSlaveReceive. rewrite H. reflexivity.
Qed.

Lemma X8_witness :
  call live_bus Configure new_DGT3000
  = (false, set_lastError DGT_ERROR_NOT_CONFIGURED new_DGT3000)
  /\ call live_bus Stop new_DGT3000
     = (false, set_lastError DGT_ERROR_NOT_CONFIGURED new_DGT3000).
Proof.
  destruct (X8_uninitialised_link_refuses live_bus new_DGT3000 eq_refl)
    as (H & _).
  split; apply H.
Defined.

Lemma settled_simple (bus : Bus) (s : Link) (f : list Z) (n a e k t : Z)
  (w : bool) :
  settled bus s (snd (if negb (_initialized s)
                      then (false, set_lastError DGT_ERROR_NOT_CONFIGURED s)
                      else sendDGTCommand bus (Some f) n a e k t w s)).
Proof.
  destruct (negb _); [settled_step|apply settled_sendDGTCommand].
Qed.

Lemma settled_setAndRun (bus : Bus) (lm lh lmin ls rm rh rmin rs : Z)
  (s : Link) :
  settled bus s (snd (setAndRun bus lm lh lmin ls rm rh rmin rs s)).
Proof.
  unfold setAndRun. destruct (negb _); [settled_step|].
  destruct (negb _); [settled_step|]. cbv zeta.
  match goal with
  | |- context [calculateCRC (Some (fresh ?F)) 11 s] =>
    destruct (calculateCRC_cmd F 11 s ltac:(lia)) as (Eb & Es);
    destruct (calculateCRC (Some (fresh F)) 11 s) as [[c b] s1];
    cbn [fst snd] in Eb, Es; subst s1
  end.
  apply settled_sendDGTCommand.
Qed.

Lemma settled_powerOff (bus : Bus) (s : Link) :
  settled bus s (snd (powerOff bus s)).
Proof.
  unfold powerOff. destruct (negb _); [settled_step|]. cbv zeta.
  match goal with
  | |- context [calculateCRC (Some (fresh ?F)) 5 s] =>
    destruct (calculateCRC_cmd F 5 s ltac:(lia)) as (Eb & Es);
    destruct (calculateCRC (Some (fresh F)) 5 s) as [[c b] s1];
    cbn [fst snd] in Eb, Es; subst s1
  end.
  match goal with
  | |- context [sendDGTCommand bus ?c ?n ?a ?e ?k ?t ?w s] =>
    pose proof (settled_sendDGTCommand bus c n a e k t w s) as Q;
    destruct (sendDGTCommand bus c n a e k t w s) as [r s1]
  end.
  cbn [snd] in Q. destruct r; cbn [snd]; [|exact Q].
  eapply settled_trans; [exact Q|].
  apply settled_quiet. unfold quiet. cbn. repeat split; auto; discriminate.
Qed.

Lemma settled_displayText (bus : Bus) (text : option (list Z))
  (beep leftDots rightDots : Z) (s : Link) :
  settled bus s (snd (displayText bus text beep leftDots rightDots s)).
Proof.
  unfold displayText. destruct (negb _); [settled_step|].
  destruct (negb _); [settled_step|].
  pose proof (settled_simple bus s [0x20; 0x05; 0x07; 0x70] 4
                DGT3000_ESP_ADDR_00 DGT_CMD_END_DISPLAY 0
                DGT3000_I2C_ADDRESS true) as Q1.
  change (settled bus s (snd (endDisplay bus s))) in Q1.
  destruct (endDisplay bus s) as [cleared s1]. cbn [snd] in Q1.
  destruct cleared; cbn [negb snd]; [|exact Q1]. cbv zeta.
  match goal with
  | |- context [calculateCRC (Some (fresh ?F)) 20 s1] =>
    destruct (calculateCRC_cmd F 20 s1 ltac:(lia)) as (Eb & Es);
    destruct (calculateCRC (Some (fresh F)) 20 s1) as [[c b] s2];
    cbn [fst snd] in Eb, Es; subst s2
  end.
  eapply settled_trans; [exact Q1|apply settled_sendDGTCommand].
Qed.

(** Property X9.  No command other than [configure] raises the configured
    flag of the link, and none raises the connected flag unless a time
    frame arrives during the call; each of them keeps the initialised
    flag, the two peripherals and the re-entry flag. *)
Theorem X9_only_configure_raises_the_flags (bus : Bus) (c : api_call)
  (s : Link) :
  c <> Configure ->
  let s' := snd (call bus c s) in
  (_configured s' = true -> _configured s = true)
  /\ (no_time_frames bus -> _connected s' = true -> _connected s = true)
  /\ _initialized s' = _initialized s
  /\ _i2cMaster s' = _i2cMaster s /\ _i2cSlave s' = _i2cSlave s
  /\ _recoveryInProgress s' = _recoveryInProgress s.
Proof.
  intros Hc s'.
  assert (Q : settled bus s s').
  { unfold s'. destruct c; cbn [call]; try contradiction.
    - apply settled_changeState_no_ack.
    - apply settled_simple.
    - apply settled_sendPing.
    - apply settled_simple.
    - apply settled_simple.
    - apply settled_simple.
    - apply settled_displayText.
    - apply settled_setAndRun.
    - apply settled_setAndRun.
    - unfold run. destruct (negb _); [settled_step|].
      destruct (negb _); [settled_step|].
      apply settled_setAndRun.
    - apply settled_powerOff. }
  destruct Q as ((Q1 & Q2 & Q3 & Q4 & Q5) & Q6).
  repeat split; auto.
  intros N. apply (Q6 N).
Qed.

Lemma X9_witness :
  _configured (snd (call live_bus (SetAndRun 1 0 5 0 1 0 5 0) started_link))
  = false
  /\ _connected (snd (call live_bus (SetAndRun 1 0 5 0 1 0 5 0) started_link))
     = false.
Proof.
  destruct (X9_only_configure_raises_the_flags live_bus
              (SetAndRun 1 0 5 0 1 0 5 0) started_link ltac:(discriminate))
    as (H1 & H2 & _).
  split.
  - apply Bool.not_true_is_false. intros E.
    apply H1 in E. vm_compute in E. discriminate E.
  - apply Bool.not_true_is_false. intros E.
    apply H2 in E; [vm_compute in E; discriminate E|].
    intros n. split; [reflexivity|].
    split; [destruct n; reflexivity|reflexivity].
Defined.

(** Property X10.  A call of [configure] that enters the sequence (link
    initialised, no configuration in progress) returns exactly the
    configured flag it leaves behind: the link is connected and
    configured when the call returns true and not configured when it
    returns false, with last error CLOCK_OFF or I2C_COMM in that case,
    and then not connected either unless a time frame has arrived
    during the call; the re-entry flag is clear again. *)
Theorem X10_configure_result_is_the_flag (bus : Bus) (s : Link) :
  _initialized s = true -> _recoveryInProgress s = false ->
  let r := configure bus s in
  _configured (snd r) = fst r
  /\ (fst r = true -> _connected (snd r) = true)
  /\ (no_time_frames bus -> _connected (snd r) = fst r)
  /\ _recoveryInProgress (snd r) = false
  /\ (fst r = true -> _lastError (snd r) = DGT_SUCCESS)
  /\ (fst r = false ->
      _lastError (snd r) = DGT_ERROR_CLOCK_OFF
      \/ _lastError (snd r) = DGT_ERROR_I2C_COMM).
Proof.
  intros Hi Hr. cbv zeta. unfold configure. rewrite Hi, Hr. cbn [negb].
  cbv zeta.
  set (s0 := set_connected false (set_configured false
               (set_recoveryInProgress true s))).
  assert (Down : forall x e, settled bus s0 x ->
            let y := set_recoveryInProgress false (set_lastError e x) in
            _configured y = false
            /\ (no_time_frames bus -> _connected y = false)
            /\ _recoveryInProgress y = false /\ _lastError y = e).
  { intros x e ((_ & _ & _ & _ & Qf) & Q). cbn.
    repeat split.
    - destruct (_configured x); [discriminate (Qf eq_refl)|reflexivity].
    - intros N. destruct (Q N) as (_ & _ & _ & _ & Qc & _).
      destruct (_connected x); [discriminate (Qc eq_refl)|reflexivity]. }
  pose proof (settled_changeState_no_ack bus s0) as Q1.
  destruct (changeState_no_ack bus s0) as [sent s1]. cbn [snd] in Q1.
  assert (W : exists woken sw,
            (let '(w, x) :=
               if negb sent
               then let '(pinged, x) := sendPing bus (delay bus s1) in
                    if negb pinged then (false, x)
                    else let '(sent', x) := changeState_no_ack bus x in
                         if negb sent' then (false, x) else (true, x)
               else (true, s1) in (w, x)) = (woken, sw)
            /\ settled bus s0 sw).
  { destruct sent; cbn [negb].
    - exists true, s1. split; [reflexivity|exact Q1].
    - pose proof (settled_sendPing bus (delay bus s1)) as Q2.
      destruct (sendPing bus (delay bus s1)) as [pinged s2]. cbn [snd] in Q2.
      assert (Q02 : settled bus s0 s2).
      { eapply settled_trans; [exact Q1|].
        eapply settled_trans; [apply settled_delay|exact Q2]. }
      destruct pinged; cbn [negb].
      + pose proof (settled_changeState_no_ack bus s2) as Q3.
        destruct (changeState_no_ack bus s2) as [sent' s3]. cbn [snd] in Q3.
        exists (if negb sent' then false else true), s3.
        split; [destruct sent'; reflexivity|].
        eapply settled_trans; eassumption.
      + exists false, s2. split; [reflexivity|exact Q02]. }
  destruct W as (woken & sw & EW & Qw).
  match goal with
  | |- context [let '(w, x) := ?e in _] =>
    replace e with (woken, sw)
      by (symmetry; etransitivity; [|exact EW];
          destruct e; reflexivity)
  end.
  assert (Step : forall x y, settled bus s0 x ->
            settled bus (delay bus x) y -> settled bus s0 y).
  { intros x y A B. eapply settled_trans; [exact A|].
    eapply settled_trans; [apply settled_delay|exact B]. }
  destruct woken; cbn [negb fst snd].
  2:{ destruct (Down sw DGT_ERROR_CLOCK_OFF Qw) as (A & B & C & D).
      repeat split; auto; try discriminate. }
  pose proof (settled_simple bus (delay bus sw) [0x20; 0x05; 0x0f; 0x48] 4
                DGT3000_ESP_ADDR_10 DGT_CMD_SET_CC 1 DGT3000_I2C_ADDRESS
                true) as Q4.
  change (settled bus (delay bus sw) (snd (setCentralControl bus (delay bus sw))))
    in Q4.
  destruct (setCentralControl bus (delay bus sw)) as [ok s4]. cbn [snd] in Q4.
  assert (Q04 : settled bus s0 s4) by (eapply Step; eassumption).
  destruct ok; cbn [negb fst snd].
  2:{ destruct (Down s4 DGT_ERROR_I2C_COMM Q04) as (A & B & C & D).
      repeat split; auto; try discriminate. }
  pose proof (settled_simple bus (delay bus s4) [0x20; 0x06; 0x0b; 0x39; 0xb9]
                5 DGT3000_ESP_ADDR_10 DGT_CMD_CHANGE_STATE 1
                DGT3000_I2C_ADDRESS true) as Q5.
  change (settled bus (delay bus s4) (snd (changeState bus (delay bus s4))))
    in Q5.
  destruct (changeState bus (delay bus s4)) as [ok s5]. cbn [snd] in Q5.
  assert (Q05 : settled bus s0 s5) by (eapply Step; eassumption).
  destruct ok; cbn [negb fst snd].
  2:{ destruct (Down s5 DGT_ERROR_I2C_COMM Q05) as (A & B & C & D).
      repeat split; auto; try discriminate. }
  pose proof (settled_setAndRun bus DGT_MODE_STOP 0 0 0 DGT_MODE_STOP 0 0 0
                (delay bus s5)) as Q6.
  destruct (setAndRun bus DGT_MODE_STOP 0 0 0 DGT_MODE_STOP 0 0 0
              (delay bus s5)) as [ok s6]. cbn [snd] in Q6.
  assert (Q06 : settled bus s0 s6) by (eapply Step; eassumption).
  destruct ok; cbn [negb fst snd].
  2:{ destruct (Down s6 DGT_ERROR_I2C_COMM Q06) as (A & B & C & D).
      repeat split; auto; try discriminate. }
  cbn. repeat split; auto; discriminate.
Qed.

Lemma X10_witness :
  _configured (snd (configure dead_bus started_link)) = false
  /\ _configured (snd (configure live_bus started_link)) = true.
Proof.
  split.
  - destruct (X10_configure_result_is_the_flag dead_bus started_link
                eq_refl eq_refl) as (E & _).
    rewrite E. vm_compute. reflexivity.
  - destruct (X10_configure_result_is_the_flag live_bus started_link
                eq_refl eq_refl) as (E & _).
    rewrite E. vm_compute. reflexivity.
Defined.

(** *** The listen address of the slave *)

Section Listening.

Variable bus : Bus.
Hypothesis binds : forall n, slaveBegin bus n = true.

Lemma listens_setSlaveListenAddress (a b : Z) (s : Link) :
  listens a s -> listens b (setSlaveListenAddress bus b s).
Proof.
  intros (Hi & Hs & Ha). unfold listens, setSlaveListenAddress.
  rewrite Hi, Hs. cbn [negb orb].
  destruct (Z.eqb_spec (_currentListenAddress s) b) as [E|E]; [auto|].
  cbv zeta. rewrite binds. cbn. auto.
Qed.

Lemma listens_same (a : Z) (s s' : Link) :
  _initialized s' = _initialized s -> _i2cSlave s' = _i2cSlave s ->
  _currentListenAddress s' = _currentListenAddress s ->
  listens a s -> listens a s'.
Proof. unfold listens. intros -> -> ->. auto. Qed.

Lemma listens_waitForAck (a e : Z) (s : Link) :
  listens a s -> listens a (snd (waitForAck bus e s)).
Proof.
  intros H.
  destruct (settled_waitForAck bus e s) as ((Q1 & _ & Q3 & _) & _).
  apply (listens_same a s); auto. apply address_waitForAck.
Qed.

Lemma listens_arrive (a : Z) (arrived : list (list Z)) (s : Link) :
  listens a s -> listens a (arrive arrived s).
Proof.
  intros H. destruct (received_arrive arrived s)
    as (R1 & _ & R3 & _ & _ & R6 & _).
  apply (listens_same a s); auto.
Qed.

Lemma listens_delay (a : Z) (s : Link) :
  listens a s -> listens a (delay bus s).
Proof. intros H. unfold delay. cbv zeta. apply listens_arrive. exact H. Qed.

Lemma sendDGTCommand_loop_listens (cmd : list Z)
  (length ackAddr expected numAcks target maxAttempts : Z) (withRetry : bool)
  (remaining : nat) :
  forall attempt s a,
    listens a s ->
    let r := sendDGTCommand_loop bus remaining attempt maxAttempts cmd length
               ackAddr expected numAcks target withRetry s in
    (exists b, listens b (snd r))
    /\ (ackAddr = DGT3000_ESP_ADDR_00
        \/ (numAcks <> 0 /\ withRetry = true) ->
        fst r <> None -> listens DGT3000_ESP_ADDR_00 (snd r)).
Proof.
  induction remaining as [|remaining IH]; intros attempt s a H; cbn zeta.
  - cbn. split; [exists a; exact H|]. intros _ E. contradiction.
  - cbn [sendDGTCommand_loop].
    set (s1 := set_receivedAckCmd 0 (set_newAckReceived false
                 (setSlaveListenAddress bus ackAddr s))).
    assert (H1 : listens ackAddr s1).
    { apply (listens_same ackAddr (setSlaveListenAddress bus ackAddr s));
        try reflexivity.
      eapply listens_setSlaveListenAddress. exact H. }
    unfold transmit.
    set (s2 := set_wire _ s1).
    assert (H2 : listens ackAddr s2) by exact H1.
    destruct (negb (_ =? 0)).
    + destruct withRetry.
      * cbv zeta. apply (IH _ _ ackAddr). apply listens_delay. exact H2.
      * cbn [fst snd]. split; [exists ackAddr; exact H2|].
        intros [->|[_ E]] _; [exact H2|discriminate].
    + destruct (Z.eqb_spec numAcks 0) as [E0|E0].
      * cbn [fst snd]. split; [exists ackAddr; exact H2|].
        intros [->|[E _]] _; [exact H2|contradiction].
      * pose proof (listens_waitForAck ackAddr expected s2 H2) as H3.
        destruct (waitForAck bus expected s2) as [acked s3].
        cbn [snd] in H3. destruct acked.
        -- cbn [fst snd].
           assert (H4 : listens DGT3000_ESP_ADDR_00
                          (set_lastError DGT_SUCCESS
                             (setSlaveListenAddress bus DGT3000_ESP_ADDR_00 s3))).
           { apply (listens_same _ (setSlaveListenAddress bus
                                      DGT3000_ESP_ADDR_00 s3));
               try reflexivity.
             eapply listens_setSlaveListenAddress. exact H3. }
           split; [eexists; exact H4|]. intros _ _. exact H4.
        -- apply (IH _ _ ackAddr).
           destruct (_ <? _); exact H3.
Qed.

Lemma sendDGTCommand_listens (cmd : option (list Z))
  (length ackAddr expected numAcks target : Z) (withRetry : bool) (s : Link) :
  listens DGT3000_ESP_ADDR_00 s ->
  ackAddr = DGT3000_ESP_ADDR_00 \/ (numAcks <> 0 /\ withRetry = true) ->
  listens DGT3000_ESP_ADDR_00
    (snd (sendDGTCommand bus cmd length ackAddr expected numAcks target
            withRetry s)).
Proof.
  intros H Hc. unfold sendDGTCommand.
  destruct (_ || _); [exact H|].
  destruct cmd as [cmd|]; [|exact H].
  destruct (_ <=? _); [exact H|].
  match goal with
  | |- context [sendDGTCommand_loop bus ?n ?a ?m cmd length ackAddr expected
                  numAcks target withRetry s] =>
    pose proof (sendDGTCommand_loop_listens cmd length ackAddr expected
                  numAcks target m withRetry n a s _ H) as (Hb & H0);
    cbn zeta in Hb, H0;
    destruct (sendDGTCommand_loop bus n a m cmd length ackAddr expected
                numAcks target withRetry s) as [[r|] s1]
  end; cbn [fst snd] in *.
  - apply H0; [exact Hc|discriminate].
  - destruct Hb as (b & Hb).
    apply (listens_same _ (setSlaveListenAddress bus DGT3000_ESP_ADDR_00 s1));
      try reflexivity.
    eapply listens_setSlaveListenAddress. exact Hb.
Qed.

Lemma listens_sendPing_loop (a : Z) (polls : list (list (list Z))) :
  forall s, listens a s -> listens a (snd (sendPing_loop polls s)).
Proof.
  induction polls as [|p polls IH]; intros s H; cbn [sendPing_loop];
    [exact H|].
  destruct (_newPingResponseReceived s); [exact H|].
  apply IH. apply listens_arrive. exact H.
Qed.

Ltac listens_simple H :=
  match goal with
  | |- listens _ (snd (if negb (_initialized ?s) then _ else _)) =>
    destruct (negb (_initialized s)); [exact H|];
    cbv zeta; apply sendDGTCommand_listens;
    [exact H | first [left; reflexivity | right; split; [discriminate|reflexivity]]]
  end.

Lemma listens_setAndRun (lm lh lmin ls rm rh rmin rs : Z) (s : Link) :
  listens DGT3000_ESP_ADDR_00 s ->
  listens DGT3000_ESP_ADDR_00
    (snd (setAndRun bus lm lh lmin ls rm rh rmin rs s)).
Proof.
  intros H. unfold setAndRun. destruct (negb _); [exact H|].
  destruct (negb _); [exact H|]. cbv zeta.
  match goal with
  | |- context [calculateCRC (Some (fresh ?F)) 11 s] =>
    destruct (calculateCRC_cmd F 11 s ltac:(lia)) as (Eb & Es);
    destruct (calculateCRC (Some (fresh F)) 11 s) as [[c b] s1];
    cbn [fst snd] in Eb, Es; subst s1
  end.
  apply sendDGTCommand_listens; [exact H|left; reflexivity].
Qed.

Lemma listens_changeState_no_ack (s : Link) :
  listens DGT3000_ESP_ADDR_00 s ->
  listens DGT3000_ESP_ADDR_00 (snd (changeState_no_ack bus s)).
Proof. intros H. unfold changeState_no_ack. listens_simple H. Qed.

Lemma listens_sendPing (s : Link) :
  listens DGT3000_ESP_ADDR_00 s ->
  listens DGT3000_ESP_ADDR_00 (snd (sendPing bus s)).
Proof.
  intros H. unfold sendPing. destruct (negb _); [exact H|]. cbv zeta.
  match goal with
  | |- context [sendDGTCommand bus ?c ?n ?a ?e ?k ?t ?w s] =>
    pose proof (sendDGTCommand_listens c n a e k t w s H
                  ltac:(left; reflexivity)) as H1;
    destruct (sendDGTCommand bus c n a e k t w s) as [r s1]
  end.
  cbn [snd] in H1. apply listens_sendPing_loop. exact H1.
Qed.

(** Property X11.  On a bus where every re-binding of the slave succeeds, a
    link that listens on 0x00, the address of the time and button
    frames, listens on 0x00 again after every command, whether the
    command succeeded or not. *)
Theorem X11_commands_return_to_listening_on_00 (c : api_call) (s : Link) :
  _initialized s = true -> _i2cSlave s = true ->
  _currentListenAddress s = DGT3000_ESP_ADDR_00 ->
  _currentListenAddress (snd (call bus c s)) = DGT3000_ESP_ADDR_00.
Proof.
  intros Hi Hs Ha.
  assert (H : listens DGT3000_ESP_ADDR_00 s) by (unfold listens; auto).
  enough (H' : listens DGT3000_ESP_ADDR_00 (snd (call bus c s)))
    by (destruct H' as (_ & _ & E); exact E).
  clear Hi Hs Ha.
  destruct c; cbn [call].
  - apply listens_changeState_no_ack. exact H.
  - unfold changeState. listens_simple H.
  - apply listens_sendPing. exact H.
  - unfold setCentralControl. listens_simple H.
  - unfold endDisplay. listens_simple H.
  - unfold sendDisplayEmpty. listens_simple H.
  - unfold displayText. destruct (negb _); [exact H|].
    destruct (negb _); [exact H|].
    assert (H1 : listens DGT3000_ESP_ADDR_00 (snd (endDisplay bus s)))
      by (unfold endDisplay; listens_simple H).
    destruct (endDisplay bus s) as [cleared s1]. cbn [snd] in H1.
    destruct cleared; cbn [negb snd]; [|exact H1]. cbv zeta.
    match goal with
    | |- context [calculateCRC (Some (fresh ?F)) 20 s1] =>
      destruct (calculateCRC_cmd F 20 s1 ltac:(lia)) as (Eb & Es);
      destruct (calculateCRC (Some (fresh F)) 20 s1) as [[c b] s2];
      cbn [fst snd] in Eb, Es; subst s2
    end.
    apply sendDGTCommand_listens; [exact H1|left; reflexivity].
  - apply listens_setAndRun. exact H.
  - unfold stop. cbv zeta. apply listens_setAndRun. exact H.
  - unfold run. destruct (negb _); [exact H|].
    destruct (negb _); [exact H|]. cbv zeta.
    apply listens_setAndRun. exact H.
  - unfold powerOff. destruct (negb _); [exact H|]. cbv zeta.
    match goal with
    | |- context [calculateCRC (Some (fresh ?F)) 5 s] =>
      destruct (calculateCRC_cmd F 5 s ltac:(lia)) as (Eb & Es);
      destruct (calculateCRC (Some (fresh F)) 5 s) as [[c b] s1];
      cbn [fst snd] in Eb, Es; subst s1
    end.
    match goal with
    | |- context [sendDGTCommand bus ?c ?n ?a ?e ?k ?t ?w s] =>
      pose proof (sendDGTCommand_listens c n a e k t w s H
                    ltac:(left; reflexivity)) as H1;
      destruct (sendDGTCommand bus c n a e k t w s) as [r s1]
    end.
    cbn [snd] in H1. destruct r; exact H1.
  - unfold configure. destruct (negb _); [exact H|].
    destruct (_recoveryInProgress s); [exact H|]. cbv zeta.
    set (s0 := set_connected false (set_configured false
                 (set_recoveryInProgress true s))).
    assert (H0 : listens DGT3000_ESP_ADDR_00 s0) by exact H.
    pose proof (listens_changeState_no_ack s0 H0) as H1.
    destruct (changeState_no_ack bus s0) as [sent s1]. cbn [snd] in H1.
    assert (W : exists woken sw,
              (let '(w, x) :=
                 if negb sent
                 then let '(pinged, x) := sendPing bus (delay bus s1) in
                      if negb pinged then (false, x)
                      else let '(sent', x) := changeState_no_ack bus x in
                           if negb sent' then (false, x) else (true, x)
                 else (true, s1) in (w, x)) = (woken, sw)
              /\ listens DGT3000_ESP_ADDR_00 sw).
    { destruct sent; cbn [negb].
      - exists true, s1. split; [reflexivity|exact H1].
      - pose proof (listens_sendPing (delay bus s1)
                      (listens_delay _ s1 H1)) as H2.
        destruct (sendPing bus (delay bus s1)) as [pinged s2].
        cbn [snd] in H2.
        destruct pinged; cbn [negb].
        + pose proof (listens_changeState_no_ack s2 H2) as H3.
          destruct (changeState_no_ack bus s2) as [sent' s3].
          cbn [snd] in H3.
          exists (if negb sent' then false else true), s3.
          split; [destruct sent'; reflexivity|exact H3].
        + exists false, s2. split; [reflexivity|exact H2]. }
    destruct W as (woken & sw & EW & Hw).
    match goal with
    | |- context [let '(w, x) := ?e in _] =>
      replace e with (woken, sw)
        by (symmetry; etransitivity; [|exact EW];
            destruct e; reflexivity)
    end.
    destruct woken; cbn [negb snd]; [|exact Hw].
    apply (listens_delay _ sw) in Hw.
    assert (H4 : listens DGT3000_ESP_ADDR_00
                   (snd (setCentralControl bus (delay bus sw))))
      by (unfold setCentralControl; listens_simple Hw).
    destruct (setCentralControl bus (delay bus sw)) as [ok s4].
    cbn [snd] in H4.
    destruct ok; cbn [negb snd]; [|exact H4].
    apply (listens_delay _ s4) in H4.
    assert (H5 : listens DGT3000_ESP_ADDR_00
                   (snd (changeState bus (delay bus s4))))
      by (unfold changeState; listens_simple H4).
    destruct (changeState bus (delay bus s4)) as [ok s5]. cbn [snd] in H5.
    destruct ok; cbn [negb snd]; [|exact H5].
    apply (listens_delay _ s5) in H5.
    pose proof (listens_setAndRun DGT_MODE_STOP 0 0 0 DGT_MODE_STOP 0 0 0
                  (delay bus s5) H5) as H6.
    destruct (setAndRun bus DGT_MODE_STOP 0 0 0 DGT_MODE_STOP 0 0 0
                (delay bus s5)) as [ok s6]. cbn [snd] in H6.
    destruct ok; cbn [negb snd]; exact H6.
Qed.

End Listening.

(** ** Power-off *)

Lemma X11_witness :
  _currentListenAddress (snd (call live_bus Configure begun_link))
  = DGT3000_ESP_ADDR_00.
Proof.
  exact (X11_commands_return_to_listening_on_00 live_bus (fun _ => eq_refl)
           Configure begun_link eq_refl eq_refl eq_refl).
Defined.

Lemma powerOff_spec (bus : Bus) (s : Link) :
  _initialized s = true -> _i2cMaster s = true ->
  exists s',
    powerOff bus s = (true, s')
    /\ sent_between s s' [(DGT3000_I2C_ADDRESS, power_off_frame)]
    /\ _connected s' = false /\ _configured s' = false
    /\ _initialized s' = true.
Proof.
  intros Hi Hm. unfold powerOff. rewrite Hi. cbn [negb]. cbv zeta.
  rewrite calculateCRC_eq by lia. cbn [bytes fresh option_map].
  change (put _ _ _) with power_off_frame.
  pose proof (sendDGTCommand_sent bus (Some power_off_frame) 5
                DGT3000_ESP_ADDR_00 0 0 DGT3000_I2C_ADDRESS false s)
    as (_ & H).
  cbv zeta in H.
  destruct (H power_off_frame Hi Hm eq_refl ltac:(lia)) as (k & Sk & K & _).
  assert (k = 1%nat) by lia. subst k. cbn [repeat] in Sk.
  change (firstn (Z.to_nat 5) power_off_frame) with power_off_frame in Sk.
  pose proof (sendDGTCommand_loop_spec bus power_off_frame 5
                DGT3000_ESP_ADDR_00 0 0 DGT3000_I2C_ADDRESS 1 false 1 1 s)
    as (Q & _ & B).
  pose proof (settled_sendDGTCommand bus (Some power_off_frame) 5
                DGT3000_ESP_ADDR_00 0 0 DGT3000_I2C_ADDRESS false s)
    as (Qs & _).
  assert (R : fst (sendDGTCommand bus (Some power_off_frame) 5
                     DGT3000_ESP_ADDR_00 0 0 DGT3000_I2C_ADDRESS false s)
              = true).
  { unfold sendDGTCommand. rewrite Hi, Hm. cbn [negb orb Z.leb Z.compare].
    replace (Z.to_nat 1) with 1%nat by reflexivity.
    cbn [sendDGTCommand_loop]. unfold transmit.
    destruct (negb (_ =? 0)); [reflexivity|].
    cbn [Z.eqb]. reflexivity. }
  destruct (sendDGTCommand bus (Some power_off_frame) 5 _ _ _ _ _ s)
    as [r s1]. cbn [fst snd] in *. subst r.
  eexists. split; [reflexivity|]. split.
  - destruct Sk as [L C]. split; [exact L|exact C].
  - cbn. split; [reflexivity|]. split; [reflexivity|].
    destruct Qs as (Qi & _). rewrite Qi. exact Hi.
Qed.

(** Property X12.  [powerOff] on an initialised link with its master
    peripheral always returns true, after putting the frame
    [20 06 0b 00 16] on the bus once, whether or not the transmission
    succeeded, and marks the link neither connected nor configured.
    [end] does the same and then drops both peripherals and the
    initialised flag, so that every later command is refused. *)
Theorem X12_powerOff_and_end (bus : Bus) (s : Link) :
  _initialized s = true -> _i2cMaster s = true ->
  (exists s',
     powerOff bus s = (true, s')
     /\ sent_between s s' [(DGT3000_I2C_ADDRESS, power_off_frame)]
     /\ _connected s' = false /\ _configured s' = false)
  /\ (let e := end_ bus s in
      sent_between s e [(DGT3000_I2C_ADDRESS, power_off_frame)]
      /\ _initialized e = false /\ _i2cMaster e = false
      /\ _i2cSlave e = false /\ _connected e = false
      /\ _configured e = false
      /\ forall c, call bus c e
                   = (false, set_lastError DGT_ERROR_NOT_CONFIGURED e)).
Proof.
  intros Hi Hm.
  destruct (powerOff_spec bus s Hi Hm) as (s' & E & S & Hc & Hf & _).
  split; [exists s'; auto|].
  cbv zeta. unfold end_. rewrite E. cbv zeta.
  split.
  { unfold sent_between in *. cbn [wire set_configured set_connected
      set_initialized set_i2cMaster set_i2cSlave].
    destruct (sent_delay bus s') as (D1 & D2). rewrite app_nil_r in D1.
    rewrite D1, D2. destruct S as (S1 & S2). rewrite S1, S2.
    split; [reflexivity|cbn; lia]. }
  repeat split.
  intros c. apply call_refused. reflexivity.
Qed.

Lemma X12_witness :
  fst (powerOff dead_bus held_link) = true
  /\ _initialized (end_ dead_bus held_link) = false.
Proof.
  destruct (X12_powerOff_and_end dead_bus held_link eq_refl eq_refl)
    as ((s' & E & _) & _ & H & _).
  rewrite E. split; [reflexivity|exact H].
Defined.

(** ** Start of the driver and acknowledgements *)

(** Property X13.  [begin] refuses pins outside 0..48 with I2C_INIT and
    changes nothing else.  With valid pins it drops both peripherals
    and starts the master; if that fails it returns false with I2C_INIT,
    without peripherals, and leaves the initialised flag as it was.
    Otherwise it returns true with the link initialised and both
    peripherals present, also when the slave could not be bound: the
    slave is bound to 0x00 only if the remembered listen address is not
    already 0x00, and a failed binding leaves the address 0xFF and the
    last error I2C_INIT. *)
Theorem X13_begin_outcomes (bus : Bus) (masterSDA masterSCL slaveSDA slaveSCL : Z)
  (s : Link) :
  let r := begin bus masterSDA masterSCL slaveSDA slaveSCL s in
  (~ pins_ok masterSDA masterSCL slaveSDA slaveSCL ->
   r = (false, set_lastError DGT_ERROR_I2C_INIT s))
  /\ (pins_ok masterSDA masterSCL slaveSDA slaveSCL ->
      masterBegin bus (masterBeginCount (wire s)) = false ->
      fst r = false /\ _lastError (snd r) = DGT_ERROR_I2C_INIT
      /\ _i2cMaster (snd r) = false /\ _i2cSlave (snd r) = false
      /\ _initialized (snd r) = _initialized s
      /\ bindCount (wire (snd r)) = bindCount (wire s))
  /\ (pins_ok masterSDA masterSCL slaveSDA slaveSCL ->
      masterBegin bus (masterBeginCount (wire s)) = true ->
      fst r = true /\ _initialized (snd r) = true
      /\ _i2cMaster (snd r) = true /\ _i2cSlave (snd r) = true
      /\ (_currentListenAddress s = DGT3000_ESP_ADDR_00 ->
          bindCount (wire (snd r)) = bindCount (wire s)
          /\ _currentListenAddress (snd r) = DGT3000_ESP_ADDR_00
          /\ _lastError (snd r) = DGT_SUCCESS)
      /\ (_currentListenAddress s <> DGT3000_ESP_ADDR_00 ->
          bindCount (wire (snd r)) = S (bindCount (wire s))
          /\ (slaveBegin bus (bindCount (wire s)) = true ->
              _currentListenAddress (snd r) = DGT3000_ESP_ADDR_00
              /\ _lastError (snd r) = DGT_SUCCESS)
          /\ (slaveBegin bus (bindCount (wire s)) = false ->
              _currentListenAddress (snd r) = 0xFF
              /\ _lastError (snd r) = DGT_ERROR_I2C_INIT))).
Proof.
  cbv zeta. unfold begin, pins_ok.
  destruct (Z.ltb_spec masterSDA 0); cbn [orb];
    [split; [reflexivity|split; intros; lia]|].
  destruct (Z.gtb_spec masterSDA 48); cbn [orb];
    [split; [reflexivity|split; intros; lia]|].
  destruct (Z.ltb_spec masterSCL 0); cbn [orb];
    [split; [reflexivity|split; intros; lia]|].
  destruct (Z.gtb_spec masterSCL 48); cbn [orb];
    [split; [reflexivity|split; intros; lia]|].
  destruct (Z.ltb_spec slaveSDA 0); cbn [orb];
    [split; [reflexivity|split; intros; lia]|].
  destruct (Z.gtb_spec slaveSDA 48); cbn [orb];
    [split; [reflexivity|split; intros; lia]|].
  destruct (Z.ltb_spec slaveSCL 0); cbn [orb];
    [split; [reflexivity|split; intros; lia]|].
  destruct (Z.gtb_spec slaveSCL 48); cbn [orb];
    [split; [reflexivity|split; intros; lia]|].
  split; [intros Hn; exfalso; apply Hn; lia|].
  cbn [wire set_wire set_i2cSlave set_i2cMaster set_pins masterBeginCount
       wire_set_masterBeginCount].
  split; intros _ Hb; rewrite Hb; cbn [negb].
  - cbn. auto 10.
  - unfold setSlaveListenAddress.
    cbn [_initialized _i2cSlave set_lastError set_initialized set_i2cSlave
         set_i2cMaster set_wire set_pins negb orb _currentListenAddress].
    destruct (Z.eqb_spec (_currentListenAddress s) DGT3000_ESP_ADDR_00)
      as [E|E].
    + cbn. repeat split; auto; contradiction.
    + cbv zeta. cbn [wire set_lastError set_initialized set_i2cSlave
                     set_i2cMaster set_wire set_pins bindCount
                     wire_set_masterBeginCount wire_set_bindCount].
      destruct (slaveBegin bus (bindCount (wire s))) eqn:Eb; cbn;
        repeat split; auto; try contradiction; discriminate.
Qed.

Lemma X13_witness :
  begin live_bus 8 5 7 49 new_DGT3000
  = (false, set_lastError DGT_ERROR_I2C_INIT new_DGT3000)
  /\ fst (begin live_bus 8 5 7 6 new_DGT3000) = true
  /\ bindCount (wire (snd (begin live_bus 8 5 7 6
                             (end_ live_bus begun_link)))) = 1%nat.
Proof.
  split; [|split].
  - destruct (X13_begin_outcomes live_bus 8 5 7 49 new_DGT3000) as (H & _).
    apply H. unfold pins_ok. lia.
  - destruct (X13_begin_outcomes live_bus 8 5 7 6 new_DGT3000) as (_ & _ & H).
    destruct (H ltac:(unfold pins_ok; lia) eq_refl) as (E & _). exact E.
  - destruct (X13_begin_outcomes live_bus 8 5 7 6 (end_ live_bus begun_link))
      as (_ & _ & H).
    destruct (H ltac:(unfold pins_ok; lia) eq_refl) as (_ & _ & _ & _ & E & _).
    destruct (E eq_refl) as (E1 & _). rewrite E1. reflexivity.
Defined.

Lemma waitForAck_loop_error (e : Z) (polls : list (list (list Z))) :
  forall s,
    let r := waitForAck_loop e polls s in
    (fst r = true ->
     _lastError (snd r) = DGT_SUCCESS /\ _newAckReceived (snd r) = false)
    /\ (fst r = false -> _lastError (snd r) = DGT_ERROR_TIMEOUT).
Proof.
  induction polls as [|p polls IH]; intros s; cbn zeta;
    cbn [waitForAck_loop].
  - cbn. split; [discriminate|reflexivity].
  - destruct (_ && _); [cbn; split; [auto|discriminate]|]. apply IH.
Qed.

(** Property X14.  [waitForAck] on an initialised link that has its slave
    peripheral returns true exactly when, at the start of one of the
    turns of its loop, the latest acknowledgement frame received since
    the call began is that of the expected command.  So an
    acknowledgement flagged before the call is discarded, one that
    arrives during the last turn comes too late, and an acknowledgement
    of another command that follows the expected one before the next
    turn hides it.  The call leaves last error SUCCESS and the flag
    consumed when it returns true, and last error TIMEOUT when it
    returns false. *)
Theorem X14_waitForAck_outcome (bus : Bus) (expectedCmd : Z) (s : Link) :
  _initialized s = true -> _i2cSlave s = true ->
  let r := waitForAck bus expectedCmd s in
  fst r = acknowledged expectedCmd (ackPolls bus (ackWaitCount (wire s)))
  /\ (fst r = true ->
      _lastError (snd r) = DGT_SUCCESS /\ _newAckReceived (snd r) = false)
  /\ (fst r = false -> _lastError (snd r) = DGT_ERROR_TIMEOUT).
Proof.
  intros Hi Hs. cbv zeta.
  split; [apply waitForAck_fst; assumption|].
  unfold waitForAck. rewrite Hi. cbn [negb]. cbv zeta.
  apply waitForAck_loop_error.
Qed.

Lemma X14_witness :
  fst (waitForAck live_bus DGT_CMD_SET_CC
         (set_receivedAckCmd DGT_CMD_SET_CC
            (set_newAckReceived true started_link))) = true
  /\ fst (waitForAck live_bus DGT_CMD_CHANGE_STATE
            (set_receivedAckCmd DGT_CMD_CHANGE_STATE
               (set_newAckReceived true started_link))) = false
  /\ fst (waitForAck late_bus DGT_CMD_SET_CC started_link) = false.
Proof.
  split; [|split].
  - destruct (X14_waitForAck_outcome live_bus DGT_CMD_SET_CC
                (set_receivedAckCmd DGT_CMD_SET_CC
                   (set_newAckReceived true started_link)) eq_refl eq_refl)
      as (E & _).
    rewrite E. reflexivity.
  - destruct (X14_waitForAck_outcome live_bus DGT_CMD_CHANGE_STATE
                (set_receivedAckCmd DGT_CMD_CHANGE_STATE
                   (set_newAckReceived true started_link)) eq_refl eq_refl)
      as (E & _).
    rewrite E. reflexivity.
  - destruct (X14_waitForAck_outcome late_bus DGT_CMD_SET_CC started_link
                eq_refl eq_refl) as (E & _).
    rewrite E. reflexivity.
Defined.

(** ** Frames of the commands *)

Lemma with_crc_framed (F : list Z) (n : Z) (s : Link) :
  3 <= n <= 255 -> Z.of_nat (List.length F) = n ->
  crc_position (at_ F 1) n = n - 1 ->
  Forall is_byte (firstn (Z.to_nat (n - 1)) F) ->
  with_crc F n s = framed (firstn (Z.to_nat (n - 1)) F).
Proof.
  intros Hn Hl Hp HB. unfold with_crc, framed.
  rewrite calculateCRC_eq by lia. cbn [bytes fresh]. rewrite Hp.
  rewrite map_at_zrange by lia.
  rewrite put_split by lia. rewrite skipn_all2 by lia.
  f_equal. f_equal. unfold crc_seed. apply crc_seed_is_crc8; [lia|exact HB].
Qed.

Lemma to_bcd_model (v : Z) :
  0 <= v <= 59 ->
  uint8 (Z.lor (Z.shiftl (Z.quot v 10) 4) (Z.rem v 10)) = to_bcd v.
Proof.
  intros H.
  pose proof (forall_bytes
                (fun v => if v <=? 59
                          then uint8 (Z.lor (Z.shiftl (Z.quot v 10) 4)
                                        (Z.rem v 10)) =? to_bcd v
                          else true)
                ltac:(vm_compute; reflexivity) v ltac:(lia)) as E.
  cbv beta in E. destruct (Z.leb_spec v 59); [|lia].
  apply Z.eqb_eq. exact E.
Qed.

Lemma to_bcd_byte (v : Z) : 0 <= v <= 59 -> is_byte (to_bcd v).
Proof. intros H. unfold is_byte, to_bcd. lia_mod. Qed.

Lemma bcd_to_bcd (v : Z) : 0 <= v <= 59 -> Spec.bcd (to_bcd v) = v.
Proof. intros H. unfold Spec.bcd, to_bcd. lia_mod. Qed.

Lemma mode_byte (lm rm : Z) :
  0 <= lm <= 2 -> 0 <= rm <= 2 ->
  uint8 (Z.lor lm (Z.shiftl rm 2)) = lm + 4 * rm.
Proof.
  intros Hl Hr.
  assert (L : lm = 0 \/ lm = 1 \/ lm = 2) by lia.
  assert (R : rm = 0 \/ rm = 1 \/ rm = 2) by lia.
  destruct L as [-> | [-> | ->]]; destruct R as [-> | [-> | ->]]; reflexivity.
Qed.

Lemma validateTimeParameters_ok (lm lh lmin ls rm rh rmin rs : Z) :
  validateTimeParameters lm lh lmin ls rm rh rmin rs = true
  <-> time_parameters_ok lm lh lmin ls rm rh rmin rs.
Proof.
  unfold validateTimeParameters, time_parameters_ok.
  repeat match goal with
         | |- context [?a >? ?b] => destruct (Z.gtb_spec a b)
         end; cbn [orb]; split; intros HH; try discriminate; try lia;
    reflexivity.
Qed.

(** Property X15.  [setAndRun] refuses values outside the bounds (modes
    above 2, hours above 9, minutes or seconds above 59) with I2C_COMM
    and puts nothing on the bus.  For values within the bounds it sends
    to the clock, one to three times, the 11-byte frame
    [20 0c 0a lh lm ls rh rm rs modes crc] with the minutes and seconds
    in BCD, the modes packed as [left + 4 * right], and the CRC-8-ATM of
    the address byte and the ten bytes; decoding the BCD bytes gives the
    minutes and seconds back. *)
Theorem X15_setAndRun_frame (bus : Bus)
  (leftMode leftHours leftMinutes leftSeconds
   rightMode rightHours rightMinutes rightSeconds : Z) (s : Link) :
  _initialized s = true -> _i2cMaster s = true ->
  0 <= leftMode -> 0 <= leftHours -> 0 <= leftMinutes -> 0 <= leftSeconds ->
  0 <= rightMode -> 0 <= rightHours -> 0 <= rightMinutes ->
  0 <= rightSeconds ->
  let r := setAndRun bus leftMode leftHours leftMinutes leftSeconds
             rightMode rightHours rightMinutes rightSeconds s in
  let frame := framed (set_and_run_body leftMode leftHours leftMinutes
                         leftSeconds rightMode rightHours rightMinutes
                         rightSeconds) in
  (~ time_parameters_ok leftMode leftHours leftMinutes leftSeconds
       rightMode rightHours rightMinutes rightSeconds ->
   r = (false, set_lastError DGT_ERROR_I2C_COMM s))
  /\ (time_parameters_ok leftMode leftHours leftMinutes leftSeconds
        rightMode rightHours rightMinutes rightSeconds ->
      (exists k,
         sent_between s (snd r) (repeat (DGT3000_I2C_ADDRESS, frame) k)
         /\ (1 <= k <= 3)%nat /\ (fst r = false -> k = 3%nat))
      /\ crc_valid frame = true
      /\ Spec.bcd (at_ frame 4) = leftMinutes
      /\ Spec.bcd (at_ frame 5) = leftSeconds
      /\ Spec.bcd (at_ frame 7) = rightMinutes
      /\ Spec.bcd (at_ frame 8) = rightSeconds).
Proof.
  intros Hi Hm P1 P2 P3 P4 P5 P6 P7 P8 r frame.
  pose proof (validateTimeParameters_ok leftMode leftHours leftMinutes
                leftSeconds rightMode rightHours rightMinutes rightSeconds)
    as V.
  split.
  - intros Hn. unfold r, setAndRun. rewrite Hi. cbn [negb].
    destruct (validateTimeParameters _ _ _ _ _ _ _ _);
      [exfalso; apply Hn; apply V; reflexivity|reflexivity].
  - intros Hok. pose proof Hok as (B1 & B2 & B3 & B4 & B5 & B6 & B7 & B8).
    apply V in Hok.
    set (body := set_and_run_body leftMode leftHours leftMinutes leftSeconds
                   rightMode rightHours rightMinutes rightSeconds) in *.
    assert (HB : Forall is_byte body).
    { unfold body, set_and_run_body.
      repeat constructor; try (unfold is_byte; lia);
        try (apply to_bcd_byte; lia). }
    assert (E : r = sendDGTCommand bus (Some frame) 11 DGT3000_ESP_ADDR_00
                      DGT_CMD_SET_AND_RUN 0 DGT3000_I2C_ADDRESS true s).
    { unfold r, setAndRun. rewrite Hi, Hok. cbn [negb]. cbv zeta.
      rewrite !to_bcd_model by lia. rewrite mode_byte by lia.
      match goal with
      | |- context [calculateCRC (Some (fresh ?F)) 11 s] =>
        destruct (calculateCRC_cmd F 11 s ltac:(lia)) as (Eb & Es);
        pose proof (with_crc_framed F 11 s ltac:(lia) eq_refl eq_refl HB)
          as Ef;
        destruct (calculateCRC (Some (fresh F)) 11 s) as [[c b] s1];
        cbn [fst snd] in Eb, Es; subst s1; rewrite Eb, Ef
      end.
      reflexivity. }
    split; [|split].
    + rewrite E.
      pose proof (sendDGTCommand_sent bus (Some frame) 11
                    DGT3000_ESP_ADDR_00 DGT_CMD_SET_AND_RUN 0
                    DGT3000_I2C_ADDRESS true s) as (_ & H).
      cbv zeta in H.
      destruct (H frame Hi Hm eq_refl ltac:(lia)) as (k & Sk & K1 & K2).
      exists k. split; [|split; assumption].
      replace (firstn (Z.to_nat 11) frame) with frame in Sk; [exact Sk|].
      symmetry. apply firstn_all2. unfold frame, framed.
      rewrite length_app. cbn. lia.
    + unfold crc_valid, frame, framed. rewrite length_app.
      cbn [List.length body set_and_run_body Nat.add].
      change (Z.of_nat 11) with 11.
      rewrite verified_at_end; try reflexivity; try lia.
      unfold crc_seed. rewrite crc_seed_is_crc8 by (auto; lia).
      apply Z.eqb_refl.
    + unfold frame, framed, body, set_and_run_body.
      repeat split; apply bcd_to_bcd; lia.
Qed.

Lemma X15_witness :
  (exists k,
     sent_between started_link
       (snd (setAndRun live_bus 1 0 5 0 1 0 5 30 started_link))
       (repeat (DGT3000_I2C_ADDRESS,
                [0x20; 0x0c; 0x0a; 0; 0x05; 0; 0; 0x05; 0x30; 5; 0xE7]) k)
     /\ (1 <= k <= 3)%nat)
  /\ setAndRun live_bus 1 0 60 0 1 0 5 30 started_link
     = (false, set_lastError DGT_ERROR_I2C_COMM started_link).
Proof.
  split.
  - destruct (X15_setAndRun_frame live_bus 1 0 5 0 1 0 5 30 started_link
                eq_refl eq_refl ltac:(lia) ltac:(lia) ltac:(lia) ltac:(lia)
                ltac:(lia) ltac:(lia) ltac:(lia) ltac:(lia)) as (_ & H).
    destruct (H ltac:(unfold time_parameters_ok; lia))
      as ((k & Sk & K & _) & _).
    exists k. split; [exact Sk|exact K].
  - destruct (X15_setAndRun_frame live_bus 1 0 60 0 1 0 5 30 started_link
                eq_refl eq_refl ltac:(lia) ltac:(lia) ltac:(lia) ltac:(lia)
                ltac:(lia) ltac:(lia) ltac:(lia) ltac:(lia)) as (H & _).
    apply H. unfold time_parameters_ok. lia.
Defined.

Lemma displayText_cells_eq (t : list Z) :
  forall n i,
    displayText_cells n (Z.of_nat i) t
    = map uint8 (firstn n (skipn i t))
        ++ repeat 0x20 (n - (List.length t - i)).
Proof.
  induction n as [|n IH]; intros i; [reflexivity|].
  cbn [displayText_cells].
  replace (Z.of_nat i + 1) with (Z.of_nat (S i)) by lia. rewrite IH.
  destruct (Z.ltb_spec (Z.of_nat i) (Z.of_nat (List.length t))) as [L|L].
  - assert (Hs : skipn i t = at_ t (Z.of_nat i) :: skipn (S i) t).
    { unfold at_. rewrite Nat2Z.id.
      clear IH. revert i L. induction t as [|x t IHt]; intros i L;
        [cbn in L; lia|].
      destruct i as [|i]; [reflexivity|].
      cbn [skipn nth]. apply IHt. cbn [List.length] in L. lia. }
    rewrite Hs. cbn [firstn map app].
    replace (S n - (List.length t - i))%nat
      with (n - (List.length t - S i))%nat by lia.
    reflexivity.
  - rewrite !skipn_all2 by lia. rewrite !firstn_nil. cbn [map app].
    replace (S n - (List.length t - i))%nat
      with (S (n - (List.length t - S i)))%nat by lia.
    reflexivity.
Qed.

Lemma dots_mask (x : Z) :
  0 <= x < 256 ->
  (negb (Z.land x (Z.lnot 63) =? 0) = false <-> x < 64)
  /\ (negb (Z.land x (Z.lnot 31) =? 0) = false <-> x < 32).
Proof.
  intros Hx.
  pose proof (forall_bytes
                (fun x => Bool.eqb (Z.land x (Z.lnot 63) =? 0) (x <? 64)
                          && Bool.eqb (Z.land x (Z.lnot 31) =? 0) (x <? 32))
                ltac:(vm_compute; reflexivity) x Hx) as E.
  cbv beta in E. apply andb_true_iff in E. destruct E as [E1 E2].
  apply Bool.eqb_prop in E1, E2. rewrite E1, E2.
  destruct (Z.ltb_spec x 64); destruct (Z.ltb_spec x 32); cbn;
    split; split; intros; try lia; try reflexivity; discriminate.
Qed.

Lemma validateDisplayTextParameters_ok (t : list Z) (beep ld rd : Z) :
  is_byte ld -> is_byte rd ->
  validateDisplayTextParameters (Some t) beep ld rd = true
  <-> display_parameters_ok t beep ld rd.
Proof.
  intros Hl Hr. unfold validateDisplayTextParameters, display_parameters_ok.
  unfold DGT3000_DISPLAY_TEXT_MAX.
  change (Z.lor DGT_DOT_FLAG _) with 63 at 1.
  change (Z.lor DGT_DOT_FLAG _) with 31.
  pose proof (dots_mask ld Hl) as (D1 & _).
  pose proof (dots_mask rd Hr) as (_ & D2).
  destruct (Z.gtb_spec (Z.of_nat (List.length t)) 11);
    [split; [discriminate|lia]|].
  destruct (Z.gtb_spec beep 48); [split; [discriminate|lia]|].
  destruct (negb (Z.land ld _ =? 0));
    [split; [discriminate|intros (_ & _ & H1 & _)];
     apply D1 in H1; discriminate|].
  destruct (negb (Z.land rd _ =? 0));
    [split; [discriminate|intros (_ & _ & _ & H1)];
     apply D2 in H1; discriminate|].
  split; [intros _|reflexivity].
  split; [lia|]. split; [lia|]. split; [apply D1|apply D2]; reflexivity.
Qed.

(** Property X16.  [displayText] refuses a null text, a text of more than
    11 characters, a beep above 48 and dot masks with bits outside
    0x3F (left) or 0x1F (right) with I2C_COMM, and puts nothing on the
    bus.  Otherwise it first sends End Display, one to three times, and
    then, unless that failed, up to three times the 20-byte Display
    frame: [20 15 06], the text padded with spaces to 11 cells, [ff],
    the beep, [03], the two dot masks and the CRC-8-ATM of the address
    byte and these 19 bytes. *)
Theorem X16_displayText_frame (bus : Bus) (text : option (list Z))
  (beep leftDots rightDots : Z) (s : Link) :
  _initialized s = true -> _i2cMaster s = true ->
  is_byte beep -> is_byte leftDots -> is_byte rightDots ->
  let r := displayText bus text beep leftDots rightDots s in
  (text = None -> r = (false, set_lastError DGT_ERROR_I2C_COMM s))
  /\ (forall t,
        text = Some t -> ~ display_parameters_ok t beep leftDots rightDots ->
        r = (false, set_lastError DGT_ERROR_I2C_COMM s))
  /\ (forall t,
        text = Some t -> display_parameters_ok t beep leftDots rightDots ->
        let frame := framed (display_body t beep leftDots rightDots) in
        List.length frame = 20%nat /\ crc_valid frame = true
        /\ exists k1 k2,
             sent_between s (snd r)
               (repeat (DGT3000_I2C_ADDRESS, end_display_frame) k1
                ++ repeat (DGT3000_I2C_ADDRESS, frame) k2)
             /\ (1 <= k1 <= 3)%nat /\ (k2 <= 3)%nat
             /\ (fst r = true -> (1 <= k2)%nat)).
Proof.
  intros Hi Hm Hb Hl Hr r.
  split; [|split].
  - intros ->. unfold r, displayText. rewrite Hi. reflexivity.
  - intros t -> Hn. unfold r, displayText. rewrite Hi. cbn [negb].
    pose proof (validateDisplayTextParameters_ok t beep leftDots rightDots
                  Hl Hr) as V.
    destruct (validateDisplayTextParameters _ _ _ _);
      [exfalso; apply Hn; apply V; reflexivity|reflexivity].
  - intros t -> Hok frame.
    pose proof Hok as (T1 & T2 & T3 & T4).
    apply (validateDisplayTextParameters_ok t beep leftDots rightDots Hl Hr)
      in Hok.
    set (body := display_body t beep leftDots rightDots) in *.
    assert (Hlen : List.length body = 19%nat).
    { unfold body, display_body. cbn [app List.length].
      rewrite length_app, length_map, length_app, repeat_length.
      cbn [List.length]. lia. }
    assert (HB : Forall is_byte body).
    { unfold body, display_body. apply Forall_app. split.
      - repeat constructor; unfold is_byte; lia.
      - apply Forall_app. split.
        + apply Forall_forall. intros x Hx. apply in_map_iff in Hx.
          destruct Hx as (y & <- & _). unfold is_byte, uint8. lia_mod.
        + apply Forall_app. split.
          * apply Forall_forall. intros x Hx. apply repeat_spec in Hx.
            subst x. unfold is_byte. lia.
          * unfold is_byte in *.
            repeat (apply Forall_cons; [lia|]). apply Forall_nil. }
    assert (Hfl : List.length frame = 20%nat).
    { unfold frame, framed. rewrite length_app, Hlen. reflexivity. }
    assert (Hb1 : at_ body 1 = 0x15) by reflexivity.
    assert (Hv : crc_valid frame = true).
    { unfold crc_valid. rewrite Hfl. unfold frame, framed.
      change (Z.of_nat 20) with 20.
      rewrite verified_at_end; try lia.
      - unfold crc_seed. rewrite crc_seed_is_crc8 by (auto; lia).
        apply Z.eqb_refl.
      - rewrite Hb1. reflexivity. }
    split; [exact Hfl|]. split; [exact Hv|].
    unfold r, displayText. rewrite Hi, Hok. cbn [negb].
    assert (E1 : endDisplay bus s
                 = sendDGTCommand bus (Some end_display_frame) 4
                     DGT3000_ESP_ADDR_00 DGT_CMD_END_DISPLAY 0
                     DGT3000_I2C_ADDRESS true s)
      by (unfold endDisplay; rewrite Hi; reflexivity).
    pose proof (sendDGTCommand_sent bus (Some end_display_frame) 4
                  DGT3000_ESP_ADDR_00 DGT_CMD_END_DISPLAY 0
                  DGT3000_I2C_ADDRESS true s) as (_ & H1).
    cbv zeta in H1. rewrite <- E1 in H1.
    destruct (H1 end_display_frame Hi Hm eq_refl ltac:(lia))
      as (k1 & S1 & K1 & _).
    change (firstn (Z.to_nat 4) end_display_frame) with end_display_frame
      in S1.
    pose proof (settled_sendDGTCommand bus (Some end_display_frame) 4
                  DGT3000_ESP_ADDR_00 DGT_CMD_END_DISPLAY 0
                  DGT3000_I2C_ADDRESS true s) as (Q1 & _).
    rewrite <- E1 in Q1.
    destruct (endDisplay bus s) as [cleared s1]. cbn [snd] in S1, Q1.
    destruct Q1 as (Qi & Qm & _). rewrite Hi in Qi. rewrite Hm in Qm.
    destruct cleared; cbn [negb fst snd].
    2:{ exists k1, 0%nat. cbn [repeat]. rewrite app_nil_r.
        split; [exact S1|]. split; [exact K1|]. split; [lia|discriminate]. }
    cbv zeta.
    assert (Ecells : displayText_cells 11 0 t
                     = map uint8 t ++ repeat 0x20 (11 - List.length t)).
    { change 0 with (Z.of_nat 0). rewrite displayText_cells_eq.
      cbn [skipn]. rewrite firstn_all2 by lia.
      rewrite Nat.sub_0_r. reflexivity. }
    rewrite Ecells.
    match goal with
    | |- context [calculateCRC (Some (fresh ?F)) 20 s1] =>
      assert (EF : F = body ++ [0]);
        [unfold body, display_body; rewrite <- !app_assoc; reflexivity|];
      rewrite EF
    end.
    destruct (calculateCRC_cmd (body ++ [0]) 20 s1 ltac:(lia)) as (Eb & Es).
    assert (Ef : with_crc (body ++ [0]) 20 s1 = frame).
    { rewrite with_crc_framed; try lia.
      - unfold frame. f_equal. change (Z.to_nat (20 - 1)) with 19%nat.
        rewrite firstn_app, firstn_all2 by lia.
        rewrite Hlen, Nat.sub_diag. cbn [firstn]. apply app_nil_r.
      - rewrite length_app, Hlen. reflexivity.
      - rewrite at_app_l by lia. rewrite Hb1. reflexivity.
      - change (Z.to_nat (20 - 1)) with 19%nat.
        rewrite firstn_app, firstn_all2 by lia.
        rewrite Hlen, Nat.sub_diag. cbn [firstn]. rewrite app_nil_r.
        exact HB. }
    destruct (calculateCRC (Some (fresh (body ++ [0]))) 20 s1)
      as [[c b] s2].
    cbn [fst snd] in Eb, Es. subst s2. rewrite Eb, Ef.
    pose proof (sendDGTCommand_sent bus (Some frame) 20
                  DGT3000_ESP_ADDR_00 DGT_CMD_DISPLAY 1
                  DGT3000_I2C_ADDRESS true s1) as (_ & H2).
    cbv zeta in H2.
    destruct (H2 frame Qi Qm eq_refl ltac:(lia)) as (k2 & S2 & K2 & _).
    replace (firstn (Z.to_nat 20) frame) with frame in S2
      by (symmetry; apply firstn_all2; rewrite Hfl; lia).
    exists k1, k2. split; [eapply sent_between_trans; eassumption|].
    split; [exact K1|]. split; lia.
Qed.

Lemma X16_witness :
  displayText live_bus (Some (repeat 0x41 12)) 0 0 0 started_link
  = (false, set_lastError DGT_ERROR_I2C_COMM started_link)
  /\ crc_valid (framed (display_body [0x48; 0x49] 1 0 0)) = true.
Proof.
  destruct (X16_displayText_frame live_bus (Some (repeat 0x41 12)) 0 0 0
              started_link eq_refl eq_refl
              ltac:(unfold is_byte; lia) ltac:(unfold is_byte; lia)
              ltac:(unfold is_byte; lia)) as (_ & H & _).
  destruct (X16_displayText_frame live_bus (Some [0x48; 0x49]) 1 0 0
              started_link eq_refl eq_refl
              ltac:(unfold is_byte; lia) ltac:(unfold is_byte; lia)
              ltac:(unfold is_byte; lia)) as (_ & _ & G).
  split.
  - apply (H (repeat 0x41 12) eq_refl).
    unfold display_parameters_ok. cbn. lia.
  - destruct (G [0x48; 0x49] eq_refl
                ltac:(unfold display_parameters_ok; cbn; lia))
      as (_ & Hv & _).
    exact Hv.
Defined.

(** ** The queues *)

Lemma updateQueueStats_lists (a b c : bool) (q : QueueManager.Queues) :
  lists_of (QueueManager.updateQueueStats a b c q) = lists_of q
  /\ QueueManager.ready (QueueManager.updateQueueStats a b c q)
     = QueueManager.ready q.
Proof.
  unfold lists_of.
  unfold QueueManager.updateQueueStats, QueueManager.updateStatistics.
  cbv zeta. cbn [QueueManager.ready QueueManager.set_stats].
  destruct (negb (QueueManager.ready q)); [cbn; tauto|].
  match goal with
  | |- context [if ?c then _ else _] => destruct c
  end; cbn; tauto.
Qed.

Lemma flushRaw_loop (l : list RawBLECommand) :
  forall q n, QueueManager.ready q = true ->
    QueueManager.rawCommandQueue q = l -> (List.length l < n)%nat ->
    QueueManager.flushRawCommandQueue_loop n q
    = QueueManager.set_rawCommandQueue [] q.
Proof.
  induction l as [|x l IH]; intros q n Hr Hl Hn;
    (destruct n as [|n]; [cbn in Hn; lia|]);
    cbn [QueueManager.flushRawCommandQueue_loop];
    unfold QueueManager.receiveRawCommand; rewrite Hr, Hl; cbn [negb].
  - destruct q. cbn in *. subst. reflexivity.
  - cbn [fst snd]. rewrite (IH _ n).
    + destruct q; reflexivity.
    + destruct q; exact Hr.
    + destruct q; reflexivity.
    + cbn in Hn; lia.
Qed.

Lemma flushResponse_loop (l : list CommandResponse) :
  forall q n, QueueManager.ready q = true ->
    QueueManager.responseQueue q = l -> (List.length l < n)%nat ->
    QueueManager.flushResponseQueue_loop n q
    = QueueManager.set_responseQueue [] q.
Proof.
  induction l as [|x l IH]; intros q n Hr Hl Hn;
    (destruct n as [|n]; [cbn in Hn; lia|]);
    cbn [QueueManager.flushResponseQueue_loop];
    unfold QueueManager.receiveResponse; rewrite Hr, Hl; cbn [negb].
  - destruct q. cbn in *. subst. reflexivity.
  - cbn [fst snd]. rewrite (IH _ n).
    + destruct q; reflexivity.
    + destruct q; exact Hr.
    + destruct q; reflexivity.
    + cbn in Hn; lia.
Qed.

Lemma flushEvent_loop (l : list DGTEvent) :
  forall q n, QueueManager.ready q = true ->
    QueueManager.eventQueue q = l -> (List.length l < n)%nat ->
    lists_of (QueueManager.flushEventQueue_loop n q)
    = (QueueManager.rawCommandQueue q, [], QueueManager.responseQueue q)
    /\ QueueManager.ready (QueueManager.flushEventQueue_loop n q) = true.
Proof.
  induction l as [|x l IH]; intros q n Hr Hl Hn;
    (destruct n as [|n]; [cbn in Hn; lia|]);
    cbn [QueueManager.flushEventQueue_loop];
    unfold QueueManager.receiveEvent; rewrite Hr, Hl; cbn [negb].
  - destruct (updateQueueStats_lists false false false q) as (E & R).
    rewrite E, R. unfold lists_of. rewrite Hl. auto.
  - destruct (updateQueueStats_lists false true false
                (QueueManager.set_eventQueue l q)) as (E & R).
    destruct (IH (QueueManager.updateQueueStats false true false
                    (QueueManager.set_eventQueue l q)) n) as (E1 & R1).
    + rewrite R. exact Hr.
    + unfold lists_of in E. injection E as _ E _. exact E.
    + cbn in Hn. lia.
    + rewrite E1, R1. unfold lists_of in E. injection E as Ea _ Ec.
      rewrite Ea, Ec. auto.
Qed.

Lemma queue_step_lists (q : QueueManager.Queues) (op : queue_op) :
  QueueManager.ready q = true ->
  lists_of (queue_step q op) = lists_step (lists_of q) op
  /\ QueueManager.ready (queue_step q op) = true.
Proof.
  intros Hr. unfold lists_of at 2. destruct op; cbn [queue_step lists_step].
  - unfold QueueManager.sendRawCommand. rewrite Hr. cbn [negb].
    unfold QUEUE_COMMAND_SIZE.
    destruct (Z.ltb_spec (Z.of_nat (List.length (QueueManager.rawCommandQueue q))) 10);
      destruct (Nat.ltb_spec (List.length (QueueManager.rawCommandQueue q)) 10);
      try lia; auto.
  - unfold QueueManager.receiveRawCommand. rewrite Hr. cbn [negb].
    destruct (QueueManager.rawCommandQueue q) eqn:E; cbn; unfold lists_of;
      rewrite ?E; auto.
  - unfold QueueManager.sendEvent. rewrite Hr. cbn [negb].
    unfold QUEUE_EVENT_SIZE.
    destruct (Z.ltb_spec (Z.of_nat (List.length (QueueManager.eventQueue q))) 20);
      destruct (Nat.ltb_spec (List.length (QueueManager.eventQueue q)) 20);
      try lia; cbn [snd];
      match goal with
      | |- context [QueueManager.updateQueueStats ?a ?b ?c ?x] =>
        destruct (updateQueueStats_lists a b c x) as (E & R); rewrite E, R
      end; auto.
  - unfold QueueManager.sendPriorityEvent. rewrite Hr. cbn [negb].
    unfold QUEUE_EVENT_SIZE.
    destruct (Z.ltb_spec (Z.of_nat (List.length (QueueManager.eventQueue q))) 20);
      destruct (Nat.ltb_spec (List.length (QueueManager.eventQueue q)) 20);
      try lia; cbn [snd];
      match goal with
      | |- context [QueueManager.updateQueueStats ?a ?b ?c ?x] =>
        destruct (updateQueueStats_lists a b c x) as (E & R); rewrite E, R
      end; auto.
  - unfold QueueManager.receiveEvent. rewrite Hr. cbn [negb].
    destruct (QueueManager.eventQueue q) eqn:E0; cbn [snd tl];
      match goal with
      | |- context [QueueManager.updateQueueStats ?a ?b ?c ?x] =>
        destruct (updateQueueStats_lists a b c x) as (E & R); rewrite E, R
      end; unfold lists_of; cbn; rewrite ?E0; auto.
  - unfold QueueManager.sendResponse. rewrite Hr. cbn [negb].
    unfold QUEUE_COMMAND_SIZE.
    destruct (Z.ltb_spec (Z.of_nat (List.length (QueueManager.responseQueue q))) 10);
      destruct (Nat.ltb_spec (List.length (QueueManager.responseQueue q)) 10);
      try lia; auto.
  - unfold QueueManager.receiveResponse. rewrite Hr. cbn [negb].
    destruct (QueueManager.responseQueue q) eqn:E; cbn; unfold lists_of;
      rewrite ?E; auto.
  - unfold QueueManager.flushRawCommandQueue. rewrite Hr. cbn [negb].
    rewrite (flushRaw_loop (QueueManager.rawCommandQueue q)); auto.
  - unfold QueueManager.flushEventQueue. rewrite Hr. cbn [negb].
    apply (flushEvent_loop (QueueManager.eventQueue q)); auto.
  - unfold QueueManager.flushResponseQueue. rewrite Hr. cbn [negb].
    rewrite (flushResponse_loop (QueueManager.responseQueue q)); auto.
Qed.

Lemma within_capacity_step (q : QueueManager.Queues) (op : queue_op) :
  QueueManager.ready q = true -> within_capacity q ->
  within_capacity (queue_step q op).
Proof.
  intros Hr Hc. destruct (queue_step_lists q op Hr) as (E & _).
  pose (wl := fun l : list RawBLECommand * list DGTEvent
                      * list CommandResponse =>
                (List.length (fst (fst l)) <= 10)%nat
                /\ (List.length (snd (fst l)) <= 20)%nat
                /\ (List.length (snd l) <= 10)%nat).
  change (wl (lists_of (queue_step q op))).
  change (wl (lists_of q)) in Hc. rewrite E.
  destruct (lists_of q) as [[a b] c]. unfold wl in *. cbn [fst snd] in Hc.
  destruct Hc as (H1 & H2 & H3).
  assert (T : forall A (l : list A), (List.length (tl l) <= List.length l)%nat)
    by (intros A l; destruct l; cbn; lia).
  pose proof (T _ a). pose proof (T _ b). pose proof (T _ c).
  destruct op; cbn [lists_step fst snd];
    repeat match goal with
           | |- context [(?a <? ?b)%nat] => destruct (Nat.ltb_spec a b)
           end;
    rewrite ?length_app; cbn [List.length]; lia.
Qed.

(** Property X17.  The three queues are first-in first-out lists bounded by
    their capacities (10 raw commands, 20 events, 10 responses): under
    every sequence of sends, receives and flushes of an initialised
    queue manager, a send puts its item last, a priority event goes to
    the head, a send to a full queue is dropped and changes no queue, a
    receive takes the head, a flush empties its queue, and no queue
    ever holds more than its capacity. *)
Theorem X17_queues_are_bounded_fifos (ops : list queue_op)
  (q : QueueManager.Queues) :
  QueueManager.ready q = true -> within_capacity q ->
  lists_of (fold_left queue_step ops q)
  = fold_left lists_step ops (lists_of q)
  /\ within_capacity (fold_left queue_step ops q).
Proof.
  revert q. induction ops as [|op ops IH]; intros q Hr Hc; [auto|].
  cbn [fold_left].
  destruct (queue_step_lists q op Hr) as (E & R).
  rewrite <- E. apply IH; [exact R|].
  apply within_capacity_step; assumption.
Qed.

Lemma X17_witness :
  QueueManager.eventQueue
    (fold_left queue_step
       [SendEvt (new_DGTEvent BUTTON_EVENT 1);
        SendPriority (new_DGTEvent BUTTON_EVENT 2); ReceiveEvt;
        SendEvt (new_DGTEvent BUTTON_EVENT 3); FlushResponses]
       Sample.empty_queues)
  = [new_DGTEvent BUTTON_EVENT 1; new_DGTEvent BUTTON_EVENT 3].
Proof.
  pose proof (X17_queues_are_bounded_fifos
                [SendEvt (new_DGTEvent BUTTON_EVENT 1);
                 SendPriority (new_DGTEvent BUTTON_EVENT 2); ReceiveEvt;
                 SendEvt (new_DGTEvent BUTTON_EVENT 3); FlushResponses]
                Sample.empty_queues eq_refl
                ltac:(vm_compute; repeat split; lia)) as (E & _).
  apply (f_equal (fun l => snd (fst l))) in E. exact E.
Defined.

Lemma balanced_stats (q : QueueManager.Queues) (st : QueueStats) :
  QueueManager.ready q = true ->
  (eventsQueued st - queueOverflows st - eventsProcessed st
   - Z.of_nat (List.length (QueueManager.eventQueue q))) mod 4294967296 = 0 ->
  balanced (QueueManager.updateStatistics (QueueManager.set_stats st q)).
Proof.
  intros Hr Hm.
  unfold QueueManager.updateStatistics, QueueManager.getEventQueueDepth.
  cbn [QueueManager.ready QueueManager.set_stats QueueManager.eventQueue
       QueueManager._stats].
  rewrite Hr. cbn [negb].
  destruct (Z.gtb_spec (Z.of_nat (List.length (QueueManager.eventQueue q)))
              (maxEventQueueDepth st)) as [G|G];
    unfold balanced; cbn; split; try assumption; lia.
Qed.

Lemma mod_minus_l (a b m : Z) : (a mod m - b) mod m = (a - b) mod m.
Proof. apply Zminus_mod_idemp_l. Qed.

Lemma balanced_send (q : QueueManager.Queues) (events : list DGTEvent) :
  QueueManager.ready q = true -> balanced q ->
  List.length events = S (List.length (QueueManager.eventQueue q)) ->
  balanced (QueueManager.updateQueueStats true true false
              (QueueManager.set_eventQueue events q)).
Proof.
  intros Hr (Hm & Hd) Hl. unfold QueueManager.updateQueueStats. cbv zeta.
  cbn [negb]. apply balanced_stats; cbn; auto.
  rewrite Hl. unfold uint32.
  set (a := eventsQueued (QueueManager._stats q)) in *.
  set (b := queueOverflows (QueueManager._stats q)) in *.
  set (c := eventsProcessed (QueueManager._stats q)) in *.
  rewrite Nat2Z.inj_succ.
  set (d := Z.of_nat (List.length (QueueManager.eventQueue q))) in *.
  replace ((a + 1) mod 4294967296 - b - c - Z.succ d)
    with ((a + 1) mod 4294967296 - (b + c + Z.succ d)) by lia.
  rewrite mod_minus_l. rewrite <- Hm. f_equal. lia.
Qed.

Lemma balanced_refused (q : QueueManager.Queues) :
  QueueManager.ready q = true -> balanced q ->
  balanced (QueueManager.updateQueueStats true false false q).
Proof.
  intros Hr (Hm & Hd). unfold QueueManager.updateQueueStats. cbv zeta.
  cbn [negb].
  replace (QueueManager.set_stats _ q)
    with (QueueManager.set_stats
            (mkQueueStats
               (uint32 (eventsQueued (QueueManager._stats q) + 1))
               (eventsProcessed (QueueManager._stats q))
               (uint32 (queueOverflows (QueueManager._stats q) + 1))
               (queueTimeouts (QueueManager._stats q))
               (maxEventQueueDepth (QueueManager._stats q))) q)
    by reflexivity.
  apply balanced_stats; cbn; auto.
  unfold uint32.
  set (a := eventsQueued (QueueManager._stats q)) in *.
  set (b := queueOverflows (QueueManager._stats q)) in *.
  set (c := eventsProcessed (QueueManager._stats q)) in *.
  set (d := Z.of_nat (List.length (QueueManager.eventQueue q))) in *.
  replace ((a + 1) mod 4294967296 - (b + 1) mod 4294967296 - c - d)
    with ((a + 1) mod 4294967296 - ((b + 1) mod 4294967296 + c + d)) by lia.
  rewrite mod_minus_l.
  replace (a + 1 - ((b + 1) mod 4294967296 + c + d))
    with ((a + 1 - c - d) - (b + 1) mod 4294967296) by lia.
  rewrite Zminus_mod_idemp_r. rewrite <- Hm. f_equal. lia.
Qed.

Lemma balanced_taken (q : QueueManager.Queues) (e : DGTEvent)
  (rest : list DGTEvent) :
  QueueManager.ready q = true -> balanced q ->
  QueueManager.eventQueue q = e :: rest ->
  balanced (QueueManager.updateQueueStats false true false
              (QueueManager.set_eventQueue rest q)).
Proof.
  intros Hr (Hm & Hd) He. unfold QueueManager.updateQueueStats. cbv zeta.
  cbn [negb andb]. rewrite He in Hm, Hd. cbn [List.length] in Hm, Hd.
  apply balanced_stats; cbn; auto.
  unfold uint32.
  set (a := eventsQueued (QueueManager._stats q)) in *.
  set (b := queueOverflows (QueueManager._stats q)) in *.
  set (c := eventsProcessed (QueueManager._stats q)) in *.
  set (d := Z.of_nat (List.length rest)) in *.
  replace (a - b - (c + 1) mod 4294967296 - d)
    with ((a - b - d) - (c + 1) mod 4294967296) by lia.
  rewrite Zminus_mod_idemp_r. rewrite <- Hm. f_equal. lia.
Qed.

Lemma balanced_timed_out (q : QueueManager.Queues) :
  QueueManager.ready q = true -> balanced q ->
  balanced (QueueManager.updateQueueStats false false false q).
Proof.
  intros Hr (Hm & Hd). unfold QueueManager.updateQueueStats. cbv zeta.
  cbn [negb andb]. apply balanced_stats; cbn; auto.
Qed.

Lemma balanced_receiveEvent (q : QueueManager.Queues) :
  QueueManager.ready q = true -> balanced q ->
  balanced (snd (QueueManager.receiveEvent q)).
Proof.
  intros Hr Hb. unfold QueueManager.receiveEvent. rewrite Hr. cbn [negb].
  destruct (QueueManager.eventQueue q) as [|e rest] eqn:E; cbn [snd].
  - apply balanced_timed_out; assumption.
  - apply (balanced_taken q e rest); assumption.
Qed.

Lemma balanced_flushEvent_loop (n : nat) :
  forall q, QueueManager.ready q = true -> balanced q ->
            balanced (QueueManager.flushEventQueue_loop n q).
Proof.
  induction n as [|n IH]; intros q Hr Hb; [exact Hb|].
  cbn [QueueManager.flushEventQueue_loop].
  pose proof (balanced_receiveEvent q Hr Hb) as B.
  assert (R : QueueManager.ready (snd (QueueManager.receiveEvent q)) = true).
  { unfold QueueManager.receiveEvent. rewrite Hr. cbn [negb].
    destruct (QueueManager.eventQueue q); cbn [snd];
      match goal with
      | |- context [QueueManager.updateQueueStats ?a ?b ?c ?x] =>
        destruct (updateQueueStats_lists a b c x) as (_ & R); rewrite R
      end; exact Hr. }
  destruct (QueueManager.receiveEvent q) as [[e|] q1]; cbn [snd] in *.
  - apply IH; assumption.
  - exact B.
Qed.

Lemma balanced_step (q : QueueManager.Queues) (op : queue_op) :
  QueueManager.ready q = true -> balanced q -> balanced (queue_step q op).
Proof.
  intros Hr Hb. destruct op; cbn [queue_step].
  - unfold QueueManager.sendRawCommand. rewrite Hr. cbn [negb].
    destruct (_ <? _); exact Hb.
  - unfold QueueManager.receiveRawCommand. rewrite Hr. cbn [negb].
    destruct (QueueManager.rawCommandQueue q); exact Hb.
  - unfold QueueManager.sendEvent. rewrite Hr. cbn [negb].
    destruct (_ <? _); cbn [snd].
    + apply balanced_send; [exact Hr|exact Hb|].
      rewrite length_app. cbn. lia.
    + apply balanced_refused; assumption.
  - unfold QueueManager.sendPriorityEvent. rewrite Hr. cbn [negb].
    destruct (_ <? _); cbn [snd].
    + apply balanced_send; [exact Hr|exact Hb|reflexivity].
    + apply balanced_refused; assumption.
  - apply balanced_receiveEvent; assumption.
  - unfold QueueManager.sendResponse. rewrite Hr. cbn [negb].
    destruct (_ <? _); exact Hb.
  - unfold QueueManager.receiveResponse. rewrite Hr. cbn [negb].
    destruct (QueueManager.responseQueue q); exact Hb.
  - unfold QueueManager.flushRawCommandQueue. rewrite Hr. cbn [negb].
    rewrite (flushRaw_loop (QueueManager.rawCommandQueue q)); auto.
  - unfold QueueManager.flushEventQueue. rewrite Hr. cbn [negb].
    apply balanced_flushEvent_loop; assumption.
  - unfold QueueManager.flushResponseQueue. rewrite Hr. cbn [negb].
    rewrite (flushResponse_loop (QueueManager.responseQueue q)); auto.
Qed.

(** Property X18.  The event counters of an initialised queue manager
    account for every event: under every sequence of sends, receives
    and flushes, the events queued (every attempt counts, also a
    refused one) are those refused for overflow, those taken out and
    those still waiting, modulo 2^32, and the recorded maximum depth is
    never below the present depth of the event queue.  Raw commands and
    responses do not enter the counters. *)
Theorem X18_event_statistics_balance (ops : list queue_op)
  (q : QueueManager.Queues) :
  QueueManager.ready q = true -> balanced q ->
  balanced (fold_left queue_step ops q).
Proof.
  revert q. induction ops as [|op ops IH]; intros q Hr Hb; [exact Hb|].
  cbn [fold_left]. apply IH.
  - apply (queue_step_lists q op Hr).
  - apply balanced_step; assumption.
Qed.

Lemma X18_witness :
  let q := fold_left queue_step
             (repeat (SendEvt (new_DGTEvent BUTTON_EVENT 1)) 21
              ++ [ReceiveEvt; ReceiveEvt])
             Sample.empty_queues in
  QueueManager._stats q = mkQueueStats 21 2 1 0 20 /\ balanced q.
Proof.
  cbv zeta. split; [vm_compute; reflexivity|].
  apply X18_event_statistics_balance; [reflexivity|].
  vm_compute. split; [reflexivity|discriminate].
Defined.

(** ** Events of the clock task *)

Lemma generateButtonEvent_loop_delivers (now : Z) (contents : list Z) :
  forall fuel q link t,
    (List.length contents < fuel)%nat ->
    QueueManager.ready q = true ->
    _initialized link = true -> ring_holds link contents ->
    let r := generateButtonEvent_loop fuel now q link t in
    QueueManager.eventQueue (fst (fst r))
    = rev (map (press_event now)
             (firstn (20 - List.length (QueueManager.eventQueue q)) contents))
        ++ QueueManager.eventQueue q
    /\ QueueManager.ready (fst (fst r)) = true
    /\ QueueManager.responseQueue (fst (fst r)) = QueueManager.responseQueue q
    /\ QueueManager.rawCommandQueue (fst (fst r))
       = QueueManager.rawCommandQueue q
    /\ ring_holds (snd (fst r)) []
    /\ time (_rxData (snd (fst r))) = time (_rxData link)
    /\ _newTimeAvailable (snd (fst r)) = _newTimeAvailable link
    /\ wire (snd (fst r)) = wire link.
Proof.
  induction contents as [|x rest IH]; intros fuel q link t Hf Hr Hi Hh;
    (destruct fuel as [|fuel]; [cbn in Hf; lia|]); cbn zeta;
    cbn [generateButtonEvent_loop].
  - rewrite (ring_pop_empty link 0 Hi Hh). cbn [negb fst snd].
    rewrite firstn_nil. cbn [map rev app].
    split; [reflexivity|]. split; [exact Hr|].
    split; [reflexivity|]. split; [reflexivity|].
    split; [exact Hh|]. auto.
  - destruct (ring_pop link x rest 0 Hi Hh) as (link1 & E & Hi1 & Hh1).
    rewrite E. cbn [negb]. cbv zeta.
    assert (F : time (_rxData link1) = time (_rxData link)
                /\ _newTimeAvailable link1 = _newTimeAvailable link
                /\ wire link1 = wire link).
    { replace link1 with (snd (getButtonEvent (Some 0) link))
        by (rewrite E; reflexivity).
      unfold getButtonEvent. rewrite Hi. cbn [negb].
      destruct (_ =? _); cbn; auto. }
    destruct F as (F1 & F2 & F3).
    change (mkDGTEvent BUTTON_EVENT 0 now _) with (press_event now x).
    unfold QueueManager.sendPriorityEvent. rewrite Hr. cbn [negb].
    unfold QUEUE_EVENT_SIZE.
    destruct (Z.ltb_spec (Z.of_nat (List.length (QueueManager.eventQueue q))) 20)
      as [L|L].
    + destruct (updateQueueStats_queues true true false
                  (QueueManager.set_eventQueue
                     (press_event now x :: QueueManager.eventQueue q) q))
        as (Q1 & Q2 & Q3 & Q4).
      remember (QueueManager.updateQueueStats true true false
                  (QueueManager.set_eventQueue
                     (press_event now x :: QueueManager.eventQueue q) q))
        as q1 eqn:Eq1.
      clear Eq1.
      cbn [QueueManager.eventQueue QueueManager.responseQueue
           QueueManager.rawCommandQueue QueueManager.ready
           QueueManager.set_eventQueue] in Q1, Q2, Q3, Q4.
      assert (Hr1 : QueueManager.ready q1 = true) by congruence.
      match goal with
      | |- context [generateButtonEvent_loop fuel now q1 link1 ?t1] =>
        specialize (IH fuel q1 link1 t1 ltac:(cbn in Hf; lia) Hr1 Hi1 Hh1)
      end.
      cbv zeta in IH.
      destruct IH as (I1 & I2 & I3 & I4 & I5 & I6 & I7 & I8).
      rewrite I1, Q1. cbn [List.length].
      replace (20 - List.length (QueueManager.eventQueue q))%nat
        with (S (20 - S (List.length (QueueManager.eventQueue q))))%nat by lia.
      cbn [firstn map rev]. rewrite <- app_assoc. cbn [app].
      split; [reflexivity|]. split; [exact I2|].
      split; [congruence|]. split; [congruence|]. split; [exact I5|].
      split; [congruence|]. split; congruence.
    + destruct (updateQueueStats_queues true false false q)
        as (Q1 & Q2 & Q3 & Q4).
      remember (QueueManager.updateQueueStats true false false q)
        as q1 eqn:Eq1.
      clear Eq1.
      assert (Hr1 : QueueManager.ready q1 = true) by congruence.
      specialize (IH fuel q1 link1 t ltac:(cbn in Hf; lia) Hr1 Hi1 Hh1).
      cbv zeta in IH.
      destruct IH as (I1 & I2 & I3 & I4 & I5 & I6 & I7 & I8).
      rewrite I1, Q1.
      replace (20 - List.length (QueueManager.eventQueue q))%nat
        with 0%nat by lia.
      cbn [firstn map rev app].
      split; [reflexivity|]. split; [exact I2|].
      split; [congruence|]. split; [congruence|]. split; [exact I5|].
      split; [congruence|]. split; congruence.
Qed.

(** Property X19.  [generateButtonEvent] empties the button ring of the
    link and puts one event per button at the head of the event queue:
    the events come out newest first, before everything that was
    queued, and while the queue is full the buttons are taken from the
    ring and lost.  Nothing else of the link changes that the task
    reads later in the same turn (stored time, new-time flag), and
    nothing is put on the bus. *)
Theorem X19_generateButtonEvent_delivers (now : Z) (t : Task)
  (q : QueueManager.Queues) (link : Link) (contents : list Z) :
  _queueManager t = Some q -> QueueManager.ready q = true ->
  _dgt3000 t = Some link -> _initialized link = true ->
  ring_holds link contents ->
  let t' := generateButtonEvent now t in
  events_of t'
  = rev (map (press_event now)
           (firstn (20 - List.length (QueueManager.eventQueue q)) contents))
      ++ QueueManager.eventQueue q
  /\ responses_of t' = QueueManager.responseQueue q
  /\ (exists link',
        _dgt3000 t' = Some link' /\ ring_holds link' []
        /\ time (_rxData link') = time (_rxData link)
        /\ _newTimeAvailable link' = _newTimeAvailable link
        /\ wire link' = wire link).
Proof.
  intros Hq Hr Hl Hi Hh. cbv zeta. unfold generateButtonEvent.
  rewrite Hq, Hl.
  assert (Hlen : (List.length contents < 16)%nat)
    by (destruct Hh as (_ & _ & H & _); lia).
  pose proof (generateButtonEvent_loop_delivers now contents 16 q link t
                Hlen Hr Hi Hh) as H.
  cbv zeta in H.
  destruct (generateButtonEvent_loop 16 now q link t) as [[q' link'] t1].
  cbn [fst snd] in H.
  destruct H as (H1 & H2 & H3 & H4 & H5 & H6 & H7 & H8).
  unfold events_of, responses_of. cbn.
  split; [exact H1|]. split; [exact H3|].
  exists link'. auto.
Qed.

Lemma X19_witness :
  events_of (generateButtonEvent 9
               (set_dgt3000 (Some pressed_thrice)
                  (new_I2CTaskManager (Some empty_queues) None)))
  = [press_event 9 3; press_event 9 2; press_event 9 1].
Proof.
  destruct (X19_generateButtonEvent_delivers 9
              (set_dgt3000 (Some pressed_thrice)
                 (new_I2CTaskManager (Some empty_queues) None))
              empty_queues pressed_thrice [1; 2; 3]
              eq_refl eq_refl eq_refl eq_refl) as (E & _).
  - unfold ring_holds. cbn. repeat split; try lia.
    intros j Hj. destruct j as [|[|[|j]]]; try reflexivity. lia.
  - exact E.
Defined.

(** ** Commands of the clock task *)

Section Answers.

Variable bus : Bus.
Variable deserializeJson : string -> CommandDoc.
Variable updateActivity : SystemStatus -> SystemStatus.

Lemma same_commands_refl (t : Task) : same_commands t t.
Proof. unfold same_commands. auto. Qed.

Lemma same_commands_trans (a b c : Task) :
  same_commands a b -> same_commands b c -> same_commands a c.
Proof.
  unfold same_commands. intros (A1 & A2 & A3 & A4) (B1 & B2 & B3 & B4).
  repeat split; congruence.
Qed.

Lemma answered_after (now : Z) (id : string) (ok : bool) (a b c : Task) :
  same_commands a b -> answered now id ok b c -> answered now id ok a c.
Proof.
  unfold same_commands, answered.
  intros (A1 & A2 & A3 & A4) (B1 & B2 & B3 & r & B4 & B5).
  split; [congruence|]. split; [congruence|]. split; [congruence|].
  exists r. rewrite <- A3. auto.
Qed.

Ltac same_step :=
  unfold same_commands, queues_ready, raws_of, responses_of; cbn;
  repeat split; reflexivity.

Lemma same_commands_sendEvent (e : option DGTEvent) (q : QueueManager.Queues)
  (t : Task) :
  _queueManager t = Some q ->
  same_commands t
    (set_queueManager (Some (snd (QueueManager.sendEvent e q))) t).
Proof.
  intros Hq. unfold same_commands, queues_ready, raws_of, responses_of.
  cbn [_queueManager set_queueManager I2CTaskManager._stats]. rewrite Hq.
  unfold QueueManager.sendEvent. destruct e as [e|]; [|cbn; auto].
  destruct (negb (QueueManager.ready q)); [cbn; auto|].
  destruct (_ <? _); cbn [snd].
  - destruct (updateQueueStats_queues true true false
                (QueueManager.set_eventQueue
                   (QueueManager.eventQueue q ++ [e]) q))
      as (_ & Q2 & Q3 & Q4).
    rewrite Q2, Q3, Q4. cbn. auto.
  - destruct (updateQueueStats_queues true false false q)
      as (_ & Q2 & Q3 & Q4).
    rewrite Q2, Q3, Q4. auto.
Qed.

Lemma same_commands_sendPriorityEvent (e : option DGTEvent)
  (q : QueueManager.Queues) (t : Task) :
  _queueManager t = Some q ->
  same_commands t
    (set_queueManager (Some (snd (QueueManager.sendPriorityEvent e q))) t).
Proof.
  intros Hq. unfold same_commands, queues_ready, raws_of, responses_of.
  cbn [_queueManager set_queueManager I2CTaskManager._stats]. rewrite Hq.
  unfold QueueManager.sendPriorityEvent. destruct e as [e|]; [|cbn; auto].
  destruct (negb (QueueManager.ready q)); [cbn; auto|].
  destruct (_ <? _); cbn [snd].
  - destruct (updateQueueStats_queues true true false
                (QueueManager.set_eventQueue
                   (e :: QueueManager.eventQueue q) q))
      as (_ & Q2 & Q3 & Q4).
    rewrite Q2, Q3, Q4. cbn. auto.
  - destruct (updateQueueStats_queues true false false q)
      as (_ & Q2 & Q3 & Q4).
    rewrite Q2, Q3, Q4. auto.
Qed.

Lemma same_commands_generateErrorEvent (now : Z) (c : SystemErrorCode)
  (msg : option string) (t : Task) :
  same_commands t (generateErrorEvent now c msg t).
Proof.
  unfold generateErrorEvent.
  destruct (_queueManager t) as [q|] eqn:Hq; [|apply same_commands_refl].
  match goal with
  | |- context [QueueManager.sendPriorityEvent ?e q] =>
    pose proof (same_commands_sendPriorityEvent e q t Hq) as H;
      destruct (QueueManager.sendPriorityEvent e q)
  end.
  exact H.
Qed.

Lemma same_commands_generateConnectionStatusEvent (now : Z) (a b : bool)
  (t : Task) :
  same_commands t (generateConnectionStatusEvent now a b t).
Proof.
  unfold generateConnectionStatusEvent.
  destruct (_queueManager t) as [q|] eqn:Hq; [|apply same_commands_refl].
  match goal with
  | |- context [QueueManager.sendEvent ?e q] =>
    pose proof (same_commands_sendEvent e q t Hq) as H;
      destruct (QueueManager.sendEvent e q)
  end.
  exact H.
Qed.

Lemma same_commands_updateConnectionState (t : Task) :
  same_commands t (updateConnectionState t).
Proof.
  unfold updateConnectionState. destruct (_systemStatus t); same_step.
Qed.

Lemma same_commands_handleDGT3000Error (now error : Z) (t : Task) :
  same_commands t (handleDGT3000Error now error t).
Proof.
  unfold handleDGT3000Error. cbv zeta.
  set (t1 := generateErrorEvent _ _ _ t).
  assert (K1 : same_commands t t1) by apply same_commands_generateErrorEvent.
  set (t2 := match _systemStatus t1 with Some _ => _ | None => t1 end).
  assert (K2 : same_commands t t2).
  { eapply same_commands_trans; [exact K1|]. unfold t2.
    destruct (_systemStatus t1); same_step. }
  destruct (_ || _); [|exact K2].
  destruct (ConnectionState_eqb _ _); [|exact K2].
  eapply same_commands_trans; [exact K2|].
  eapply same_commands_trans; [|apply same_commands_updateConnectionState].
  eapply same_commands_trans;
    [|apply same_commands_generateConnectionStatusEvent].
  same_step.
Qed.

Lemma answered_sendCommandResponse (now : Z) (id : string) (ok : bool)
  (result : JsonDocument) (t : Task) :
  queues_ready t = true ->
  (List.length (responses_of t) < 10)%nat ->
  answered now id ok t (sendCommandResponse updateActivity now id ok result t).
Proof.
  unfold answered, queues_ready, raws_of, responses_of, sendCommandResponse.
  destruct (_queueManager t) as [q|] eqn:Hq; [|discriminate].
  intros Hr Hl. unfold QueueManager.sendResponse. rewrite Hr. cbn [negb].
  unfold QUEUE_COMMAND_SIZE.
  destruct (Z.ltb_spec (Z.of_nat (List.length (QueueManager.responseQueue q)))
              10) as [L|L]; [|lia].
  cbn [_systemStatus set_queueManager].
  destruct ok; destruct (_systemStatus t); cbn;
    (split; [exact Hr|]); (split; [reflexivity|]); (split; [reflexivity|]);
    eexists; (split; [reflexivity|]); cbn; auto.
Qed.

Lemma answered_sendCommandError (now : Z) (id : string) (c : SystemErrorCode)
  (msg : option string) (t : Task) :
  queues_ready t = true ->
  (List.length (responses_of t) < 10)%nat ->
  answered now id false t (sendCommandError updateActivity now id c msg t).
Proof. unfold sendCommandError. apply answered_sendCommandResponse. Qed.

Lemma answered_reportOutcome (now : Z) (id : string) (ok : bool)
  (link : Link) (a b : string) (t : Task) :
  queues_ready t = true ->
  (List.length (responses_of t) < 10)%nat ->
  fst (reportOutcome updateActivity now id ok link a b t) = ok
  /\ answered now id ok t
       (snd (reportOutcome updateActivity now id ok link a b t)).
Proof.
  intros Hr Hl. unfold reportOutcome. cbv zeta.
  assert (K : same_commands t (set_dgt3000 (Some link) t)) by same_step.
  destruct ok; cbn [fst snd]; (split; [reflexivity|]).
  - eapply answered_after; [exact K|].
    destruct K as (K1 & K2 & K3 & K4).
    apply answered_sendCommandResponse; congruence.
  - assert (K' : same_commands t
                   (handleDGT3000Error now (getLastError link)
                      (set_dgt3000 (Some link) t))).
    { eapply same_commands_trans; [exact K|].
      apply same_commands_handleDGT3000Error. }
    eapply answered_after; [exact K'|].
    destruct K' as (K1 & K2 & K3 & K4).
    apply answered_sendCommandError; congruence.
Qed.

Lemma answered_executeCommand (now : Z) (id name : string) (p : Params)
  (t : Task) (link : Link) :
  queues_ready t = true ->
  (List.length (responses_of t) < 10)%nat ->
  _dgt3000 t = Some link ->
  answered now id (fst (executeCommand bus updateActivity now id name p t)) t
    (snd (executeCommand bus updateActivity now id name p t)).
Proof.
  intros Hr Hl Hd.
  assert (R : forall ok link a b,
             answered now id
               (fst (reportOutcome updateActivity now id ok link a b t)) t
               (snd (reportOutcome updateActivity now id ok link a b t))).
  { intros ok l a b.
    destruct (answered_reportOutcome now id ok l a b t Hr Hl) as [E A].
    rewrite E. exact A. }
  unfold executeCommand.
  repeat match goal with
         | |- context [if String.eqb ?a ?b then _ else _] =>
           destruct (String.eqb a b)
         end.
  - unfold executeSetTime. destruct (negb _); cbn [fst snd].
    + apply answered_sendCommandError; assumption.
    + rewrite Hd. destruct (setAndRun _ _ _ _ _ _ _ _ _ _). apply R.
  - unfold executeDisplayText. cbv zeta. destruct (negb _); cbn [fst snd].
    + apply answered_sendCommandError; assumption.
    + rewrite Hd. destruct (displayText _ _ _ _ _ _). apply R.
  - unfold executeEndDisplay. rewrite Hd.
    destruct (endDisplay _ _). apply R.
  - unfold executeStop. rewrite Hd. destruct (stop _ _). apply R.
  - unfold executeRun. destruct (negb _); cbn [fst snd].
    + apply answered_sendCommandError; assumption.
    + rewrite Hd. destruct (run _ _ _ _). apply R.
  - unfold executeGetTime. rewrite Hd.
    destruct (getTime _ _) as [[got time] link1]. cbv zeta.
    assert (K : same_commands t (set_dgt3000 (Some link1) t)) by same_step.
    destruct got; cbn [fst snd].
    + eapply answered_after; [exact K|].
      destruct K as (K1 & K2 & K3 & K4).
      apply answered_sendCommandResponse; congruence.
    + assert (K' : same_commands t
                     (handleDGT3000Error now (getLastError link1)
                        (set_dgt3000 (Some link1) t))).
      { eapply same_commands_trans; [exact K|].
        apply same_commands_handleDGT3000Error. }
      eapply answered_after; [exact K'|].
      destruct K' as (K1 & K2 & K3 & K4).
      apply answered_sendCommandError; congruence.
  - unfold executeGetStatus. cbv zeta. cbn [fst snd].
    apply answered_sendCommandResponse; assumption.
  - cbn [fst snd]. apply answered_sendCommandError; assumption.
Qed.

(** Property X20.  [processCommand] takes the oldest raw command from its
    queue and counts it as received.  When the parser finds an [id] in
    it (and the response queue has room) exactly one response is
    queued, behind the waiting ones, with that [id] cut to 31
    characters and the time of the call; a success response is always
    counted as an executed command and an error response never is.
    Without an [id] nothing is answered and neither counter moves. *)
Theorem X20_processCommand_answers (now : Z) (t : Task)
  (q : QueueManager.Queues) (link : Link) (rawCmd : RawBLECommand)
  (pending : list RawBLECommand) :
  _queueManager t = Some q -> QueueManager.ready q = true ->
  QueueManager.rawCommandQueue q = rawCmd :: pending ->
  (List.length (QueueManager.responseQueue q) < 10)%nat ->
  _dgt3000 t = Some link ->
  let doc := deserializeJson (jsonData rawCmd) in
  let t' := processCommand bus deserializeJson updateActivity now t in
  let before := I2CTaskManager._stats t in
  let after := I2CTaskManager._stats t' in
  raws_of t' = pending
  /\ commandsReceived after = uint32 (commandsReceived before + 1)
  /\ match doc_id doc with
     | Some id =>
       exists r,
         responses_of t' = QueueManager.responseQueue q ++ [r]
         /\ Gateway.id r = strncpy0 id 31
         /\ Gateway.timestamp r = now
         /\ commandsExecuted after
            = (if Gateway.success r
               then uint32 (commandsExecuted before + 1)
               else commandsExecuted before)
         /\ (Gateway.success r = true ->
             commandsFailed after = commandsFailed before)
     | None =>
       responses_of t' = QueueManager.responseQueue q
       /\ commandsExecuted after = commandsExecuted before
       /\ commandsFailed after = commandsFailed before
     end.
Proof.
  intros Hq Hr Hraw Hl Hd. cbv zeta. unfold processCommand.
  rewrite Hq. unfold QueueManager.receiveRawCommand. rewrite Hr, Hraw.
  cbn [negb]. cbv zeta.
  set (t1 := count_commandReceived
               (set_queueManager
                  (Some (QueueManager.set_rawCommandQueue pending q)) t)).
  assert (R1 : queues_ready t1 = true) by (cbn; exact Hr).
  assert (R2 : raws_of t1 = pending) by reflexivity.
  assert (R3 : responses_of t1 = QueueManager.responseQueue q) by reflexivity.
  assert (R4 : commandsReceived (I2CTaskManager._stats t1)
               = uint32 (commandsReceived (I2CTaskManager._stats t) + 1))
    by reflexivity.
  assert (R5 : commandsExecuted (I2CTaskManager._stats t1)
               = commandsExecuted (I2CTaskManager._stats t)) by reflexivity.
  assert (R6 : commandsFailed (I2CTaskManager._stats t1)
               = commandsFailed (I2CTaskManager._stats t)) by reflexivity.
  assert (R7 : _dgt3000 t1 = Some link) by exact Hd.
  assert (R8 : (List.length (responses_of t1) < 10)%nat) by (rewrite R3; lia).
  assert (E : forall c msg id,
             let t' := sendCommandError updateActivity now id c msg t1 in
             raws_of t' = pending
             /\ commandsReceived (I2CTaskManager._stats t')
                = uint32 (commandsReceived (I2CTaskManager._stats t) + 1)
             /\ exists r,
                  responses_of t' = QueueManager.responseQueue q ++ [r]
                  /\ Gateway.id r = strncpy0 id 31
                  /\ Gateway.timestamp r = now
                  /\ commandsExecuted (I2CTaskManager._stats t')
                     = (if Gateway.success r
                        then uint32
                               (commandsExecuted (I2CTaskManager._stats t) + 1)
                        else commandsExecuted (I2CTaskManager._stats t))
                  /\ (Gateway.success r = true ->
                      commandsFailed (I2CTaskManager._stats t')
                      = commandsFailed (I2CTaskManager._stats t))).
  { intros c msg id.
    destruct (answered_sendCommandError now id c msg t1 R1 R8)
      as (A1 & A2 & A3 & r & A4 & A5 & A6 & A7).
    cbv zeta. split; [congruence|]. split; [congruence|].
    exists r. rewrite A4, R3, A6, A3.
    split; [reflexivity|]. split; [exact A5|]. split; [exact A7|].
    split; [exact R5|]. discriminate. }
  clearbody t1.
  destruct (deserializeJson (jsonData rawCmd)) as [err did dcmd prm].
  cbn [I2CTaskManager.error doc_id doc_command params].
  destruct err as [text|].
  - destruct did as [id|]; [apply E|]. auto.
  - destruct did as [id|]; [|destruct dcmd; cbn; auto].
    destruct dcmd as [name|]; [|apply E].
    destruct (negb (String.eqb name "getStatus") && negb (isDGT3000Connected t1));
      [apply E|].
    pose proof (answered_executeCommand now id name prm t1 link R1 R8 R7)
      as (A1 & A2 & A3 & r & A4 & A5 & A6 & A7).
    destruct (executeCommand bus updateActivity now id name prm t1)
      as [ok t2].
    cbn [fst snd] in *.
    destruct ok; unfold raws_of, responses_of in *;
      cbn [count_commandExecuted count_commandFailed _queueManager
           I2CTaskManager._stats I2CTaskManager.set_stats commandsReceived
           commandsExecuted commandsFailed];
      (split; [congruence|]); (split; [congruence|]); exists r; rewrite A6;
      (split; [congruence|]); (split; [exact A5|]); (split; [exact A7|]);
      (split; [congruence|]); try discriminate; intros _; congruence.
Qed.

End Answers.

(** ** Connection of the clock task *)

Section Connection.

Variable bus : Bus.
Variable deserializeJson : string -> CommandDoc.
Variable updateActivity : SystemStatus -> SystemStatus.

Lemma generateErrorEvent_queued (now : Z) (c : SystemErrorCode)
  (msg : string) (t : Task) (q : QueueManager.Queues) :
  _queueManager t = Some q -> QueueManager.ready q = true ->
  (List.length (QueueManager.eventQueue q) < 20)%nat ->
  exists q',
    generateErrorEvent now c (Some msg) t = set_queueManager (Some q') t
    /\ QueueManager.eventQueue q'
       = error_event now c msg :: QueueManager.eventQueue q
    /\ QueueManager.ready q' = true.
Proof.
  intros Hq Hr Hl. unfold generateErrorEvent. rewrite Hq. cbv zeta.
  unfold QueueManager.sendPriorityEvent. rewrite Hr. cbn [negb].
  unfold QUEUE_EVENT_SIZE.
  destruct (Z.ltb_spec (Z.of_nat (List.length (QueueManager.eventQueue q))) 20)
    as [L|L]; [|lia].
  eexists. split; [reflexivity|].
  match goal with
  | |- context [QueueManager.updateQueueStats ?a ?b ?c ?x] =>
    destruct (updateQueueStats_queues a b c x) as (Q1 & _ & _ & Q4)
  end.
  rewrite Q1, Q4. split; [reflexivity|exact Hr].
Qed.

Lemma generateConnectionStatusEvent_queued (now : Z) (a b : bool) (t : Task)
  (q : QueueManager.Queues) :
  _queueManager t = Some q -> QueueManager.ready q = true ->
  (List.length (QueueManager.eventQueue q) < 20)%nat ->
  exists q',
    generateConnectionStatusEvent now a b t = set_queueManager (Some q') t
    /\ QueueManager.eventQueue q'
       = QueueManager.eventQueue q ++ [status_event now a b]
    /\ QueueManager.ready q' = true.
Proof.
  intros Hq Hr Hl. unfold generateConnectionStatusEvent. rewrite Hq. cbv zeta.
  unfold QueueManager.sendEvent. rewrite Hr. cbn [negb].
  unfold QUEUE_EVENT_SIZE.
  destruct (Z.ltb_spec (Z.of_nat (List.length (QueueManager.eventQueue q))) 20)
    as [L|L]; [|lia].
  eexists. split; [reflexivity|].
  match goal with
  | |- context [QueueManager.updateQueueStats ?a ?b ?c ?x] =>
    destruct (updateQueueStats_queues a b c x) as (Q1 & _ & _ & Q4)
  end.
  rewrite Q1, Q4. split; [reflexivity|exact Hr].
Qed.

Lemma disconnecting_eq (error : Z) :
  (error =? DGT_ERROR_I2C_COMM) || (error =? DGT_ERROR_TIMEOUT)
  || (error =? DGT_ERROR_NO_ACK) || (error =? DGT_ERROR_CLOCK_OFF)
  || (error =? DGT_ERROR_CRC) || (error =? DGT_ERROR_NOT_CONFIGURED)
  = disconnecting error.
Proof.
  unfold disconnecting. cbn [existsb].
  repeat match goal with
         | |- context [error =? ?c] => destruct (error =? c)
         end; reflexivity.
Qed.

(** Property X21.  [handleDGT3000Error] queues an error event with the
    mapped code and the driver's text before every waiting event.
    After one of the six communication errors a task that holds the
    clock for connected gives it up: state DISCONNECTED, not
    configured, and a status event (false, false) behind the waiting
    events.  After any other error (I2C_INIT among them), or when the
    task was not connected, both records stay as they were.  The link,
    the pending commands and the responses are not touched. *)
Theorem X21_handleDGT3000Error_outcomes (now error : Z) (t : Task)
  (q : QueueManager.Queues) :
  _queueManager t = Some q -> QueueManager.ready q = true ->
  (List.length (QueueManager.eventQueue q) + 2 <= 20)%nat ->
  let t' := handleDGT3000Error now error t in
  let reported :=
    error_event now (mapDGTErrorToSystemError error) (getErrorString error) in
  same_commands t t' /\ _dgt3000 t' = _dgt3000 t
  /\ if disconnecting error && isDGT3000Connected t
     then _dgtConnectionState t' = DISCONNECTED /\ _dgtConfigured t' = false
          /\ events_of t'
             = reported :: QueueManager.eventQueue q
                 ++ [status_event now false false]
     else keeps t t' /\ events_of t' = reported :: QueueManager.eventQueue q.
Proof.
  intros Hq Hr Hl. cbv zeta.
  split; [apply same_commands_handleDGT3000Error|].
  unfold handleDGT3000Error. cbv zeta.
  destruct (generateErrorEvent_queued now (mapDGTErrorToSystemError error)
              (getErrorString error) t q Hq Hr ltac:(lia))
    as (q1 & E1 & V1 & R1).
  rewrite E1. rewrite disconnecting_eq.
  set (t2 := match _systemStatus (set_queueManager (Some q1) t) with
             | Some _ => _
             | None => _
             end).
  assert (F : _queueManager t2 = Some q1 /\ _dgt3000 t2 = _dgt3000 t
              /\ _dgtConnectionState t2 = _dgtConnectionState t
              /\ _dgtConfigured t2 = _dgtConfigured t).
  { unfold t2. cbn [_systemStatus set_queueManager].
    destruct (_systemStatus t); cbn; auto. }
  clearbody t2. destruct F as (F1 & F2 & F3 & F4).
  unfold isDGT3000Connected. rewrite <- F3.
  destruct (disconnecting error); cbn [andb].
  2:{ split; [exact F2|]. split; [split; assumption|].
      unfold events_of. rewrite F1. exact V1. }
  destruct (ConnectionState_eqb (_dgtConnectionState t2) CONNECTED).
  2:{ split; [exact F2|]. split; [split; assumption|].
      unfold events_of. rewrite F1. exact V1. }
  destruct (generateConnectionStatusEvent_queued now false false
              (set_dgtConfigured false
                 (set_dgtConnectionState DISCONNECTED t2)) q1 F1 R1)
    as (q2 & E2 & V2 & R2).
  { rewrite V1. cbn [List.length]. lia. }
  rewrite E2. unfold updateConnectionState.
  cbn [_systemStatus set_queueManager set_dgtConfigured
       set_dgtConnectionState].
  destruct (_systemStatus t2); cbn; unfold events_of; cbn;
    rewrite V2, V1; auto.
Qed.

Lemma X21_witness :
  events_of (handleDGT3000Error 9 DGT_ERROR_I2C_INIT
               (set_dgtConnectionState CONNECTED
                  (new_I2CTaskManager (Some empty_queues) None)))
  = [error_event 9 I2C_COMMUNICATION_ERROR "I2C initialization failed"]
  /\ events_of (handleDGT3000Error 9 DGT_ERROR_TIMEOUT
                  (set_dgtConnectionState CONNECTED
                     (new_I2CTaskManager (Some empty_queues) None)))
     = [error_event 9 COMMAND_TIMEOUT "Timeout"; status_event 9 false false].
Proof.
  split.
  - destruct (X21_handleDGT3000Error_outcomes 9 DGT_ERROR_I2C_INIT
                (set_dgtConnectionState CONNECTED
                   (new_I2CTaskManager (Some empty_queues) None))
                empty_queues eq_refl eq_refl) as (_ & _ & _ & E).
    + cbn. lia.
    + exact E.
  - destruct (X21_handleDGT3000Error_outcomes 9 DGT_ERROR_TIMEOUT
                (set_dgtConnectionState CONNECTED
                   (new_I2CTaskManager (Some empty_queues) None))
                empty_queues eq_refl eq_refl) as (_ & _ & _ & _ & E).
    + cbn. lia.
    + exact E.
Defined.

Lemma configure_true (s : Link) :
  fst (configure bus s) = true ->
  _configured (snd (configure bus s)) = true
  /\ _connected (snd (configure bus s)) = true.
Proof.
  unfold configure.
  destruct (negb (_initialized s)); [discriminate|].
  destruct (_recoveryInProgress s); [discriminate|]. cbv zeta.
  destruct (changeState_no_ack bus _) as [sent s1]. destruct (negb sent).
  - destruct (sendPing bus _) as [pinged s2]. destruct (negb pinged);
      [discriminate|].
    destruct (changeState_no_ack bus s2) as [sent2 s3].
    destruct (negb sent2); [discriminate|]. cbn [negb].
    destruct (setCentralControl bus _) as [ok1 s4].
    destruct (negb ok1); [discriminate|].
    destruct (changeState bus _) as [ok2 s5].
    destruct (negb ok2); [discriminate|].
    destruct (setAndRun bus _ _ _ _ _ _ _ _ _) as [ok3 s6].
    destruct (negb ok3); [discriminate|]. cbn. auto.
  - cbn [negb].
    destruct (setCentralControl bus _) as [ok1 s4].
    destruct (negb ok1); [discriminate|].
    destruct (changeState bus _) as [ok2 s5].
    destruct (negb ok2); [discriminate|].
    destruct (setAndRun bus _ _ _ _ _ _ _ _ _) as [ok3 s6].
    destruct (negb ok3); [discriminate|]. cbn. auto.
Qed.

Lemma configureDGT3000_spec (t : Task) :
  let r := configureDGT3000 bus t in
  keeps t (snd r) /\ _queueManager (snd r) = _queueManager t
  /\ _systemStatus (snd r) = _systemStatus t
  /\ _recoveryAttempts (snd r) = _recoveryAttempts t
  /\ _lastRecoveryAttempt (snd r) = _lastRecoveryAttempt t
  /\ _bleConnected (snd r) = _bleConnected t
  /\ _initializingDGT (snd r) = _initializingDGT t
  /\ (fst r = true -> link_configured (snd r) = true).
Proof.
  cbv zeta. unfold configureDGT3000, link_configured.
  destruct (_dgt3000 t) as [link|] eqn:Hd.
  - pose proof (configure_true link) as C.
    destruct (configure bus link) as [ok link']. cbn [fst snd] in *.
    cbn. repeat split; auto.
    intros H. destruct (C H) as [C1 C2]. rewrite C1, C2. reflexivity.
  - cbn. repeat split; auto. discriminate.
Qed.

Lemma attemptRecovery_too_soon (now : Z) (t : Task) :
  uint32 (now - _lastRecoveryAttempt t) < 1000 ->
  attemptRecovery bus now t = (false, t).
Proof.
  intros H. unfold attemptRecovery, I2C_TASK_MAX_RECOVERY_ATTEMPTS,
    I2C_TASK_RECOVERY_DELAY_MS.
  cbn [Z.gtb Z.compare andb].
  destruct (Z.ltb_spec (uint32 (now - _lastRecoveryAttempt t)) 1000);
    [reflexivity|lia].
Qed.

Lemma monitorConnection_idle (now : Z) (t : Task) :
  isDGT3000Connected t = true \/ _bleConnected t = false
  \/ _initializingDGT t = true
  \/ uint32 (now - _lastRecoveryAttempt t) < 1000 ->
  _dgt3000 (monitorConnection bus now t) = _dgt3000 t
  /\ events_of (monitorConnection bus now t) = events_of t
  /\ keeps t (monitorConnection bus now t).
Proof.
  intros H. unfold monitorConnection. cbv zeta.
  assert (E : (if shouldAttemptRecovery t
               then snd (attemptRecovery bus now t) else t) = t).
  { unfold shouldAttemptRecovery.
    destruct H as [H|[H|[H|H]]].
    - rewrite H. reflexivity.
    - rewrite H. destruct (negb _); reflexivity.
    - rewrite H. destruct (negb _); destruct (_bleConnected t); reflexivity.
    - rewrite (attemptRecovery_too_soon now t H).
      destruct (_ && _); reflexivity. }
  rewrite E. unfold updateConnectionState.
  destruct (_systemStatus t); cbn; repeat split; reflexivity.
Qed.

(** Property X22.  [attemptRecovery] does nothing, and answers false, when
    the last attempt is less than 1000 ms old (on the 32-bit
    millisecond counter).  Otherwise it stamps the attempt and runs the
    configuration of the link: on success the task holds the clock for
    connected and configured, the link is configured, and the attempt
    counter is 0; on failure both records of the task stay as they were
    and the counter has advanced by one (modulo 256).
    [monitorConnection] leaves the link alone whenever the task is
    connected, BLE is down, an initialisation is running or the last
    attempt is too recent. *)
Theorem X22_recovery_is_rate_limited (now : Z) (t : Task) :
  let r := attemptRecovery bus now t in
  (uint32 (now - _lastRecoveryAttempt t) < 1000 -> r = (false, t))
  /\ (1000 <= uint32 (now - _lastRecoveryAttempt t) ->
      _lastRecoveryAttempt (snd r) = now
      /\ (fst r = true ->
          isDGT3000Connected (snd r) = true /\ _dgtConfigured (snd r) = true
          /\ link_configured (snd r) = true /\ _recoveryAttempts (snd r) = 0)
      /\ (fst r = false ->
          keeps t (snd r)
          /\ _recoveryAttempts (snd r) = uint8 (_recoveryAttempts t + 1)
          /\ events_of (snd r) = events_of t))
  /\ (isDGT3000Connected t = true \/ _bleConnected t = false
      \/ _initializingDGT t = true
      \/ uint32 (now - _lastRecoveryAttempt t) < 1000 ->
      _dgt3000 (monitorConnection bus now t) = _dgt3000 t
      /\ events_of (monitorConnection bus now t) = events_of t
      /\ keeps t (monitorConnection bus now t)).
Proof.
  cbv zeta.
  split; [apply attemptRecovery_too_soon|]. split.
  - intros H. unfold attemptRecovery, I2C_TASK_MAX_RECOVERY_ATTEMPTS,
      I2C_TASK_RECOVERY_DELAY_MS.
    cbn [Z.gtb Z.compare andb].
    destruct (Z.ltb_spec (uint32 (now - _lastRecoveryAttempt t)) 1000);
      [lia|].
    unfold performRecovery.
    set (t0 := set_lastRecoveryAttempt now
                 (set_recoveryAttempts (uint8 (_recoveryAttempts t + 1)) t)).
    destruct (configureDGT3000_spec t0)
      as (K & Q & S & R1 & R2 & _ & _ & C).
    destruct (configureDGT3000 bus t0) as [ok t1]. cbn [fst snd] in *.
    destruct ok; cbn [fst snd].
    + assert (G : forall x, _queueManager x = _queueManager t1 ->
                    let y := generateConnectionStatusEvent now true true x in
                    _lastRecoveryAttempt y = _lastRecoveryAttempt x
                    /\ _dgtConnectionState y = _dgtConnectionState x
                    /\ _dgtConfigured y = _dgtConfigured x
                    /\ _dgt3000 y = _dgt3000 x
                    /\ _recoveryAttempts y = _recoveryAttempts x).
      { intros x _. cbv zeta. unfold generateConnectionStatusEvent.
        destruct (_queueManager x); [|auto].
        destruct (QueueManager.sendEvent _ _). cbn. auto. }
      match goal with
      | |- context [generateConnectionStatusEvent now true true ?x] =>
        destruct (G x eq_refl) as (G1 & G2 & G3 & G4 & G5)
      end.
      split; [rewrite G1; cbn; exact R2|].
      split; [|discriminate]. intros _.
      unfold isDGT3000Connected, link_configured in *.
      rewrite G2, G3, G4, G5. cbn.
      split; [reflexivity|]. split; [reflexivity|].
      split; [apply C; reflexivity|reflexivity].
    + split; [exact R2|]. split; [discriminate|]. intros _.
      split; [exact K|]. split; [exact R1|].
      unfold events_of. rewrite Q. reflexivity.
  - apply monitorConnection_idle.
Qed.

End Connection.

(** ** Outcomes of the task on concrete inputs *)

Lemma X20_witness :
  exists r,
    responses_of (processCommand dead_bus sample_parser (fun st => st) 5
                    (task_with "stop"))
    = [r]
    /\ Gateway.id r = "c2"%string /\ Gateway.timestamp r = 5.
Proof.
  destruct (X20_processCommand_answers dead_bus sample_parser (fun st => st) 5
              (task_with "stop")
              (QueueManager.set_rawCommandQueue
                 [mkRawBLECommand 0 1 "stop"] empty_queues)
              new_DGT3000 (mkRawBLECommand 0 1 "stop") []
              eq_refl eq_refl eq_refl)
    as (_ & _ & r & E & I & T & _).
  - cbn. lia.
  - reflexivity.
  - exists r. split; [exact E|]. split; [exact I|exact T].
Defined.

Lemma X22_witness :
  attemptRecovery dead_bus 500 fresh_task = (false, fresh_task)
  /\ _recoveryAttempts (snd (attemptRecovery dead_bus 1500 fresh_task)) = 1
  /\ _dgt3000 (monitorConnection dead_bus 1500 fresh_task)
     = _dgt3000 fresh_task.
Proof.
  split; [|split].
  - destruct (X22_recovery_is_rate_limited dead_bus 500 fresh_task) as (A & _).
    apply A. vm_compute. reflexivity.
  - destruct (X22_recovery_is_rate_limited dead_bus 1500 fresh_task)
      as (_ & B & _).
    destruct B as (_ & _ & B); [vm_compute; discriminate|].
    destruct B as (_ & B & _); [reflexivity|]. exact B.
  - destruct (X22_recovery_is_rate_limited dead_bus 1500 fresh_task)
      as (_ & _ & C).
    destruct C as (C & _); [right; left; reflexivity|]. exact C.
Defined.

(** ** BLE connection events *)

Section Session.

Variable bus : Bus.
Variable deserializeJson : string -> CommandDoc.
Variable updateActivity : SystemStatus -> SystemStatus.

Lemma end_flags (s : Link) :
  _initialized (end_ bus s) = false /\ _configured (end_ bus s) = false
  /\ _connected (end_ bus s) = false.
Proof.
  unfold end_. destruct (powerOff bus s). cbn. auto.
Qed.

(** Property X23.  [onBLEConnected] marks BLE as connected and runs
    [begin] with the pins 8, 5, 7 and 6 and then, after a pause,
    [configure] on the link.  When both return true the task holds the
    clock for connected and configured, its link is configured, and a
    status event (true, true) is queued behind the waiting events.
    Otherwise both records of the task stay as they were, the link is
    the one left by the step that failed, and an error event
    I2C_COMMUNICATION_ERROR is queued before the waiting events.  The
    initialisation flag is clear again in both cases. *)
Theorem X23_onBLEConnected_outcomes (now : Z) (t : Task) (link : Link)
  (q : QueueManager.Queues) :
  _dgt3000 t = Some link -> _queueManager t = Some q ->
  QueueManager.ready q = true ->
  (List.length (QueueManager.eventQueue q) < 20)%nat ->
  let t' := onBLEConnected bus updateActivity now t in
  let b := begin bus 8 5 7 6 link in
  let c := configure bus (delay bus (snd b)) in
  _bleConnected t' = true /\ _initializingDGT t' = false
  /\ _connectionStartTime t' = now
  /\ same_commands t t'
  /\ if fst b && fst c
     then isDGT3000Connected t' = true /\ _dgtConfigured t' = true
          /\ _dgt3000 t' = Some (snd c) /\ link_configured t' = true
          /\ events_of t'
             = QueueManager.eventQueue q ++ [status_event now true true]
     else keeps t t'
          /\ _dgt3000 t' = Some (if fst b then snd c else snd b)
          /\ events_of t'
             = error_event now I2C_COMMUNICATION_ERROR
                 "Failed to initialize DGT3000"
               :: QueueManager.eventQueue q.
Proof.
  intros Hd Hq Hr Hl. cbv zeta.
  unfold onBLEConnected, initializeDGT3000. cbv zeta.
  cbn [_dgt3000 set_initializingDGT set_bleConnected]. rewrite Hd.
  change DGT3000_MASTER_SDA_PIN with 8. change DGT3000_MASTER_SCL_PIN with 5.
  change DGT3000_SLAVE_SDA_PIN with 7. change DGT3000_SLAVE_SCL_PIN with 6.
  destruct (begin bus 8 5 7 6 link) as [ok1 link1]. cbn [fst snd].
  destruct ok1; cbn [negb andb].
  2:{ match goal with
      | |- context [generateErrorEvent now ?c (Some ?m) ?x] =>
        destruct (generateErrorEvent_queued now c m x q Hq Hr Hl)
          as (q1 & E1 & V1 & R1);
          pose proof (same_commands_generateErrorEvent now c (Some m) x) as K
      end.
      rewrite E1 in *. cbn.
      split; [reflexivity|]. split; [reflexivity|]. split; [reflexivity|].
      split.
      { eapply same_commands_trans; [|exact K].
        unfold same_commands, queues_ready, raws_of, responses_of. cbn.
        auto. }
      split; [split; reflexivity|]. split; [reflexivity|].
      unfold events_of. cbn. exact V1. }
  unfold configureDGT3000. cbn [_dgt3000 set_dgt3000].
  pose proof (configure_true bus (delay bus link1)) as C.
  destruct (configure bus (delay bus link1)) as [ok2 link2].
  cbn [fst snd] in *.
  destruct ok2; cbn [negb].
  2:{ match goal with
      | |- context [generateErrorEvent now ?c (Some ?m) ?x] =>
        destruct (generateErrorEvent_queued now c m x q Hq Hr Hl)
          as (q1 & E1 & V1 & R1);
          pose proof (same_commands_generateErrorEvent now c (Some m) x) as K
      end.
      rewrite E1 in *. cbn.
      split; [reflexivity|]. split; [reflexivity|]. split; [reflexivity|].
      split.
      { eapply same_commands_trans; [|exact K].
        unfold same_commands, queues_ready, raws_of, responses_of. cbn.
        auto. }
      split; [split; reflexivity|]. split; [reflexivity|].
      unfold events_of. cbn. exact V1. }
  destruct (C eq_refl) as [C1 C2].
  cbn [_systemStatus set_dgtConfigured set_dgtConnectionState set_dgt3000
       set_connectionStartTime set_initializingDGT set_bleConnected].
  match goal with
  | |- context [generateConnectionStatusEvent now true true ?x] =>
    assert (Hx : _queueManager x = Some q)
      by (destruct (_systemStatus t); exact Hq);
      destruct (generateConnectionStatusEvent_queued now true true x q
                  Hx Hr Hl) as (q1 & E1 & V1 & R1);
      pose proof (same_commands_generateConnectionStatusEvent now true true x)
        as K;
      rewrite E1 in *;
      assert (F : _bleConnected x = true /\ _connectionStartTime x = now
                  /\ _dgtConnectionState x = CONNECTED
                  /\ _dgtConfigured x = true /\ _dgt3000 x = Some link2
                  /\ same_commands t x)
        by (destruct (_systemStatus t); cbn; repeat split; auto;
            unfold queues_ready, raws_of, responses_of; cbn; reflexivity);
      generalize dependent x
  end.
  intros x Hx E1 K (F1 & F2 & F3 & F4 & F5 & F6).
  unfold isDGT3000Connected, link_configured, events_of. cbn.
  rewrite F1, F2, F3, F4, F5, C1, C2. cbn.
  split; [reflexivity|]. split; [reflexivity|]. split; [reflexivity|].
  split; [eapply same_commands_trans; [exact F6|exact K]|].
  repeat split; auto.
Qed.

(** Property X24.  [onBLEDisconnected] marks BLE as disconnected.  A task
    that holds the clock for connected then ends the driver, which
    leaves the link uninitialised, unconfigured and unconnected, holds
    the clock for disconnected and unconfigured, and queues a status
    event (false, false) behind the waiting events.  A task that does
    not hold the clock for connected changes nothing else: the driver
    is not ended.  In both cases connection monitoring leaves the link
    alone afterwards. *)
Theorem X24_onBLEDisconnected_outcomes (now : Z) (t : Task) (link : Link) :
  _dgt3000 t = Some link ->
  let t' := onBLEDisconnected bus updateActivity now t in
  _bleConnected t' = false
  /\ same_commands t t'
  /\ (isDGT3000Connected t = true ->
      _dgtConnectionState t' = DISCONNECTED /\ _dgtConfigured t' = false
      /\ _dgt3000 t' = Some (end_ bus link) /\ link_ended t' = true
      /\ forall q,
           _queueManager t = Some q -> QueueManager.ready q = true ->
           (List.length (QueueManager.eventQueue q) < 20)%nat ->
           events_of t'
           = QueueManager.eventQueue q ++ [status_event now false false])
  /\ (isDGT3000Connected t = false -> t' = set_bleConnected false t)
  /\ forall later,
       _dgt3000 (monitorConnection bus later t') = _dgt3000 t'.
Proof.
  intros Hd. cbv zeta.
  assert (M : forall x later, _bleConnected x = false ->
                _dgt3000 (monitorConnection bus later x) = _dgt3000 x).
  { intros x later Hx.
    destruct (monitorConnection_idle bus later x) as (R & _);
      [right; left; exact Hx|exact R]. }
  unfold onBLEDisconnected, cleanupDGT3000. cbv zeta.
  cbn [_dgt3000 set_bleConnected]. rewrite Hd.
  change (isDGT3000Connected (set_bleConnected false t))
    with (isDGT3000Connected t).
  destruct (isDGT3000Connected t) eqn:Hc; cbn [negb].
  2:{ split; [reflexivity|].
      split; [unfold same_commands, queues_ready, raws_of, responses_of; cbn;
              auto|].
      split; [discriminate|]. split; [reflexivity|].
      intros later. apply M. reflexivity. }
  cbn [_systemStatus set_dgtConfigured set_dgtConnectionState set_dgt3000
       set_bleConnected].
  match goal with
  | |- context [generateConnectionStatusEvent now false false ?x] =>
    pose proof (same_commands_generateConnectionStatusEvent now false false x)
      as K;
      pose proof (keeps_generateConnectionStatusEvent now false false x)
        as [K1 K2];
      assert (F : _bleConnected x = false
                  /\ _dgtConnectionState x = DISCONNECTED
                  /\ _dgtConfigured x = false
                  /\ _dgt3000 x = Some (end_ bus link)
                  /\ _queueManager x = _queueManager t
                  /\ same_commands t x)
        by (destruct (_systemStatus t); cbn; repeat split; auto;
            unfold queues_ready, raws_of, responses_of; cbn; reflexivity);
      assert (G : _bleConnected
                    (generateConnectionStatusEvent now false false x)
                  = _bleConnected x
                  /\ _dgt3000 (generateConnectionStatusEvent now false false x)
                     = _dgt3000 x)
        by (unfold generateConnectionStatusEvent;
            destruct (_queueManager x); [|auto];
            destruct (QueueManager.sendEvent _ _); cbn; auto);
      assert (V : forall q, _queueManager x = Some q ->
                    QueueManager.ready q = true ->
                    (List.length (QueueManager.eventQueue q) < 20)%nat ->
                    events_of (generateConnectionStatusEvent now false false x)
                    = QueueManager.eventQueue q ++ [status_event now false false])
        by (intros q Hq Hr Hl;
            destruct (generateConnectionStatusEvent_queued now false false x q
                        Hq Hr Hl) as (q1 & E1 & V1 & R1);
            rewrite E1; unfold events_of; cbn; exact V1);
      generalize dependent x
  end.
  intros x K K1 K2 (F1 & F2 & F3 & F4 & F5 & F6) (G1 & G2) V.
  split; [congruence|].
  split; [eapply same_commands_trans; [exact F6|exact K]|].
  split.
  { intros _. split; [congruence|]. split; [congruence|].
    split; [congruence|]. split.
    - unfold link_ended. rewrite G2, F4.
      destruct (end_flags link) as (A & B & C). rewrite A, B, C. reflexivity.
    - intros q Hq Hr Hl. apply V; congruence. }
  split; [discriminate|].
  intros later. apply M. congruence.
Qed.

End Session.

Lemma X23_witness :
  isDGT3000Connected (onBLEConnected live_bus (fun st => st) 1 fresh_task)
  = true
  /\ events_of (onBLEConnected dead_bus (fun st => st) 1 fresh_task)
     = [error_event 1 I2C_COMMUNICATION_ERROR "Failed to initialize DGT3000"].
Proof.
  split.
  - pose proof (X23_onBLEConnected_outcomes live_bus (fun st => st) 1 fresh_task
                  new_DGT3000 empty_queues eq_refl eq_refl eq_refl) as H.
    cbv zeta in H.
    destruct H as (_ & _ & _ & _ & H); [cbn; lia|].
    replace (fst (begin live_bus 8 5 7 6 new_DGT3000)
             && fst (configure live_bus
                       (delay live_bus
                          (snd (begin live_bus 8 5 7 6 new_DGT3000)))))
      with true in H by (vm_compute; reflexivity).
    destruct H as (H & _). exact H.
  - pose proof (X23_onBLEConnected_outcomes dead_bus (fun st => st) 1 fresh_task
                  new_DGT3000 empty_queues eq_refl eq_refl eq_refl) as H.
    cbv zeta in H.
    destruct H as (_ & _ & _ & _ & H); [cbn; lia|].
    replace (fst (begin dead_bus 8 5 7 6 new_DGT3000)
             && fst (configure dead_bus
                       (delay dead_bus
                          (snd (begin dead_bus 8 5 7 6 new_DGT3000)))))
      with false in H by (vm_compute; reflexivity).
    destruct H as (_ & _ & H). exact H.
Defined.

Lemma X24_witness :
  link_ended (onBLEDisconnected live_bus (fun st => st) 9
                (onBLEConnected live_bus (fun st => st) 1 fresh_task))
  = true.
Proof.
  destruct (X24_onBLEDisconnected_outcomes live_bus (fun st => st) 9
              (onBLEConnected live_bus (fun st => st) 1 fresh_task)
              (match _dgt3000 (onBLEConnected live_bus (fun st => st) 1
                                 fresh_task) with
               | Some l => l
               | None => new_DGT3000
               end))
    as (_ & _ & H & _).
  - vm_compute. reflexivity.
  - destruct H as (_ & _ & _ & H & _); [vm_compute; reflexivity|exact H].
Defined.
